(** * Polymarket / hedge-venue arbitrage engine: a shallow embedding

    The development follows the Python sources module by module:

    - [Py]: the fragment of Python's run-time behaviour the engine relies on
      (exceptions, [try]/[except Exception], the numeric tower made of [int],
      [float] and [decimal.Decimal], truthiness);
    - [Models] and [Config]: [src/models.py] and [src/config.py];
    - [Venue]: the venue clients seen as ports over an abstract world, and the
      state monad in which the asynchronous methods are written;
    - [Detector], [HyperliquidDetector]: [src/arbitrage/detector.py] and
      [src/arbitrage/hyperliquid_detector.py];
    - [Engine]: the attributes both execution engines keep, with the
      [Position] objects in a store addressed by identifier;
    - [Executor], [HyperliquidExecutor]: [src/arbitrage/executor.py] and
      [src/arbitrage/hyperliquid_executor.py];
    - [Script], [Scenario], [DetectionScenario], [ExecutionScenario]: a
      scripted world and the concrete runs the properties are checked on.

    The properties come last, after the vocabulary they are stated in.

    Conventions.  [Decimal] and [float] values are rationals ([Q]): context
    rounding (28 significant digits, binary64), NaN and infinities are not
    represented.  The two are kept apart wherever Python keeps them apart,
    because arithmetic mixing a [Decimal] with a [float] raises [TypeError].
    [Decimal.sqrt], [numpy.sqrt] and [scipy.stats.norm.cdf] are library
    functions outside the repository and enter as parameters ([Numerics]).
    A [datetime] is a number of microseconds. *)

From Stdlib Require Import QArith Qabs Qminmax Qround Lqa ZArith Lia.
From Stdlib Require Import String List Sorted Permutation.
From stdpp Require Import gmap strings list.

Open Scope Q_scope.

(* ================================================================== *)
(** * Python run-time fragment *)
(* ================================================================== *)

Module Py.

(** Exceptions.  Every constructor but [CancelledError] is a subclass of
    [Exception]; [CancelledError] derives from [BaseException] and passes
    through [except Exception] handlers. *)
Inductive exn : Type :=
| TypeError
| AttributeError
| KeyError
| ValueError
| InvalidOperation      (* decimal.InvalidOperation *)
| DivisionByZero        (* decimal.DivisionByZero *)
| ZeroDivisionError
| VenueError            (* any Exception raised inside a venue client *)
| CancelledError.

Definition is_Exception (e : exn) : bool :=
  match e with CancelledError => false | _ => true end.

Inductive res (A : Type) : Type :=
| Ok (a : A)
| Raise (e : exn).
Arguments Ok {A} a.
Arguments Raise {A} e.

Definition rbind {A B} (m : res A) (k : A -> res B) : res B :=
  match m with
  | Ok a => k a
  | Raise e => Raise e
  end.

(** [try: m  except Exception: h] for pure code. *)
Definition rtry {A} (m : res A) (h : exn -> res A) : res A :=
  match m with
  | Ok a => Ok a
  | Raise e => if is_Exception e then h e else Raise e
  end.

(** ** Comparisons on rationals, as booleans *)

Definition Qltb (x y : Q) : bool :=
  match x ?= y with Lt => true | _ => false end.
Definition Qleb (x y : Q) : bool :=
  match x ?= y with Gt => false | _ => true end.
Definition Qgtb (x y : Q) : bool := Qltb y x.
Definition Qgeb (x y : Q) : bool := Qleb y x.
Definition Qeqb (x y : Q) : bool :=
  match x ?= y with Eq => true | _ => false end.

(** ** The numeric tower *)

Inductive num : Type :=
| Int (z : Z)
| Float (x : Q)
| Dec (x : Q).

Definition value (a : num) : Q :=
  match a with
  | Int z => inject_Z z
  | Float x => x
  | Dec x => x
  end.

(** [Decimal / Decimal]: division by zero signals [DivisionByZero], and
    [0 / 0] signals [InvalidOperation]; both are trapped by default.  A
    [Decimal] is the rational it denotes and the quotient is the exact one:
    the rounding of the context, to 28 significant digits, is not modelled,
    here or in the sums and products of [Decimal]s. *)
Definition dec_div (a b : Q) : res Q :=
  if Qeqb b 0 then
    Raise (if Qeqb a 0 then InvalidOperation else DivisionByZero)
  else Ok (a / b).

(** [float / float] *)
Definition float_div (a b : Q) : res Q :=
  if Qeqb b 0 then Raise ZeroDivisionError else Ok (a / b).

(** Binary [+], [-], [*]: [int] is absorbed by either other type, and
    [Decimal] refuses [float] operands. *)
Definition arith (fz : Z -> Z -> Z) (fq : Q -> Q -> Q) (a b : num) : res num :=
  match a, b with
  | Int x, Int y => Ok (Int (fz x y))
  | Int x, Float y => Ok (Float (fq (inject_Z x) y))
  | Float x, Int y => Ok (Float (fq x (inject_Z y)))
  | Float x, Float y => Ok (Float (fq x y))
  | Int x, Dec y => Ok (Dec (fq (inject_Z x) y))
  | Dec x, Int y => Ok (Dec (fq x (inject_Z y)))
  | Dec x, Dec y => Ok (Dec (fq x y))
  | Dec _, Float _ | Float _, Dec _ => Raise TypeError
  end.

Definition py_add : num -> num -> res num := arith Z.add Qplus.
Definition py_sub : num -> num -> res num := arith Z.sub Qminus.
Definition py_mul : num -> num -> res num := arith Z.mul Qmult.

(** True division [/]. *)
Definition py_div (a b : num) : res num :=
  match a, b with
  | Dec x, Dec y => rbind (dec_div x y) (fun q => Ok (Dec q))
  | Dec x, Int y => rbind (dec_div x (inject_Z y)) (fun q => Ok (Dec q))
  | Int x, Dec y => rbind (dec_div (inject_Z x) y) (fun q => Ok (Dec q))
  | Dec _, Float _ | Float _, Dec _ => Raise TypeError
  | _, _ => rbind (float_div (value a) (value b)) (fun q => Ok (Float q))
  end.

(** [min(a, b)] and [max(a, b)]: the first argument wins ties; comparisons
    across the numeric types are allowed. *)
Definition py_min (a b : num) : num :=
  if Qltb (value b) (value a) then b else a.
Definition py_max (a b : num) : num :=
  if Qltb (value a) (value b) then b else a.

(** Truthiness of an optional [Decimal]: [None] and zero are false. *)
Definition truthy_dec (o : option Q) : bool :=
  match o with
  | Some q => negb (Qeqb q 0)
  | None => false
  end.

(** Truthiness of an optional string: [None] and [""] are false. *)
Definition truthy_str (o : option string) : bool :=
  match o with
  | Some EmptyString => false
  | Some _ => true
  | None => false
  end.

(** Library numerics outside the repository. *)
Record Numerics : Type := {
  dec_sqrt : Q -> Q;     (* Decimal.sqrt on a non-negative argument *)
  np_sqrt : Q -> Q;      (* numpy.sqrt on a float *)
  norm_cdf : Q -> Q      (* scipy.stats.norm.cdf *)
}.

(** [Decimal.sqrt]: a negative argument signals [InvalidOperation]. *)
Definition decimal_sqrt (N : Numerics) (x : Q) : res Q :=
  if Qltb x 0 then Raise InvalidOperation else Ok (dec_sqrt N x).

End Py.
Export Py.

Notation "'let?' x := m 'in' k" := (rbind m (fun x => k))
  (at level 10, x name, m at level 200, k at level 200,
   format "'[v' 'let?'  x  :=  m  'in'  '/' k ']'").

(* ================================================================== *)
(** * src/models.py *)
(* ================================================================== *)

(** Microseconds since the epoch ([datetime]) or between two instants
    ([timedelta]). *)
Definition datetime : Type := Z.

Definition total_seconds (delta : Z) : Q := inject_Z delta / 1000000.

(** [datetime.date()], as a day number. *)
Definition date_of (t : datetime) : Z := (t / 86400000000)%Z.

Inductive MarketSide : Type := UP | DOWN | LONG | SHORT.
Inductive OrderType : Type := MARKET | LIMIT | STOP_LOSS | TAKE_PROFIT.
Inductive PositionStatus : Type :=
  PENDING | OPEN | PARTIAL | CLOSED | CANCELLED | ERROR.
Inductive ArbitrageType : Type := SPOT_HEDGE | FUTURES_HEDGE | OPTIONS_HEDGE.

Definition MarketSide_eqb (a b : MarketSide) : bool :=
  match a, b with
  | UP, UP | DOWN, DOWN | LONG, LONG | SHORT, SHORT => true
  | _, _ => false
  end.

Definition PositionStatus_eqb (a b : PositionStatus) : bool :=
  match a, b with
  | PENDING, PENDING | OPEN, OPEN | PARTIAL, PARTIAL
  | CLOSED, CLOSED | CANCELLED, CANCELLED | ERROR, ERROR => true
  | _, _ => false
  end.

(** [MarketSide.value] *)
Definition MarketSide_value (s : MarketSide) : string :=
  match s with
  | UP => "UP" | DOWN => "DOWN" | LONG => "LONG" | SHORT => "SHORT"
  end.

Record PriceLevel : Type := {
  price : Q;
  quantity : Q
}.

Record PolymarketMarket : Type := {
  market_id : string;
  question : string;
  asset : string;
  target_price : Q;
  expiry_time : datetime;
  up_price : Q;
  down_price : Q;
  up_liquidity : Q;
  down_liquidity : Q;
  volume_24h : Q;
  open_interest : Q
}.

(** The field constraint [ge=0, le=1] on both prices. *)
Definition PolymarketMarket_valid (m : PolymarketMarket) : Prop :=
  0 <= up_price m <= 1 /\ 0 <= down_price m <= 1.

Definition time_to_expiry_hours (m : PolymarketMarket) (utcnow : datetime) : Q :=
  total_seconds (expiry_time m - utcnow) / 3600.

Record SpotMarket : Type := {
  exchange : string;
  symbol : string;
  bid : Q;
  ask : Q;
  last_price : Q;              (* field [last] *)
  spot_volume_24h : Q;         (* field [volume_24h] *)
  timestamp : datetime
}.

Definition mid_price (m : SpotMarket) : Q := (bid m + ask m) / 2.
Definition spread (m : SpotMarket) : Q := ask m - bid m.

Record ArbitrageOpportunity : Type := {
  opportunity_id : string;
  type : ArbitrageType;
  polymarket : PolymarketMarket;
  spot_market : SpotMarket;
  polymarket_side : MarketSide;
  polymarket_price : Q;
  polymarket_quantity : Q;
  hedge_side : MarketSide;
  hedge_price : Q;
  hedge_quantity : Q;
  expected_profit_usd : Q;
  expected_profit_percentage : Q;
  breakeven_price : Q;
  max_risk_usd : Q;
  probability_of_profit : Q;
  sharpe_ratio : option Q;
  detected_at : datetime;
  expires_at : datetime
}.

Definition set_sharpe_ratio (v : option Q) (o : ArbitrageOpportunity)
  : ArbitrageOpportunity :=
  {| opportunity_id := opportunity_id o; type := type o;
     polymarket := polymarket o; spot_market := spot_market o;
     polymarket_side := polymarket_side o;
     polymarket_price := polymarket_price o;
     polymarket_quantity := polymarket_quantity o;
     hedge_side := hedge_side o; hedge_price := hedge_price o;
     hedge_quantity := hedge_quantity o;
     expected_profit_usd := expected_profit_usd o;
     expected_profit_percentage := expected_profit_percentage o;
     breakeven_price := breakeven_price o; max_risk_usd := max_risk_usd o;
     probability_of_profit := probability_of_profit o;
     sharpe_ratio := v;
     detected_at := detected_at o; expires_at := expires_at o |}.

(** The validator on [expected_profit_percentage]: construction raises
    [ValueError] below -100. *)
Definition validate_profit_percentage (v : Q) : res Q :=
  if Qltb v (-100) then Raise ValueError else Ok v.

(** [ArbitrageOpportunity.time_value]: a [Decimal]. *)
Definition time_value (o : ArbitrageOpportunity) (utcnow : datetime) : Q :=
  let hours_to_expiry := total_seconds (expires_at o - utcnow) / 3600 in
  if Qleb hours_to_expiry 0 then 0
  else expected_profit_usd o * (hours_to_expiry / 24).

(** [Decimal] has no attribute [total_seconds]: looking it up raises. *)
Definition Decimal_total_seconds (d : Q) : res Q := Raise AttributeError.

Module Position.

Record t : Type := {
    position_id : nat;
    opportunity_id : string;
    status : PositionStatus;
    polymarket_order_id : option string;
    polymarket_side : MarketSide;
    polymarket_entry_price : option Q;
    polymarket_quantity : option Q;
    polymarket_fees : Q;
    hedge_order_id : option string;
    hedge_exchange : string;
    hedge_symbol : string;
    hedge_side : MarketSide;
    hedge_entry_price : option Q;
    hedge_quantity : option Q;
    hedge_fees : Q;
    stop_loss_price : option Q;
    take_profit_price : option Q;
    max_loss_usd : Q;
    opened_at : datetime;
    closed_at : option datetime;
    expires_at : datetime;
    realized_pnl : Q;
    unrealized_pnl : Q
  }.

  (** The mutable attributes, gathered so that one function rebuilds the
      record: every assignment [position.x = v] is an instance of [update]. *)
Definition update
      (st : PositionStatus)
      (pm_oid : option string) (pm_px pm_qty : option Q) (pm_fees : Q)
      (h_oid : option string) (h_px h_qty : option Q) (h_fees : Q)
      (sl tp : option Q) (closed : option datetime) (upnl : Q) (p : t) : t :=
    {| position_id := position_id p; opportunity_id := opportunity_id p;
       status := st;
       polymarket_order_id := pm_oid;
       polymarket_side := polymarket_side p;
       polymarket_entry_price := pm_px;
       polymarket_quantity := pm_qty;
       polymarket_fees := pm_fees;
       hedge_order_id := h_oid;
       hedge_exchange := hedge_exchange p; hedge_symbol := hedge_symbol p;
       hedge_side := hedge_side p;
       hedge_entry_price := h_px;
       hedge_quantity := h_qty;
       hedge_fees := h_fees;
       stop_loss_price := sl; take_profit_price := tp;
       max_loss_usd := max_loss_usd p;
       opened_at := opened_at p;
       closed_at := closed;
       expires_at := expires_at p;
       realized_pnl := realized_pnl p;
       unrealized_pnl := upnl |}.

Definition set_status (v : PositionStatus) (p : t) : t :=
    update v (polymarket_order_id p) (polymarket_entry_price p)
      (polymarket_quantity p) (polymarket_fees p) (hedge_order_id p)
      (hedge_entry_price p) (hedge_quantity p) (hedge_fees p)
      (stop_loss_price p) (take_profit_price p) (closed_at p)
      (unrealized_pnl p) p.

Definition set_polymarket_order_id (v : option string) (p : t) : t :=
    update (status p) v (polymarket_entry_price p)
      (polymarket_quantity p) (polymarket_fees p) (hedge_order_id p)
      (hedge_entry_price p) (hedge_quantity p) (hedge_fees p)
      (stop_loss_price p) (take_profit_price p) (closed_at p)
      (unrealized_pnl p) p.

  (** The three assignments made from a fill confirmation. *)
Definition set_polymarket_fill (px qty : option Q) (fees : Q) (p : t) : t :=
    update (status p) (polymarket_order_id p) px qty fees (hedge_order_id p)
      (hedge_entry_price p) (hedge_quantity p) (hedge_fees p)
      (stop_loss_price p) (take_profit_price p) (closed_at p)
      (unrealized_pnl p) p.

Definition set_polymarket_quantity (qty : option Q) (p : t) : t :=
    set_polymarket_fill (polymarket_entry_price p) qty (polymarket_fees p) p.

Definition set_hedge_order_id (v : option string) (p : t) : t :=
    update (status p) (polymarket_order_id p) (polymarket_entry_price p)
      (polymarket_quantity p) (polymarket_fees p) v
      (hedge_entry_price p) (hedge_quantity p) (hedge_fees p)
      (stop_loss_price p) (take_profit_price p) (closed_at p)
      (unrealized_pnl p) p.

Definition set_hedge_fill (px qty : option Q) (fees : Q) (p : t) : t :=
    update (status p) (polymarket_order_id p) (polymarket_entry_price p)
      (polymarket_quantity p) (polymarket_fees p) (hedge_order_id p)
      px qty fees
      (stop_loss_price p) (take_profit_price p) (closed_at p)
      (unrealized_pnl p) p.

Definition set_hedge_quantity (qty : option Q) (p : t) : t :=
    set_hedge_fill (hedge_entry_price p) qty (hedge_fees p) p.

Definition set_stop_loss_price (v : option Q) (p : t) : t :=
    update (status p) (polymarket_order_id p) (polymarket_entry_price p)
      (polymarket_quantity p) (polymarket_fees p) (hedge_order_id p)
      (hedge_entry_price p) (hedge_quantity p) (hedge_fees p)
      v (take_profit_price p) (closed_at p)
      (unrealized_pnl p) p.

Definition set_take_profit_price (v : option Q) (p : t) : t :=
    update (status p) (polymarket_order_id p) (polymarket_entry_price p)
      (polymarket_quantity p) (polymarket_fees p) (hedge_order_id p)
      (hedge_entry_price p) (hedge_quantity p) (hedge_fees p)
      (stop_loss_price p) v (closed_at p)
      (unrealized_pnl p) p.

Definition set_closed_at (v : option datetime) (p : t) : t :=
    update (status p) (polymarket_order_id p) (polymarket_entry_price p)
      (polymarket_quantity p) (polymarket_fees p) (hedge_order_id p)
      (hedge_entry_price p) (hedge_quantity p) (hedge_fees p)
      (stop_loss_price p) (take_profit_price p) v
      (unrealized_pnl p) p.

Definition set_unrealized_pnl (v : Q) (p : t) : t :=
    update (status p) (polymarket_order_id p) (polymarket_entry_price p)
      (polymarket_quantity p) (polymarket_fees p) (hedge_order_id p)
      (hedge_entry_price p) (hedge_quantity p) (hedge_fees p)
      (stop_loss_price p) (take_profit_price p) (closed_at p)
      v p.

Definition is_open (p : t) : bool :=
    match status p with OPEN | PARTIAL => true | _ => false end.

Definition total_fees (p : t) : Q := polymarket_fees p + hedge_fees p.

Definition net_pnl (p : t) : Q :=
    realized_pnl p + unrealized_pnl p - total_fees p.

End Position.

(* ================================================================== *)
(** * src/config.py *)
(* ================================================================== *)

Record TradingConfig : Type := {
  MAX_POSITION_SIZE_USD : Q;
  MIN_PROFIT_THRESHOLD_USD : Q;
  MAX_SLIPPAGE_PERCENT : Q;
  DEFAULT_STOP_LOSS_PERCENT : Q;
  DEFAULT_TAKE_PROFIT_PERCENT : Q;
  DEFAULT_LEVERAGE : Z;
  MAX_LEVERAGE : Z;
  FUNDING_RATE_THRESHOLD : Q;
  POSITION_SIZE_PCT : Q;
  MAX_DAILY_TRADES : Z;
  MAX_CONCURRENT_POSITIONS : Z;
  MAX_DAILY_LOSS_USD : Q
}.

(** The field defaults of [TradingConfig]. *)
Definition default_config : TradingConfig :=
  {| MAX_POSITION_SIZE_USD := 5000;
     MIN_PROFIT_THRESHOLD_USD := 50;
     MAX_SLIPPAGE_PERCENT := 0.5;
     DEFAULT_STOP_LOSS_PERCENT := 2;
     DEFAULT_TAKE_PROFIT_PERCENT := 1.5;
     DEFAULT_LEVERAGE := 5;
     MAX_LEVERAGE := 10;
     FUNDING_RATE_THRESHOLD := 0.01;
     POSITION_SIZE_PCT := 0.1;
     MAX_DAILY_TRADES := 20;
     MAX_CONCURRENT_POSITIONS := 5;
     MAX_DAILY_LOSS_USD := 500 |}.

(** What the validators of [TradingConfig] accept. *)
Record config_valid (c : TradingConfig) : Prop := {
  slippage_pct_range : 0 <= MAX_SLIPPAGE_PERCENT c <= 100;
  stop_loss_pct_range : 0 <= DEFAULT_STOP_LOSS_PERCENT c <= 100;
  take_profit_pct_range : 0 <= DEFAULT_TAKE_PROFIT_PERCENT c <= 100;
  max_position_positive : 0 < MAX_POSITION_SIZE_USD c;
  min_profit_positive : 0 < MIN_PROFIT_THRESHOLD_USD c;
  max_daily_loss_positive : 0 < MAX_DAILY_LOSS_USD c;
  default_leverage_range : (1 <= DEFAULT_LEVERAGE c <= 50)%Z;
  max_leverage_range : (1 <= MAX_LEVERAGE c <= 50)%Z
}.

Definition slippage_decimal (c : TradingConfig) : Q := MAX_SLIPPAGE_PERCENT c / 100.
Definition stop_loss_decimal (c : TradingConfig) : Q := DEFAULT_STOP_LOSS_PERCENT c / 100.
Definition take_profit_decimal (c : TradingConfig) : Q := DEFAULT_TAKE_PROFIT_PERCENT c / 100.

(** [config.hyperliquid_fees] *)
Definition hyperliquid_fees_maker : Q := 0.0002.
Definition hyperliquid_fees_taker : Q := 0.0003.

(* ================================================================== *)
(** * Venue clients as ports, and the monad of the asynchronous methods *)
(* ================================================================== *)

Module Venue.

(** An order status, a dictionary in the source: a missing key is [None]. *)
Record OrderStatus : Type := {
  os_status : option string;     (* "status" *)
  os_filled : option Q;          (* "filled" *)
  os_price : option Q;           (* "price" *)
  os_fees : option Q;            (* "fees" *)
  os_fee_cost : option Q         (* "fee" -> "cost" *)
}.

(** [d.get(key, 0)] on a numeric entry. *)
Definition get0 (o : option Q) : Q := default 0 o.

Record OrderBook : Type := {
  bids : list PriceLevel;
  asks : list PriceLevel
}.

(** One entry of [HyperliquidClient.get_positions()]. *)
Record HLPosition : Type := {
  coin : string;
  size : Q;
  entry_price : Q
}.

Record PMOrder : Type := {
  pmo_market_id : string;
  pmo_side : MarketSide;
  pmo_order_type : OrderType;
  pmo_quantity : option Q;
  pmo_price : option Q
}.

Record EXOrder : Type := {
  exo_asset : string;
  exo_side : MarketSide;
  exo_order_type : OrderType;
  exo_quantity : option Q;
  exo_price : option Q;
  exo_use_futures : bool;
  exo_reduce_only : bool
}.

Record HLOrder : Type := {
  hlo_asset : string;
  hlo_side : MarketSide;
  hlo_order_type : OrderType;
  hlo_quantity : option Q;
  hlo_price : option Q;
  hlo_leverage : Z;
  hlo_post_only : bool
}.

(** The requests that reach a venue, in the order they are awaited. *)
Inductive venue_call : Type :=
| PM_get_markets_by_asset (asset : string)
| PM_get_order_book (market_id outcome : string)
| PM_place_order (o : PMOrder)
| PM_cancel_order (order_id : string)
| PM_get_order_status (order_id : string)
| PM_get_balance
| EX_get_market_data (asset : string) (use_futures : bool)
| EX_place_order (o : EXOrder)
| EX_get_order_status (order_id asset : string) (use_futures : bool)
| EX_cancel_order (order_id asset : string) (use_futures : bool)
| EX_get_balance
| EX_set_leverage (asset : string) (leverage : Z)
| HL_get_market_data (asset : string)
| HL_get_funding_rate (asset : string)
| HL_get_order_book (asset : string)
| HL_place_order (o : HLOrder)
| HL_get_positions
| HL_close_position (asset : string)
| HL_set_leverage (asset : string) (leverage : Z)
| HL_get_balance.

(** The clients.  [W] is the state of everything outside the process; a
    method takes the world it is awaited in and answers with a value or an
    exception and the world it leaves. *)
Class PolymarketClient (W : Type) : Type := {
  pm_get_markets_by_asset : string -> W -> res (list PolymarketMarket) * W;
  pm_get_order_book : string -> string -> W -> res OrderBook * W;
  pm_place_order : PMOrder -> W -> res (option string) * W;
  pm_cancel_order : string -> W -> res bool * W;
  pm_get_order_status : string -> W -> res OrderStatus * W;
  pm_get_balance : W -> res Q * W
}.

Class ExchangeClient (W : Type) : Type := {
  exchange_name : string;
  has_futures : bool;
  taker_fee : Q;
  get_symbol : string -> string;
  ex_get_market_data : string -> bool -> W -> res (option SpotMarket) * W;
  ex_place_order : EXOrder -> W -> res (option string) * W;
  ex_get_order_status : string -> string -> bool -> W -> res OrderStatus * W;
  ex_cancel_order : string -> string -> bool -> W -> res bool * W;
  ex_get_balance : W -> res (gmap string Q) * W;
  ex_set_leverage : string -> Z -> W -> res bool * W
}.

Class HyperliquidClient (W : Type) : Type := {
  hl_get_market_data : string -> W -> res (option SpotMarket) * W;
  hl_get_funding_rate : string -> W -> res Q * W;
  hl_get_order_book : string -> W -> res OrderBook * W;
  hl_place_order : HLOrder -> W -> res (option string) * W;
  hl_get_positions : W -> res (list HLPosition) * W;
  hl_close_position : string -> W -> res bool * W;
  hl_set_leverage : string -> Z -> W -> res bool * W;
  hl_get_balance : W -> res Q * W
}.

(** What the process reads from its run time: the clock, [uuid.uuid4()] and
    [asyncio.sleep], an await that returns or is cancelled. *)
Class Runtime (W : Type) : Type := {
  rt_utcnow : W -> datetime * W;
  rt_uuid4 : W -> string * W;
  rt_sleep : Q -> W -> res unit * W
}.

(** The state a method runs in: the world, the venue calls made so far, and
    the attributes of the object ([self]). *)
Record st (W S : Type) : Type := mkSt {
  world : W;
  calls : list venue_call;
  self : S
}.
Arguments mkSt {W S} _ _ _.
Arguments world {W S} _.
Arguments calls {W S} _.
Arguments self {W S} _.

Definition M (W S A : Type) : Type := st W S -> res A * st W S.

Section Monad.
  Context {W S : Type}.

Definition ret {A} (a : A) : M W S A := fun s => (Ok a, s).

Definition raise {A} (e : exn) : M W S A := fun s => (Raise e, s).

Definition bind {A B} (m : M W S A) (k : A -> M W S B) : M W S B :=
    fun s =>
      match m s with
      | (Ok a, s') => k a s'
      | (Raise e, s') => (Raise e, s')
      end.

  (** [try: m  except Exception as e: h e].  Effects made before the
      exception stay. *)
Definition try_except {A} (m : M W S A) (h : exn -> M W S A) : M W S A :=
    fun s =>
      match m s with
      | (Ok a, s') => (Ok a, s')
      | (Raise e, s') => if is_Exception e then h e s' else (Raise e, s')
      end.

  (** A bare [except:] also catches [BaseException]. *)
Definition try_except_all {A} (m : M W S A) (h : exn -> M W S A) : M W S A :=
    fun s =>
      match m s with
      | (Ok a, s') => (Ok a, s')
      | (Raise e, s') => h e s'
      end.

  (** A pure computation that may raise. *)
Definition lift {A} (r : res A) : M W S A := fun s => (r, s).

Definition get_self : M W S S := fun s => (Ok (self s), s).

Definition modify_self (f : S -> S) : M W S unit :=
    fun s => (Ok tt, mkSt (world s) (calls s) (f (self s))).

  (** An awaited venue method: it is recorded, then answered by the world. *)
Definition venue {A} (c : venue_call) (f : W -> res A * W) : M W S A :=
    fun s =>
      let '(r, w') := f (world s) in
      (r, mkSt w' (calls s ++ [c]) (self s)).

Definition runtime {A} (f : W -> res A * W) : M W S A :=
    fun s =>
      let '(r, w') := f (world s) in
      (r, mkSt w' (calls s) (self s)).

Definition utcnow `{Runtime W} : M W S datetime :=
    runtime (fun w => let '(t, w') := rt_utcnow w in (Ok t, w')).

Definition uuid4 `{Runtime W} : M W S string :=
    runtime (fun w => let '(u, w') := rt_uuid4 w in (Ok u, w')).

Definition sleep `{Runtime W} (seconds : Q) : M W S unit :=
    runtime (rt_sleep seconds).

End Monad.

End Venue.
Export Venue.

Notation "'let*' x := m 'in' k" := (bind m (fun x => k))
  (at level 10, x name, m at level 200, k at level 200,
   format "'[v' 'let*'  x  :=  m  'in'  '/' k ']'").
Notation "m >> k" := (bind m (fun _ => k))
  (at level 100, k at level 200, right associativity).

(** [list.sort(key=..., reverse=True)]: a stable sort into descending key
    order.  Elements with equal keys keep their relative order, which fixes
    the result whatever the algorithm; insertion sort computes it. *)
Fixpoint insert_desc {A} (key : A -> Q) (x : A) (l : list A) : list A :=
  match l with
  | [] => [x]
  | y :: l' =>
      if Qltb (key x) (key y) then y :: insert_desc key x l'
      else x :: y :: l'
  end.

Fixpoint sort_desc {A} (key : A -> Q) (l : list A) : list A :=
  match l with
  | [] => []
  | x :: l' => insert_desc key x (sort_desc key l')
  end.

(** [sum(level.quantity for level in levels)] *)
Definition sum_quantity (levels : list PriceLevel) : Q :=
  fold_left (fun acc level => acc + quantity level) levels 0.

(** Reasons returned by [validate_opportunity].  The source builds message
    strings; a constructor stands for each message template, the numbers
    formatted into the message are its arguments. *)
Inductive warning : Type :=
| Market_has_expired
| Cannot_fetch_current_market_data
| Price_has_moved (pct : Q)                 (* detector.py *)
| Insufficient_Polymarket_liquidity (q : Q)
| Insufficient_Polymarket_balance (b : Q)
| Insufficient_exchange_balance (b : Q)
| Cannot_fetch_current_Hyperliquid_data
| Price_moved (pct : Q)                     (* hyperliquid_detector.py *)
| High_funding_rate (r : Q)
| Reduced_Polymarket_liquidity (q : Q)
| Insufficient_Hyperliquid_liquidity (q : Q)
| Insufficient_Hyperliquid_balance (b : Q)
| Exception_text (e : exn).                 (* [str(e)] *)

(** ["Price has moved" in w] *)
Definition contains_Price_has_moved (w : warning) : bool :=
  match w with Price_has_moved _ => true | _ => false end.

(** ["liquidity" in w.lower() or "funding" in w.lower()] *)
Definition mentions_liquidity_or_funding (w : warning) : bool :=
  match w with
  | Insufficient_Polymarket_liquidity _ | High_funding_rate _
  | Reduced_Polymarket_liquidity _ | Insufficient_Hyperliquid_liquidity _ => true
  | _ => false
  end.

(* ================================================================== *)
(** * src/arbitrage/detector.py *)
(* ================================================================== *)

Module Detector.

(** The local variables of [_analyze_market_pair] at the point where the
    opportunity is built. *)
Record evaluation : Type := {
  ev_pm_side : MarketSide;
  ev_pm_price : Q;
  ev_hedge_side : MarketSide;
  ev_breakeven_price : Q;
  ev_pm_position_value : Q;
  ev_pm_quantity : Q;
  ev_hedge_value : Q;
  ev_hedge_quantity : Q;
  ev_win_profit : Q;
  ev_pm_loss : Q;
  ev_max_risk : Q;
  ev_prob_profit : Q;
  ev_total_fees : Q;
  ev_expected_profit : Q;
  ev_profit_percentage : Q
}.

Section Detector.
  Context {W : Type} `{PolymarketClient W} `{ExchangeClient W} `{Runtime W}.
  Variable config : TradingConfig.
  Variable N : Numerics.

  (** The attributes set by [__init__]; [last_opportunities] is the state. *)
Definition min_profit_threshold : Q := MIN_PROFIT_THRESHOLD_USD config.
Definition max_position_size : Q := MAX_POSITION_SIZE_USD config.
Definition slippage_buffer : Q := slippage_decimal config.

  (** The [try] block of [_calculate_probability_of_profit]. *)
Definition probability_of_profit_try
      (current_price target_price hours_to_expiry : Q) (side : MarketSide)
    : res Q :=
    let daily_volatility := 0.03 in
    let? sqrt24 := decimal_sqrt N 24 in
    let? hourly_volatility := dec_div daily_volatility sqrt24 in
    let time_in_days := hours_to_expiry / 24 in
    let? sqrt_days := decimal_sqrt N time_in_days in
    let period_std := daily_volatility * sqrt_days in
    let? price_return := dec_div (target_price - current_price) current_price in
    let? z_score := dec_div price_return period_std in
    let probability :=
      if MarketSide_eqb side DOWN then norm_cdf N z_score
      else 1 - norm_cdf N z_score in
    let time_adjustment := Qmin 0.1 (hours_to_expiry / 240) in
    let probability := probability * (1 + time_adjustment) in
    Ok (Qmax 0 (Qmin 1 probability)).

Definition _calculate_probability_of_profit
      (current_price target_price hours_to_expiry : Q) (side : MarketSide)
    : res Q :=
    rtry (probability_of_profit_try current_price target_price
            hours_to_expiry side)
         (fun _ => Ok 0.4).

Definition _calculate_sharpe_ratio
      (expected_profit max_risk hours_to_expiry : Q) : res Q :=
    rtry
      (if Qeqb max_risk 0 then Ok 0
       else
         let? periods_per_year := dec_div (365 * 24) (Qmax 1 hours_to_expiry) in
         let annualized_return := expected_profit * periods_per_year in
         let? sqrt_periods := decimal_sqrt N periods_per_year in
         let annualized_std := max_risk * sqrt_periods in
         let risk_free_rate := 0.05 in
         dec_div (annualized_return - risk_free_rate) annualized_std)
      (fun _ => Ok 0).

  (** [_analyze_market_pair], from the read of [time_to_expiry_hours] to the
      profit percentage: [Ok None] is an early [return None]. *)
Definition evaluate
      (hours_to_expiry : Q) (pm_market : PolymarketMarket)
      (spot_market : SpotMarket) : res (option evaluation) :=
    let current_price := mid_price spot_market in
    let target_price := target_price pm_market in
    if Qleb hours_to_expiry 0 then Ok None
    else
      let? distance := dec_div (Qabs (current_price - target_price)) current_price in
      let price_distance_pct := distance * 100 in
      let '(pm_side, pm_price, hedge_side, breakeven_price) :=
        if Qltb current_price target_price
        then (DOWN, down_price pm_market, LONG, target_price)
        else (UP, up_price pm_market, SHORT, target_price) in
      if Qgtb pm_price 0.85 then Ok None
      else
        let pm_position_value :=
          Qmin (max_position_size * 0.5)
               (if MarketSide_eqb pm_side UP then up_liquidity pm_market
                else down_liquidity pm_market) in
        let? pm_quantity := dec_div pm_position_value pm_price in
        let hedge_value := pm_quantity * (1 - pm_price) in
        let? hedge_quantity := dec_div hedge_value current_price in
        let pm_profit := pm_quantity * (1 - pm_price) in
        let hedge_pnl_at_target :=
          if MarketSide_eqb hedge_side LONG
          then hedge_quantity * (target_price - current_price)
          else hedge_quantity * (current_price - target_price) in
        let win_profit := pm_profit - Qabs hedge_pnl_at_target * 0.5 in
        let pm_loss := pm_quantity * pm_price in
        let max_risk := pm_position_value in
        let? prob_profit := _calculate_probability_of_profit
                          current_price target_price hours_to_expiry pm_side in
        let expected_profit :=
          prob_profit * win_profit - (1 - prob_profit) * pm_loss in
        let total_fees :=
          pm_position_value * 0.002 + hedge_value * taker_fee * 2 in
        let expected_profit := expected_profit - total_fees in
        if Qltb expected_profit min_profit_threshold then Ok None
        else
          let total_capital := pm_position_value + hedge_value in
          let? ratio := dec_div expected_profit total_capital in
          let profit_percentage := ratio * 100 in
          Ok (Some {| ev_pm_side := pm_side; ev_pm_price := pm_price;
                      ev_hedge_side := hedge_side;
                      ev_breakeven_price := breakeven_price;
                      ev_pm_position_value := pm_position_value;
                      ev_pm_quantity := pm_quantity;
                      ev_hedge_value := hedge_value;
                      ev_hedge_quantity := hedge_quantity;
                      ev_win_profit := win_profit;
                      ev_pm_loss := pm_loss;
                      ev_max_risk := max_risk;
                      ev_prob_profit := prob_profit;
                      ev_total_fees := total_fees;
                      ev_expected_profit := expected_profit;
                      ev_profit_percentage := profit_percentage |}).

  (** The [ArbitrageOpportunity(...)] call and the Sharpe ratio assigned to
      it afterwards. *)
Definition build_opportunity
      (pm_market : PolymarketMarket) (spot_market : SpotMarket)
      (hours_to_expiry : Q) (ev : evaluation)
      (uuid : string) (now : datetime) : res ArbitrageOpportunity :=
    let? pct := validate_profit_percentage (ev_profit_percentage ev) in
    let opportunity :=
      {| opportunity_id := uuid;
         type := if has_futures then FUTURES_HEDGE else SPOT_HEDGE;
         polymarket := pm_market;
         spot_market := spot_market;
         polymarket_side := ev_pm_side ev;
         polymarket_price := ev_pm_price ev;
         polymarket_quantity := ev_pm_quantity ev;
         hedge_side := ev_hedge_side ev;
         hedge_price := mid_price spot_market;
         hedge_quantity := ev_hedge_quantity ev;
         expected_profit_usd := ev_expected_profit ev;
         expected_profit_percentage := pct;
         breakeven_price := ev_breakeven_price ev;
         max_risk_usd := ev_max_risk ev;
         probability_of_profit := ev_prob_profit ev;
         sharpe_ratio := None;
         detected_at := now;
         expires_at := expiry_time pm_market |} in
    let? sharpe := _calculate_sharpe_ratio (ev_expected_profit ev)
                 (ev_max_risk ev) hours_to_expiry in
    Ok (set_sharpe_ratio (Some sharpe) opportunity).

  Local Abbreviation state := (list ArbitrageOpportunity).   (* last_opportunities *)

Definition _analyze_market_pair
      (pm_market : PolymarketMarket) (spot_market : SpotMarket)
    : M W state (option ArbitrageOpportunity) :=
    try_except
      (let* t := utcnow in
       let hours_to_expiry := time_to_expiry_hours pm_market t in
       let* r := lift (evaluate hours_to_expiry pm_market spot_market) in
       match r with
       | None => ret None
       | Some ev =>
           let* uuid := uuid4 in
           let* now := utcnow in
           let* opportunity := lift (build_opportunity pm_market spot_market
                                  hours_to_expiry ev uuid now) in
           ret (Some opportunity)
       end)
      (fun _ => ret None).

  (** The loop over the markets of one asset, appending to [opportunities]. *)
Fixpoint analyze_markets
      (polymarkets : list PolymarketMarket) (spot_market : SpotMarket)
      (opportunities : list ArbitrageOpportunity)
    : M W state (list ArbitrageOpportunity) :=
    match polymarkets with
    | [] => ret opportunities
    | pm_market :: rest =>
        let* opportunity := _analyze_market_pair pm_market spot_market in
        analyze_markets rest spot_market
          (match opportunity with
           | Some o => opportunities ++ [o]
           | None => opportunities
           end)
    end.

  (** The body of the loop over assets.  [_analyze_market_pair] lets no
      [Exception] out, so the handler only runs before the first append of
      the asset and [opportunities] is what the list then holds. *)
Definition scan_asset
      (asset : string) (opportunities : list ArbitrageOpportunity)
    : M W state (list ArbitrageOpportunity) :=
    try_except
      (let* polymarkets := venue (PM_get_markets_by_asset asset)
                        (pm_get_markets_by_asset asset) in
       match polymarkets with
       | [] => ret opportunities
       | _ =>
           let* spot := venue (EX_get_market_data asset true)
                     (ex_get_market_data asset true) in
           match spot with
           | None => ret opportunities
           | Some spot_market =>
               analyze_markets polymarkets spot_market opportunities
           end
       end)
      (fun _ => ret opportunities).

Fixpoint scan_assets
      (assets : list string) (opportunities : list ArbitrageOpportunity)
    : M W state (list ArbitrageOpportunity) :=
    match assets with
    | [] => ret opportunities
    | asset :: rest =>
        let* opportunities' := scan_asset asset opportunities in
        scan_assets rest opportunities'
    end.

Definition scan_for_opportunities (assets : list string)
    : M W state (list ArbitrageOpportunity) :=
    let* found := scan_assets assets [] in
    let opportunities := sort_desc expected_profit_usd found in
    modify_self (fun _ => opportunities) >>
    ret opportunities.

Definition validate_opportunity (opportunity : ArbitrageOpportunity)
    : M W state (bool * list warning) :=
    try_except
      (let* now := utcnow in
       if Z.leb (expires_at opportunity) now
       then ret (false, [Market_has_expired])
       else
         let asset := asset (polymarket opportunity) in
         let* current_spot := venue (EX_get_market_data asset true)
                           (ex_get_market_data asset true) in
         match current_spot with
         | None => ret (false, [Cannot_fetch_current_market_data])
         | Some current_spot =>
             let price_change :=
               Qabs (mid_price current_spot - hedge_price opportunity) in
             let* ratio := lift (dec_div price_change (hedge_price opportunity)) in
             let price_change_pct := ratio * 100 in
             let warnings :=
               if Qgtb price_change_pct 2
               then [Price_has_moved price_change_pct] else [] in
             let market := market_id (polymarket opportunity) in
             let outcome := MarketSide_value (polymarket_side opportunity) in
             let* pm_book := venue (PM_get_order_book market outcome)
                          (pm_get_order_book market outcome) in
             let available_liquidity :=
               if MarketSide_eqb (polymarket_side opportunity) UP
               then sum_quantity (asks pm_book)
               else sum_quantity (bids pm_book) in
             let warnings :=
               if Qltb available_liquidity (polymarket_quantity opportunity)
               then warnings ++ [Insufficient_Polymarket_liquidity
                                   available_liquidity]
               else warnings in
             let* pm_balance := venue PM_get_balance pm_get_balance in
             let* exchange_balances := venue EX_get_balance ex_get_balance in
             let usdt_balance := default 0 (exchange_balances !! "USDT"%string) in
             let required_pm_capital :=
               polymarket_quantity opportunity * polymarket_price opportunity in
             let required_hedge_capital :=
               hedge_quantity opportunity * hedge_price opportunity in
             if Qltb pm_balance required_pm_capital
             then ret (false, [Insufficient_Polymarket_balance pm_balance])
             else if Qltb usdt_balance required_hedge_capital
             then ret (false, [Insufficient_exchange_balance usdt_balance])
             else
               let is_valid :=
                 match warnings with
                 | [] => true
                 | [w] => contains_Price_has_moved w
                 | _ => false
                 end in
               ret (is_valid, warnings)
         end)
      (fun e => ret (false, [Exception_text e])).

End Detector.
End Detector.

(* ================================================================== *)
(** * src/arbitrage/hyperliquid_detector.py *)
(* ================================================================== *)

Module HyperliquidDetector.

(** [int(x)] on a float: truncation toward zero. *)
Definition int_of_float (x : Q) : Z :=
  if Qltb x 0 then Qceiling x else Qfloor x.

Section HyperliquidDetector.
  Context {W : Type} `{PolymarketClient W} `{HyperliquidClient W} `{Runtime W}.
  Variable config : TradingConfig.
  Variable N : Numerics.

Definition min_profit_threshold : Q := MIN_PROFIT_THRESHOLD_USD config.
Definition max_position_size : Q := MAX_POSITION_SIZE_USD config.
Definition slippage_buffer : Q := slippage_decimal config.
Definition funding_threshold : Q := FUNDING_RATE_THRESHOLD config.

  (** Raises when [target_price] is zero; the caller's handler catches it. *)
Definition _determine_strategy
      (current_price target_price : Q) (pm_market : PolymarketMarket)
      (funding_rate : Q) : res (option (MarketSide * MarketSide)) :=
    let? ratio := dec_div (current_price - target_price) target_price in
    let price_diff_pct := ratio * 100 in
    let funding_bias := Qgtb funding_rate 0 in
    if Qltb (Qabs price_diff_pct) 1 then Ok None
    else if Qltb current_price target_price then
      if funding_bias then
        if Qltb (down_price pm_market) 0.6 then Ok (Some (DOWN, LONG))
        else Ok None
      else Ok (Some (DOWN, LONG))
    else
      if funding_bias then Ok (Some (UP, SHORT))
      else
        if Qltb (up_price pm_market) 0.6 then Ok (Some (UP, SHORT))
        else Ok None.

Definition _calculate_position_sizes
      (pm_market : PolymarketMarket) (hl_market : SpotMarket)
      (pm_side : MarketSide) (pm_price funding_cost_pct : Q)
    : res (option (Q * Q)) :=
    rtry
      (let pm_liquidity :=
         if MarketSide_eqb pm_side UP then up_liquidity pm_market
         else down_liquidity pm_market in
       let max_pm_value :=
         Qmin (max_position_size * 0.4) (pm_liquidity * 0.1) in
       let? pm_quantity := dec_div max_pm_value pm_price in
       let leverage := inject_Z (DEFAULT_LEVERAGE config) in
       let funding_adjustment := 1 + funding_cost_pct in
       let hedge_value := pm_quantity * (1 - pm_price) * funding_adjustment in
       let? hedge_capital_required := dec_div hedge_value leverage in
       let? scaled :=
         if Qgtb hedge_capital_required (max_position_size * 0.6) then
           let? scale_factor :=
             dec_div (max_position_size * 0.6) hedge_capital_required in
           Ok (pm_quantity * scale_factor, hedge_value * scale_factor)
         else Ok (pm_quantity, hedge_value) in
       let '(pm_quantity, hedge_value) := scaled in
       let? hedge_quantity := dec_div hedge_value (mid_price hl_market) in
       Ok (Some (pm_quantity, hedge_quantity)))
      (fun _ => Ok None).

  (** [hours] is a float: below 48 hours the time factor is a float and its
      product with the [Decimal] distance raises [TypeError]; from 48 hours
      on [min] returns the integer 1. *)
Definition _estimate_win_probability
      (current target hours : Q) (side : MarketSide) : res Q :=
    let? distance_pct := dec_div (Qabs (current - target)) current in
    let time_factor := py_min (Int 1) (Float (hours / 48)) in
    let? product := py_mul (Dec distance_pct) time_factor in
    let? base_prob := py_add (Dec 0.5) product in
    Ok (value (py_min (Dec 0.85) base_prob)).

  (** The local variables of [_calculate_expected_profit]. *)
Record profit_calc : Type := {
    pc_win_profit : Q;
    pc_pm_loss : Q;
    pc_prob : Q;
    pc_expected_profit : Q;
    pc_max_risk : Q;
    pc_breakeven_price : Q
  }.

Definition _calculate_expected_profit
      (pm_quantity pm_price hedge_quantity current_price target_price : Q)
      (hedge_side : MarketSide) (funding_cost_pct hours_to_expiry : Q)
    : res (option profit_calc) :=
    rtry
      (let pm_win_profit := pm_quantity * (1 - pm_price) in
       let hedge_pnl_at_target :=
         if MarketSide_eqb hedge_side LONG
         then hedge_quantity * (target_price - current_price)
         else hedge_quantity * (current_price - target_price) in
       let funding_cost :=
         hedge_quantity * current_price * Qabs funding_cost_pct in
       let funding_cost :=
         if MarketSide_eqb hedge_side SHORT && Qgtb funding_cost_pct 0
         then - funding_cost else funding_cost in
       let win_profit := pm_win_profit + hedge_pnl_at_target - funding_cost in
       let pm_loss := pm_quantity * pm_price in
       let max_risk := pm_quantity * pm_price + funding_cost in
       let? shift := dec_div pm_loss hedge_quantity in
       let breakeven_price :=
         if MarketSide_eqb hedge_side LONG
         then current_price + shift else current_price - shift in
       let? prob := _estimate_win_probability current_price target_price
                      hours_to_expiry hedge_side in
       let expected_profit := prob * win_profit - (1 - prob) * pm_loss in
       Ok (Some {| pc_win_profit := win_profit; pc_pm_loss := pm_loss;
                   pc_prob := prob; pc_expected_profit := expected_profit;
                   pc_max_risk := max_risk;
                   pc_breakeven_price := breakeven_price |}))
      (fun _ => Ok None).

Definition _calculate_total_fees (pm_value hedge_value : Q) : Q :=
    let pm_fees := pm_value * 0.002 in
    let hl_fees := hedge_value * hyperliquid_fees_taker * 2 in
    pm_fees + hl_fees.

  (** A float. *)
Definition _get_implied_volatility (price hours : Q) : Q :=
    if Qgtb price 50000 then 0.6
    else if Qgtb price 2000 then 0.75
    else 0.9.

  (** [numpy.sqrt] and [scipy.stats.norm.cdf] on a run-time number; neither
      is reached with a [Decimal]. *)
Definition np_sqrt_num (x : num) : res num :=
    match x with
    | Dec d => let? r := decimal_sqrt N d in Ok (Dec r)
    | _ => Ok (Float (np_sqrt N (value x)))
    end.

Definition norm_cdf_num (z : num) : res Q :=
    match z with
    | Dec _ => Raise TypeError
    | _ => Ok (norm_cdf N (value z))
    end.

  (** The [try] block of [_calculate_probability_with_funding]:
      [funding_rate] is a [Decimal] and [hours_to_expiry] a float, so the
      product [drift * time_years] is evaluated on a [Decimal] and a float. *)
Definition probability_with_funding_try
      (current_price target_price hours_to_expiry : Q) (side : MarketSide)
      (funding_rate : Q) : res Q :=
    let volatility := Float (_get_implied_volatility current_price
                               hours_to_expiry) in
    let drift := Dec (- funding_rate * 8 * 365) in
    let? time_years := py_div (Float hours_to_expiry) (Int (24 * 365)) in
    let? expected_return := py_mul drift time_years in
    let? denominator := py_add (Int 1) expected_return in
    let? adjusted_target := py_div (Dec target_price) denominator in
    let? difference := py_sub adjusted_target (Dec current_price) in
    let? price_return := py_div difference (Dec current_price) in
    let? sqrt_years := np_sqrt_num time_years in
    let? std_dev := py_mul volatility sqrt_years in
    let? z_score := py_div price_return std_dev in
    let? cdf := norm_cdf_num z_score in
    let probability :=
      if MarketSide_eqb side DOWN then cdf else 1 - cdf in
    let time_bonus := Qmin 0.15 (hours_to_expiry / 168) in
    let probability := probability * (1 + time_bonus) in
    Ok (Qmax 0 (Qmin 1 probability)).

Definition _calculate_probability_with_funding
      (current_price target_price hours_to_expiry : Q) (side : MarketSide)
      (funding_rate : Q) : res Q :=
    rtry (probability_with_funding_try current_price target_price
            hours_to_expiry side funding_rate)
         (fun _ => Ok 0.4).

Definition _calculate_sharpe_with_funding
      (expected_profit max_risk hours funding_rate : Q) : res Q :=
    rtry
      (if Qeqb max_risk 0 then Ok 0
       else
         let? periods_per_year := dec_div (365 * 24) (Qmax 1 hours) in
         let annualized_return := expected_profit * periods_per_year in
         let vol_adjustment := 1 - Qabs funding_rate * 10 in
         let? sqrt_periods := decimal_sqrt N periods_per_year in
         let annualized_std := max_risk * sqrt_periods * vol_adjustment in
         let risk_free := 0.05 in
         dec_div (annualized_return - risk_free) annualized_std)
      (fun _ => Ok 0).

  (** The local variables of [_analyze_market_pair] when the opportunity is
      built. *)
Record evaluation : Type := {
    ev_pm_side : MarketSide;
    ev_pm_price : Q;
    ev_hedge_side : MarketSide;
    ev_pm_quantity : Q;
    ev_hedge_quantity : Q;
    ev_funding_cost_pct : Q;
    ev_profit_calc : profit_calc;
    ev_total_fees : Q;
    ev_expected_profit : Q;
    ev_prob_profit : Q;
    ev_profit_percentage : Q
  }.

Definition evaluate
      (hours_to_expiry : Q) (pm_market : PolymarketMarket)
      (hl_market : SpotMarket) (funding_rate : Q) : res (option evaluation) :=
    let current_price := mid_price hl_market in
    let target_price := target_price pm_market in
    if Qleb hours_to_expiry 0 then Ok None
    else
      let funding_periods := int_of_float (hours_to_expiry / 8) in
      let funding_cost_pct := funding_rate * inject_Z funding_periods in
      if Qltb funding_cost_pct (- funding_threshold) then Ok None
      else
        let? strategy := _determine_strategy current_price target_price
                           pm_market funding_rate in
        match strategy with
        | None => Ok None
        | Some (pm_side, hedge_side) =>
            let pm_price :=
              if MarketSide_eqb pm_side UP then up_price pm_market
              else down_price pm_market in
            if Qgtb pm_price 0.90 then Ok None
            else
              let? positions := _calculate_position_sizes pm_market hl_market
                                  pm_side pm_price funding_cost_pct in
              match positions with
              | None => Ok None
              | Some (pm_quantity, hedge_quantity) =>
                  let? calc := _calculate_expected_profit pm_quantity pm_price
                                 hedge_quantity current_price target_price
                                 hedge_side funding_cost_pct hours_to_expiry in
                  match calc with
                  | None => Ok None
                  | Some calc =>
                      let total_fees :=
                        _calculate_total_fees (pm_quantity * pm_price)
                          (hedge_quantity * current_price) in
                      let expected_profit :=
                        pc_expected_profit calc - total_fees in
                      if Qltb expected_profit min_profit_threshold then Ok None
                      else
                        let? prob_profit :=
                          _calculate_probability_with_funding current_price
                            target_price hours_to_expiry pm_side funding_rate in
                        let? hedge_capital :=
                          dec_div (hedge_quantity * current_price)
                                  (inject_Z (DEFAULT_LEVERAGE config)) in
                        let total_capital :=
                          pm_quantity * pm_price + hedge_capital in
                        let? ratio := dec_div expected_profit total_capital in
                        let profit_percentage := ratio * 100 in
                        Ok (Some {| ev_pm_side := pm_side;
                                    ev_pm_price := pm_price;
                                    ev_hedge_side := hedge_side;
                                    ev_pm_quantity := pm_quantity;
                                    ev_hedge_quantity := hedge_quantity;
                                    ev_funding_cost_pct := funding_cost_pct;
                                    ev_profit_calc := calc;
                                    ev_total_fees := total_fees;
                                    ev_expected_profit := expected_profit;
                                    ev_prob_profit := prob_profit;
                                    ev_profit_percentage := profit_percentage |})
                  end
              end
        end.

Definition build_opportunity
      (pm_market : PolymarketMarket) (hl_market : SpotMarket)
      (hours_to_expiry funding_rate : Q) (ev : evaluation)
      (uuid : string) (now : datetime) : res ArbitrageOpportunity :=
    let? pct := validate_profit_percentage (ev_profit_percentage ev) in
    let opportunity :=
      {| opportunity_id := uuid;
         type := FUTURES_HEDGE;
         polymarket := pm_market;
         spot_market := hl_market;
         polymarket_side := ev_pm_side ev;
         polymarket_price := ev_pm_price ev;
         polymarket_quantity := ev_pm_quantity ev;
         hedge_side := ev_hedge_side ev;
         hedge_price := mid_price hl_market;
         hedge_quantity := ev_hedge_quantity ev;
         expected_profit_usd := ev_expected_profit ev;
         expected_profit_percentage := pct;
         breakeven_price := pc_breakeven_price (ev_profit_calc ev);
         max_risk_usd := pc_max_risk (ev_profit_calc ev);
         probability_of_profit := ev_prob_profit ev;
         sharpe_ratio := None;
         detected_at := now;
         expires_at := expiry_time pm_market |} in
    let? sharpe := _calculate_sharpe_with_funding (ev_expected_profit ev)
                     (pc_max_risk (ev_profit_calc ev)) hours_to_expiry
                     funding_rate in
    Ok (set_sharpe_ratio (Some sharpe) opportunity).

  Local Abbreviation state := (list ArbitrageOpportunity).

Definition _analyze_market_pair
      (pm_market : PolymarketMarket) (hl_market : SpotMarket)
      (funding_rate : Q) : M W state (option ArbitrageOpportunity) :=
    try_except
      (let* t := utcnow in
       let hours_to_expiry := time_to_expiry_hours pm_market t in
       let* r := lift (evaluate hours_to_expiry pm_market hl_market
                         funding_rate) in
       match r with
       | None => ret None
       | Some ev =>
           let* uuid := uuid4 in
           let* now := utcnow in
           let* opportunity :=
             lift (build_opportunity pm_market hl_market hours_to_expiry
                     funding_rate ev uuid now) in
           ret (Some opportunity)
       end)
      (fun _ => ret None).

Fixpoint analyze_markets
      (polymarkets : list PolymarketMarket) (hl_market : SpotMarket)
      (funding_rate : Q) (opportunities : list ArbitrageOpportunity)
    : M W state (list ArbitrageOpportunity) :=
    match polymarkets with
    | [] => ret opportunities
    | pm_market :: rest =>
        let* opportunity :=
          _analyze_market_pair pm_market hl_market funding_rate in
        analyze_markets rest hl_market funding_rate
          (match opportunity with
           | Some o => opportunities ++ [o]
           | None => opportunities
           end)
    end.

  (** As in [Detector.scan_asset], the handler can only run before the first
      append of the asset. *)
Definition scan_asset
      (asset : string) (opportunities : list ArbitrageOpportunity)
    : M W state (list ArbitrageOpportunity) :=
    try_except
      (let* polymarkets := venue (PM_get_markets_by_asset asset)
                             (pm_get_markets_by_asset asset) in
       match polymarkets with
       | [] => ret opportunities
       | _ =>
           let* hl := venue (HL_get_market_data asset)
                        (hl_get_market_data asset) in
           match hl with
           | None => ret opportunities
           | Some hl_market =>
               let* funding_rate := venue (HL_get_funding_rate asset)
                                      (hl_get_funding_rate asset) in
               analyze_markets polymarkets hl_market funding_rate opportunities
           end
       end)
      (fun _ => ret opportunities).

Fixpoint scan_assets
      (assets : list string) (opportunities : list ArbitrageOpportunity)
    : M W state (list ArbitrageOpportunity) :=
    match assets with
    | [] => ret opportunities
    | asset :: rest =>
        let* opportunities' := scan_asset asset opportunities in
        scan_assets rest opportunities'
    end.

  (** The ranking key of [scan_for_opportunities]: the product of two
      [Decimal]s, exact as in [dec_div]. *)
Definition ranking_key (x : ArbitrageOpportunity) : Q :=
    expected_profit_usd x * probability_of_profit x.

Definition scan_for_opportunities (assets : list string)
    : M W state (list ArbitrageOpportunity) :=
    let* found := scan_assets assets [] in
    let opportunities := sort_desc ranking_key found in
    modify_self (fun _ => opportunities) >>
    ret opportunities.

Definition validate_opportunity (opportunity : ArbitrageOpportunity)
    : M W state (bool * list warning) :=
    try_except
      (let* now := utcnow in
       if Z.leb (expires_at opportunity) now
       then ret (false, [Market_has_expired])
       else
         let asset := asset (polymarket opportunity) in
         let* current_hl := venue (HL_get_market_data asset)
                              (hl_get_market_data asset) in
         match current_hl with
         | None => ret (false, [Cannot_fetch_current_Hyperliquid_data])
         | Some current_hl =>
             let* ratio :=
               lift (dec_div (Qabs (mid_price current_hl
                                    - hedge_price opportunity))
                             (hedge_price opportunity)) in
             let price_change_pct := ratio * 100 in
             let warnings :=
               if Qgtb price_change_pct 1
               then [Price_moved price_change_pct] else [] in
             let* current_funding := venue (HL_get_funding_rate asset)
                                       (hl_get_funding_rate asset) in
             let warnings :=
               if Qgtb (Qabs current_funding) funding_threshold
               then warnings ++ [High_funding_rate current_funding]
               else warnings in
             let market := market_id (polymarket opportunity) in
             let outcome := MarketSide_value (polymarket_side opportunity) in
             let* pm_book := venue (PM_get_order_book market outcome)
                               (pm_get_order_book market outcome) in
             let available_liquidity :=
               sum_quantity
                 (if MarketSide_eqb (polymarket_side opportunity) UP
                  then asks pm_book else bids pm_book) in
             let warnings :=
               if Qltb available_liquidity
                       (polymarket_quantity opportunity * 0.8)
               then warnings ++ [Reduced_Polymarket_liquidity
                                   available_liquidity]
               else warnings in
             let* hl_book := venue (HL_get_order_book asset)
                               (hl_get_order_book asset) in
             let hl_liquidity :=
               sum_quantity
                 (firstn 5 (if MarketSide_eqb (hedge_side opportunity) LONG
                            then asks hl_book else bids hl_book)) in
             let warnings :=
               if Qltb hl_liquidity (hedge_quantity opportunity)
               then warnings ++ [Insufficient_Hyperliquid_liquidity
                                   hl_liquidity]
               else warnings in
             let* pm_balance := venue PM_get_balance pm_get_balance in
             let* hl_balance := venue HL_get_balance hl_get_balance in
             let required_pm :=
               polymarket_quantity opportunity * polymarket_price opportunity in
             let* required_hl :=
               lift (dec_div (hedge_quantity opportunity
                              * hedge_price opportunity)
                             (inject_Z (DEFAULT_LEVERAGE config))) in
             if Qltb pm_balance required_pm
             then ret (false, [Insufficient_Polymarket_balance pm_balance])
             else if Qltb hl_balance required_hl
             then ret (false, [Insufficient_Hyperliquid_balance hl_balance])
             else
               let critical_warnings :=
                 filter (fun w => mentions_liquidity_or_funding w = true)
                        warnings in
               let is_valid := Nat.eqb (length critical_warnings) 0 in
               ret (is_valid, warnings)
         end)
      (fun e => ret (false, [Exception_text e])).

End HyperliquidDetector.
End HyperliquidDetector.

(* ================================================================== *)
(** * The state of an execution engine *)
(* ================================================================== *)

(** Both [ExecutionEngine] (executor.py) and [HyperliquidExecutor]
    (hyperliquid_executor.py) keep the attributes below; the last two are
    only touched by the second.  [strategy], [max_concurrent] and
    [max_daily_trades] are set once by [__init__] and are parameters of the
    methods.

    A [Position] is a mutable object shared between the local variable of the
    method that created it, [active_positions] and [position_history]:
    [objects] holds the objects, addressed by [position_id], and the two
    containers hold identifiers.  [uuid4] identifiers never repeat; they are
    numbered here in creation order ([next_id]). *)
Module Engine.

Record t : Type := {
  objects : nat -> Position.t;
  next_id : nat;
  active_positions : list nat;      (* the keys of the dict, oldest first *)
  position_history : list nat;
  daily_trade_count : Z;
  last_trade_reset : Z;             (* a date *)
  execution_times : list Q;
  slippage_history : list Q
}.

Definition set_objects (v : nat -> Position.t) (e : t) : t :=
  {| objects := v; next_id := next_id e;
     active_positions := active_positions e;
     position_history := position_history e;
     daily_trade_count := daily_trade_count e;
     last_trade_reset := last_trade_reset e;
     execution_times := execution_times e;
     slippage_history := slippage_history e |}.

Definition set_next_id (v : nat) (e : t) : t :=
  {| objects := objects e; next_id := v;
     active_positions := active_positions e;
     position_history := position_history e;
     daily_trade_count := daily_trade_count e;
     last_trade_reset := last_trade_reset e;
     execution_times := execution_times e;
     slippage_history := slippage_history e |}.

Definition set_active_positions (v : list nat) (e : t) : t :=
  {| objects := objects e; next_id := next_id e;
     active_positions := v;
     position_history := position_history e;
     daily_trade_count := daily_trade_count e;
     last_trade_reset := last_trade_reset e;
     execution_times := execution_times e;
     slippage_history := slippage_history e |}.

Definition set_position_history (v : list nat) (e : t) : t :=
  {| objects := objects e; next_id := next_id e;
     active_positions := active_positions e;
     position_history := v;
     daily_trade_count := daily_trade_count e;
     last_trade_reset := last_trade_reset e;
     execution_times := execution_times e;
     slippage_history := slippage_history e |}.

Definition set_daily_trade_count (v : Z) (e : t) : t :=
  {| objects := objects e; next_id := next_id e;
     active_positions := active_positions e;
     position_history := position_history e;
     daily_trade_count := v;
     last_trade_reset := last_trade_reset e;
     execution_times := execution_times e;
     slippage_history := slippage_history e |}.

Definition set_last_trade_reset (v : Z) (e : t) : t :=
  {| objects := objects e; next_id := next_id e;
     active_positions := active_positions e;
     position_history := position_history e;
     daily_trade_count := daily_trade_count e;
     last_trade_reset := v;
     execution_times := execution_times e;
     slippage_history := slippage_history e |}.

Definition set_execution_times (v : list Q) (e : t) : t :=
  {| objects := objects e; next_id := next_id e;
     active_positions := active_positions e;
     position_history := position_history e;
     daily_trade_count := daily_trade_count e;
     last_trade_reset := last_trade_reset e;
     execution_times := v;
     slippage_history := slippage_history e |}.

Definition set_slippage_history (v : list Q) (e : t) : t :=
  {| objects := objects e; next_id := next_id e;
     active_positions := active_positions e;
     position_history := position_history e;
     daily_trade_count := daily_trade_count e;
     last_trade_reset := last_trade_reset e;
     execution_times := execution_times e;
     slippage_history := v |}.

(** [__init__]: no position, a zero counter, today's date. *)
Definition init (blank : Position.t) (today : Z) : t :=
  {| objects := fun _ => blank; next_id := 0;
     active_positions := []; position_history := [];
     daily_trade_count := 0; last_trade_reset := today;
     execution_times := []; slippage_history := [] |}.

(** Writing an object. *)
Definition store (id : nat) (p : Position.t) (h : nat -> Position.t)
  : nat -> Position.t :=
  fun i => if Nat.eqb i id then p else h i.

(** [d[k] = v] on the keys of a dict: a new key goes last. *)
Definition dict_set (k : nat) (keys : list nat) : list nat :=
  if decide (k ∈ keys) then keys else keys ++ [k].

(** [del d[k]] on the keys of a dict; [None] stands for [KeyError]. *)
Definition dict_del (k : nat) (keys : list nat) : option (list nat) :=
  if decide (k ∈ keys) then Some (filter (fun i => i ≠ k) keys) else None.

Section Methods.
  Context {W : Type}.

  (** Reading the attributes of a position object. *)
Definition read (id : nat) : M W t Position.t :=
    fun s => (Ok (objects (self s) id), s).

  (** [position.x = v] *)
Definition assign (id : nat) (f : Position.t -> Position.t) : M W t unit :=
    modify_self (fun e => set_objects (store id (f (objects e id)) (objects e)) e).

  (** A new object: [template] carries the constructor's arguments. *)
Definition new_position (template : nat -> Position.t) : M W t nat :=
    fun s =>
      let e := self s in
      let id := next_id e in
      (Ok id,
       mkSt (world s) (calls s)
            (set_next_id (S id) (set_objects (store id (template id) (objects e)) e))).

  (** A number formatted with a [:.2f]-like specification inside an
      f-string: [None] does not support it. *)
Definition format_decimal (v : option Q) : M W t unit :=
    match v with
    | Some _ => ret tt
    | None => raise TypeError
    end.

  (** An attribute that must hold a number for arithmetic or an ordering
      comparison to succeed. *)
Definition number (v : option Q) : M W t Q :=
    match v with
    | Some q => ret q
    | None => raise TypeError
    end.

  (** [del self.active_positions[position.position_id]] *)
Definition del_active (id : nat) : M W t unit :=
    let* e := get_self in
    match dict_del id (active_positions e) with
    | None => raise KeyError
    | Some keys => modify_self (set_active_positions keys)
    end.

End Methods.

End Engine.

Definition slash : Ascii.ascii := Ascii.ascii_of_nat 47.   (* "/" *)
Definition hyphen : Ascii.ascii := Ascii.ascii_of_nat 45.  (* "-" *)

(** [s.split(sep)[0]] *)
Fixpoint split_head (sep : Ascii.ascii) (s : string) : string :=
  match s with
  | EmptyString => EmptyString
  | String c rest =>
      if Ascii.eqb c sep then EmptyString else String c (split_head sep rest)
  end.

(* ================================================================== *)
(** * src/arbitrage/executor.py *)
(* ================================================================== *)

Module Executor.
Import Engine.

Inductive ExecutionStrategy : Type := AGGRESSIVE | PASSIVE | ADAPTIVE.

Section Executor.
  Context {W : Type} `{PolymarketClient W} `{ExchangeClient W} `{Runtime W}.
  Variable config : TradingConfig.
  Variable strategy : ExecutionStrategy.

Definition max_concurrent : Z := MAX_CONCURRENT_POSITIONS config.
Definition max_daily_trades : Z := MAX_DAILY_TRADES config.

  Local Abbreviation Task := (M W Engine.t).

Definition _check_risk_limits : Task bool :=
    let* now := utcnow in
    let* e := get_self in
    (if Z.ltb (last_trade_reset e) (date_of now) then
       modify_self (set_daily_trade_count 0) >>
       let* now' := utcnow in
       modify_self (set_last_trade_reset (date_of now'))
     else ret tt) >>
    let* e := get_self in
    if Z.geb (Z.of_nat (length (active_positions e))) max_concurrent
    then ret false
    else if Z.geb (daily_trade_count e) max_daily_trades
    then ret false
    else ret true.

  (** In the adaptive branch, [opportunity.time_value] is the [Decimal]
      property of models.py, on which [.total_seconds()] is looked up. *)
Definition _should_use_market_orders (opportunity : ArbitrageOpportunity)
    : Task bool :=
    match strategy with
    | AGGRESSIVE => ret true
    | PASSIVE => ret false
    | ADAPTIVE =>
        let* now := utcnow in
        let* seconds :=
          lift (Decimal_total_seconds (time_value opportunity now)) in
        let hours_to_expiry := seconds / 3600 in
        if Qltb hours_to_expiry 2 then ret true
        else if Qgtb (expected_profit_percentage opportunity) 5 then ret true
        else ret false
    end.

  (** [status.get("status") == "closed" or status.get("filled", 0) > 0] *)
Definition order_done (status : OrderStatus) : bool :=
    match os_status status with
    | Some text => String.eqb text "closed"
    | None => false
    end
    || Qgtb (get0 (os_filled status)) 0.

  (** The loop of [_wait_for_fill].  Every turn that does not return sleeps
      one second, so no more than [timeout] turns start before the clock test
      fails: [fuel] is that bound, and running out of it is the deadline. *)
Fixpoint wait_loop (fuel : nat) (start : datetime) (order_id : string)
      (is_polymarket : bool) (asset : string) (timeout : Z) : Task bool :=
    match fuel with
    | O => ret false
    | S fuel' =>
        let* now := utcnow in
        if Qltb (total_seconds (now - start)) (inject_Z timeout) then
          let* outcome :=
            try_except
              (let* status :=
                 if is_polymarket
                 then venue (PM_get_order_status order_id)
                        (pm_get_order_status order_id)
                 else venue (EX_get_order_status order_id asset has_futures)
                        (ex_get_order_status order_id asset has_futures) in
               if order_done status then ret true
               else sleep 1 >> ret false)
              (fun _ => sleep 1 >> ret false) in
          if outcome then ret true
          else wait_loop fuel' start order_id is_polymarket asset timeout
        else ret false
    end.

Definition _wait_for_fill (order_id : string) (is_polymarket : bool)
      (asset : string) (timeout : Z) : Task bool :=
    let* start_time := utcnow in
    wait_loop (S (Z.to_nat timeout)) start_time order_id is_polymarket
      asset timeout.

Definition _execute_polymarket_leg (opportunity : ArbitrageOpportunity)
      (position : nat) (use_market_order : bool) : Task bool :=
    try_except
      (let '(order_type, price) :=
         if use_market_order then (MARKET, None)
         else
           (LIMIT,
            Some (if MarketSide_eqb (polymarket_side opportunity) UP
                  then polymarket_price opportunity * 0.99
                  else polymarket_price opportunity * 1.01)) in
       let order :=
         {| pmo_market_id := market_id (polymarket opportunity);
            pmo_side := polymarket_side opportunity;
            pmo_order_type := order_type;
            pmo_quantity := Some (polymarket_quantity opportunity);
            pmo_price := price |} in
       let* order_id := venue (PM_place_order order) (pm_place_order order) in
       if negb (truthy_str order_id) then ret false
       else
         let oid := default EmptyString order_id in
         assign position (Position.set_polymarket_order_id order_id) >>
         let* filled :=
           _wait_for_fill oid true EmptyString
             (if use_market_order then 30 else 60) in
         if filled then
           let* order_status := venue (PM_get_order_status oid)
                                  (pm_get_order_status oid) in
           assign position
             (Position.set_polymarket_fill
                (Some (get0 (os_price order_status)))
                (Some (get0 (os_filled order_status)))
                (get0 (os_fees order_status))) >>
           ret true
         else
           venue (PM_cancel_order oid) (pm_cancel_order oid) >>
           ret false)
      (fun _ => ret false).

Definition _execute_hedge_leg (opportunity : ArbitrageOpportunity)
      (position : nat) (use_market_order : bool) : Task bool :=
    try_except
      (let asset := asset (polymarket opportunity) in
       (if has_futures
        then venue (EX_set_leverage asset 2) (ex_set_leverage asset 2) >> ret tt
        else ret tt) >>
       let '(order_type, price) :=
         if use_market_order then (MARKET, None)
         else (LIMIT, Some (hedge_price opportunity)) in
       let order :=
         {| exo_asset := asset;
            exo_side := hedge_side opportunity;
            exo_order_type := order_type;
            exo_quantity := Some (hedge_quantity opportunity);
            exo_price := price;
            exo_use_futures := has_futures;
            exo_reduce_only := false |} in
       let* order_id := venue (EX_place_order order) (ex_place_order order) in
       if negb (truthy_str order_id) then ret false
       else
         let oid := default EmptyString order_id in
         assign position (Position.set_hedge_order_id order_id) >>
         let* filled :=
           _wait_for_fill oid false asset
             (if use_market_order then 30 else 60) in
         if filled then
           let* order_status :=
             venue (EX_get_order_status oid asset has_futures)
               (ex_get_order_status oid asset has_futures) in
           assign position
             (Position.set_hedge_fill
                (Some (get0 (os_price order_status)))
                (Some (get0 (os_filled order_status)))
                (get0 (os_fee_cost order_status))) >>
           ret true
         else
           venue (EX_cancel_order oid asset has_futures)
             (ex_cancel_order oid asset has_futures) >>
           ret false)
      (fun _ => ret false).

Definition _rollback_position (position : nat) : Task unit :=
    try_except
      (let* p := read position in
       (if truthy_str (Position.polymarket_order_id p) then
          if truthy_dec (Position.polymarket_entry_price p) then
            let order :=
              {| pmo_market_id := Position.opportunity_id p;
                 pmo_side :=
                   if MarketSide_eqb (Position.polymarket_side p) UP
                   then DOWN else UP;
                 pmo_order_type := MARKET;
                 pmo_quantity := Position.polymarket_quantity p;
                 pmo_price := None |} in
            venue (PM_place_order order) (pm_place_order order) >> ret tt
          else
            let oid := default EmptyString (Position.polymarket_order_id p) in
            venue (PM_cancel_order oid) (pm_cancel_order oid) >> ret tt
        else ret tt) >>
       let* p := read position in
       (if truthy_str (Position.hedge_order_id p) then
          let asset := split_head slash (Position.hedge_symbol p) in
          if truthy_dec (Position.hedge_entry_price p) then
            let close_side :=
              if MarketSide_eqb (Position.hedge_side p) LONG
              then SHORT else LONG in
            let order :=
              {| exo_asset := asset;
                 exo_side := close_side;
                 exo_order_type := MARKET;
                 exo_quantity := Position.hedge_quantity p;
                 exo_price := None;
                 exo_use_futures := has_futures;
                 exo_reduce_only := true |} in
            venue (EX_place_order order) (ex_place_order order) >> ret tt
          else
            let oid := default EmptyString (Position.hedge_order_id p) in
            venue (EX_cancel_order oid asset has_futures)
              (ex_cancel_order oid asset has_futures) >> ret tt
        else ret tt) >>
       assign position (Position.set_status CANCELLED))
      (fun _ => assign position (Position.set_status ERROR)).

Definition _calculate_stop_loss (entry_price : Q) (side : MarketSide) : Q :=
    let stop_loss_pct := stop_loss_decimal config in
    if MarketSide_eqb side LONG
    then entry_price * (1 - stop_loss_pct)
    else entry_price * (1 + stop_loss_pct).

Definition _calculate_take_profit (entry_price : Q) (side : MarketSide)
      (target_price : Q) : Q :=
    if MarketSide_eqb side LONG
    then entry_price + (target_price - entry_price) * 0.5
    else entry_price - (entry_price - target_price) * 0.5.

  (** The constructor call of [execute_opportunity]. *)
Definition fresh_position (opportunity : ArbitrageOpportunity)
      (now : datetime) (id : nat) : Position.t :=
    {| Position.position_id := id;
       Position.opportunity_id := opportunity_id opportunity;
       Position.status := PENDING;
       Position.polymarket_order_id := None;
       Position.polymarket_side := polymarket_side opportunity;
       Position.polymarket_entry_price := None;
       Position.polymarket_quantity := None;
       Position.polymarket_fees := 0;
       Position.hedge_order_id := None;
       Position.hedge_exchange := exchange_name;
       Position.hedge_symbol := get_symbol (asset (polymarket opportunity));
       Position.hedge_side := hedge_side opportunity;
       Position.hedge_entry_price := None;
       Position.hedge_quantity := None;
       Position.hedge_fees := 0;
       Position.stop_loss_price := None;
       Position.take_profit_price := None;
       Position.max_loss_usd := max_risk_usd opportunity;
       Position.opened_at := now;
       Position.closed_at := None;
       Position.expires_at := expires_at opportunity;
       Position.realized_pnl := 0;
       Position.unrealized_pnl := 0 |}.

  (** The two leg tasks, created together and gathered.  They write disjoint
      attributes of the position; their awaits are taken one task after the
      other. *)
Definition run_legs (opportunity : ArbitrageOpportunity) (position : nat)
      (use_market_orders : bool) : Task (bool * bool) :=
    let* pm_success :=
      _execute_polymarket_leg opportunity position use_market_orders in
    let* hedge_success :=
      _execute_hedge_leg opportunity position use_market_orders in
    ret (pm_success, hedge_success).

  (** What follows the two legs when both succeeded. *)
Definition open_position (opportunity : ArbitrageOpportunity)
      (position : nat) : Task (option nat) :=
    let* p := read position in
    let* entry := number (Position.hedge_entry_price p) in
    assign position
      (Position.set_stop_loss_price
         (Some (_calculate_stop_loss entry (Position.hedge_side p)))) >>
    assign position
      (Position.set_take_profit_price
         (Some (_calculate_take_profit entry (Position.hedge_side p)
                  (breakeven_price opportunity)))) >>
    assign position (Position.set_status OPEN) >>
    modify_self (fun e =>
      set_active_positions (dict_set position (active_positions e)) e) >>
    modify_self (fun e =>
      set_daily_trade_count (daily_trade_count e + 1)%Z e) >>
    let* p := read position in
    format_decimal (Position.polymarket_quantity p) >>
    format_decimal (Position.polymarket_entry_price p) >>
    format_decimal (Position.hedge_quantity p) >>
    format_decimal (Position.hedge_entry_price p) >>
    ret (Some position).

  (** The [try] block of [execute_opportunity]. *)
Definition execute_try (opportunity : ArbitrageOpportunity)
      (position : nat) : Task (option nat) :=
    let* use_market_orders := _should_use_market_orders opportunity in
    let* legs := run_legs opportunity position use_market_orders in
    let '(pm_success, hedge_success) := legs in
    if negb pm_success || negb hedge_success then
      _rollback_position position >> ret None
    else open_position opportunity position.

  (** The result is the position handed to the caller, if any. *)
Definition execute_opportunity (opportunity : ArbitrageOpportunity)
    : Task (option nat) :=
    let* allowed := _check_risk_limits in
    if negb allowed then ret None
    else
      let* now := utcnow in
      let* position := new_position (fresh_position opportunity now) in
      try_except
        (execute_try opportunity position)
        (fun _ => _rollback_position position >> ret None).

  (** The first statement of the [try] block of [close_position]: the hedge
      is closed if the position holds any. *)
Definition close_hedge (position : nat) : Task unit :=
    let* p := read position in
    let* quantity := number (Position.hedge_quantity p) in
    if Qgtb quantity 0 then
      let asset := split_head slash (Position.hedge_symbol p) in
      let close_side :=
        if MarketSide_eqb (Position.hedge_side p) LONG
        then SHORT else LONG in
      let order :=
        {| exo_asset := asset;
           exo_side := close_side;
           exo_order_type := MARKET;
           exo_quantity := Position.hedge_quantity p;
           exo_price := None;
           exo_use_futures := has_futures;
           exo_reduce_only := true |} in
      venue (EX_place_order order) (ex_place_order order) >> ret tt
    else ret tt.

  (** The [try] block of [close_position]. *)
Definition close_try (position : nat) : Task unit :=
    close_hedge position >>
    assign position (Position.set_status CLOSED) >>
    let* now := utcnow in
    assign position (Position.set_closed_at (Some now)) >>
    modify_self (fun e =>
      set_position_history (position_history e ++ [position]) e) >>
    del_active position.

Definition close_position (position : nat) : Task unit :=
    try_except
      (close_try position)
      (fun _ => assign position (Position.set_status ERROR)).

  (** The body of the [for] loop of [monitor_positions] for one entry of the
      snapshot [list(self.active_positions.items())]. *)
Definition monitor_position (position : nat) : Task unit :=
    let* p := read position in
    if negb (PositionStatus_eqb (Position.status p) OPEN) then ret tt
    else
      let* now := utcnow in
      if Z.geb now (Position.expires_at p) then close_position position
      else
        let asset := split_head slash (Position.hedge_symbol p) in
        let* market_data := venue (EX_get_market_data asset true)
                              (ex_get_market_data asset true) in
        match market_data with
        | None => ret tt
        | Some market_data =>
            let current_price := mid_price market_data in
            let* quantity := number (Position.hedge_quantity p) in
            let* entry := number (Position.hedge_entry_price p) in
            let hedge_pnl :=
              if MarketSide_eqb (Position.hedge_side p) LONG
              then quantity * (current_price - entry)
              else quantity * (entry - current_price) in
            assign position (Position.set_unrealized_pnl hedge_pnl) >>
            let* p := read position in
            let* stop := number (Position.stop_loss_price p) in
            (if MarketSide_eqb (Position.hedge_side p) LONG
             then (if Qleb current_price stop
                   then close_position position else ret tt)
             else (if Qgeb current_price stop
                   then close_position position else ret tt)) >>
            let* p := read position in
            let* take := number (Position.take_profit_price p) in
            if MarketSide_eqb (Position.hedge_side p) LONG
            then (if Qgeb current_price take
                  then close_position position else ret tt)
            else (if Qleb current_price take
                  then close_position position else ret tt)
        end.

Fixpoint monitor_each (snapshot : list nat) : Task unit :=
    match snapshot with
    | [] => ret tt
    | position :: rest => monitor_position position >> monitor_each rest
    end.

  (** One turn of the [while True] loop of [monitor_positions]. *)
Definition monitor_turn : Task unit :=
    try_except
      (let* e := get_self in
       monitor_each (active_positions e) >>
       sleep 5)
      (fun _ => sleep 10).

End Executor.
End Executor.

(* ================================================================== *)
(** * src/arbitrage/hyperliquid_executor.py *)
(* ================================================================== *)

Module HyperliquidExecutor.
Import Engine.

Inductive ExecutionStrategy : Type := AGGRESSIVE | PASSIVE | ADAPTIVE | TWAP.

Definition ExecutionStrategy_eqb (a b : ExecutionStrategy) : bool :=
  match a, b with
  | AGGRESSIVE, AGGRESSIVE | PASSIVE, PASSIVE
  | ADAPTIVE, ADAPTIVE | TWAP, TWAP => true
  | _, _ => false
  end.

(** The dictionary built by [_create_execution_plan]. *)
Record ExecutionPlan : Type := {
  use_market_orders : bool;
  polymarket_chunks : Z;
  hyperliquid_chunks : Z;
  leverage : Z;
  post_only : bool;
  time_limit : Z
}.

Definition with_market_orders (v : bool) (limit : Z) (p : ExecutionPlan)
  : ExecutionPlan :=
  {| use_market_orders := v; polymarket_chunks := polymarket_chunks p;
     hyperliquid_chunks := hyperliquid_chunks p; leverage := leverage p;
     post_only := post_only p; time_limit := limit |}.

Definition with_post_only (v : bool) (p : ExecutionPlan) : ExecutionPlan :=
  {| use_market_orders := use_market_orders p;
     polymarket_chunks := polymarket_chunks p;
     hyperliquid_chunks := hyperliquid_chunks p; leverage := leverage p;
     post_only := v; time_limit := time_limit p |}.

Definition with_chunks (pm hl : Z) (p : ExecutionPlan) : ExecutionPlan :=
  {| use_market_orders := use_market_orders p;
     polymarket_chunks := pm; hyperliquid_chunks := hl;
     leverage := leverage p; post_only := post_only p;
     time_limit := time_limit p |}.

Definition with_leverage (v : Z) (p : ExecutionPlan) : ExecutionPlan :=
  {| use_market_orders := use_market_orders p;
     polymarket_chunks := polymarket_chunks p;
     hyperliquid_chunks := hyperliquid_chunks p; leverage := v;
     post_only := post_only p; time_limit := time_limit p |}.

Section HyperliquidExecutor.
  Context {W : Type} `{PolymarketClient W} `{HyperliquidClient W} `{Runtime W}.
  Variable config : TradingConfig.
  Variable strategy : ExecutionStrategy.

Definition max_concurrent : Z := MAX_CONCURRENT_POSITIONS config.
Definition max_daily_trades : Z := MAX_DAILY_TRADES config.

  Local Abbreviation Task := (M W Engine.t).

Definition _check_risk_limits : Task bool :=
    let* now := utcnow in
    let* e := get_self in
    (if Z.ltb (last_trade_reset e) (date_of now) then
       modify_self (set_daily_trade_count 0) >>
       let* now' := utcnow in
       modify_self (set_last_trade_reset (date_of now'))
     else ret tt) >>
    let* e := get_self in
    if Z.geb (Z.of_nat (length (active_positions e))) max_concurrent
    then ret false
    else if Z.geb (daily_trade_count e) max_daily_trades
    then ret false
    else ret true.

Definition _check_market_hours : bool := true.

  (** [sum(p.hedge_quantity * p.hedge_entry_price for p in
      self.active_positions.values() if p.hedge_symbol.startswith(asset))] *)
Fixpoint existing_exposure (asset : string) (objects : nat -> Position.t)
      (keys : list nat) (total : Q) : res Q :=
    match keys with
    | [] => Ok total
    | k :: rest =>
        let p := objects k in
        if String.prefix asset (Position.hedge_symbol p) then
          match Position.hedge_quantity p, Position.hedge_entry_price p with
          | Some quantity, Some entry =>
              existing_exposure asset objects rest (total + quantity * entry)
          | _, _ => Raise TypeError
          end
        else existing_exposure asset objects rest total
    end.

Definition _pre_execution_checks (opportunity : ArbitrageOpportunity)
    : Task bool :=
    let* allowed := _check_risk_limits in
    if negb allowed then ret false
    else if negb _check_market_hours then ret false
    else
      let asset := asset (polymarket opportunity) in
      let* funding_rate := venue (HL_get_funding_rate asset)
                             (hl_get_funding_rate asset) in
      if Qgtb (Qabs funding_rate) (FUNDING_RATE_THRESHOLD config * 2)
      then ret false
      else
        let* e := get_self in
        let* exposure :=
          lift (existing_exposure asset (objects e) (active_positions e) 0) in
        if Qgtb exposure (MAX_POSITION_SIZE_USD config * 2) then ret false
        else ret true.

Definition initial_plan : ExecutionPlan :=
    {| use_market_orders := false;
       polymarket_chunks := 1;
       hyperliquid_chunks := 1;
       leverage := DEFAULT_LEVERAGE config;
       post_only := false;
       time_limit := 60 |}.

  (** [_create_execution_plan] once the clock has been read. *)
Definition plan_for (opportunity : ArbitrageOpportunity) (now : datetime)
    : ExecutionPlan :=
    let plan := initial_plan in
    let hours_to_expiry :=
      total_seconds (expires_at opportunity - now) / 3600 in
    if ExecutionStrategy_eqb strategy AGGRESSIVE || Qltb hours_to_expiry 2
    then with_market_orders true 30 plan
    else if ExecutionStrategy_eqb strategy PASSIVE
    then with_post_only true (with_market_orders false 120 plan)
    else if ExecutionStrategy_eqb strategy TWAP
    then
      let plan :=
        if Qgtb (polymarket_quantity opportunity
                 * polymarket_price opportunity) 1000
        then with_chunks 3 (hyperliquid_chunks plan) plan else plan in
      if Qgtb (hedge_quantity opportunity * hedge_price opportunity) 5000
      then with_chunks (polymarket_chunks plan) 5 plan else plan
    else
      if Qltb hours_to_expiry 4
      then with_market_orders true (time_limit plan) plan
      else if Qgtb (expected_profit_percentage opportunity) 5
      then with_leverage
             (Z.min (MAX_LEVERAGE config) (DEFAULT_LEVERAGE config + 2))
             (with_market_orders true (time_limit plan) plan)
      else plan.

Definition _create_execution_plan (opportunity : ArbitrageOpportunity)
    : Task ExecutionPlan :=
    let* now := utcnow in
    ret (plan_for opportunity now).

  (** The loop of [_wait_for_fill], bounded as in executor.py.  A call for
      the Hyperliquid side returns at the first turn. *)
Fixpoint wait_loop (fuel : nat) (start : datetime) (order_id : string)
      (is_polymarket : bool) (timeout : Z) : Task bool :=
    match fuel with
    | O => ret false
    | S fuel' =>
        let* now := utcnow in
        if Qltb (total_seconds (now - start)) (inject_Z timeout) then
          let* outcome :=
            try_except
              (if is_polymarket then
                 let* status := venue (PM_get_order_status order_id)
                                  (pm_get_order_status order_id) in
                 if Qgtb (get0 (os_filled status)) 0 then ret true
                 else sleep 1 >> ret false
               else ret true)
              (fun _ => sleep 1 >> ret false) in
          if outcome then ret true
          else wait_loop fuel' start order_id is_polymarket timeout
        else ret false
    end.

Definition _wait_for_fill (order_id : string) (is_polymarket : bool)
      (timeout : Z) : Task bool :=
    let* start := utcnow in
    wait_loop (S (Z.to_nat timeout)) start order_id is_polymarket timeout.

Definition _execute_polymarket_leg (opportunity : ArbitrageOpportunity)
      (position : nat) (exec_plan : ExecutionPlan) : Task bool :=
    try_except
      (let order_type :=
         if use_market_orders exec_plan then MARKET else LIMIT in
       let price :=
         match order_type with
         | LIMIT =>
             Some (if MarketSide_eqb (polymarket_side opportunity) UP
                   then polymarket_price opportunity * 1.005
                   else polymarket_price opportunity * 0.995)
         | _ => None
         end in
       let order :=
         {| pmo_market_id := market_id (polymarket opportunity);
            pmo_side := polymarket_side opportunity;
            pmo_order_type := order_type;
            pmo_quantity := Some (polymarket_quantity opportunity);
            pmo_price := price |} in
       let* order_id := venue (PM_place_order order) (pm_place_order order) in
       if negb (truthy_str order_id) then ret false
       else
         let oid := default EmptyString order_id in
         assign position (Position.set_polymarket_order_id order_id) >>
         let* filled := _wait_for_fill oid true (time_limit exec_plan / 2)%Z in
         if filled then
           let* order_status := venue (PM_get_order_status oid)
                                  (pm_get_order_status oid) in
           assign position
             (Position.set_polymarket_fill
                (Some (get0 (os_price order_status)))
                (Some (get0 (os_filled order_status)))
                (get0 (os_fees order_status))) >>
           ret true
         else
           venue (PM_cancel_order oid) (pm_cancel_order oid) >>
           ret false)
      (fun _ => ret false).

  (** The search through [get_positions()] for the asset's entry. *)
Fixpoint find_coin (asset : string) (positions : list HLPosition)
    : option HLPosition :=
    match positions with
    | [] => None
    | pos :: rest =>
        if String.eqb (coin pos) asset then Some pos
        else find_coin asset rest
    end.

Definition _execute_hyperliquid_leg (opportunity : ArbitrageOpportunity)
      (position : nat) (exec_plan : ExecutionPlan) : Task bool :=
    try_except
      (let order_type :=
         if use_market_orders exec_plan then MARKET else LIMIT in
       let asset := asset (polymarket opportunity) in
       let order :=
         {| hlo_asset := asset;
            hlo_side := hedge_side opportunity;
            hlo_order_type := order_type;
            hlo_quantity := Some (hedge_quantity opportunity);
            hlo_price :=
              match order_type with
              | LIMIT => Some (hedge_price opportunity)
              | _ => None
              end;
            hlo_leverage := leverage exec_plan;
            hlo_post_only := post_only exec_plan |} in
       let* order_id := venue (HL_place_order order) (hl_place_order order) in
       if negb (truthy_str order_id) then ret false
       else
         assign position (Position.set_hedge_order_id order_id) >>
         sleep 0.5 >>
         let* positions := venue HL_get_positions hl_get_positions in
         match find_coin asset positions with
         | Some pos =>
             let quantity := Qabs (size pos) in
             assign position
               (Position.set_hedge_fill
                  (Some (entry_price pos)) (Some quantity)
                  (hyperliquid_fees_taker * quantity * entry_price pos)) >>
             ret true
         | None => ret false
         end)
      (fun _ => ret false).

  (** A task created with [asyncio.create_task] and looked at after
      [asyncio.wait(..., timeout=...)]: [Raise CancelledError] is a task the
      deadline found pending and cancelled at its current await. *)
Definition task {A} (m : Task A) : Task (res A) :=
    fun s => let '(r, s') := m s in (Ok r, s').

  (** [t.done() and await t] *)
Definition done_and_result (r : res bool) : Task bool :=
    match r with
    | Ok b => ret b
    | Raise CancelledError => ret false
    | Raise e => raise e
    end.

  (** The two tasks write disjoint attributes of the position; their awaits
      are taken one task after the other. *)
Definition _execute_parallel (opportunity : ArbitrageOpportunity)
      (position : nat) (exec_plan : ExecutionPlan) : Task bool :=
    try_except
      (let asset := asset (polymarket opportunity) in
       venue (HL_set_leverage asset (leverage exec_plan))
         (hl_set_leverage asset (leverage exec_plan)) >>
       let* pm_task :=
         task (_execute_polymarket_leg opportunity position exec_plan) in
       let* hl_task :=
         task (_execute_hyperliquid_leg opportunity position exec_plan) in
       let* pm_success := done_and_result pm_task in
       if pm_success then done_and_result hl_task else ret false)
      (fun _ => ret false).

  (** The chunk loop of [_execute_twap], from index [i]. *)
Fixpoint twap_chunks (remaining : nat) (i max_chunks : Z)
      (opportunity : ArbitrageOpportunity) (exec_plan : ExecutionPlan)
      (pm_chunk_size hl_chunk_size interval : Q)
      (pm_filled hl_filled : Q) : Task (Q * Q) :=
    match remaining with
    | O => ret (pm_filled, hl_filled)
    | S remaining' =>
        let order_type :=
          if negb (use_market_orders exec_plan) then LIMIT else MARKET in
        let* pm_filled :=
          if Z.ltb i (polymarket_chunks exec_plan) then
            let order :=
              {| pmo_market_id := market_id (polymarket opportunity);
                 pmo_side := polymarket_side opportunity;
                 pmo_order_type := order_type;
                 pmo_quantity := Some pm_chunk_size;
                 pmo_price := Some (polymarket_price opportunity * 1.01) |} in
            let* pm_order := venue (PM_place_order order)
                               (pm_place_order order) in
            ret (if truthy_str pm_order then pm_filled + pm_chunk_size
                 else pm_filled)
          else ret pm_filled in
        let* hl_filled :=
          if Z.ltb i (hyperliquid_chunks exec_plan) then
            let order :=
              {| hlo_asset := asset (polymarket opportunity);
                 hlo_side := hedge_side opportunity;
                 hlo_order_type := order_type;
                 hlo_quantity := Some hl_chunk_size;
                 hlo_price := Some (hedge_price opportunity);
                 hlo_leverage := leverage exec_plan;
                 hlo_post_only := post_only exec_plan |} in
            let* hl_order := venue (HL_place_order order)
                               (hl_place_order order) in
            ret (if truthy_str hl_order then hl_filled + hl_chunk_size
                 else hl_filled)
          else ret hl_filled in
        (if Z.ltb i (max_chunks - 1) then sleep interval else ret tt) >>
        twap_chunks remaining' (i + 1)%Z max_chunks opportunity exec_plan
          pm_chunk_size hl_chunk_size interval pm_filled hl_filled
    end.

Definition _execute_twap (opportunity : ArbitrageOpportunity)
      (position : nat) (exec_plan : ExecutionPlan) : Task bool :=
    try_except
      (let asset := asset (polymarket opportunity) in
       venue (HL_set_leverage asset (leverage exec_plan))
         (hl_set_leverage asset (leverage exec_plan)) >>
       let* pm_chunk_size :=
         lift (dec_div (polymarket_quantity opportunity)
                 (inject_Z (polymarket_chunks exec_plan))) in
       let* hl_chunk_size :=
         lift (dec_div (hedge_quantity opportunity)
                 (inject_Z (hyperliquid_chunks exec_plan))) in
       let max_chunks :=
         Z.max (polymarket_chunks exec_plan) (hyperliquid_chunks exec_plan) in
       let* interval :=
         lift (float_div (inject_Z (time_limit exec_plan))
                 (inject_Z max_chunks)) in
       let* filled :=
         twap_chunks (Z.to_nat max_chunks) 0 max_chunks opportunity exec_plan
           pm_chunk_size hl_chunk_size interval 0 0 in
       let '(pm_filled, hl_filled) := filled in
       assign position (Position.set_polymarket_quantity (Some pm_filled)) >>
       assign position (Position.set_hedge_quantity (Some hl_filled)) >>
       let* pm_fill_rate :=
         lift (dec_div pm_filled (polymarket_quantity opportunity)) in
       let* hl_fill_rate :=
         lift (dec_div hl_filled (hedge_quantity opportunity)) in
       ret (Qgtb pm_fill_rate 0.8 && Qgtb hl_fill_rate 0.8))
      (fun _ => ret false).

Definition _set_risk_parameters (position : nat)
      (opportunity : ArbitrageOpportunity) : Task unit :=
    try_except
      (let leverage := inject_Z (DEFAULT_LEVERAGE config) in
       let* adjusted_stop_pct :=
         lift (dec_div (stop_loss_decimal config) leverage) in
       let* p := read position in
       let* entry := number (Position.hedge_entry_price p) in
       assign position
         (Position.set_stop_loss_price
            (Some (if MarketSide_eqb (Position.hedge_side p) LONG
                   then entry * (1 - adjusted_stop_pct)
                   else entry * (1 + adjusted_stop_pct)))) >>
       assign position
         (Position.set_take_profit_price
            (Some (breakeven_price opportunity * 0.95))))
      (fun _ => ret tt).

  (** The handler is a bare [except:]. *)
Definition _calculate_slippage (position : nat)
      (opportunity : ArbitrageOpportunity) : Task Q :=
    try_except_all
      (let* p := read position in
       let* pm_entry := number (Position.polymarket_entry_price p) in
       let* pm_slippage :=
         lift (dec_div (Qabs (pm_entry - polymarket_price opportunity))
                 (polymarket_price opportunity)) in
       let* hl_entry := number (Position.hedge_entry_price p) in
       let* hl_slippage :=
         lift (dec_div (Qabs (hl_entry - hedge_price opportunity))
                 (hedge_price opportunity)) in
       ret ((pm_slippage + hl_slippage) / 2))
      (fun _ => ret 0).

Definition _rollback_position (position : nat) : Task unit :=
    try_except
      (let* p := read position in
       (match Position.polymarket_quantity p with
        | Some quantity =>
            if negb (Qeqb quantity 0) && Qgtb quantity 0 then
              let close_side :=
                if MarketSide_eqb (Position.polymarket_side p) UP
                then DOWN else UP in
              let order :=
                {| pmo_market_id := Position.opportunity_id p;
                   pmo_side := close_side;
                   pmo_order_type := MARKET;
                   pmo_quantity := Position.polymarket_quantity p;
                   pmo_price := None |} in
              venue (PM_place_order order) (pm_place_order order) >> ret tt
            else ret tt
        | None => ret tt
        end) >>
       let* p := read position in
       (match Position.hedge_quantity p with
        | Some quantity =>
            if negb (Qeqb quantity 0) && Qgtb quantity 0 then
              let asset := split_head hyphen (Position.hedge_symbol p) in
              venue (HL_close_position asset) (hl_close_position asset) >>
              ret tt
            else ret tt
        | None => ret tt
        end) >>
       assign position (Position.set_status CANCELLED))
      (fun _ => assign position (Position.set_status ERROR)).

  (** The constructor call of [execute_opportunity]. *)
Definition fresh_position (opportunity : ArbitrageOpportunity)
      (now : datetime) (id : nat) : Position.t :=
    {| Position.position_id := id;
       Position.opportunity_id := opportunity_id opportunity;
       Position.status := PENDING;
       Position.polymarket_order_id := None;
       Position.polymarket_side := polymarket_side opportunity;
       Position.polymarket_entry_price := None;
       Position.polymarket_quantity := None;
       Position.polymarket_fees := 0;
       Position.hedge_order_id := None;
       Position.hedge_exchange := "hyperliquid";
       Position.hedge_symbol :=
         (asset (polymarket opportunity) ++ "-USD-PERP")%string;
       Position.hedge_side := hedge_side opportunity;
       Position.hedge_entry_price := None;
       Position.hedge_quantity := None;
       Position.hedge_fees := 0;
       Position.stop_loss_price := None;
       Position.take_profit_price := None;
       Position.max_loss_usd := max_risk_usd opportunity;
       Position.opened_at := now;
       Position.closed_at := None;
       Position.expires_at := expires_at opportunity;
       Position.realized_pnl := 0;
       Position.unrealized_pnl := 0 |}.

  (** The strategy dispatch of [execute_opportunity]. *)
Definition run_legs (opportunity : ArbitrageOpportunity) (position : nat)
      (exec_plan : ExecutionPlan) : Task bool :=
    if ExecutionStrategy_eqb strategy TWAP
    then _execute_twap opportunity position exec_plan
    else _execute_parallel opportunity position exec_plan.

  (** What follows the legs when they succeeded. *)
Definition open_position (opportunity : ArbitrageOpportunity)
      (position : nat) (start_time : datetime) : Task (option nat) :=
    _set_risk_parameters position opportunity >>
    assign position (Position.set_status OPEN) >>
    modify_self (fun e =>
      set_active_positions (dict_set position (active_positions e)) e) >>
    modify_self (fun e =>
      set_daily_trade_count (daily_trade_count e + 1)%Z e) >>
    let* now := utcnow in
    let execution_time := total_seconds (now - start_time) in
    modify_self (fun e =>
      set_execution_times (execution_times e ++ [execution_time]) e) >>
    let* slippage := _calculate_slippage position opportunity in
    modify_self (fun e =>
      set_slippage_history (slippage_history e ++ [slippage]) e) >>
    let* p := read position in
    format_decimal (Position.polymarket_quantity p) >>
    format_decimal (Position.polymarket_entry_price p) >>
    format_decimal (Position.hedge_quantity p) >>
    format_decimal (Position.hedge_entry_price p) >>
    ret (Some position).

  (** The [try] block of [execute_opportunity]. *)
Definition execute_try (opportunity : ArbitrageOpportunity)
      (position : nat) (start_time : datetime) : Task (option nat) :=
    let* exec_plan := _create_execution_plan opportunity in
    let* success := run_legs opportunity position exec_plan in
    if negb success then _rollback_position position >> ret None
    else open_position opportunity position start_time.

Definition execute_opportunity (opportunity : ArbitrageOpportunity)
    : Task (option nat) :=
    let* start_time := utcnow in
    let* allowed := _pre_execution_checks opportunity in
    if negb allowed then ret None
    else
      let* now := utcnow in
      let* position := new_position (fresh_position opportunity now) in
      try_except
        (execute_try opportunity position start_time)
        (fun _ => _rollback_position position >> ret None).

  (** The first statement of the [try] block of [close_position]: the
      Hyperliquid position is closed if the position holds any. *)
Definition close_hedge (position : nat) : Task unit :=
    let* p := read position in
    let* quantity := number (Position.hedge_quantity p) in
    if Qgtb quantity 0 then
      let asset := split_head hyphen (Position.hedge_symbol p) in
      venue (HL_close_position asset) (hl_close_position asset) >> ret tt
    else ret tt.

  (** The [try] block of [close_position]. *)
Definition close_try (position : nat) : Task unit :=
    close_hedge position >>
    assign position (Position.set_status CLOSED) >>
    let* now := utcnow in
    assign position (Position.set_closed_at (Some now)) >>
    modify_self (fun e =>
      set_position_history (position_history e ++ [position]) e) >>
    del_active position.

Definition close_position (position : nat) : Task unit :=
    try_except
      (close_try position)
      (fun _ => assign position (Position.set_status ERROR)).

  (** The body of the [for] loop of [monitor_positions] for one entry of the
      snapshot. *)
Definition monitor_position (position : nat) : Task unit :=
    let* p := read position in
    if negb (PositionStatus_eqb (Position.status p) OPEN) then ret tt
    else
      let* now := utcnow in
      if Z.geb now (Position.expires_at p) then close_position position
      else
        let asset := split_head hyphen (Position.hedge_symbol p) in
        let* market := venue (HL_get_market_data asset)
                         (hl_get_market_data asset) in
        match market with
        | None => ret tt
        | Some market =>
            let current_price := mid_price market in
            let* quantity := number (Position.hedge_quantity p) in
            let* entry := number (Position.hedge_entry_price p) in
            let* hedge_pnl :=
              if MarketSide_eqb (Position.hedge_side p) LONG then
                let hedge_pnl := quantity * (current_price - entry) in
                let* stop := number (Position.stop_loss_price p) in
                (if Qleb current_price stop then close_position position
                 else
                   let* take := number (Position.take_profit_price p) in
                   if Qgeb current_price take then close_position position
                   else ret tt) >>
                ret hedge_pnl
              else
                let hedge_pnl := quantity * (entry - current_price) in
                let* stop := number (Position.stop_loss_price p) in
                (if Qgeb current_price stop then close_position position
                 else
                   let* take := number (Position.take_profit_price p) in
                   if Qleb current_price take then close_position position
                   else ret tt) >>
                ret hedge_pnl in
            assign position (Position.set_unrealized_pnl hedge_pnl) >>
            let* funding_rate := venue (HL_get_funding_rate asset)
                                   (hl_get_funding_rate asset) in
            if Qgtb (Qabs funding_rate) (FUNDING_RATE_THRESHOLD config * 3)
            then close_position position
            else ret tt
        end.

Fixpoint monitor_each (snapshot : list nat) : Task unit :=
    match snapshot with
    | [] => ret tt
    | position :: rest => monitor_position position >> monitor_each rest
    end.

  (** One turn of the [while True] loop of [monitor_positions]. *)
Definition monitor_turn : Task unit :=
    try_except
      (let* e := get_self in
       monitor_each (active_positions e) >>
       sleep 5)
      (fun _ => sleep 10).

End HyperliquidExecutor.
End HyperliquidExecutor.

(* ================================================================== *)
(** * src/models.py: the performance metrics *)
(* ================================================================== *)

Module PerformanceMetrics.

Record t : Type := {
  total_trades : Z;
  winning_trades : Z;
  losing_trades : Z;
  total_pnl : Q;
  best_trade : Q;
  worst_trade : Q;
  average_trade : Q;
  win_rate : Q;
  profit_factor : Q;
  sharpe_ratio : Q;
  max_drawdown : Q;
  total_volume : Q;
  total_fees_paid : Q;
  start_date : datetime;
  last_updated : datetime
}.

(** The attributes [update_metrics] assigns, gathered so that one function
    rebuilds the record. *)
Definition update (trades wins losses : Z)
    (pnl best worst average rate fees : Q) (updated : datetime) (m : t) : t :=
  {| total_trades := trades; winning_trades := wins; losing_trades := losses;
     total_pnl := pnl; best_trade := best; worst_trade := worst;
     average_trade := average; win_rate := rate;
     profit_factor := profit_factor m; sharpe_ratio := sharpe_ratio m;
     max_drawdown := max_drawdown m; total_volume := total_volume m;
     total_fees_paid := fees;
     start_date := start_date m; last_updated := updated |}.

Definition set_total_trades (v : Z) (m : t) : t :=
  update v (winning_trades m) (losing_trades m) (total_pnl m) (best_trade m)
    (worst_trade m) (average_trade m) (win_rate m) (total_fees_paid m)
    (last_updated m) m.

Definition set_winning_trades (v : Z) (m : t) : t :=
  update (total_trades m) v (losing_trades m) (total_pnl m) (best_trade m)
    (worst_trade m) (average_trade m) (win_rate m) (total_fees_paid m)
    (last_updated m) m.

Definition set_losing_trades (v : Z) (m : t) : t :=
  update (total_trades m) (winning_trades m) v (total_pnl m) (best_trade m)
    (worst_trade m) (average_trade m) (win_rate m) (total_fees_paid m)
    (last_updated m) m.

Definition set_total_pnl (v : Q) (m : t) : t :=
  update (total_trades m) (winning_trades m) (losing_trades m) v
    (best_trade m) (worst_trade m) (average_trade m) (win_rate m)
    (total_fees_paid m) (last_updated m) m.

Definition set_best_trade (v : Q) (m : t) : t :=
  update (total_trades m) (winning_trades m) (losing_trades m) (total_pnl m)
    v (worst_trade m) (average_trade m) (win_rate m) (total_fees_paid m)
    (last_updated m) m.

Definition set_worst_trade (v : Q) (m : t) : t :=
  update (total_trades m) (winning_trades m) (losing_trades m) (total_pnl m)
    (best_trade m) v (average_trade m) (win_rate m) (total_fees_paid m)
    (last_updated m) m.

Definition set_average_trade (v : Q) (m : t) : t :=
  update (total_trades m) (winning_trades m) (losing_trades m) (total_pnl m)
    (best_trade m) (worst_trade m) v (win_rate m) (total_fees_paid m)
    (last_updated m) m.

Definition set_win_rate (v : Q) (m : t) : t :=
  update (total_trades m) (winning_trades m) (losing_trades m) (total_pnl m)
    (best_trade m) (worst_trade m) (average_trade m) v (total_fees_paid m)
    (last_updated m) m.

Definition set_total_fees_paid (v : Q) (m : t) : t :=
  update (total_trades m) (winning_trades m) (losing_trades m) (total_pnl m)
    (best_trade m) (worst_trade m) (average_trade m) (win_rate m) v
    (last_updated m) m.

Definition set_last_updated (v : datetime) (m : t) : t :=
  update (total_trades m) (winning_trades m) (losing_trades m) (total_pnl m)
    (best_trade m) (worst_trade m) (average_trade m) (win_rate m)
    (total_fees_paid m) v m.

(** The field defaults: zeros, and the clock read for each of the two
    dates. *)
Definition init (start updated : datetime) : t :=
  {| total_trades := 0; winning_trades := 0; losing_trades := 0;
     total_pnl := 0; best_trade := 0; worst_trade := 0; average_trade := 0;
     win_rate := 0; profit_factor := 0; sharpe_ratio := 0; max_drawdown := 0;
     total_volume := 0; total_fees_paid := 0;
     start_date := start; last_updated := updated |}.

Section Methods.
  Context {W : Type} `{Runtime W}.

Definition update_metrics (position : Position.t) : M W t unit :=
    modify_self (fun m => set_total_trades (total_trades m + 1)%Z m) >>
    (if Qgtb (Position.net_pnl position) 0
     then modify_self (fun m => set_winning_trades (winning_trades m + 1)%Z m)
     else modify_self (fun m => set_losing_trades (losing_trades m + 1)%Z m)) >>
    modify_self (fun m =>
      set_total_pnl (total_pnl m + Position.net_pnl position) m) >>
    modify_self (fun m =>
      set_best_trade
        (value (py_max (Dec (best_trade m)) (Dec (Position.net_pnl position))))
        m) >>
    modify_self (fun m =>
      set_worst_trade
        (value (py_min (Dec (worst_trade m)) (Dec (Position.net_pnl position))))
        m) >>
    (let* m := get_self in
     if Z.gtb (total_trades m) 0 then
       let* average :=
         lift (dec_div (total_pnl m) (inject_Z (total_trades m))) in
       modify_self (set_average_trade average) >>
       let* m := get_self in
       let* rate :=
         lift (dec_div (inject_Z (winning_trades m))
                 (inject_Z (total_trades m))) in
       modify_self (set_win_rate rate)
     else ret tt) >>
    modify_self (fun m =>
      set_total_fees_paid (total_fees_paid m + Position.total_fees position)
        m) >>
    let* now := utcnow in
    modify_self (set_last_updated now).

End Methods.

End PerformanceMetrics.

(* ================================================================== *)
(** * src/main.py *)
(* ================================================================== *)

(** [NotificationManager], of src/utils: a port. *)
Class NotificationManager (W : Type) : Type := {
  send_trade_alert : Position.t -> W -> res unit * W
}.

(** A computation on a component, run on the object that holds it. *)
Definition zoom {W S T A} (get : T -> S) (set : S -> T -> T) (m : M W S A)
  : M W T A :=
  fun s =>
    let '(r, s1) := m (mkSt (world s) (calls s) (get (self s))) in
    (r, mkSt (world s1) (calls s1) (set (self s1) (self s))).

Module Main.

(** [TradeSignal] of models.py. *)
Record TradeSignal : Type := {
  signal_id : string;
  ts_opportunity : ArbitrageOpportunity;
  action : string;
  urgency : string;
  confidence : Q;
  max_slippage_percent : Q;
  time_in_force : string;
  risk_checks_passed : bool;
  risk_warnings : list warning;
  created_at : datetime;
  ts_expires_at : datetime
}.

(** The attributes of [ArbitrageBot] that its methods read and assign; the
    detector is its [last_opportunities], the executor its engine. *)
Record t : Type := {
  detector : list ArbitrageOpportunity;
  executor : Engine.t;
  metrics : PerformanceMetrics.t;
  opportunities_found : Z;
  opportunities_executed : Z;
  is_running : bool
}.

Definition set_detector (v : list ArbitrageOpportunity) (b : t) : t :=
  {| detector := v; executor := executor b; metrics := metrics b;
     opportunities_found := opportunities_found b;
     opportunities_executed := opportunities_executed b;
     is_running := is_running b |}.

Definition set_executor (v : Engine.t) (b : t) : t :=
  {| detector := detector b; executor := v; metrics := metrics b;
     opportunities_found := opportunities_found b;
     opportunities_executed := opportunities_executed b;
     is_running := is_running b |}.

Definition set_metrics (v : PerformanceMetrics.t) (b : t) : t :=
  {| detector := detector b; executor := executor b; metrics := v;
     opportunities_found := opportunities_found b;
     opportunities_executed := opportunities_executed b;
     is_running := is_running b |}.

Definition set_opportunities_found (v : Z) (b : t) : t :=
  {| detector := detector b; executor := executor b; metrics := metrics b;
     opportunities_found := v;
     opportunities_executed := opportunities_executed b;
     is_running := is_running b |}.

Definition set_opportunities_executed (v : Z) (b : t) : t :=
  {| detector := detector b; executor := executor b; metrics := metrics b;
     opportunities_found := opportunities_found b;
     opportunities_executed := v;
     is_running := is_running b |}.

Section Bot.
  Context {W : Type} `{PolymarketClient W} `{HyperliquidClient W}
          `{Runtime W} `{NotificationManager W}.
  Variable config : TradingConfig.
  Variable N : Numerics.
  Variable assets : list string.
  Variable execution_strategy : HyperliquidExecutor.ExecutionStrategy.
  Variable enable_live_trading : bool.
  (** Whether [self.notifications] holds a manager rather than [None]. *)
  Variable notifications : bool.

  Local Abbreviation Task := (M W t).

  (** [self.detector.m(...)], [self.executor.m(...)] and
      [self.metrics.m(...)]. *)
Definition on_detector {A} (m : M W (list ArbitrageOpportunity) A) : Task A :=
    zoom detector set_detector m.
Definition on_executor {A} (m : M W Engine.t A) : Task A :=
    zoom executor set_executor m.
Definition on_metrics {A} (m : M W PerformanceMetrics.t A) : Task A :=
    zoom metrics set_metrics m.

  (** The sum and the comparison of the two balances only feed log
      messages. *)
Definition _check_balances : Task unit :=
    try_except
      (let* pm_balance := venue PM_get_balance pm_get_balance in
       let* hl_balance := venue HL_get_balance hl_get_balance in
       ret tt)
      (fun _ => ret tt).

  (** The constructor of [TradeSignal], with the arguments
      [_process_opportunity] passes: [confidence] is declared with
      [ge=0, le=1], and [created_at] defaults to the clock. *)
Definition new_signal (opportunity : ArbitrageOpportunity)
      (urgency : string) (is_valid : bool) (warnings : list warning)
    : Task TradeSignal :=
    let confidence := probability_of_profit opportunity in
    if Qltb confidence 0 || Qgtb confidence 1 then raise ValueError
    else
      let* now := utcnow in
      ret {| signal_id := opportunity_id opportunity;
             ts_opportunity := opportunity;
             action := "ENTER";
             urgency := urgency;
             confidence := confidence;
             max_slippage_percent := MAX_SLIPPAGE_PERCENT config;
             time_in_force := "IOC";
             risk_checks_passed := is_valid;
             risk_warnings := warnings;
             created_at := now;
             ts_expires_at := expires_at opportunity |}.

  (** The property [TradeSignal.is_valid]. *)
Definition signal_is_valid (signal : TradeSignal) : Task bool :=
    let* now := utcnow in
    ret (Z.ltb now (ts_expires_at signal) && risk_checks_passed signal).

  (** [_log_opportunity] and the log messages format attributes that are
      always numbers and print; they are left out.  In the arguments of
      [TradeSignal], [opportunity.time_value] is the [Decimal] property of
      models.py, on which [.total_seconds()] is looked up. *)
Definition _process_opportunity (opportunity : ArbitrageOpportunity)
    : Task unit :=
    try_except
      (let* verdict :=
         on_detector
           (HyperliquidDetector.validate_opportunity config opportunity) in
       let '(is_valid, warnings) := verdict in
       if negb is_valid then ret tt
       else
         let* now := utcnow in
         let* seconds :=
           lift (Decimal_total_seconds (time_value opportunity now)) in
         let urgency :=
           if Qltb seconds 7200 then "HIGH"%string else "MEDIUM"%string in
         let* signal := new_signal opportunity urgency is_valid warnings in
         let* valid := if enable_live_trading then signal_is_valid signal
                       else ret false in
         if enable_live_trading && valid then
           let* position :=
             on_executor
               (HyperliquidExecutor.execute_opportunity config
                  execution_strategy opportunity) in
           match position with
           | Some position =>
               modify_self (fun b =>
                 set_opportunities_executed (opportunities_executed b + 1)%Z
                   b) >>
               (if notifications then
                  let* b := get_self in
                  runtime (send_trade_alert
                             (Engine.objects (executor b) position))
                else ret tt)
           | None => ret tt
           end
         else ret tt)
      (fun _ => ret tt).

Fixpoint process_each (opportunities : list ArbitrageOpportunity)
    : Task unit :=
    match opportunities with
    | [] => ret tt
    | opportunity :: rest =>
        _process_opportunity opportunity >> process_each rest
    end.

  (** One turn of the [while self.is_running] loop of [_main_loop]. *)
Definition main_loop_turn : Task unit :=
    try_except
      (_check_balances >>
       let* opportunities :=
         on_detector
           (HyperliquidDetector.scan_for_opportunities config N assets) in
       modify_self (fun b =>
         set_opportunities_found
           (opportunities_found b + Z.of_nat (length opportunities))%Z b) >>
       (match opportunities with
        | [] => ret tt
        | _ => process_each (firstn 3 opportunities)
        end) >>
       sleep 30)
      (fun _ => sleep 30).

  (** [position.status == "CLOSED" and position.net_pnl != 0]:
      [PositionStatus] is a [str] enumeration, equal to its value. *)
Definition counted (position : Position.t) : bool :=
    PositionStatus_eqb (Position.status position) CLOSED
    && negb (Qeqb (Position.net_pnl position) 0).

  (** The [for] loop of [_monitor_performance] over
      [self.executor.position_history]. *)
Fixpoint update_each (history : list nat) : Task unit :=
    match history with
    | [] => ret tt
    | id :: rest =>
        let* b := get_self in
        let position := Engine.objects (executor b) id in
        (if counted position
         then on_metrics (PerformanceMetrics.update_metrics position)
         else ret tt) >>
        update_each rest
    end.

  (** One turn of the [while self.is_running] loop of
      [_monitor_performance]; the success rate and the figures it logs are
      formatted from numbers. *)
Definition monitor_performance_turn : Task unit :=
    try_except
      (let* b := get_self in
       update_each (Engine.position_history (executor b)) >>
       sleep 300)
      (fun _ => sleep 300).

  (** The [for] loop of [shutdown] over
      [list(self.executor.active_positions.values())], on the executor. *)
Fixpoint close_each (snapshot : list nat) : M W Engine.t unit :=
    match snapshot with
    | [] => ret tt
    | position :: rest =>
        HyperliquidExecutor.close_position position >> close_each rest
    end.

Definition close_all_positions : M W Engine.t unit :=
    if enable_live_trading then
      let* e := get_self in
      close_each (Engine.active_positions e)
    else ret tt.

End Bot.
End Main.

(* ================================================================== *)
(** * src/exchanges/cex_client.py and hyperliquid_client.py: the pure
      methods *)
(* ================================================================== *)

(** [ExchangeClient] of cex_client.py. *)
Module CexClient.

(** The attributes [get_symbol] reads. *)
Record t : Type := {
  exchange_name : string;
  has_futures : bool;
  futures_suffix : string
}.

Definition get_symbol (self : t) (asset : string) (use_futures : bool)
  : string :=
  if use_futures && has_futures self then
    if String.eqb (exchange_name self) "dydx"
    then (asset ++ futures_suffix self)%string
    else if String.eqb (exchange_name self) "okx"
    then (asset ++ futures_suffix self)%string
    else (asset ++ "/" ++ futures_suffix self)%string
  else (asset ++ "/USDT")%string.

Definition calculate_liquidation_price (entry_price : Q) (side : MarketSide)
    (leverage : Z) : res Q :=
  let maintenance_margin := 0.005 in
  if MarketSide_eqb side LONG then
    let? fraction := dec_div (1 - maintenance_margin) (inject_Z leverage) in
    Ok (entry_price * (1 - fraction))
  else
    let? fraction := dec_div (1 - maintenance_margin) (inject_Z leverage) in
    Ok (entry_price * (1 + fraction)).

End CexClient.

(** [HyperliquidClient] of hyperliquid_client.py. *)
Module HlClient.

Definition calculate_liquidation_price (entry_price : Q) (side : MarketSide)
    (leverage : Z) : res Q :=
  let maintenance_margin := 0.006 in
  if MarketSide_eqb side LONG then
    let? fraction := dec_div (1 - maintenance_margin) (inject_Z leverage) in
    Ok (entry_price * (1 - fraction))
  else
    let? fraction := dec_div (1 - maintenance_margin) (inject_Z leverage) in
    Ok (entry_price * (1 + fraction)).

End HlClient.

(* ================================================================== *)
(** * A scripted world *)
(* ================================================================== *)

(** A deterministic world for running the engine on concrete scenarios: the
    answer to a request is a function of the request and of the number of
    requests, clock reads and sleeps answered before it ([tick]).  The
    exchange client is the Binance entry of [EXCHANGE_CONFIG]. *)
Module Script.

Inductive payload : Type :=
| Markets (l : list PolymarketMarket)
| Market (m : option SpotMarket)
| Book (b : OrderBook)
| Order_id (o : option string)
| Status (o : OrderStatus)
| Flag (b : bool)
| Number (q : Q)
| Positions (l : list HLPosition).

Record t : Type := {
  tick : nat;
  clock_at : nat -> datetime;
  uuid_at : nat -> string;
  sleep_at : nat -> res unit;
  reply : nat -> venue_call -> res payload
}.

Definition next (w : t) : t :=
  {| tick := S (tick w); clock_at := clock_at w; uuid_at := uuid_at w;
     sleep_at := sleep_at w; reply := reply w |}.

(** An answer of the wrong shape is a failure of the client. *)
Definition ask {A} (shape : payload -> option A) (c : venue_call) (w : t)
  : res A * t :=
  (match reply w (tick w) c with
   | Ok v => match shape v with Some a => Ok a | None => Raise VenueError end
   | Raise e => Raise e
   end, next w).

Definition markets v := match v with Markets l => Some l | _ => None end.
Definition market v := match v with Market m => Some m | _ => None end.
Definition book v := match v with Book b => Some b | _ => None end.
Definition order_id v := match v with Order_id o => Some o | _ => None end.
Definition status v := match v with Status o => Some o | _ => None end.
Definition flag v := match v with Flag b => Some b | _ => None end.
Definition number v := match v with Number q => Some q | _ => None end.
Definition positions v := match v with Positions l => Some l | _ => None end.
Definition balances v : option (gmap string Q) :=
  match v with Number q => Some {[ "USDT"%string := q ]} | _ => None end.

#[global] Instance runtime : Runtime t := {|
  rt_utcnow := fun w => (clock_at w (tick w), next w);
  rt_uuid4 := fun w => (uuid_at w (tick w), next w);
  rt_sleep := fun _ w => (sleep_at w (tick w), next w)
|}.

#[global] Instance polymarket : PolymarketClient t := {|
  pm_get_markets_by_asset := fun a => ask markets (PM_get_markets_by_asset a);
  pm_get_order_book := fun m o => ask book (PM_get_order_book m o);
  pm_place_order := fun o => ask order_id (PM_place_order o);
  pm_cancel_order := fun o => ask flag (PM_cancel_order o);
  pm_get_order_status := fun o => ask status (PM_get_order_status o);
  pm_get_balance := ask number PM_get_balance
|}.

#[global] Instance binance : ExchangeClient t := {|
  exchange_name := "binance";
  has_futures := true;
  taker_fee := 0.0004;
  get_symbol := fun a => (a ++ "/USDT")%string;
  ex_get_market_data := fun a f => ask market (EX_get_market_data a f);
  ex_place_order := fun o => ask order_id (EX_place_order o);
  ex_get_order_status := fun o a f => ask status (EX_get_order_status o a f);
  ex_cancel_order := fun o a f => ask flag (EX_cancel_order o a f);
  ex_get_balance := ask balances EX_get_balance;
  ex_set_leverage := fun a l => ask flag (EX_set_leverage a l)
|}.

#[global] Instance hyperliquid : HyperliquidClient t := {|
  hl_get_market_data := fun a => ask market (HL_get_market_data a);
  hl_get_funding_rate := fun a => ask number (HL_get_funding_rate a);
  hl_get_order_book := fun a => ask book (HL_get_order_book a);
  hl_place_order := fun o => ask order_id (HL_place_order o);
  hl_get_positions := ask positions HL_get_positions;
  hl_close_position := fun a => ask flag (HL_close_position a);
  hl_set_leverage := fun a l => ask flag (HL_set_leverage a l);
  hl_get_balance := ask number HL_get_balance
|}.

(** A world that starts at tick zero, with a clock that stands still, sleeps
    that return and identifiers that are all alike. *)
Definition world_at (now : datetime) (reply : nat -> venue_call -> res payload)
  : t :=
  {| tick := 0; clock_at := fun _ => now; uuid_at := fun _ => "uuid"%string;
     sleep_at := fun _ => Ok tt; reply := reply |}.

(** [Decimal.sqrt] where it is exact: on a square of a rational the result is
    its root; elsewhere the value is an upper approximation, on which no
    scenario below depends. *)
Definition sqrt_of_square (q : Q) : Q :=
  let q' := Qred q in
  inject_Z (Z.sqrt_up (Qnum q' * Zpos (Qden q'))) / inject_Z (Zpos (Qden q')).

(** The normal distribution function where it is a rational: at zero it is
    one half; elsewhere the value is a bound, on which no scenario below
    depends. *)
Definition cdf_at_zero (z : Q) : Q :=
  if Qeqb z 0 then 1 # 2 else if Qltb z 0 then 0 else 1.

Definition numerics : Numerics :=
  {| dec_sqrt := sqrt_of_square;
     np_sqrt := sqrt_of_square;
     norm_cdf := cdf_at_zero |}.

(** A position object that was never stored. *)
Definition blank : Position.t :=
  {| Position.position_id := 0;
     Position.opportunity_id := "";
     Position.status := PENDING;
     Position.polymarket_order_id := None;
     Position.polymarket_side := UP;
     Position.polymarket_entry_price := None;
     Position.polymarket_quantity := None;
     Position.polymarket_fees := 0;
     Position.hedge_order_id := None;
     Position.hedge_exchange := "";
     Position.hedge_symbol := "";
     Position.hedge_side := LONG;
     Position.hedge_entry_price := None;
     Position.hedge_quantity := None;
     Position.hedge_fees := 0;
     Position.stop_loss_price := None;
     Position.take_profit_price := None;
     Position.max_loss_usd := 0;
     Position.opened_at := 0%Z;
     Position.closed_at := None;
     Position.expires_at := 0%Z;
     Position.realized_pnl := 0;
     Position.unrealized_pnl := 0 |}.

End Script.

(* ================================================================== *)
(** * Scenarios *)
(* ================================================================== *)

(** Concrete markets, opportunities and worlds on which the engine is run. *)
Module Scenario.

Definition hour : Z := 3600000000.

(** A Bitcoin contract with target 60,000 expiring [hours] hours after the
    epoch, both sides quoted at [quote], with 100,000 of liquidity a side. *)
Definition contract (hours : Z) (quote : Q) : PolymarketMarket :=
  {| market_id := "btc-60000"; question := "BTC above 60000?";
     asset := "BTC"; target_price := 60000;
     expiry_time := (hours * hour)%Z;
     up_price := quote; down_price := quote;
     up_liquidity := 100000; down_liquidity := 100000;
     volume_24h := 0; open_interest := 0 |}.

(** A quote with the given mid price and a spread of 20. *)
Definition quote_at (mid : Q) : SpotMarket :=
  {| exchange := "venue"; symbol := "BTC"; bid := mid - 10; ask := mid + 10;
     last_price := mid; spot_volume_24h := 0; timestamp := 0%Z |}.

(** An opportunity as [execute_opportunity] and [validate_opportunity]
    receive it: a hedge of 0.05 at 60,000 against 5,000 contracts at 0.40. *)
Definition opportunity (side : MarketSide) (breakeven : Q)
    (profit_percentage : Q) (expires : datetime) : ArbitrageOpportunity :=
  {| opportunity_id := "opp"; type := FUTURES_HEDGE;
     polymarket := contract 24 0.4; spot_market := quote_at 60000;
     polymarket_side := if MarketSide_eqb side LONG then DOWN else UP;
     polymarket_price := 0.4; polymarket_quantity := 5000;
     hedge_side := side; hedge_price := 60000; hedge_quantity := 0.05;
     expected_profit_usd := 500;
     expected_profit_percentage := profit_percentage;
     breakeven_price := breakeven; max_risk_usd := 2000;
     probability_of_profit := 0.55; sharpe_ratio := None;
     detected_at := 0%Z; expires_at := expires |}.

Definition start {W S} (w : W) (self : S) : st W S := mkSt w [] self.

(** An engine on the day of the epoch, before any trade. *)
Definition engine : Engine.t := Engine.init Script.blank 0.

(** A world in which no venue answers. *)
Definition silent (now : datetime) : Script.t :=
  Script.world_at now (fun _ _ => Raise VenueError).

End Scenario.


Module DetectionScenario.
Import Scenario.

(** The Hyperliquid detector's world: one contract 48 hours from expiry, the
    perpetual at 60,600 (1% above the target, 0.99% of the price), funding
    at 0.01%. *)
Definition hyperliquid_world : Script.t :=
  Script.world_at 0%Z
    (fun _ c =>
       match c with
       | PM_get_markets_by_asset _ => Ok (Script.Markets [contract 48 0.4])
       | HL_get_market_data _ => Ok (Script.Market (Some (quote_at 60600)))
       | HL_get_funding_rate _ => Ok (Script.Number 0.0001)
       | _ => Raise VenueError
       end).

(** The CEX detector's world: two contracts, 6 and 24 hours from expiry,
    and the future exactly at their target. *)
Definition exchange_world : Script.t :=
  Script.world_at 0%Z
    (fun _ c =>
       match c with
       | PM_get_markets_by_asset _ =>
           Ok (Script.Markets [contract 6 0.37; contract 24 0.4])
       | EX_get_market_data _ _ => Ok (Script.Market (Some (quote_at 60000)))
       | _ => Raise VenueError
       end).

(** The list a scan returned, empty if it raised. *)
Definition found {S} (r : res (list ArbitrageOpportunity) * S)
  : list ArbitrageOpportunity :=
  match fst r with
  | Ok l => l
  | Raise _ => []
  end.

Definition hyperliquid_scan :=
  HyperliquidDetector.scan_for_opportunities default_config Script.numerics
    ["BTC"%string] (start hyperliquid_world []).

Definition exchange_scan :=
  Detector.scan_for_opportunities default_config Script.numerics
    ["BTC"%string] (start exchange_world []).

End DetectionScenario.

Module ExecutionScenario.
Import Scenario.

(** The status of an order that filled in full. *)
Definition filled (quantity price : Q) : OrderStatus :=
  {| os_status := Some "closed"%string; os_filled := Some quantity;
     os_price := Some price; os_fees := Some 0; os_fee_cost := Some 0 |}.

(** Venues on which the Polymarket order is accepted and fills in full at
    0.40, the hedge order is answered with [hedge_order] ([None] is an order
    the venue did not take) and fills in full at 60,000, the hedge trades at
    [mid] and the funding rate is [funding]. *)
Definition answers (hedge_order : option string) (hedge : MarketSide)
    (mid funding : Q) (tick : nat) (c : venue_call) : res Script.payload :=
  match c with
  | PM_place_order _ => Ok (Script.Order_id (Some "pm-order"%string))
  | PM_get_order_status _ => Ok (Script.Status (filled 5000 0.4))
  | PM_cancel_order _ => Ok (Script.Flag true)
  | EX_set_leverage _ _ => Ok (Script.Flag true)
  | EX_place_order _ => Ok (Script.Order_id hedge_order)
  | EX_get_order_status _ _ _ => Ok (Script.Status (filled 0.05 60000))
  | EX_cancel_order _ _ _ => Ok (Script.Flag true)
  | EX_get_market_data _ _ => Ok (Script.Market (Some (quote_at mid)))
  | HL_set_leverage _ _ => Ok (Script.Flag true)
  | HL_place_order _ => Ok (Script.Order_id hedge_order)
  | HL_get_positions =>
      Ok (Script.Positions
            [ {| coin := "BTC";
                 size := if MarketSide_eqb hedge LONG then 0.05 else - 0.05;
                 entry_price := 60000 |} ])
  | HL_close_position _ => Ok (Script.Flag true)
  | HL_get_market_data _ => Ok (Script.Market (Some (quote_at mid)))
  | HL_get_funding_rate _ => Ok (Script.Number funding)
  | _ => Raise VenueError
  end.

(** Both legs fill at the assumed prices. *)
Definition filling (hedge : MarketSide) : Script.t :=
  Script.world_at 0%Z (answers (Some "hedge-order"%string) hedge 60000 0.0001).

(** The hedge venue does not take the order. *)
Definition rejecting (hedge : MarketSide) : Script.t :=
  Script.world_at 0%Z (answers None hedge 60000 0.0001).

(** An opportunity expiring in a day. *)
Definition tomorrow (hedge : MarketSide) (breakeven : Q)
  : ArbitrageOpportunity :=
  opportunity hedge breakeven 0 (24 * hour)%Z.

(** The run of an executor on its first opportunity. *)
Definition exchange_run (w : Script.t) (o : ArbitrageOpportunity) :=
  Executor.execute_opportunity default_config Executor.AGGRESSIVE o
    (start w engine).

Definition hyperliquid_run (w : Script.t) (o : ArbitrageOpportunity) :=
  HyperliquidExecutor.execute_opportunity default_config
    HyperliquidExecutor.ADAPTIVE o (start w engine).

(** The engine of the Hyperliquid executor after it opened a long hedge
    with breakeven 62,000: position 0, stop loss at 59,760. *)
Definition opened : Engine.t :=
  self (snd (hyperliquid_run (filling LONG) (tomorrow LONG 62000))).

(** Later the hedge trades at 59,000, under the stop loss, and the funding
    rate is 5%, over three times the threshold. *)
Definition falling : Script.t :=
  Script.world_at 0%Z (answers (Some "hedge-order"%string) LONG 59000 0.05).

(** One turn of the monitoring loop in that world. *)
Definition monitored :=
  HyperliquidExecutor.monitor_turn default_config (start falling opened).

End ExecutionScenario.

(* ================================================================== *)
(** * Vocabulary of the statements *)
(* ================================================================== *)

(** The formula of the specification for the expected profit. *)
Definition expected_value (probability win_profit loss fees : Q) : Q :=
  probability * win_profit - (1 - probability) * loss - fees.

(** [a] may stand before [b] in a list in descending order of [key]. *)
Definition descending {A} (key : A -> Q) (a b : A) : Prop := key b <= key a.

(** A result that an [except Exception] handler would catch, if it is an
    exception at all. *)
Definition catchable {A} (r : res A) : Prop :=
  match r with
  | Ok _ => True
  | Raise e => is_Exception e = true
  end.

(** An opportunity that some call of the CEX detector's
    [_analyze_market_pair] returned. *)
Definition emitted {W} `{ExchangeClient W} `{Runtime W}
    (config : TradingConfig) (N : Numerics) (o : ArbitrageOpportunity) : Prop :=
  exists pm spot (s s' : st W (list ArbitrageOpportunity)),
    Detector._analyze_market_pair config N pm spot s = (Ok (Some o), s').

(** An opportunity that some call of the Hyperliquid detector's
    [_analyze_market_pair] returned. *)
Definition hyperliquid_emitted {W} `{Runtime W}
    (config : TradingConfig) (N : Numerics) (o : ArbitrageOpportunity) : Prop :=
  exists pm hl funding (s s' : st W (list ArbitrageOpportunity)),
    HyperliquidDetector._analyze_market_pair config N pm hl funding s
    = (Ok (Some o), s').


(** The fields of the engine other than the position objects agree. *)
Definition ledger_same (e e' : Engine.t) : Prop :=
  Engine.next_id e' = Engine.next_id e /\
  Engine.active_positions e' = Engine.active_positions e /\
  Engine.position_history e' = Engine.position_history e /\
  Engine.daily_trade_count e' = Engine.daily_trade_count e /\
  Engine.last_trade_reset e' = Engine.last_trade_reset e.

(** From [e] to [e'] nothing changed but, possibly, the attributes of the
    position object [j]. *)
Definition touches (j : nat) (e e' : Engine.t) : Prop :=
  ledger_same e e' /\
  forall i, i <> j -> Engine.objects e' i = Engine.objects e i.

(** Whatever state a computation starts in and however it ends, the engine
    it leaves is related by [R] to the engine it found. *)
Definition respects {W A} (R : Engine.t -> Engine.t -> Prop)
    (m : M W Engine.t A) : Prop :=
  forall s r s', m s = (r, s') -> R (self s) (self s').

(** A position left in [active_positions] with status ERROR. *)
Definition stuck (id : nat) (e : Engine.t) : Prop :=
  (id < Engine.next_id e)%nat /\
  id ∈ Engine.active_positions e /\
  Position.status (Engine.objects e id) = ERROR.


(** The run of [Executor.execute_opportunity] from [s] passed the risk
    limits, created the position [id] and ran the two legs, which returned
    [legs] and left the state [s']. *)
Definition legs_returned {W} `{PolymarketClient W} `{ExchangeClient W}
    `{Runtime W} (config : TradingConfig)
    (strategy : Executor.ExecutionStrategy) (opportunity : ArbitrageOpportunity)
    (s : st W Engine.t) (id : nat) (legs : bool * bool) (s' : st W Engine.t)
  : Prop :=
  exists s1 now s2 s3 use_market_orders s4,
    Executor._check_risk_limits config s = (Ok true, s1) /\
    utcnow s1 = (Ok now, s2) /\
    Engine.new_position (Executor.fresh_position opportunity now) s2
    = (Ok id, s3) /\
    Executor._should_use_market_orders strategy opportunity s3
    = (Ok use_market_orders, s4) /\
    Executor.run_legs opportunity id use_market_orders s4 = (Ok legs, s').

(** The same for [HyperliquidExecutor.execute_opportunity]: the pre-execution
    checks passed, the position [id] was created, and the parallel or TWAP
    execution returned [success] and left the state [s']. *)
Definition hyperliquid_legs_returned {W} `{PolymarketClient W}
    `{HyperliquidClient W} `{Runtime W} (config : TradingConfig)
    (strategy : HyperliquidExecutor.ExecutionStrategy)
    (opportunity : ArbitrageOpportunity)
    (s : st W Engine.t) (id : nat) (success : bool) (s' : st W Engine.t)
  : Prop :=
  exists start_time s0 s1 now s2 s3 exec_plan s4,
    utcnow s = (Ok start_time, s0) /\
    HyperliquidExecutor._pre_execution_checks config opportunity s0
    = (Ok true, s1) /\
    utcnow s1 = (Ok now, s2) /\
    Engine.new_position (HyperliquidExecutor.fresh_position opportunity now) s2
    = (Ok id, s3) /\
    HyperliquidExecutor._create_execution_plan config strategy opportunity s3
    = (Ok exec_plan, s4) /\
    HyperliquidExecutor.run_legs strategy opportunity id exec_plan s4
    = (Ok success, s').

(** What a rollback leaves: it returned and the position is CANCELLED or
    ERROR, or it was interrupted by an exception that [except Exception]
    does not catch. *)
Definition rolled_back (id : nat) {W} (r : res unit) (s' : st W Engine.t)
  : Prop :=
  (r = Ok tt /\
   (Position.status (Engine.objects (self s') id) = CANCELLED \/
    Position.status (Engine.objects (self s') id) = ERROR)) \/
  (exists e, r = Raise e /\ is_Exception e = false).

(** The exception an answer carries, if it is one, and the world the
    answer leaves. *)
Definition raised {A W} (answer : res A * W) : option exn * W :=
  (match fst answer with
   | Raise e => Some e
   | Ok _ => None
   end, snd answer).

(** What the venue raises when it answers, in the world [w], a request that
    closes or cancels something, and the world it leaves. *)
Definition refused {W} `{PolymarketClient W} `{ExchangeClient W}
    `{HyperliquidClient W} (c : venue_call) (w : W) : option exn * W :=
  match c with
  | PM_place_order o => raised (pm_place_order o w)
  | PM_cancel_order order_id => raised (pm_cancel_order order_id w)
  | EX_place_order o => raised (ex_place_order o w)
  | EX_cancel_order order_id asset use_futures =>
      raised (ex_cancel_order order_id asset use_futures w)
  | HL_close_position asset => raised (hl_close_position asset w)
  | _ => (None, w)
  end.

(** The requests the rollback of executor.py owes the venues for the
    position [p]: for each leg with an order id, an opposite market order if
    the leg has an entry price and a cancellation otherwise. *)
Definition exchange_unwinding {W} `{ExchangeClient W} (p : Position.t)
  : list venue_call :=
  (if truthy_str (Position.polymarket_order_id p) then
     [ if truthy_dec (Position.polymarket_entry_price p) then
         PM_place_order
           {| pmo_market_id := Position.opportunity_id p;
              pmo_side :=
                if MarketSide_eqb (Position.polymarket_side p) UP
                then DOWN else UP;
              pmo_order_type := MARKET;
              pmo_quantity := Position.polymarket_quantity p;
              pmo_price := None |}
       else
         PM_cancel_order
           (default EmptyString (Position.polymarket_order_id p)) ]
   else []) ++
  (if truthy_str (Position.hedge_order_id p) then
     let asset := split_head slash (Position.hedge_symbol p) in
     [ if truthy_dec (Position.hedge_entry_price p) then
         EX_place_order
           {| exo_asset := asset;
              exo_side :=
                if MarketSide_eqb (Position.hedge_side p) LONG
                then SHORT else LONG;
              exo_order_type := MARKET;
              exo_quantity := Position.hedge_quantity p;
              exo_price := None;
              exo_use_futures := has_futures;
              exo_reduce_only := true |}
       else
         EX_cancel_order
           (default EmptyString (Position.hedge_order_id p)) asset
           has_futures ]
   else []).

(** The same for hyperliquid_executor.py: an opposite market order for a
    positive Polymarket quantity, and a request to close the Hyperliquid
    position for a positive hedge quantity. *)
Definition hyperliquid_unwinding (p : Position.t) : list venue_call :=
  (if truthy_dec (Position.polymarket_quantity p)
      && Qgtb (default 0 (Position.polymarket_quantity p)) 0
   then
     [ PM_place_order
         {| pmo_market_id := Position.opportunity_id p;
            pmo_side :=
              if MarketSide_eqb (Position.polymarket_side p) UP
              then DOWN else UP;
            pmo_order_type := MARKET;
            pmo_quantity := Position.polymarket_quantity p;
            pmo_price := None |} ]
   else []) ++
  (if truthy_dec (Position.hedge_quantity p)
      && Qgtb (default 0 (Position.hedge_quantity p)) 0
   then [ HL_close_position (split_head hyphen (Position.hedge_symbol p)) ]
   else []).

(** The outcome [r] of a rollback of the position [id] that started in [s]
    and ended in [s'], when [owed] are the requests it owes: it sent them in
    order, up to the first the venue answered by raising.  Either it
    returned, and the position is CANCELLED with every request sent, or
    ERROR because the venue answered the last request sent with an
    [Exception]; or it raised what the venue answered the last request sent
    with, something [except Exception] does not catch, and left the engine
    as it was.  The world it ends in is then the one that answer left. *)
Definition unwound {W} `{PolymarketClient W} `{ExchangeClient W}
    `{HyperliquidClient W} (owed : list venue_call) (id : nat)
    (s : st W Engine.t) (r : res unit) (s' : st W Engine.t) : Prop :=
  exists sent rest,
    calls s' = calls s ++ sent /\
    owed = sent ++ rest /\
    match r with
    | Ok _ =>
        (rest = [] /\
         Position.status (Engine.objects (self s') id) = CANCELLED) \/
        (Position.status (Engine.objects (self s') id) = ERROR /\
         exists earlier c w e,
           sent = earlier ++ [c] /\ refused c w = (Some e, world s') /\
           is_Exception e = true)
    | Raise e =>
        is_Exception e = false /\
        self s' = self s /\
        exists earlier c w,
          sent = earlier ++ [c] /\ refused c w = (Some e, world s')
    end.

(** From [e] to [e'] nothing changed but the attributes of the position
    [id] and, possibly, its registration: [id] entered in
    [active_positions] and the daily counter incremented. *)
Definition may_open (id : nat) (e e' : Engine.t) : Prop :=
  Engine.next_id e' = Engine.next_id e /\
  Engine.position_history e' = Engine.position_history e /\
  Engine.last_trade_reset e' = Engine.last_trade_reset e /\
  (forall i, i <> id -> Engine.objects e' i = Engine.objects e i) /\
  ((Engine.active_positions e' = Engine.active_positions e /\
    Engine.daily_trade_count e' = Engine.daily_trade_count e) \/
   (Engine.active_positions e'
    = Engine.dict_set id (Engine.active_positions e) /\
    Engine.daily_trade_count e' = (Engine.daily_trade_count e + 1)%Z)).


(** [stop] lies on the losing side of [entry] for a hedge on [side]: below
    it for a long hedge, above it otherwise. *)
Definition adverse (side : MarketSide) (entry stop : Q) : Prop :=
  if MarketSide_eqb side LONG then stop < entry else entry < stop.

(** [x] lies strictly between [a] and [b], whichever of them is the
    larger. *)
Definition strictly_between (a b x : Q) : Prop :=
  (a < x /\ x < b) \/ (b < x /\ x < a).


(** A position that is stuck in [e] is stuck in [e']. *)
Definition keeps (id : nat) (e e' : Engine.t) : Prop :=
  stuck id e -> stuck id e'.


(** What [close_position] leaves of the position [j] when its handler ran
    before anything was recorded: status ERROR, [closed_at], the history and
    the active positions as they were in [e], and nothing else changed. *)
Definition left_in_error (j : nat) (e e' : Engine.t) : Prop :=
  Position.status (Engine.objects e' j) = ERROR /\
  Position.closed_at (Engine.objects e' j)
  = Position.closed_at (Engine.objects e j) /\
  Engine.position_history e' = Engine.position_history e /\
  Engine.active_positions e' = Engine.active_positions e /\
  touches j e e'.


(** The engine holds no more active positions, and has counted no more
    trades today, than the configuration allows. *)
Definition within_limits (config : TradingConfig) (e : Engine.t) : Prop :=
  (Z.of_nat (length (Engine.active_positions e))
   <= MAX_CONCURRENT_POSITIONS config)%Z /\
  (Engine.daily_trade_count e <= MAX_DAILY_TRADES config)%Z.

(** From [e] to [e'] positions were only closed: the identifiers [closed]
    were appended to the history and are no longer active, and no position
    was created, registered or counted. *)
Definition only_closes (e e' : Engine.t) : Prop :=
  Engine.next_id e' = Engine.next_id e /\
  Engine.daily_trade_count e' = Engine.daily_trade_count e /\
  Engine.last_trade_reset e' = Engine.last_trade_reset e /\
  exists closed,
    Engine.position_history e' = Engine.position_history e ++ closed /\
    Engine.active_positions e'
    = filter (fun i => i ∉ closed) (Engine.active_positions e).

(** The attributes of a position that its constructor sets and no method
    assigns. *)
Definition terms (p : Position.t) :=
  (Position.position_id p, Position.opportunity_id p,
   Position.polymarket_side p, Position.hedge_exchange p,
   Position.hedge_symbol p, Position.hedge_side p,
   Position.max_loss_usd p, Position.opened_at p, Position.expires_at p,
   Position.realized_pnl p).

(** From [e] to [e'] no position object changed what [proj] reads of it. *)
Definition preserves {A} (proj : Position.t -> A) (e e' : Engine.t) : Prop :=
  forall j, proj (Engine.objects e' j) = proj (Engine.objects e j).

(** Everything a position holds once it is open, apart from its status, its
    closing time and its unrealized P&L. *)
Definition settled (p : Position.t) :=
  (terms p,
   (Position.polymarket_order_id p, Position.polymarket_entry_price p,
    Position.polymarket_quantity p, Position.polymarket_fees p),
   (Position.hedge_order_id p, Position.hedge_entry_price p,
    Position.hedge_quantity p, Position.hedge_fees p),
   (Position.stop_loss_price p, Position.take_profit_price p)).

(** Engines in which something went wrong before. *)
Module AftermathScenario.
Import Scenario.

(** Five positions were registered and never left: the engine is full under
    the default configuration. *)
Definition crowded : Engine.t :=
  Engine.set_active_positions [0; 1; 2; 3; 4]%nat
    (Engine.set_next_id 5 engine).

(** The Hyperliquid executor ran the TWAP strategy on the filling world. *)
Definition twap_run :=
  HyperliquidExecutor.execute_opportunity default_config
    HyperliquidExecutor.TWAP (ExecutionScenario.tomorrow LONG 62000)
    (start (ExecutionScenario.filling LONG) engine).

Definition after_twap : Engine.t := self (snd twap_run).


(** A book with 10,000 contracts at 0.40 on either side. *)
Definition deep_book : OrderBook :=
  {| bids := [ {| price := 0.4; quantity := 10000 |} ];
     asks := [ {| price := 0.4; quantity := 10000 |} ] |}.

(** Venues with deep books and full accounts on which the hedge trades at
    66,000, 10% above the price the opportunity of [Scenario] was detected
    at. *)
Definition moved : Script.t :=
  Script.world_at 0%Z
    (fun _ c =>
       match c with
       | HL_get_market_data _ => Ok (Script.Market (Some (quote_at 66000)))
       | HL_get_funding_rate _ => Ok (Script.Number 0.0001)
       | PM_get_order_book _ _ | HL_get_order_book _ =>
           Ok (Script.Book deep_book)
       | PM_get_balance | HL_get_balance => Ok (Script.Number 100000)
       | _ => Raise VenueError
       end).

End AftermathScenario.

(** What the legs and the rollback of both executors leave untouched. *)
Definition kept (p : Position.t) := (terms p, Position.closed_at p).

(** Metrics whose counters and ratios agree: the trades are the wins and the
    losses, zero lies between the worst and the best trade, and once a trade
    was counted the average and the win rate are the quotients they are
    named after. *)
Definition consistent (m : PerformanceMetrics.t) : Prop :=
  (0 <= PerformanceMetrics.winning_trades m)%Z /\
  (0 <= PerformanceMetrics.losing_trades m)%Z /\
  PerformanceMetrics.total_trades m
  = (PerformanceMetrics.winning_trades m
     + PerformanceMetrics.losing_trades m)%Z /\
  PerformanceMetrics.worst_trade m <= 0 /\
  0 <= PerformanceMetrics.best_trade m /\
  ((0 < PerformanceMetrics.total_trades m)%Z ->
   PerformanceMetrics.average_trade m
   == PerformanceMetrics.total_pnl m
      / inject_Z (PerformanceMetrics.total_trades m) /\
   PerformanceMetrics.win_rate m
   == inject_Z (PerformanceMetrics.winning_trades m)
      / inject_Z (PerformanceMetrics.total_trades m)).

(** [R] relates the state a computation starts in to the state it ends in,
    whatever the outcome. *)
Definition throughout {W S A} (R : st W S -> st W S -> Prop) (m : M W S A)
  : Prop :=
  forall s r s', m s = (r, s') -> R s s'.

(** A relation that does not look at the world. *)
Definition world_blind {W S} (R : st W S -> st W S -> Prop) : Prop :=
  forall s w, R s (mkSt w (calls s) (self s)).

(** The attributes of the object are as they were. *)
Definition same_self {W S} (s s' : st W S) : Prop := self s' = self s.

(** Requests that place, cancel or close something on a venue, or set the
    leverage of the account; the others only read. *)
Definition places_order (c : venue_call) : bool :=
  match c with
  | PM_place_order _ | PM_cancel_order _
  | EX_place_order _ | EX_cancel_order _ _ _ | EX_set_leverage _ _
  | HL_place_order _ | HL_close_position _ | HL_set_leverage _ _ => true
  | _ => false
  end.

(** From [s] to [s'] the venues were only read. *)
Definition asks_only {W S} (s s' : st W S) : Prop :=
  exists added,
    calls s' = calls s ++ added /\
    Forall (fun c => places_order c = false) added.

(** From [s] to [s'] the bot left its executor alone: the engine and the
    count of executed opportunities are as they were, and the venues were
    only read. *)
Definition bystander {W} (s s' : st W Main.t) : Prop :=
  Main.executor (self s') = Main.executor (self s) /\
  Main.opportunities_executed (self s')
  = Main.opportunities_executed (self s) /\
  asks_only s s'.

(** The positions of the history that a turn of [_monitor_performance]
    counts. *)
Definition counted_in (e : Engine.t) : list nat :=
  filter (fun id => Main.counted (Engine.objects e id) = true)
    (Engine.position_history e).

(** [sep in s] *)
Fixpoint has_char (sep : Ascii.ascii) (s : string) : bool :=
  match s with
  | EmptyString => false
  | String c rest => Ascii.eqb c sep || has_char sep rest
  end.

(** The bot of main.py on concrete worlds. *)
Module BotScenario.
Import Scenario.

(** A notification manager that always delivers. *)
#[global] Instance telegram : NotificationManager Script.t := {|
  send_trade_alert := fun _ w => (Ok tt, Script.next w)
|}.

(** Venues on which a scan finds the contract of [DetectionScenario], the
    books are deep, the accounts full and every order fills. *)
Definition trading : Script.t :=
  Script.world_at 0%Z
    (fun tick c =>
       match c with
       | PM_get_markets_by_asset _ => Ok (Script.Markets [contract 48 0.4])
       | PM_get_order_book _ _ | HL_get_order_book _ =>
           Ok (Script.Book AftermathScenario.deep_book)
       | PM_get_balance | HL_get_balance => Ok (Script.Number 100000)
       | _ =>
           ExecutionScenario.answers (Some "hedge-order"%string) LONG 60600
             0.0001 tick c
       end).

(** A bot that has just been built around the engine [e]. *)
Definition bot (e : Engine.t) : Main.t :=
  {| Main.detector := []; Main.executor := e;
     Main.metrics := PerformanceMetrics.init 0%Z 0%Z;
     Main.opportunities_found := 0%Z; Main.opportunities_executed := 0%Z;
     Main.is_running := true |}.

(** One turn of the main loop with live trading and notifications. *)
Definition main_turn :=
  Main.main_loop_turn default_config Script.numerics ["BTC"%string]
    HyperliquidExecutor.ADAPTIVE true true.

(** The engine of [ExecutionScenario] after its position was closed while
    the hedge traded at 59,000. *)
Definition closed : Engine.t :=
  self (snd (HyperliquidExecutor.close_position 0
               (start ExecutionScenario.falling ExecutionScenario.opened))).

End BotScenario.

(** Exchange clients with the attribute values that [EXCHANGE_CONFIG] lists
    for binance and for okx. *)
Module ClientScenario.

Definition binance : CexClient.t :=
  {| CexClient.exchange_name := "binance";
     CexClient.has_futures := true;
     CexClient.futures_suffix := "USDT" |}.

Definition okx : CexClient.t :=
  {| CexClient.exchange_name := "okx";
     CexClient.has_futures := true;
     CexClient.futures_suffix := "-USDT-SWAP" |}.

End ClientScenario.

(* ================================================================== *)
(** * Properties *)
(* ================================================================== *)

(** ** Comparisons *)

Lemma Qltb_lt (x y : Q) : Qltb x y = true <-> x < y.
Proof.
  unfold Qltb. rewrite Qlt_alt. destruct (x ?= y); split; congruence.
Qed.

Lemma Qltb_ge (x y : Q) : Qltb x y = false <-> y <= x.
Proof.
  split; intro H.
  - apply Qnot_lt_le. intro L. apply Qltb_lt in L. congruence.
  - destruct (Qltb x y) eqn:E; [ | reflexivity ].
    apply Qltb_lt in E. exfalso. eapply Qlt_not_le; eassumption.
Qed.

Lemma Qleb_le (x y : Q) : Qleb x y = true <-> x <= y.
Proof.
  unfold Qleb. rewrite Qle_alt. destruct (x ?= y); split; congruence.
Qed.

Lemma Qgtb_gt (x y : Q) : Qgtb x y = true <-> y < x.
Proof. apply Qltb_lt. Qed.

Lemma Qgtb_le (x y : Q) : Qgtb x y = false <-> x <= y.
Proof. apply Qltb_ge. Qed.

Lemma Qeqb_eq (x y : Q) : Qeqb x y = true <-> x == y.
Proof.
  unfold Qeqb. rewrite Qeq_alt. destruct (x ?= y); split; congruence.
Qed.

(** The clamp [max(0, min(1, p))]. *)
Lemma clamp_unit_interval (p : Q) : 0 <= Qmax 0 (Qmin 1 p) <= 1.
Proof.
  split.
  - apply Q.le_max_l.
  - apply Q.max_lub; [ discriminate | apply Q.le_min_l ].
Qed.

(** ** Pure code raises no [CancelledError] *)

Lemma catchable_rbind {A B} (m : res A) (k : A -> res B) :
  catchable m -> (forall a, catchable (k a)) -> catchable (rbind m k).
Proof. destruct m; simpl; auto. Qed.

Lemma catchable_dec_div a b : catchable (dec_div a b).
Proof. unfold dec_div. destruct (Qeqb b 0), (Qeqb a 0); exact I || reflexivity. Qed.

Lemma catchable_float_div a b : catchable (float_div a b).
Proof. unfold float_div. destruct (Qeqb b 0); exact I || reflexivity. Qed.

Lemma catchable_decimal_sqrt N x : catchable (decimal_sqrt N x).
Proof. unfold decimal_sqrt. destruct (Qltb x 0); exact I || reflexivity. Qed.

Lemma catchable_arith fz fq a b : catchable (arith fz fq a b).
Proof. destruct a, b; simpl; exact I || reflexivity. Qed.

Lemma catchable_py_div a b : catchable (py_div a b).
Proof.
  destruct a, b; simpl; try reflexivity;
    apply catchable_rbind; intros; try exact I;
    apply catchable_dec_div || apply catchable_float_div.
Qed.

Lemma rtry_catchable {A} (m : res A) (h : exn -> res A) (e : exn) :
  catchable m -> m = Raise e -> rtry m h = h e.
Proof. intros C ->. simpl in *. now rewrite C. Qed.

Lemma rtry_total {A} (m : res A) (a : A) :
  catchable m -> exists v, rtry m (fun _ => Ok a) = Ok v /\
                           (forall e, m = Raise e -> v = a) /\
                           (forall x, m = Ok x -> v = x).
Proof.
  destruct m as [x|e]; simpl; intros C.
  - exists x. repeat split; congruence.
  - rewrite C. exists a. repeat split; congruence.
Qed.

(** ** The probability of profit *)

Lemma probability_of_profit_try_catchable N c t h side :
  catchable (Detector.probability_of_profit_try N c t h side).
Proof.
  unfold Detector.probability_of_profit_try.
  repeat (apply catchable_rbind;
          [ apply catchable_dec_div || apply catchable_decimal_sqrt | intros ]).
  exact I.
Qed.

Lemma probability_of_profit_try_range N c t h side p :
  Detector.probability_of_profit_try N c t h side = Ok p -> 0 <= p <= 1.
Proof.
  unfold Detector.probability_of_profit_try.
  repeat match goal with
         | |- context [rbind ?m _] => destruct m; simpl; [ | discriminate ]
         end.
  intros [= <-]. apply clamp_unit_interval.
Qed.

(** [hours / (24 * 365)] is a float, and its product with the [Decimal]
    drift raises: the [try] block never completes. *)
Lemma probability_with_funding_try_raises N c t h side f :
  HyperliquidDetector.probability_with_funding_try N c t h side f
  = Raise TypeError.
Proof. reflexivity. Qed.

Lemma probability_with_funding_fallback N c t h side f :
  HyperliquidDetector._calculate_probability_with_funding N c t h side f
  = Ok 0.4.
Proof. reflexivity. Qed.

(** C6.  Whatever the current price, the target, the hours to expiry and the
    side (and whatever the library numerics return), both probability
    computations return a probability between 0 and 1, and when the guarded
    block raises they return 0.4 instead of the exception. *)
Theorem probability_in_unit_interval
    (N : Numerics) (current_price target_price hours_to_expiry : Q)
    (side : MarketSide) (funding_rate : Q) :
  (exists p,
     Detector._calculate_probability_of_profit N current_price target_price
       hours_to_expiry side = Ok p /\ 0 <= p <= 1) /\
  (exists p,
     HyperliquidDetector._calculate_probability_with_funding N current_price
       target_price hours_to_expiry side funding_rate = Ok p /\ 0 <= p <= 1) /\
  (forall e,
     Detector.probability_of_profit_try N current_price target_price
       hours_to_expiry side = Raise e ->
     Detector._calculate_probability_of_profit N current_price target_price
       hours_to_expiry side = Ok 0.4) /\
  (forall e,
     HyperliquidDetector.probability_with_funding_try N current_price
       target_price hours_to_expiry side funding_rate = Raise e ->
     HyperliquidDetector._calculate_probability_with_funding N current_price
       target_price hours_to_expiry side funding_rate = Ok 0.4).
Proof.
  pose proof (probability_of_profit_try_catchable N current_price
                target_price hours_to_expiry side) as C.
  split; [ | split; [ | split ] ].
  - unfold Detector._calculate_probability_of_profit.
    destruct (Detector.probability_of_profit_try N current_price target_price
                hours_to_expiry side) as [p|e] eqn:E.
    + exists p. split; [ reflexivity | ].
      eapply probability_of_profit_try_range; eassumption.
    + simpl in C |- *. rewrite C. exists 0.4. split; [ reflexivity | ].
      split; discriminate.
  - exists 0.4. split.
    + apply probability_with_funding_fallback.
    + split; discriminate.
  - intros e E. unfold Detector._calculate_probability_of_profit.
    rewrite E in C |- *. simpl in C |- *. now rewrite C.
  - intros e _. apply probability_with_funding_fallback.
Qed.

(** A zero current price makes the relative distance a division by zero:
    the fallback is returned. *)
Lemma probability_in_unit_interval_witness :
  Detector._calculate_probability_of_profit Script.numerics 0 60000 24 UP
  = Ok 0.4.
Proof.
  destruct (probability_in_unit_interval Script.numerics 0 60000 24 UP 0)
    as (_ & _ & fallback & _).
  apply (fallback DivisionByZero). vm_compute. reflexivity.
Defined.

(** ** Execution plans *)

Lemma create_execution_plan_reads_clock {W} `{Runtime W}
    (config : TradingConfig) (strategy : HyperliquidExecutor.ExecutionStrategy)
    (opportunity : ArbitrageOpportunity) (s : st W Engine.t) :
  HyperliquidExecutor._create_execution_plan config strategy opportunity s
  = (Ok (HyperliquidExecutor.plan_for config strategy opportunity
           (fst (rt_utcnow (world s)))),
     mkSt (snd (rt_utcnow (world s))) (calls s) (self s)).
Proof.
  unfold HyperliquidExecutor._create_execution_plan, bind, utcnow, runtime, ret.
  destruct (rt_utcnow (world s)); reflexivity.
Qed.

(** C5, as the code has it.  In the Hyperliquid executor's adaptive mode the
    plan asks for market orders exactly when fewer than 4 hours remain to
    expiry or the expected profit percentage exceeds 5; in every other
    adaptive case it asks for limit orders. *)
Theorem adaptive_plan_market_orders {W} `{Runtime W}
    (config : TradingConfig) (opportunity : ArbitrageOpportunity)
    (s : st W Engine.t) :
  exists plan s',
    HyperliquidExecutor._create_execution_plan config
      HyperliquidExecutor.ADAPTIVE opportunity s = (Ok plan, s') /\
    let now := fst (rt_utcnow (world s)) in
    let hours_to_expiry := total_seconds (expires_at opportunity - now) / 3600 in
    (HyperliquidExecutor.use_market_orders plan = true <->
     hours_to_expiry < 4 \/ 5 < expected_profit_percentage opportunity) /\
    (HyperliquidExecutor.use_market_orders plan = false <->
     ~ (hours_to_expiry < 4 \/ 5 < expected_profit_percentage opportunity)).
Proof.
  eexists. eexists. split; [ apply create_execution_plan_reads_clock | ].
  cbv zeta.
  set (h := total_seconds (expires_at opportunity - fst (rt_utcnow (world s))) / 3600).
  assert (E : HyperliquidExecutor.use_market_orders
                (HyperliquidExecutor.plan_for config HyperliquidExecutor.ADAPTIVE
                   opportunity (fst (rt_utcnow (world s)))) = true <->
              h < 4 \/ 5 < expected_profit_percentage opportunity).
  { unfold HyperliquidExecutor.plan_for. fold h. simpl.
    destruct (Qltb h 2) eqn:H2; simpl.
    - apply Qltb_lt in H2. split; [ intros _; left; lra | reflexivity ].
    - apply Qltb_ge in H2.
      destruct (Qltb h 4) eqn:H4; simpl.
      + apply Qltb_lt in H4. split; [ intros _; now left | reflexivity ].
      + apply Qltb_ge in H4.
        destruct (Qgtb (expected_profit_percentage opportunity) 5) eqn:H5; simpl.
        * apply Qgtb_gt in H5. split; [ intros _; now right | reflexivity ].
        * apply Qgtb_le in H5. split; [ discriminate | ].
          intros [L|L]; exfalso; lra. }
  split; [ exact E | ].
  rewrite <- E.
  destruct (HyperliquidExecutor.use_market_orders _); split; congruence.
Qed.

(** Three hours before expiry, with no expected profit at all, the adaptive
    plan of the Hyperliquid executor asks for market orders. *)
Lemma adaptive_plan_three_hours :
  let opportunity := Scenario.opportunity LONG 62000 0 (3 * Scenario.hour)%Z in
  let s := Scenario.start (Scenario.silent 0%Z) Scenario.engine in
  exists plan s',
    HyperliquidExecutor._create_execution_plan default_config
      HyperliquidExecutor.ADAPTIVE opportunity s = (Ok plan, s') /\
    HyperliquidExecutor.use_market_orders plan = true /\
    total_seconds (expires_at opportunity - 0)%Z / 3600 == 3 /\
    expected_profit_percentage opportunity == 0.
Proof.
  eexists. eexists. repeat split.
Qed.

(** In executor.py the adaptive branch looks [total_seconds] up on the
    [Decimal] returned by [time_value]: it raises, whatever the
    opportunity. *)
Lemma should_use_market_orders_adaptive_raises {W} `{Runtime W}
    (opportunity : ArbitrageOpportunity) (s : st W Engine.t) :
  Executor._should_use_market_orders Executor.ADAPTIVE opportunity s
  = (Raise AttributeError,
     mkSt (snd (rt_utcnow (world s))) (calls s) (self s)).
Proof.
  unfold Executor._should_use_market_orders, bind, utcnow, runtime, lift.
  destruct (rt_utcnow (world s)); reflexivity.
Qed.

(** ** Reading a result backwards *)

Ltac invert_ok H :=
  repeat
    (simpl in H;
     match type of H with
     | rbind ?m _ = Ok _ =>
         let E := fresh "E" in destruct m eqn:E; [ | discriminate H ]
     | rtry ?m _ = Ok _ => idtac
     | (if ?b then _ else _) = Ok _ =>
         let E := fresh "E" in destruct b eqn:E; try discriminate H
     | match ?x with _ => _ end = Ok _ =>
         let E := fresh "E" in destruct x eqn:E; try discriminate H
     end).

(** ** The detector of detector.py *)


Lemma Detector_evaluate_spec {W} `{ExchangeClient W}
    (config : TradingConfig) (N : Numerics) (hours : Q)
    (pm_market : PolymarketMarket) (spot_market : SpotMarket)
    (ev : Detector.evaluation) :
  Detector.evaluate config N hours pm_market spot_market = Ok (Some ev) ->
  Detector.ev_expected_profit ev
  = expected_value (Detector.ev_prob_profit ev) (Detector.ev_win_profit ev)
      (Detector.ev_pm_loss ev) (Detector.ev_total_fees ev) /\
  Detector._calculate_probability_of_profit N (mid_price spot_market)
    (target_price pm_market) hours (Detector.ev_pm_side ev)
  = Ok (Detector.ev_prob_profit ev) /\
  Detector.ev_pm_loss ev = Detector.ev_pm_quantity ev * Detector.ev_pm_price ev /\
  Detector.ev_total_fees ev
  = Detector.ev_pm_position_value ev * 0.002
    + Detector.ev_hedge_value ev * taker_fee * 2 /\
  Detector.ev_breakeven_price ev = target_price pm_market /\
  Detector.ev_hedge_side ev
  = (if Qltb (mid_price spot_market) (target_price pm_market)
     then LONG else SHORT).
Proof.
  unfold Detector.evaluate. intros E.
  destruct (Qleb hours 0); [ discriminate | ].
  destruct (dec_div _ _) as [distance|]; [ | discriminate ]. simpl in E.
  destruct (Qltb (mid_price spot_market) (target_price pm_market)) eqn:Side.
  all: invert_ok E.
  all: injection E as <-; simpl; rewrite ?Side; repeat split; try reflexivity;
       assumption.
Qed.

Ltac run_monad :=
  cbv beta delta [bind ret raise lift try_except try_except_all get_self
                    modify_self venue runtime utcnow uuid4 sleep] in *.

(** Case analysis on the innermost scrutinee of a hypothesis. *)
Ltac case_step H :=
  cbv beta delta [rbind rtry] in H;
  match type of H with
  | context [match ?x with _ => _ end] =>
      lazymatch x with
      | context [match _ with _ => _ end] => fail
      | _ => let E := fresh "E" in destruct x eqn:E
      end
  end;
  cbn beta iota zeta delta [world calls self fst snd] in H;
  try discriminate H.

Lemma Detector_build_opportunity_fields {W} `{ExchangeClient W}
    (N : Numerics) pm spot hours ev uuid now o :
  Detector.build_opportunity N pm spot hours ev uuid now = Ok o ->
  expected_profit_usd o = Detector.ev_expected_profit ev /\
  probability_of_profit o = Detector.ev_prob_profit ev /\
  polymarket o = pm /\ spot_market o = spot /\
  hedge_price o = mid_price spot /\
  hedge_side o = Detector.ev_hedge_side ev /\
  polymarket_side o = Detector.ev_pm_side ev /\
  breakeven_price o = Detector.ev_breakeven_price ev.
Proof.
  unfold Detector.build_opportunity. intros E. invert_ok E.
  injection E as <-. simpl. repeat split; reflexivity.
Qed.

(** An opportunity comes out of [_analyze_market_pair] only through
    [evaluate] and the constructor call. *)
Lemma Detector_analyze_inv {W} `{ExchangeClient W} `{Runtime W}
    (config : TradingConfig) (N : Numerics) pm spot
    (s s' : st W (list ArbitrageOpportunity)) o :
  Detector._analyze_market_pair config N pm spot s = (Ok (Some o), s') ->
  exists ev uuid now,
    let hours := time_to_expiry_hours pm (fst (rt_utcnow (world s))) in
    Detector.evaluate config N hours pm spot = Ok (Some ev) /\
    Detector.build_opportunity N pm spot hours ev uuid now = Ok o.
Proof.
  unfold Detector._analyze_market_pair. run_monad. intros E.
  repeat case_step E.
  injection E as <- <-. simpl. eauto.
Qed.

(** ** The detector of hyperliquid_detector.py *)

Lemma HL_expected_profit_spec
    (pm_quantity pm_price hedge_quantity current_price target_price : Q)
    (hedge_side : MarketSide) (funding_cost_pct hours : Q)
    (calc : HyperliquidDetector.profit_calc) :
  HyperliquidDetector._calculate_expected_profit pm_quantity pm_price
    hedge_quantity current_price target_price hedge_side funding_cost_pct hours
  = Ok (Some calc) ->
  HyperliquidDetector.pc_expected_profit calc
  = HyperliquidDetector.pc_prob calc * HyperliquidDetector.pc_win_profit calc
    - (1 - HyperliquidDetector.pc_prob calc)
      * HyperliquidDetector.pc_pm_loss calc /\
  HyperliquidDetector._estimate_win_probability current_price target_price
    hours hedge_side = Ok (HyperliquidDetector.pc_prob calc).
Proof.
  unfold HyperliquidDetector._calculate_expected_profit, rtry. intros E.
  repeat case_step E.
  all: injection E as E; subst calc; simpl; split; reflexivity.
Qed.

(** [_determine_strategy] returns nothing when the price is within one
    percent of the target, the distance being taken relative to the
    target. *)
Lemma HL_determine_strategy_far current_price target_price pm funding sides :
  HyperliquidDetector._determine_strategy current_price target_price pm funding
  = Ok (Some sides) ->
  1 <= Qabs ((current_price - target_price) / target_price * 100).
Proof.
  unfold HyperliquidDetector._determine_strategy, dec_div. intros E.
  destruct (Qeqb target_price 0); [ discriminate | ]. simpl in E.
  destruct (Qltb _ 1) eqn:Close; [ discriminate | ].
  now apply Qltb_ge in Close.
Qed.

Lemma HL_evaluate_spec
    (config : TradingConfig) (N : Numerics) (hours : Q)
    (pm : PolymarketMarket) (hl : SpotMarket) (funding_rate : Q)
    (ev : HyperliquidDetector.evaluation) :
  HyperliquidDetector.evaluate config N hours pm hl funding_rate
  = Ok (Some ev) ->
  let calc := HyperliquidDetector.ev_profit_calc ev in
  HyperliquidDetector.ev_expected_profit ev
  = expected_value (HyperliquidDetector.pc_prob calc)
      (HyperliquidDetector.pc_win_profit calc)
      (HyperliquidDetector.pc_pm_loss calc)
      (HyperliquidDetector.ev_total_fees ev) /\
  HyperliquidDetector._estimate_win_probability (mid_price hl)
    (target_price pm) hours (HyperliquidDetector.ev_hedge_side ev)
  = Ok (HyperliquidDetector.pc_prob calc) /\
  HyperliquidDetector._calculate_probability_with_funding N (mid_price hl)
    (target_price pm) hours (HyperliquidDetector.ev_pm_side ev) funding_rate
  = Ok (HyperliquidDetector.ev_prob_profit ev) /\
  1 <= Qabs ((mid_price hl - target_price pm) / target_price pm * 100).
Proof.
  unfold HyperliquidDetector.evaluate. intros E.
  destruct (Qleb hours 0); [ discriminate | ].
  destruct (Qltb _ _); [ discriminate | ].
  destruct (HyperliquidDetector._determine_strategy _ _ _ _)
    as [[[pm_side hedge_side]|]|] eqn:Strategy; try discriminate.
  apply HL_determine_strategy_far in Strategy.
  simpl in E.
  destruct (Qgtb _ _); [ discriminate | ].
  destruct (HyperliquidDetector._calculate_position_sizes _ _ _ _ _)
    as [[[pm_quantity hedge_quantity]|]|]; try discriminate.
  simpl in E.
  destruct (HyperliquidDetector._calculate_expected_profit _ _ _ _ _ _ _ _)
    as [[calc|]|] eqn:Calc; try discriminate.
  apply HL_expected_profit_spec in Calc. destruct Calc as [Profit Estimate].
  simpl in E.
  destruct (Qltb _ _); [ discriminate | ].
  rewrite ?probability_with_funding_fallback in E. simpl in E.
  repeat case_step E.
  all: injection E as E; subst ev; simpl; rewrite Profit.
  all: repeat split; try reflexivity; assumption.
Qed.

Lemma HL_build_opportunity_fields
    (N : Numerics) pm hl hours funding ev uuid now o :
  HyperliquidDetector.build_opportunity N pm hl hours funding ev uuid now
  = Ok o ->
  expected_profit_usd o = HyperliquidDetector.ev_expected_profit ev /\
  probability_of_profit o = HyperliquidDetector.ev_prob_profit ev /\
  polymarket o = pm /\ spot_market o = hl /\
  hedge_price o = mid_price hl /\
  hedge_side o = HyperliquidDetector.ev_hedge_side ev /\
  polymarket_side o = HyperliquidDetector.ev_pm_side ev.
Proof.
  unfold HyperliquidDetector.build_opportunity. intros E. invert_ok E.
  injection E as <-. simpl. repeat split; reflexivity.
Qed.

Lemma HL_analyze_inv {W} `{Runtime W}
    (config : TradingConfig) (N : Numerics) pm hl funding
    (s s' : st W (list ArbitrageOpportunity)) o :
  HyperliquidDetector._analyze_market_pair config N pm hl funding s
  = (Ok (Some o), s') ->
  exists ev uuid now,
    let hours := time_to_expiry_hours pm (fst (rt_utcnow (world s))) in
    HyperliquidDetector.evaluate config N hours pm hl funding = Ok (Some ev) /\
    HyperliquidDetector.build_opportunity N pm hl hours funding ev uuid now
    = Ok o.
Proof.
  unfold HyperliquidDetector._analyze_market_pair. run_monad. intros E.
  repeat case_step E.
  injection E as <- <-. simpl. eauto.
Qed.

(** ** The Hyperliquid analysis raises nothing but [Exception]s *)

Lemma catchable_rtry {A} (m : res A) (h : exn -> res A) :
  catchable m -> (forall e, catchable (h e)) -> catchable (rtry m h).
Proof.
  destruct m as [a|e]; simpl; intros C Hh; [ exact I | ].
  rewrite C. apply Hh.
Qed.

Create HintDb catchable.

Ltac catchable_step :=
  first
    [ exact I
    | reflexivity
    | apply catchable_dec_div
    | apply catchable_float_div
    | apply catchable_decimal_sqrt
    | apply catchable_arith
    | apply catchable_py_div
    | solve [ auto with catchable ]
    | apply catchable_rbind; [ | intros ]
    | apply catchable_rtry; [ | intros ]
    | match goal with
      | |- catchable (if ?b then _ else _) => destruct b
      | |- catchable (match ?x with _ => _ end) => destruct x
      end ].

Ltac catchable_auto := repeat catchable_step.

Lemma catchable_validate_profit_percentage v :
  catchable (validate_profit_percentage v).
Proof. unfold validate_profit_percentage. catchable_auto. Qed.

Lemma catchable_determine_strategy c t pm f :
  catchable (HyperliquidDetector._determine_strategy c t pm f).
Proof. unfold HyperliquidDetector._determine_strategy. catchable_auto. Qed.

Lemma catchable_position_sizes config pm hl side price cost :
  catchable (HyperliquidDetector._calculate_position_sizes config pm hl side
               price cost).
Proof. unfold HyperliquidDetector._calculate_position_sizes. catchable_auto. Qed.

Lemma catchable_estimate_win_probability c t h side :
  catchable (HyperliquidDetector._estimate_win_probability c t h side).
Proof.
  unfold HyperliquidDetector._estimate_win_probability, py_mul, py_add.
  catchable_auto.
Qed.

#[local] Hint Resolve catchable_validate_profit_percentage
  catchable_determine_strategy catchable_position_sizes
  catchable_estimate_win_probability : catchable.

Lemma catchable_expected_profit q p hq c t side cost h :
  catchable (HyperliquidDetector._calculate_expected_profit q p hq c t side
               cost h).
Proof. unfold HyperliquidDetector._calculate_expected_profit. catchable_auto. Qed.

Lemma catchable_probability_with_funding N c t h side f :
  catchable (HyperliquidDetector._calculate_probability_with_funding N c t h
               side f).
Proof. rewrite probability_with_funding_fallback. exact I. Qed.

Lemma catchable_sharpe_with_funding N p r h f :
  catchable (HyperliquidDetector._calculate_sharpe_with_funding N p r h f).
Proof.
  unfold HyperliquidDetector._calculate_sharpe_with_funding. catchable_auto.
Qed.

#[local] Hint Resolve catchable_expected_profit
  catchable_probability_with_funding catchable_sharpe_with_funding : catchable.

Lemma catchable_hyperliquid_evaluate config N h pm hl f :
  catchable (HyperliquidDetector.evaluate config N h pm hl f).
Proof. unfold HyperliquidDetector.evaluate. catchable_auto. Qed.

Lemma catchable_hyperliquid_build N pm hl h f ev uuid now :
  catchable (HyperliquidDetector.build_opportunity N pm hl h f ev uuid now).
Proof. unfold HyperliquidDetector.build_opportunity. catchable_auto. Qed.

(** [_analyze_market_pair] returns to its caller, and asks no venue. *)
Lemma HL_analyze_returns {W} `{Runtime W}
    (config : TradingConfig) (N : Numerics) pm hl funding
    (s : st W (list ArbitrageOpportunity)) :
  exists r s',
    HyperliquidDetector._analyze_market_pair config N pm hl funding s
    = (Ok r, s') /\ calls s' = calls s.
Proof.
  unfold HyperliquidDetector._analyze_market_pair. run_monad.
  destruct (rt_utcnow (world s)) as [t w1].
  pose proof (catchable_hyperliquid_evaluate config N
                (time_to_expiry_hours pm t) pm hl funding) as Cev.
  destruct (HyperliquidDetector.evaluate config N _ pm hl funding)
    as [[ev|]|e]; cbn.
  - destruct (rt_uuid4 w1) as [uuid w2]; cbn.
    destruct (rt_utcnow w2) as [now w3]; cbn.
    pose proof (catchable_hyperliquid_build N pm hl
                  (time_to_expiry_hours pm t) funding ev uuid now) as Cb.
    destruct (HyperliquidDetector.build_opportunity N pm hl _ funding ev
                uuid now) as [o|e]; cbn.
    + eauto.
    + cbn in Cb. rewrite Cb. eauto.
  - eauto.
  - cbn in Cev. rewrite Cev. eauto.
Qed.

(** ** Sorting *)


Lemma insert_desc_Permutation {A} (key : A -> Q) x l :
  Permutation (x :: l) (insert_desc key x l).
Proof.
  induction l as [|y l IH]; simpl.
  - reflexivity.
  - destruct (Qltb (key x) (key y)).
    + rewrite perm_swap. now apply perm_skip.
    + reflexivity.
Qed.

Lemma sort_desc_Permutation {A} (key : A -> Q) l :
  Permutation l (sort_desc key l).
Proof.
  induction l as [|x l IH]; simpl.
  - reflexivity.
  - rewrite <- insert_desc_Permutation. now apply perm_skip.
Qed.

Lemma insert_desc_sorted {A} (key : A -> Q) x l :
  StronglySorted (descending key) l ->
  StronglySorted (descending key) (insert_desc key x l).
Proof.
  induction 1 as [|y l Sorted_l IH Below]; simpl.
  - repeat constructor.
  - destruct (Qltb (key x) (key y)) eqn:C.
    + apply Qltb_lt in C. constructor; [ exact IH | ].
      rewrite <- insert_desc_Permutation.
      constructor; [ now apply Qlt_le_weak | exact Below ].
    + apply Qltb_ge in C.
      constructor; [ now constructor | ].
      constructor; [ exact C | ].
      eapply List.Forall_impl; [ | exact Below ].
      intros z Hz. unfold descending in *. eapply Qle_trans; eassumption.
Qed.

Lemma sort_desc_sorted {A} (key : A -> Q) l :
  StronglySorted (descending key) (sort_desc key l).
Proof.
  induction l; simpl; [ constructor | now apply insert_desc_sorted ].
Qed.

(** ** What a scan returns *)

Section Scans.
  Context {W : Type} `{PolymarketClient W} `{ExchangeClient W}
          `{HyperliquidClient W} `{Runtime W}.
  Variable config : TradingConfig.
  Variable N : Numerics.

  Local Abbreviation state := (st W (list ArbitrageOpportunity)).


Lemma analyze_markets_emitted pms spot acc (s s' : state) l :
    Detector.analyze_markets config N pms spot acc s = (Ok l, s') ->
    Forall (emitted config N) acc -> Forall (emitted config N) l.
  Proof.
    revert acc s. induction pms as [|pm pms IH]; simpl; intros acc s E Hacc.
    - injection E as <- <-. exact Hacc.
    - unfold bind in E at 1.
      destruct (Detector._analyze_market_pair config N pm spot s)
        as [[[o|]|e] s1] eqn:A; try discriminate.
      + eapply IH; [ exact E | ].
        apply List.Forall_app. split; [ exact Hacc | ].
        constructor; [ | constructor ]. now exists pm, spot, s, s1.
      + eapply IH; eassumption.
  Qed.

Lemma scan_assets_emitted assets acc (s s' : state) l :
    Detector.scan_assets config N assets acc s = (Ok l, s') ->
    Forall (emitted config N) acc -> Forall (emitted config N) l.
  Proof.
    revert acc s. induction assets as [|a assets IH]; simpl; intros acc s E Hacc.
    - injection E as <- <-. exact Hacc.
    - unfold bind in E at 1.
      destruct (Detector.scan_asset config N a acc s) as [[acc'|e] s1] eqn:A;
        try discriminate.
      eapply IH; [ exact E | ].
      clear E IH. unfold Detector.scan_asset in A. run_monad.
      repeat (case_step A;
              try (injection A as <- <-; exact Hacc)).
      injection A as <- <-.
      eapply analyze_markets_emitted; eassumption.
  Qed.

Lemma scan_emitted assets (s s' : state) l o :
    Detector.scan_for_opportunities config N assets s = (Ok l, s') ->
    In o l -> emitted config N o.
  Proof.
    unfold Detector.scan_for_opportunities. unfold bind at 1. intros E Ho.
    destruct (Detector.scan_assets config N assets [] s) as [[found|e] s1] eqn:A;
      try discriminate.
    injection E as <- <-.
    apply scan_assets_emitted in A; [ | constructor ].
    rewrite List.Forall_forall in A. apply A.
    eapply Permutation_in; [ symmetry; apply sort_desc_Permutation | exact Ho ].
  Qed.

Lemma hyperliquid_analyze_markets_emitted pms hl funding acc (s s' : state) l :
    HyperliquidDetector.analyze_markets config N pms hl funding acc s
    = (Ok l, s') ->
    Forall (hyperliquid_emitted config N) acc ->
    Forall (hyperliquid_emitted config N) l.
  Proof.
    revert acc s. induction pms as [|pm pms IH]; simpl; intros acc s E Hacc.
    - injection E as <- <-. exact Hacc.
    - unfold bind in E at 1.
      destruct (HyperliquidDetector._analyze_market_pair config N pm hl
                  funding s) as [[[o|]|e] s1] eqn:A; try discriminate.
      + eapply IH; [ exact E | ].
        apply List.Forall_app. split; [ exact Hacc | ].
        constructor; [ | constructor ]. now exists pm, hl, funding, s, s1.
      + eapply IH; eassumption.
  Qed.

Lemma hyperliquid_scan_assets_emitted assets acc (s s' : state) l :
    HyperliquidDetector.scan_assets config N assets acc s = (Ok l, s') ->
    Forall (hyperliquid_emitted config N) acc ->
    Forall (hyperliquid_emitted config N) l.
  Proof.
    revert acc s. induction assets as [|a assets IH]; simpl; intros acc s E Hacc.
    - injection E as <- <-. exact Hacc.
    - unfold bind in E at 1.
      destruct (HyperliquidDetector.scan_asset config N a acc s)
        as [[acc'|e] s1] eqn:A; try discriminate.
      eapply IH; [ exact E | ].
      clear E IH. unfold HyperliquidDetector.scan_asset in A. run_monad.
      repeat (case_step A;
              try (injection A as <- <-; exact Hacc)).
      injection A as <- <-.
      eapply hyperliquid_analyze_markets_emitted; eassumption.
  Qed.

Lemma hyperliquid_scan_emitted assets (s s' : state) l o :
    HyperliquidDetector.scan_for_opportunities config N assets s = (Ok l, s') ->
    In o l -> hyperliquid_emitted config N o.
  Proof.
    unfold HyperliquidDetector.scan_for_opportunities. unfold bind at 1.
    intros E Ho.
    destruct (HyperliquidDetector.scan_assets config N assets [] s)
      as [[found|e] s1] eqn:A; try discriminate.
    injection E as <- <-.
    apply hyperliquid_scan_assets_emitted in A; [ | constructor ].
    rewrite List.Forall_forall in A. apply A.
    eapply Permutation_in; [ symmetry; apply sort_desc_Permutation | exact Ho ].
  Qed.

  (** C1, as the code has it.  Every opportunity in a list returned by the
      CEX detector has an expected profit equal to
      [p * win - (1 - p) * loss - fees] for the win-scenario profit, the loss
      and the fees of the analysis that emitted it, [p] being the
      probability of profit stored on the opportunity.  Every opportunity
      returned by the Hyperliquid detector satisfies the same formula for
      [p] the value of [_estimate_win_probability]; the probability of profit
      it stores is the value of [_calculate_probability_with_funding]. *)
Theorem expected_profit_formula :
    (forall assets (s s' : state) l o,
       Detector.scan_for_opportunities config N assets s = (Ok l, s') ->
       In o l ->
       exists hours ev,
         Detector.evaluate config N hours (polymarket o) (spot_market o)
         = Ok (Some ev) /\
         Detector._calculate_probability_of_profit N (hedge_price o)
           (target_price (polymarket o)) hours (polymarket_side o)
         = Ok (probability_of_profit o) /\
         expected_profit_usd o
         = expected_value (probability_of_profit o) (Detector.ev_win_profit ev)
             (Detector.ev_pm_loss ev) (Detector.ev_total_fees ev)) /\
    (forall assets (s s' : state) l o,
       HyperliquidDetector.scan_for_opportunities config N assets s
       = (Ok l, s') ->
       In o l ->
       exists hours funding_rate ev,
         HyperliquidDetector.evaluate config N hours (polymarket o)
           (spot_market o) funding_rate = Ok (Some ev) /\
         let calc := HyperliquidDetector.ev_profit_calc ev in
         HyperliquidDetector._estimate_win_probability (hedge_price o)
           (target_price (polymarket o)) hours (hedge_side o)
         = Ok (HyperliquidDetector.pc_prob calc) /\
         HyperliquidDetector._calculate_probability_with_funding N
           (hedge_price o) (target_price (polymarket o)) hours
           (polymarket_side o) funding_rate
         = Ok (probability_of_profit o) /\
         expected_profit_usd o
         = expected_value (HyperliquidDetector.pc_prob calc)
             (HyperliquidDetector.pc_win_profit calc)
             (HyperliquidDetector.pc_pm_loss calc)
             (HyperliquidDetector.ev_total_fees ev)).
  Proof.
    split.
    - intros assets s s' l o Scan Ho.
      destruct (scan_emitted _ _ _ _ _ Scan Ho) as (pm & spot & s0 & s1 & A).
      apply Detector_analyze_inv in A. destruct A as (ev & uuid & now & Ev & B).
      cbv zeta in Ev, B.
      apply Detector_build_opportunity_fields in B.
      destruct B as (Profit & Prob & Hpm & Hspot & Hprice & _ & Hside & _).
      pose proof (Detector_evaluate_spec _ _ _ _ _ _ Ev)
        as (Formula & Probability & _).
      eexists. exists ev. rewrite Hpm, Hspot, Hprice, Hside, Profit, Prob.
      repeat split; eassumption.
    - intros assets s s' l o Scan Ho.
      destruct (hyperliquid_scan_emitted _ _ _ _ _ Scan Ho)
        as (pm & hl & funding & s0 & s1 & A).
      apply HL_analyze_inv in A. destruct A as (ev & uuid & now & Ev & B).
      cbv zeta in Ev, B.
      apply HL_build_opportunity_fields in B.
      destruct B as (Profit & Prob & Hpm & Hspot & Hprice & Hhedge & Hside).
      pose proof (HL_evaluate_spec _ _ _ _ _ _ _ Ev)
        as (Formula & Estimate & Probability & _).
      eexists. exists funding, ev.
      rewrite Hpm, Hspot, Hprice, Hside, Hhedge, Profit, Prob.
      repeat split; eassumption.
  Qed.

  (** C2, as the code has it.  The list returned by the Hyperliquid
      detector's scan is in descending order of
      [expected_profit_usd * probability_of_profit]; the list returned by the
      CEX detector's scan is in descending order of [expected_profit_usd]. *)
Theorem scan_results_sorted :
    (forall assets (s s' : state) l,
       HyperliquidDetector.scan_for_opportunities config N assets s
       = (Ok l, s') ->
       StronglySorted (descending HyperliquidDetector.ranking_key) l) /\
    (forall assets (s s' : state) l,
       Detector.scan_for_opportunities config N assets s = (Ok l, s') ->
       StronglySorted (descending expected_profit_usd) l).
  Proof.
    split; intros assets s s' l;
      [ unfold HyperliquidDetector.scan_for_opportunities
      | unfold Detector.scan_for_opportunities ];
      unfold bind at 1; intros E;
      match type of E with
      | context [match ?x with _ => _ end] => destruct x as [[found|e] s1]
      end; try discriminate;
      injection E as <- <-; apply sort_desc_sorted.
  Qed.

  (** C9, as the code has it.  When the hedge mid price is within one
      percent of the target, the distance being measured relative to the
      target, the Hyperliquid detector emits no opportunity for the
      contract; no opportunity in a list it returns is that close. *)
Theorem close_to_target_not_emitted :
    (forall pm hl funding (s : state),
       Qabs ((mid_price hl - target_price pm) / target_price pm * 100) < 1 ->
       exists s',
         HyperliquidDetector._analyze_market_pair config N pm hl funding s
         = (Ok None, s')) /\
    (forall assets (s s' : state) l o,
       HyperliquidDetector.scan_for_opportunities config N assets s
       = (Ok l, s') ->
       In o l ->
       1 <= Qabs ((hedge_price o - target_price (polymarket o))
                  / target_price (polymarket o) * 100)).
  Proof.
    split.
    - intros pm hl funding s Close.
      destruct (HL_analyze_returns config N pm hl funding s)
        as ([o|] & s' & A & _); [ | eauto ].
      exfalso. apply HL_analyze_inv in A.
      destruct A as (ev & uuid & now & Ev & _). cbv zeta in Ev.
      apply HL_evaluate_spec in Ev. destruct Ev as (_ & _ & _ & Far).
      eapply Qlt_not_le; eassumption.
    - intros assets s s' l o Scan Ho.
      destruct (hyperliquid_scan_emitted _ _ _ _ _ Scan Ho)
        as (pm & hl & funding & s0 & s1 & A).
      apply HL_analyze_inv in A. destruct A as (ev & uuid & now & Ev & B).
      cbv zeta in Ev, B.
      apply HL_build_opportunity_fields in B.
      destruct B as (_ & _ & -> & _ & -> & _).
      apply HL_evaluate_spec in Ev. now destruct Ev as (_ & _ & _ & Far).
  Qed.

  (** C7.  When the opportunity's expiry is not after the clock read by
      [validate_opportunity], either detector rejects it with the expiry
      reason alone and asks no venue: the calls made are those made before. *)
Theorem expired_opportunity_rejected (o : ArbitrageOpportunity) (s : state) :
    (expires_at o <= fst (rt_utcnow (world s)))%Z ->
    let after := mkSt (snd (rt_utcnow (world s))) (calls s) (self s) in
    Detector.validate_opportunity o s
    = (Ok (false, [Market_has_expired]), after) /\
    HyperliquidDetector.validate_opportunity config o s
    = (Ok (false, [Market_has_expired]), after).
  Proof.
    intros Expired.
    unfold Detector.validate_opportunity,
      HyperliquidDetector.validate_opportunity.
    run_monad.
    destruct (rt_utcnow (world s)) as [now w]. cbn in *.
    apply Z.leb_le in Expired. rewrite Expired. split; reflexivity.
  Qed.

End Scans.

(** The Hyperliquid scan of [DetectionScenario] returns one opportunity.
    Its expected profit was computed with the estimate 103/202, it stores
    the probability 2/5, and the formula evaluated at the stored probability
    falls short of the stored expected profit. *)
Lemma expected_profit_not_from_stored_probability :
  exists o s' ev,
    DetectionScenario.hyperliquid_scan = (Ok [o], s') /\
    HyperliquidDetector.evaluate default_config Script.numerics 48
      (polymarket o) (spot_market o) 0.0001 = Ok (Some ev) /\
    let calc := HyperliquidDetector.ev_profit_calc ev in
    probability_of_profit o == 2 # 5 /\
    HyperliquidDetector.pc_prob calc == 103 # 202 /\
    expected_value (probability_of_profit o)
      (HyperliquidDetector.pc_win_profit calc)
      (HyperliquidDetector.pc_pm_loss calc)
      (HyperliquidDetector.ev_total_fees ev)
    < expected_profit_usd o.
Proof.
  eexists. eexists. eexists.
  split; [ vm_compute; reflexivity | ].
  split; [ vm_compute; reflexivity | ].
  vm_compute. repeat split; reflexivity.
Qed.

Lemma found_returned {S} (r : res (list ArbitrageOpportunity) * S) :
  match fst r with Ok _ => True | Raise _ => False end ->
  r = (Ok (DetectionScenario.found r), snd r).
Proof.
  unfold DetectionScenario.found. destruct r as [[l|e] s]; simpl.
  - reflexivity.
  - intros [].
Qed.

Lemma expected_profit_formula_witness :
  length (DetectionScenario.found DetectionScenario.exchange_scan) = 2%nat /\
  Forall
    (fun o =>
       exists hours ev,
         Detector.evaluate default_config Script.numerics hours (polymarket o)
           (spot_market o) = Ok (Some ev) /\
         Detector._calculate_probability_of_profit Script.numerics
           (hedge_price o) (target_price (polymarket o)) hours
           (polymarket_side o) = Ok (probability_of_profit o) /\
         expected_profit_usd o
         = expected_value (probability_of_profit o) (Detector.ev_win_profit ev)
             (Detector.ev_pm_loss ev) (Detector.ev_total_fees ev))
    (DetectionScenario.found DetectionScenario.exchange_scan).
Proof.
  split; [ vm_compute; reflexivity | ].
  apply List.Forall_forall. intros o Ho.
  eapply (proj1 (expected_profit_formula default_config Script.numerics));
    [ | exact Ho ].
  apply (found_returned DetectionScenario.exchange_scan).
  vm_compute. exact I.
Defined.

(** The CEX scan of [DetectionScenario] returns its two opportunities with
    the larger expected profit first, although the product of expected
    profit and probability is the larger for the second. *)
Lemma exchange_scan_not_ranked_by_product :
  exists a b s',
    DetectionScenario.exchange_scan = (Ok [a; b], s') /\
    expected_profit_usd b < expected_profit_usd a /\
    HyperliquidDetector.ranking_key a < HyperliquidDetector.ranking_key b.
Proof.
  eexists. eexists. eexists.
  split; [ vm_compute; reflexivity | ].
  vm_compute. split; reflexivity.
Qed.

Lemma scan_results_sorted_witness :
  StronglySorted (descending HyperliquidDetector.ranking_key)
    (DetectionScenario.found DetectionScenario.hyperliquid_scan) /\
  StronglySorted (descending expected_profit_usd)
    (DetectionScenario.found DetectionScenario.exchange_scan).
Proof.
  split.
  - eapply (proj1 (scan_results_sorted default_config Script.numerics)).
    apply (found_returned DetectionScenario.hyperliquid_scan).
    vm_compute. exact I.
  - eapply (proj2 (scan_results_sorted default_config Script.numerics)).
    apply (found_returned DetectionScenario.exchange_scan).
    vm_compute. exact I.
Defined.

(** Both detectors emit for a contract 48 or 6 hours from expiry whose
    target is less than one percent of the price away from the price: the
    CEX detector with the price exactly at the target, the Hyperliquid
    detector with the price at 60,600 for a target of 60,000. *)
Lemma emitted_within_one_percent_of_price :
  (exists o rest s',
     DetectionScenario.exchange_scan = (Ok (o :: rest), s') /\
     0 < time_to_expiry_hours (polymarket o) 0%Z /\
     Qabs (hedge_price o - target_price (polymarket o)) / hedge_price o * 100
     < 1) /\
  (exists o s',
     DetectionScenario.hyperliquid_scan = (Ok [o], s') /\
     0 < time_to_expiry_hours (polymarket o) 0%Z /\
     Qabs (hedge_price o - target_price (polymarket o)) / hedge_price o * 100
     < 1).
Proof.
  split.
  - eexists. eexists. eexists.
    split; [ vm_compute; reflexivity | ].
    vm_compute. split; reflexivity.
  - eexists. eexists.
    split; [ vm_compute; reflexivity | ].
    vm_compute. split; reflexivity.
Qed.

(** At 60,300 the price is half a percent above the target. *)
Lemma close_to_target_not_emitted_witness :
  exists s',
    HyperliquidDetector._analyze_market_pair default_config Script.numerics
      (Scenario.contract 48 0.4) (Scenario.quote_at 60300) 0.0001
      (Scenario.start DetectionScenario.hyperliquid_world [])
    = (Ok None, s').
Proof.
  apply (proj1 (close_to_target_not_emitted default_config Script.numerics)).
  vm_compute. reflexivity.
Defined.

Lemma expired_opportunity_rejected_witness :
  let o := Scenario.opportunity LONG 62000 0 (-1)%Z in
  let s := Scenario.start (Scenario.silent 0%Z)
             ([] : list ArbitrageOpportunity) in
  fst (Detector.validate_opportunity o s) = Ok (false, [Market_has_expired]) /\
  calls (snd (Detector.validate_opportunity o s)) = [] /\
  fst (HyperliquidDetector.validate_opportunity default_config o s)
  = Ok (false, [Market_has_expired]) /\
  calls (snd (HyperliquidDetector.validate_opportunity default_config o s)) = [].
Proof.
  intros o s.
  destruct (expired_opportunity_rejected default_config o s) as [E1 E2].
  - vm_compute. discriminate.
  - rewrite E1, E2. repeat split.
Defined.

(** ** Relations a computation respects *)

#[global] Instance ledger_same_preorder : PreOrder ledger_same.
Proof.
  split.
  - intros e. repeat split.
  - intros a b c (A1 & A2 & A3 & A4 & A5) (B1 & B2 & B3 & B4 & B5).
    repeat split; congruence.
Qed.

#[global] Instance touches_preorder (j : nat) : PreOrder (touches j).
Proof.
  split.
  - intros e. split; [ reflexivity | reflexivity ].
  - intros a b c [L1 O1] [L2 O2]. split.
    + etransitivity; eassumption.
    + intros i Hi. rewrite O2, O1; auto.
Qed.

Section Respects.
  Context {W : Type} `{PolymarketClient W} `{ExchangeClient W}
          `{HyperliquidClient W} `{Runtime W}.
  Variable R : Engine.t -> Engine.t -> Prop.
  Context {R_preorder : PreOrder R}.

  Local Abbreviation Task := (M W Engine.t).

Lemma respects_ret {A} (a : A) : respects R (ret a : Task A).
  Proof. intros s r s' [= <- <-]. reflexivity. Qed.

Lemma respects_raise {A} (e : exn) : respects R (raise e : Task A).
  Proof. intros s r s' [= <- <-]. reflexivity. Qed.

Lemma respects_lift {A} (x : res A) : respects R (lift x : Task A).
  Proof. intros s r s' [= <- <-]. reflexivity. Qed.

Lemma respects_get_self : respects R (get_self : Task Engine.t).
  Proof. intros s r s' [= <- <-]. reflexivity. Qed.

Lemma respects_read id : respects R (Engine.read id : Task Position.t).
  Proof. intros s r s' [= <- <-]. reflexivity. Qed.

Lemma respects_bind {A B} (m : Task A) (k : A -> Task B) :
    respects R m -> (forall a, respects R (k a)) -> respects R (bind m k).
  Proof.
    intros Hm Hk s r s'. unfold bind.
    destruct (m s) as [[a|e] s1] eqn:E.
    - intros K. etransitivity; [ eapply Hm | eapply Hk ]; eassumption.
    - intros [= <- <-]. eapply Hm; eassumption.
  Qed.

Lemma respects_try_except {A} (m : Task A) (h : exn -> Task A) :
    respects R m -> (forall e, respects R (h e)) ->
    respects R (try_except m h).
  Proof.
    intros Hm Hh s r s'. unfold try_except.
    destruct (m s) as [[a|e] s1] eqn:E.
    - intros [= <- <-]. eapply Hm; eassumption.
    - destruct (is_Exception e).
      + intros K. etransitivity; [ eapply Hm | eapply Hh ]; eassumption.
      + intros [= <- <-]. eapply Hm; eassumption.
  Qed.

Lemma respects_try_except_all {A} (m : Task A) (h : exn -> Task A) :
    respects R m -> (forall e, respects R (h e)) ->
    respects R (try_except_all m h).
  Proof.
    intros Hm Hh s r s'. unfold try_except_all.
    destruct (m s) as [[a|e] s1] eqn:E.
    - intros [= <- <-]. eapply Hm; eassumption.
    - intros K. etransitivity; [ eapply Hm | eapply Hh ]; eassumption.
  Qed.

Lemma respects_venue {A} c (f : W -> res A * W) :
    respects R (venue c f : Task A).
  Proof.
    intros s r s'. unfold venue. destruct (f (world s)).
    intros [= <- <-]. reflexivity.
  Qed.

Lemma respects_runtime {A} (f : W -> res A * W) :
    respects R (runtime f : Task A).
  Proof.
    intros s r s'. unfold runtime. destruct (f (world s)).
    intros [= <- <-]. reflexivity.
  Qed.

Lemma respects_utcnow : respects R (utcnow : Task datetime).
  Proof. apply respects_runtime. Qed.

Lemma respects_uuid4 : respects R (uuid4 : Task string).
  Proof. apply respects_runtime. Qed.

Lemma respects_sleep q : respects R (sleep q : Task unit).
  Proof. apply respects_runtime. Qed.

Lemma respects_number v : respects R (Engine.number v : Task Q).
  Proof. destruct v; [ apply respects_ret | apply respects_raise ]. Qed.

Lemma respects_format_decimal v :
    respects R (Engine.format_decimal v : Task unit).
  Proof. destruct v; [ apply respects_ret | apply respects_raise ]. Qed.

Lemma respects_modify_self (f : Engine.t -> Engine.t) :
    (forall e, R e (f e)) -> respects R (modify_self f : Task unit).
  Proof. intros Hf s r s' [= <- <-]. apply Hf. Qed.

Lemma respects_task {A} (m : Task A) :
    respects R m -> respects R (HyperliquidExecutor.task m).
  Proof.
    intros Hm s r s'. unfold HyperliquidExecutor.task.
    destruct (m s) as [x s1] eqn:E. intros [= <- <-]. eapply Hm; eassumption.
  Qed.

Lemma respects_done_and_result r :
    respects R (HyperliquidExecutor.done_and_result r : Task bool).
  Proof.
    destruct r as [b|[]]; simpl;
      apply respects_ret || apply respects_raise.
  Qed.

End Respects.

Lemma touches_assign {W} (j : nat) (f : Position.t -> Position.t) :
  respects (touches j) (Engine.assign j f : M W Engine.t unit).
Proof.
  apply respects_modify_self. intros e. split.
  - repeat split.
  - intros i Hi. simpl. unfold Engine.store.
    destruct (Nat.eqb_spec i j); congruence.
Qed.

Create HintDb respects.

(** One step of a proof that a computation respects a relation. *)
Ltac respects_step :=
  lazymatch goal with
  | |- PreOrder _ => typeclasses eauto
  | |- forall _, _ => intros
  | |- respects _ (if ?b then _ else _) => destruct b
  | |- respects _ (match ?x with _ => _ end) => destruct x
  | |- respects _ _ =>
      first
        [ assumption
        | solve [ auto with respects ]
        | apply respects_ret
        | apply respects_raise
        | apply respects_lift
        | apply respects_get_self
        | apply respects_read
        | apply respects_venue
        | apply respects_utcnow
        | apply respects_uuid4
        | apply respects_sleep
        | apply respects_number
        | apply respects_format_decimal
        | apply touches_assign
        | apply respects_done_and_result
        | apply respects_task
        | apply respects_bind
        | apply respects_try_except
        | apply respects_try_except_all ]
  end.

Ltac respects_auto := repeat respects_step.

(** ** The legs and the rollback only touch the position *)

Section Legs.
  Context {W : Type} `{PolymarketClient W} `{ExchangeClient W}
          `{HyperliquidClient W} `{Runtime W}.
  Variable config : TradingConfig.

Lemma touches_wait_loop j fuel start oid is_pm asset timeout :
    respects (touches j)
      (Executor.wait_loop fuel start oid is_pm asset timeout).
  Proof.
    induction fuel as [|fuel IH]; simpl; respects_auto.
  Qed.

Lemma touches_wait_for_fill j oid is_pm asset timeout :
    respects (touches j) (Executor._wait_for_fill oid is_pm asset timeout).
  Proof.
    unfold Executor._wait_for_fill. respects_auto. apply touches_wait_loop.
  Qed.

  Hint Resolve touches_wait_for_fill : respects.

Lemma touches_polymarket_leg j o m :
    respects (touches j) (Executor._execute_polymarket_leg o j m).
  Proof. unfold Executor._execute_polymarket_leg. respects_auto. Qed.

Lemma touches_hedge_leg j o m :
    respects (touches j) (Executor._execute_hedge_leg o j m).
  Proof. unfold Executor._execute_hedge_leg. respects_auto. Qed.

  Hint Resolve touches_polymarket_leg touches_hedge_leg : respects.

Lemma touches_run_legs j o m :
    respects (touches j) (Executor.run_legs o j m).
  Proof. unfold Executor.run_legs. respects_auto. Qed.

Lemma touches_rollback j :
    respects (touches j) (Executor._rollback_position j).
  Proof. unfold Executor._rollback_position. respects_auto. Qed.

Lemma touches_should_use_market_orders j strategy o :
    respects (touches j) (Executor._should_use_market_orders strategy o).
  Proof. unfold Executor._should_use_market_orders. respects_auto. Qed.

End Legs.

Section HyperliquidLegs.
  Context {W : Type} `{PolymarketClient W} `{HyperliquidClient W} `{Runtime W}.
  Variable config : TradingConfig.
  Variable strategy : HyperliquidExecutor.ExecutionStrategy.

Lemma hyperliquid_touches_wait_loop j fuel start oid is_pm timeout :
    respects (touches j)
      (HyperliquidExecutor.wait_loop fuel start oid is_pm timeout).
  Proof.
    induction fuel as [|fuel IH]; simpl; respects_auto.
  Qed.

Lemma hyperliquid_touches_wait_for_fill j oid is_pm timeout :
    respects (touches j) (HyperliquidExecutor._wait_for_fill oid is_pm timeout).
  Proof.
    unfold HyperliquidExecutor._wait_for_fill. respects_auto.
    apply hyperliquid_touches_wait_loop.
  Qed.

  Hint Resolve hyperliquid_touches_wait_for_fill : respects.

Lemma hyperliquid_touches_polymarket_leg j o plan :
    respects (touches j) (HyperliquidExecutor._execute_polymarket_leg o j plan).
  Proof. unfold HyperliquidExecutor._execute_polymarket_leg. respects_auto. Qed.

Lemma hyperliquid_touches_hyperliquid_leg j o plan :
    respects (touches j) (HyperliquidExecutor._execute_hyperliquid_leg o j plan).
  Proof. unfold HyperliquidExecutor._execute_hyperliquid_leg. respects_auto. Qed.

  Hint Resolve hyperliquid_touches_polymarket_leg
    hyperliquid_touches_hyperliquid_leg : respects.

Lemma hyperliquid_touches_parallel j o plan :
    respects (touches j) (HyperliquidExecutor._execute_parallel o j plan).
  Proof. unfold HyperliquidExecutor._execute_parallel. respects_auto. Qed.

Lemma hyperliquid_touches_twap_chunks j n i max o plan a b c x y :
    respects (touches j)
      (HyperliquidExecutor.twap_chunks n i max o plan a b c x y).
  Proof.
    revert i x y. induction n as [|n IH]; intros i x y; simpl; respects_auto.
  Qed.

  Hint Resolve hyperliquid_touches_twap_chunks : respects.

Lemma hyperliquid_touches_twap j o plan :
    respects (touches j) (HyperliquidExecutor._execute_twap o j plan).
  Proof. unfold HyperliquidExecutor._execute_twap. respects_auto. Qed.

Lemma hyperliquid_touches_run_legs j o plan :
    respects (touches j) (HyperliquidExecutor.run_legs strategy o j plan).
  Proof.
    unfold HyperliquidExecutor.run_legs.
    destruct (HyperliquidExecutor.ExecutionStrategy_eqb strategy _);
      [ apply hyperliquid_touches_twap | apply hyperliquid_touches_parallel ].
  Qed.

Lemma hyperliquid_touches_rollback j :
    respects (touches j) (HyperliquidExecutor._rollback_position j).
  Proof. unfold HyperliquidExecutor._rollback_position. respects_auto. Qed.

Lemma hyperliquid_touches_set_risk_parameters j o :
    respects (touches j)
      (HyperliquidExecutor._set_risk_parameters config j o : M W Engine.t _).
  Proof. unfold HyperliquidExecutor._set_risk_parameters. respects_auto. Qed.

Lemma hyperliquid_touches_calculate_slippage j o :
    respects (touches j)
      (HyperliquidExecutor._calculate_slippage j o : M W Engine.t _).
  Proof. unfold HyperliquidExecutor._calculate_slippage. respects_auto. Qed.

Lemma hyperliquid_touches_create_execution_plan j o :
    respects (touches j)
      (HyperliquidExecutor._create_execution_plan config strategy o
       : M W Engine.t _).
  Proof. unfold HyperliquidExecutor._create_execution_plan. respects_auto. Qed.

End HyperliquidLegs.

(** ** Rollback *)

Lemma store_same id p h : Engine.store id p h id = p.
Proof. unfold Engine.store. now rewrite Nat.eqb_refl. Qed.

Lemma store_other id p h i : i <> id -> Engine.store id p h i = h i.
Proof.
  intros Hi. unfold Engine.store. destruct (Nat.eqb_spec i id); congruence.
Qed.

Ltac split_runs E :=
  run_monad; cbn beta iota zeta delta [world calls self fst snd] in E;
  repeat case_step E.

Lemma hyperliquid_rollback_outcome {W} `{PolymarketClient W}
    `{HyperliquidClient W} (id : nat) (s : st W Engine.t) r s' :
  HyperliquidExecutor._rollback_position id s = (r, s') -> rolled_back id r s'.
Proof.
  unfold HyperliquidExecutor._rollback_position, Engine.read, Engine.assign.
  intros E. split_runs E.
  all: injection E as <- <-; unfold rolled_back; simpl;
    rewrite ?store_same; simpl; eauto.
Qed.

(** ** Running a sequence whose first step is known *)

Section Steps.
  Context {W S A B : Type}.
  Implicit Types (m : M W S A) (k : A -> M W S B) (h : exn -> M W S A).

Lemma bind_Ok m k s a s1 : m s = (Ok a, s1) -> bind m k s = k a s1.
  Proof. unfold bind. now intros ->. Qed.

Lemma bind_Raise m k s e s1 :
    m s = (Raise e, s1) -> bind m k s = (Raise e, s1).
  Proof. unfold bind. now intros ->. Qed.

Lemma try_except_Ok m h s a s1 :
    m s = (Ok a, s1) -> try_except m h s = (Ok a, s1).
  Proof. unfold try_except. now intros ->. Qed.

Lemma try_except_caught m h s e s1 :
    m s = (Raise e, s1) -> is_Exception e = true ->
    try_except m h s = h e s1.
  Proof. unfold try_except. now intros -> ->. Qed.

Lemma try_except_passed m h s e s1 :
    m s = (Raise e, s1) -> is_Exception e = false ->
    try_except m h s = (Raise e, s1).
  Proof. unfold try_except. now intros -> ->. Qed.

End Steps.

(** Rewriting with the outcome of the first step of a sequence. *)
Ltac step E :=
  first [ rewrite (bind_Ok _ _ _ _ _ E) | rewrite (bind_Raise _ _ _ _ _ E) ];
  change (negb true) with false; change (negb false) with true;
  cbv beta iota.

(** ** Opening a position *)

Lemma touches_may_open j e e' : touches j e e' -> may_open j e e'.
Proof.
  intros [(A & B & C & D & E) O]. unfold may_open. auto 10.
Qed.

Lemma may_open_after_touches j e0 e1 e2 :
  touches j e0 e1 -> may_open j e1 e2 -> may_open j e0 e2.
Proof.
  intros [(A & B & C & D & E) O] (A' & C' & E' & O' & Reg).
  unfold may_open. rewrite A', C', E', A, C, E.
  repeat split; try reflexivity.
  - intros i Hi. rewrite O', O; auto.
  - rewrite <- B, <- D. exact Reg.
Qed.

Lemma may_open_before_touches j e0 e1 e2 :
  may_open j e0 e1 -> touches j e1 e2 -> may_open j e0 e2.
Proof.
  intros (A' & C' & E' & O' & Reg) [(A & B & C & D & E) O].
  unfold may_open. rewrite A, C, E, A', C', E'.
  repeat split; try reflexivity.
  - intros i Hi. rewrite O, O'; auto.
  - rewrite B, D. exact Reg.
Qed.

Ltac solve_may_open :=
  unfold may_open; simpl;
  repeat match goal with
         | |- _ /\ _ => split
         | |- forall _, _ => intros
         end;
  rewrite ?store_other by assumption;
  try reflexivity;
  first [ left; split; reflexivity | right; split; reflexivity ].

Lemma exchange_open_position_spec {W} (config : TradingConfig)
    (o : ArbitrageOpportunity) (id : nat) (s : st W Engine.t) r s' :
  Executor.open_position config o id s = (r, s') ->
  may_open id (self s) (self s') /\
  (forall x, r = Ok (Some x) ->
     x = id /\
     let p := Engine.objects (self s') id in
     Position.status p = OPEN /\
     exists entry,
       Position.hedge_entry_price p = Some entry /\
       Position.stop_loss_price p
       = Some (Executor._calculate_stop_loss config entry
                 (Position.hedge_side p)) /\
       Position.take_profit_price p
       = Some (Executor._calculate_take_profit entry (Position.hedge_side p)
                 (breakeven_price o))).
Proof.
  unfold Executor.open_position, Engine.read, Engine.assign, Engine.number,
    Engine.format_decimal.
  intros E. split_runs E.
  all: injection E as <- <-.
  all: split; [ solve_may_open | ].
  all: intros x [= <-].
  all: split; [ reflexivity | ].
  all: cbv zeta; simpl; rewrite ?store_same; simpl.
  all: split; [ reflexivity | ].
  all: eexists; split; [ eassumption | ].
  all: split; reflexivity.
Qed.

Lemma inject_Z_nonzero z : z <> 0%Z -> Qeqb (inject_Z z) 0 = false.
Proof.
  intros Hz. unfold Qeqb. destruct (inject_Z z ?= 0) eqn:E; try reflexivity.
  apply Qeq_alt in E. exfalso. apply Hz.
  unfold Qeq in E. simpl in E. lia.
Qed.

Lemma hyperliquid_open_position_spec {W} `{Runtime W} (config : TradingConfig)
    (o : ArbitrageOpportunity) (id : nat) (start_time : datetime)
    (s : st W Engine.t) r s' :
  HyperliquidExecutor.open_position config o id start_time s = (r, s') ->
  may_open id (self s) (self s') /\
  (forall x, r = Ok (Some x) ->
     x = id /\
     let p := Engine.objects (self s') id in
     Position.status p = OPEN /\
     exists entry,
       Position.hedge_entry_price p = Some entry /\
       (DEFAULT_LEVERAGE config <> 0%Z ->
        let adjusted_stop_pct :=
          stop_loss_decimal config / inject_Z (DEFAULT_LEVERAGE config) in
        Position.stop_loss_price p
        = Some (if MarketSide_eqb (Position.hedge_side p) LONG
                then entry * (1 - adjusted_stop_pct)
                else entry * (1 + adjusted_stop_pct)) /\
        Position.take_profit_price p = Some (breakeven_price o * 0.95))).
Proof.
  unfold HyperliquidExecutor.open_position,
    HyperliquidExecutor._set_risk_parameters,
    HyperliquidExecutor._calculate_slippage, dec_div,
    Engine.read, Engine.assign, Engine.number, Engine.format_decimal.
  intros E. split_runs E.
  all: injection E as <- <-.
  all: split; [ solve_may_open | ].
  all: intros x [= <-].
  all: split; [ reflexivity | ].
  all: cbv zeta; simpl in *; rewrite ?store_same in *; simpl in *.
  all: split; [ reflexivity | ].
  all: try congruence.
  all: eexists; split; [ eassumption | ].
  all: intros Lev; apply inject_Z_nonzero in Lev.
  all: try congruence.
  all: repeat match goal with
              | M : MarketSide_eqb _ _ = _ |- _ => rewrite M; clear M
              end.
  all: split; congruence.
Qed.

(** ** Reading a sequence backwards *)

Section Inversions.
  Context {W S A B : Type}.
  Implicit Types (m : M W S A) (k : A -> M W S B) (h : exn -> M W S A).

Lemma bind_inv m k s r s' :
    bind m k s = (r, s') ->
    (exists a s1, m s = (Ok a, s1) /\ k a s1 = (r, s')) \/
    (exists e, m s = (Raise e, s') /\ r = Raise e).
  Proof.
    unfold bind. destruct (m s) as [[a|e] s1].
    - intros K. left. eauto.
    - intros [= <- <-]. right. eauto.
  Qed.

Lemma try_except_inv m h s r s' :
    try_except m h s = (r, s') ->
    (exists a, m s = (Ok a, s') /\ r = Ok a) \/
    (exists e s1, m s = (Raise e, s1) /\ is_Exception e = true /\
                  h e s1 = (r, s')) \/
    (exists e, m s = (Raise e, s') /\ is_Exception e = false /\ r = Raise e).
  Proof.
    unfold try_except. destruct (m s) as [[a|e] s1].
    - intros [= <- <-]. left. eauto.
    - destruct (is_Exception e) eqn:Ex.
      + intros K. right. left. eauto.
      + intros [= <- <-]. right. right. eauto.
  Qed.

End Inversions.

(** ** The risk limits *)

Section RiskLimits.
  Context {W : Type} `{Runtime W}.
  Variable config : TradingConfig.

  Local Abbreviation state := (st W Engine.t).

  (** The first clock read of a check that starts in [s], and the second
      one, made when the counter is reset. *)
Let now (s : state) : datetime := fst (rt_utcnow (world s)).
Let now' (s : state) : datetime :=
    fst (rt_utcnow (snd (rt_utcnow (world s)))).

Lemma exchange_check_resets (s : state) :
    (Engine.last_trade_reset (self s) < date_of (now s))%Z ->
    exists b s',
      Executor._check_risk_limits config s = (Ok b, s') /\
      self s'
      = Engine.set_last_trade_reset (date_of (now' s))
          (Engine.set_daily_trade_count 0 (self s)).
  Proof.
    intros Due. apply Z.ltb_lt in Due.
    unfold Executor._check_risk_limits. run_monad. subst now now'.
    cbv beta in *.
    destruct (rt_utcnow (world s)) as [t w] eqn:T.
    cbn beta iota zeta delta [world calls self fst snd] in *.
    rewrite Due.
    cbn beta iota zeta delta [world calls self fst snd].
    destruct (rt_utcnow w) as [t' w'].
    cbn beta iota zeta delta [world calls self fst snd].
    repeat match goal with
           | |- context [if ?b then _ else _] => destruct b
           end; eauto.
  Qed.

Lemma exchange_check_keeps (s : state) :
    (date_of (now s) <= Engine.last_trade_reset (self s))%Z ->
    exists b s',
      Executor._check_risk_limits config s = (Ok b, s') /\
      self s' = self s.
  Proof.
    intros Same. apply Z.ltb_ge in Same.
    unfold Executor._check_risk_limits. run_monad. subst now.
    cbv beta in *.
    destruct (rt_utcnow (world s)) as [t w] eqn:T.
    cbn beta iota zeta delta [world calls self fst snd] in *.
    rewrite Same.
    cbn beta iota zeta delta [world calls self fst snd].
    repeat match goal with
           | |- context [if ?b then _ else _] => destruct b
           end; eauto.
  Qed.

Lemma hyperliquid_check_resets (s : state) :
    (Engine.last_trade_reset (self s) < date_of (now s))%Z ->
    exists b s',
      HyperliquidExecutor._check_risk_limits config s = (Ok b, s') /\
      self s'
      = Engine.set_last_trade_reset (date_of (now' s))
          (Engine.set_daily_trade_count 0 (self s)).
  Proof. exact (exchange_check_resets s). Qed.

Lemma hyperliquid_check_keeps (s : state) :
    (date_of (now s) <= Engine.last_trade_reset (self s))%Z ->
    exists b s',
      HyperliquidExecutor._check_risk_limits config s = (Ok b, s') /\
      self s' = self s.
  Proof. exact (exchange_check_keeps s). Qed.

  (** A check returns, and the engine it leaves is the one it found or that
      one with the counter reset. *)
Lemma exchange_check_returns (s : state) :
    exists b s',
      Executor._check_risk_limits config s = (Ok b, s') /\
      (self s' = self s \/
       (Engine.last_trade_reset (self s) < date_of (now s))%Z /\
       self s'
       = Engine.set_last_trade_reset (date_of (now' s))
           (Engine.set_daily_trade_count 0 (self s))).
  Proof.
    destruct (Z.lt_ge_cases (Engine.last_trade_reset (self s))
                (date_of (now s))) as [Due|Same].
    - destruct (exchange_check_resets s Due) as (b & s' & E & K). eauto 10.
    - destruct (exchange_check_keeps s Same) as (b & s' & E & K). eauto 10.
  Qed.

End RiskLimits.

(** ** A run of [execute_opportunity] *)

Section Execution.
  Context {W : Type} `{PolymarketClient W} `{ExchangeClient W}
          `{HyperliquidClient W} `{Runtime W}.
  Variable config : TradingConfig.

  Local Abbreviation state := (st W Engine.t).

Lemma exchange_execute_try_spec strategy o id (s : state) r s' :
    Executor.execute_try config strategy o id s = (r, s') ->
    may_open id (self s) (self s') /\
    (forall x, r = Ok (Some x) ->
       exists s0 r0,
         Executor.open_position config o id s0 = (r0, s') /\ r0 = r).
  Proof.
    unfold Executor.execute_try. intros E.
    apply bind_inv in E as [(m & s1 & E1 & E)|(e & E1 & ->)].
    2: { split; [ | discriminate ].
         apply touches_may_open.
         eapply touches_should_use_market_orders; eassumption. }
    apply (touches_should_use_market_orders id) in E1.
    apply bind_inv in E as [([pm hedge] & s2 & E2 & E)|(e & E2 & ->)].
    2: { split; [ | discriminate ].
         apply touches_may_open. etransitivity; [ exact E1 | ].
         eapply touches_run_legs; eassumption. }
    apply (touches_run_legs id) in E2.
    assert (T : touches id (self s) (self s2))
      by (etransitivity; eassumption).
    destruct (negb pm || negb hedge).
    - apply bind_inv in E as [(u & s3 & E3 & E)|(e & E3 & ->)].
      + injection E as <- <-. split; [ | discriminate ].
        apply touches_may_open. etransitivity; [ exact T | ].
        eapply touches_rollback; eassumption.
      + split; [ | discriminate ].
        apply touches_may_open. etransitivity; [ exact T | ].
        eapply touches_rollback; eassumption.
    - split.
      + eapply may_open_after_touches; [ exact T | ].
        eapply exchange_open_position_spec; eassumption.
      + intros x _. eauto.
  Qed.

  (** What a run of [Executor.execute_opportunity] leaves: the risk check
      returned; if it refused, nothing else happened; if not, the position
      [next_id] was constructed and nothing changed but its attributes and,
      possibly, its registration. *)
Lemma exchange_execute_cases strategy o (s : state) r s' :
    Executor.execute_opportunity config strategy o s = (r, s') ->
    exists b s1,
      Executor._check_risk_limits config s = (Ok b, s1) /\
      ((b = false /\ r = Ok None /\ s' = s1) \/
       (b = true /\
        may_open (Engine.next_id (self s1))
          (Engine.set_next_id (S (Engine.next_id (self s1))) (self s1))
          (self s') /\
        forall x, r = Ok (Some x) ->
          x = Engine.next_id (self s1) /\
          exists s0,
            Executor.open_position config o x s0 = (Ok (Some x), s'))).
  Proof.
    unfold Executor.execute_opportunity. intros E.
    destruct (exchange_check_returns config s) as (b & s1 & C & _).
    exists b, s1. split; [ exact C | ].
    rewrite (bind_Ok _ _ _ _ _ C) in E. cbv beta in E. destruct b.
    - right. split; [ reflexivity | ].
      cbn [negb] in E. cbv iota in E.
      apply bind_inv in E as [(t & s2 & E2 & E)|(e & E2 & ->)].
      2: { unfold utcnow, runtime in E2. destruct (rt_utcnow _) in E2.
           discriminate. }
      assert (K2 : self s2 = self s1).
      { unfold utcnow, runtime in E2. destruct (rt_utcnow _) in E2.
        now injection E2 as _ <-. }
      apply bind_inv in E as [(id & s3 & E3 & E)|(e & E3 & ->)];
        [ | discriminate ].
      unfold Engine.new_position in E3. injection E3 as <- <-.
      rewrite K2 in *.
      set (id := Engine.next_id (self s1)) in *.
      assert (Made : may_open id
                (Engine.set_next_id (S id) (self s1))
                (Engine.set_next_id (S id)
                   (Engine.set_objects
                      (Engine.store id (Executor.fresh_position o t id)
                         (Engine.objects (self s1))) (self s1)))).
      { unfold may_open. simpl. repeat split; auto.
        intros i Hi. now rewrite store_other. }
      assert (Trans : forall e1 e2 e3,
                 may_open id e1 e2 -> may_open id e2 e3 ->
                 (Engine.active_positions e2 = Engine.active_positions e1 /\
                  Engine.daily_trade_count e2 = Engine.daily_trade_count e1) ->
                 may_open id e1 e3).
      { intros e1 e2 e3 (A1 & B1 & C1 & O1 & _) (A2 & B2 & C2 & O2 & R2)
          [Act Cnt].
        unfold may_open. rewrite A2, B2, C2, A1, B1, C1.
        repeat split; auto.
        - intros i Hi. rewrite O2, O1; auto.
        - rewrite <- Act, <- Cnt. exact R2. }
      apply try_except_inv in E
          as [(a & E & ->)|[(e & s4 & E & Ex & Hd)|(e & E & Ex & ->)]].
      + apply exchange_execute_try_spec in E as [Open From].
        split.
        * eapply Trans; [ exact Made | exact Open | split; reflexivity ].
        * intros x [= ->].
          destruct (From x eq_refl) as (s0 & r0 & Op & ->).
          destruct (exchange_open_position_spec _ _ _ _ _ _ Op) as [_ Id].
          destruct (Id x eq_refl) as [-> _]. eauto.
      + apply exchange_execute_try_spec in E as [Open _].
        apply bind_inv in Hd as [(u & s5 & R & Hd)|(e' & R & ->)].
        * injection Hd as <- <-. split; [ | discriminate ].
          eapply Trans; [ exact Made | | split; reflexivity ].
          eapply may_open_before_touches; [ exact Open | ].
          eapply touches_rollback; eassumption.
        * split; [ | discriminate ].
          eapply Trans; [ exact Made | | split; reflexivity ].
          eapply may_open_before_touches; [ exact Open | ].
          eapply touches_rollback; eassumption.
      + apply exchange_execute_try_spec in E as [Open _].
        split; [ | discriminate ].
        eapply Trans; [ exact Made | exact Open | split; reflexivity ].
    - left. cbn [negb] in E. cbv iota in E.
      injection E as <- <-. auto.
  Qed.


Lemma utcnow_inv (s : state) r s' :
    utcnow s = (r, s') ->
    r = Ok (fst (rt_utcnow (world s))) /\
    world s' = snd (rt_utcnow (world s)) /\
    calls s' = calls s /\ self s' = self s.
  Proof.
    unfold utcnow, runtime. destruct (rt_utcnow (world s)).
    intros [= <- <-]. auto.
  Qed.

Lemma hyperliquid_execute_try_spec strategy o id start (s : state) r s' :
    HyperliquidExecutor.execute_try config strategy o id start s = (r, s') ->
    may_open id (self s) (self s') /\
    (forall x, r = Ok (Some x) ->
       exists s0 r0,
         HyperliquidExecutor.open_position config o id start s0 = (r0, s') /\
         r0 = r).
  Proof.
    unfold HyperliquidExecutor.execute_try. intros E.
    apply bind_inv in E as [(plan & s1 & E1 & E)|(e & E1 & ->)].
    2: { split; [ | discriminate ].
         apply touches_may_open.
         eapply hyperliquid_touches_create_execution_plan; eassumption. }
    apply (hyperliquid_touches_create_execution_plan config strategy id) in E1.
    apply bind_inv in E as [(success & s2 & E2 & E)|(e & E2 & ->)].
    2: { split; [ | discriminate ].
         apply touches_may_open. etransitivity; [ exact E1 | ].
         eapply hyperliquid_touches_run_legs; eassumption. }
    apply (hyperliquid_touches_run_legs strategy id) in E2.
    assert (T : touches id (self s) (self s2))
      by (etransitivity; eassumption).
    destruct (negb success).
    - apply bind_inv in E as [(u & s3 & E3 & E)|(e & E3 & ->)].
      + injection E as <- <-. split; [ | discriminate ].
        apply touches_may_open. etransitivity; [ exact T | ].
        eapply hyperliquid_touches_rollback; eassumption.
      + split; [ | discriminate ].
        apply touches_may_open. etransitivity; [ exact T | ].
        eapply hyperliquid_touches_rollback; eassumption.
    - split.
      + eapply may_open_after_touches; [ exact T | ].
        eapply hyperliquid_open_position_spec; eassumption.
      + intros x _. eauto.
  Qed.

  (** The pre-execution checks run the risk check first and change nothing
      after it. *)
Lemma hyperliquid_pre_checks_spec o (s : state) r s' :
    HyperliquidExecutor._pre_execution_checks config o s = (r, s') ->
    exists b s1,
      HyperliquidExecutor._check_risk_limits config s = (Ok b, s1) /\
      self s' = self s1 /\ (r = Ok true -> b = true).
  Proof.
    unfold HyperliquidExecutor._pre_execution_checks. intros E.
    destruct (exchange_check_returns config s) as (b & s1 & C & _).
    change (Executor._check_risk_limits config s)
      with (HyperliquidExecutor._check_risk_limits config s) in C.
    exists b, s1. split; [ exact C | ].
    rewrite (bind_Ok _ _ _ _ _ C) in E. cbv beta in E.
    destruct b; cbn [negb] in E; cbv iota in E.
    - split; [ | reflexivity ].
      unfold HyperliquidExecutor._check_market_hours in E.
      cbn [negb] in E. cbv iota in E.
      revert E.
      match goal with
      | |- ?m s1 = _ -> _ =>
          assert (R : respects eq m) by respects_auto
      end.
      intros E. symmetry. exact (R _ _ _ E).
    - injection E as <- <-. split; [ reflexivity | discriminate ].
  Qed.

  (** What a run of [HyperliquidExecutor.execute_opportunity] leaves. *)
Lemma hyperliquid_execute_cases strategy o (s : state) r s' :
    HyperliquidExecutor.execute_opportunity config strategy o s = (r, s') ->
    exists start s0 b s1,
      utcnow s = (Ok start, s0) /\
      HyperliquidExecutor._check_risk_limits config s0 = (Ok b, s1) /\
      (((forall x, r <> Ok (Some x)) /\ self s' = self s1) \/
       (b = true /\
        may_open (Engine.next_id (self s1))
          (Engine.set_next_id (S (Engine.next_id (self s1))) (self s1))
          (self s') /\
        forall x, r = Ok (Some x) ->
          x = Engine.next_id (self s1) /\
          exists s2,
            HyperliquidExecutor.open_position config o x start s2
            = (Ok (Some x), s'))).
  Proof.
    unfold HyperliquidExecutor.execute_opportunity. intros E.
    apply bind_inv in E as [(start & s0 & E0 & E)|(e & E0 & ->)].
    2: { apply utcnow_inv in E0 as [? _]. discriminate. }
    exists start, s0.
    apply bind_inv in E as [(allowed & sa & Ea & E)|(e & Ea & ->)].
    2: { apply hyperliquid_pre_checks_spec in Ea as (b & s1 & C & K & _).
         exists b, s1. split; [ exact E0 | ]. split; [ exact C | ].
         left. split; [ discriminate | exact K ]. }
    apply hyperliquid_pre_checks_spec in Ea as (b & s1 & C & K & B).
    exists b, s1. split; [ exact E0 | ]. split; [ exact C | ].
    destruct allowed; cbn [negb] in E; cbv iota in E.
    2: { injection E as <- <-. left. split; [ discriminate | exact K ]. }
    right. split; [ now apply B | ].
    apply bind_inv in E as [(t & s2 & E2 & E)|(e & E2 & ->)].
    2: { apply utcnow_inv in E2 as [? _]. discriminate. }
    assert (K2 : self s2 = self s1).
    { apply utcnow_inv in E2 as (_ & _ & _ & ->). exact K. }
    apply bind_inv in E as [(id & s3 & E3 & E)|(e & E3 & ->)];
      [ | discriminate ].
    unfold Engine.new_position in E3. injection E3 as <- <-.
    rewrite K2 in *.
    set (id := Engine.next_id (self s1)) in *.
    assert (Made : may_open id
              (Engine.set_next_id (S id) (self s1))
              (Engine.set_next_id (S id)
                 (Engine.set_objects
                    (Engine.store id
                       (HyperliquidExecutor.fresh_position o t id)
                       (Engine.objects (self s1))) (self s1)))).
    { unfold may_open. simpl. repeat split; auto.
      intros i Hi. now rewrite store_other. }
    assert (Trans : forall e1 e2 e3,
               may_open id e1 e2 -> may_open id e2 e3 ->
               (Engine.active_positions e2 = Engine.active_positions e1 /\
                Engine.daily_trade_count e2 = Engine.daily_trade_count e1) ->
               may_open id e1 e3).
    { intros e1 e2 e3 (A1 & B1 & C1 & O1 & _) (A2 & B2 & C2 & O2 & R2)
        [Act Cnt].
      unfold may_open. rewrite A2, B2, C2, A1, B1, C1.
      repeat split; auto.
      - intros i Hi. rewrite O2, O1; auto.
      - rewrite <- Act, <- Cnt. exact R2. }
    apply try_except_inv in E
        as [(a & E & ->)|[(e & s4 & E & Ex & Hd)|(e & E & Ex & ->)]].
    + apply hyperliquid_execute_try_spec in E as [Open From].
      split.
      * eapply Trans; [ exact Made | exact Open | split; reflexivity ].
      * intros x [= ->].
        destruct (From x eq_refl) as (s5 & r0 & Op & ->).
        destruct (hyperliquid_open_position_spec _ _ _ _ _ _ _ Op) as [_ Id].
        destruct (Id x eq_refl) as [-> _]. eauto.
    + apply hyperliquid_execute_try_spec in E as [Open _].
      apply bind_inv in Hd as [(u & s5 & R & Hd)|(e' & R & ->)].
      * injection Hd as <- <-. split; [ | discriminate ].
        eapply Trans; [ exact Made | | split; reflexivity ].
        eapply may_open_before_touches; [ exact Open | ].
        eapply hyperliquid_touches_rollback; eassumption.
      * split; [ | discriminate ].
        eapply Trans; [ exact Made | | split; reflexivity ].
        eapply may_open_before_touches; [ exact Open | ].
        eapply hyperliquid_touches_rollback; eassumption.
    + apply hyperliquid_execute_try_spec in E as [Open _].
      split; [ | discriminate ].
      eapply Trans; [ exact Made | exact Open | split; reflexivity ].
  Qed.

End Execution.

(** ** Stop loss and take profit *)

Lemma scaled_below (entry d : Q) : 0 < entry -> 0 < d -> entry * (1 - d) < entry.
Proof. intros. nra. Qed.

Lemma scaled_above (entry d : Q) : 0 < entry -> 0 < d -> entry < entry * (1 + d).
Proof. intros. nra. Qed.

Lemma stop_loss_decimal_positive config :
  0 < DEFAULT_STOP_LOSS_PERCENT config -> 0 < stop_loss_decimal config.
Proof.
  intros P. unfold stop_loss_decimal.
  apply Qlt_shift_div_l; [ reflexivity | ]. lra.
Qed.

Lemma calculate_stop_loss_adverse config entry side :
  0 < entry -> 0 < DEFAULT_STOP_LOSS_PERCENT config ->
  adverse side entry (Executor._calculate_stop_loss config entry side).
Proof.
  intros E P. apply stop_loss_decimal_positive in P.
  unfold adverse, Executor._calculate_stop_loss.
  destruct (MarketSide_eqb side LONG);
    [ now apply scaled_below | now apply scaled_above ].
Qed.

Lemma calculate_take_profit_midpoint entry side target :
  Executor._calculate_take_profit entry side target == (entry + target) / 2.
Proof.
  unfold Executor._calculate_take_profit.
  destruct (MarketSide_eqb side LONG); field.
Qed.

Lemma midpoint_between (a b x : Q) :
  x == (a + b) / 2 -> ~ a == b -> strictly_between a b x.
Proof.
  intros X Ne. unfold strictly_between.
  assert (X2 : 2 * x == a + b) by (rewrite X; field).
  destruct (Q_dec a b) as [[L|G]|E]; [ left | right | contradiction ];
    split; lra.
Qed.

Section Levels.
  Context {W : Type} `{PolymarketClient W} `{ExchangeClient W}
          `{HyperliquidClient W} `{Runtime W}.
  Variable config : TradingConfig.

  Local Abbreviation state := (st W Engine.t).

  (** C4, as the code has it.  A position returned by [execute_opportunity]
      is OPEN and has an entry price, a stop loss and a take profit.  With a
      positive entry price and a positive stop-loss percentage, the stop
      loss is strictly on the losing side of the entry price: below it for a
      long hedge, above it otherwise.  In executor.py the take profit is the
      midpoint of the entry price and the opportunity's breakeven price,
      hence strictly between them when they differ.  In
      hyperliquid_executor.py (with a positive default leverage) the take
      profit is 95% of the breakeven price whatever the entry price and the
      hedge side, hence below a positive breakeven price. *)
Theorem returned_position_levels :
    (forall strategy o (s : state) id s',
       Executor.execute_opportunity config strategy o s = (Ok (Some id), s') ->
       let p := Engine.objects (self s') id in
       Position.status p = OPEN /\
       exists entry stop take,
         Position.hedge_entry_price p = Some entry /\
         Position.stop_loss_price p = Some stop /\
         Position.take_profit_price p = Some take /\
         (0 < entry -> 0 < DEFAULT_STOP_LOSS_PERCENT config ->
          adverse (Position.hedge_side p) entry stop) /\
         take == (entry + breakeven_price o) / 2 /\
         (~ entry == breakeven_price o ->
          strictly_between entry (breakeven_price o) take)) /\
    (forall strategy o (s : state) id s',
       (0 < DEFAULT_LEVERAGE config)%Z ->
       HyperliquidExecutor.execute_opportunity config strategy o s
       = (Ok (Some id), s') ->
       let p := Engine.objects (self s') id in
       Position.status p = OPEN /\
       exists entry stop take,
         Position.hedge_entry_price p = Some entry /\
         Position.stop_loss_price p = Some stop /\
         Position.take_profit_price p = Some take /\
         (0 < entry -> 0 < DEFAULT_STOP_LOSS_PERCENT config ->
          adverse (Position.hedge_side p) entry stop) /\
         take == breakeven_price o * 0.95 /\
         (0 < breakeven_price o -> take < breakeven_price o)).
  Proof.
    split.
    - intros strategy o s id s' E.
      apply exchange_execute_cases in E
          as (b & s1 & _ & [(_ & [=] & _)|(_ & _ & Opened)]).
      destruct (Opened id eq_refl) as (_ & s0 & Op).
      apply exchange_open_position_spec in Op as [_ Op].
      destruct (Op id eq_refl) as (_ & Status & entry & Entry & Stop & Take).
      cbv zeta. split; [ exact Status | ].
      eexists entry, _, _.
      split; [ exact Entry | ]. split; [ exact Stop | ].
      split; [ exact Take | ].
      split; [ apply calculate_stop_loss_adverse | ].
      split; [ apply calculate_take_profit_midpoint | ].
      apply midpoint_between, calculate_take_profit_midpoint.
    - intros strategy o s id s' Lev E.
      apply hyperliquid_execute_cases in E
          as (start & s0 & b & s1 & _ & _ & [(No & _)|(_ & _ & Opened)]);
        [ now destruct (No id) | ].
      destruct (Opened id eq_refl) as (_ & s2 & Op).
      apply hyperliquid_open_position_spec in Op as [_ Op].
      destruct (Op id eq_refl) as (_ & Status & entry & Entry & Levels).
      cbv zeta in Levels. destruct Levels as [Stop Take]; [ lia | ].
      cbv zeta. split; [ exact Status | ].
      eexists entry, _, _.
      split; [ exact Entry | ]. split; [ exact Stop | ].
      split; [ exact Take | ].
      split; [ | split; [ reflexivity | intros; lra ] ].
      intros E P. apply stop_loss_decimal_positive in P.
      assert (D : 0 < stop_loss_decimal config
                      / inject_Z (DEFAULT_LEVERAGE config)).
      { apply Qlt_shift_div_l; [ | lra ].
        change 0 with (inject_Z 0). rewrite <- Zlt_Qlt. exact Lev. }
      unfold adverse.
      destruct (MarketSide_eqb _ LONG);
        [ now apply scaled_below | now apply scaled_above ].
  Qed.

End Levels.

(** In a world where both legs fill at the assumed prices, the Hyperliquid
    executor returns an OPEN position entered at 60,000.  For a long hedge
    with breakeven 62,000 its take profit is 58,900, below the entry price;
    for a short hedge with breakeven 58,000 it is 55,100, beyond the
    breakeven price.  Neither lies between entry and breakeven. *)
Lemma hyperliquid_take_profit_not_between :
  let long := ExecutionScenario.hyperliquid_run
                (ExecutionScenario.filling LONG)
                (ExecutionScenario.tomorrow LONG 62000) in
  let short := ExecutionScenario.hyperliquid_run
                 (ExecutionScenario.filling SHORT)
                 (ExecutionScenario.tomorrow SHORT 58000) in
  (fst long = Ok (Some 0%nat) /\
   let p := Engine.objects (self (snd long)) 0 in
   Position.status p = OPEN /\
   Position.hedge_side p = LONG /\
   Position.hedge_entry_price p = Some 60000 /\
   exists take,
     Position.take_profit_price p = Some take /\
     take == 58900 /\
     ~ strictly_between 60000 62000 take) /\
  (fst short = Ok (Some 0%nat) /\
   let p := Engine.objects (self (snd short)) 0 in
   Position.status p = OPEN /\
   Position.hedge_side p = SHORT /\
   Position.hedge_entry_price p = Some 60000 /\
   exists take,
     Position.take_profit_price p = Some take /\
     take == 55100 /\
     ~ strictly_between 60000 58000 take).
Proof.
  cbv zeta. split.
  - split; [ vm_compute; reflexivity | ].
    split; [ vm_compute; reflexivity | ].
    split; [ vm_compute; reflexivity | ].
    split; [ vm_compute; reflexivity | ].
    eexists. split; [ vm_compute; reflexivity | ].
    split; [ vm_compute; reflexivity | ].
    intros [[A B]|[A B]]; vm_compute in A, B; discriminate.
  - split; [ vm_compute; reflexivity | ].
    split; [ vm_compute; reflexivity | ].
    split; [ vm_compute; reflexivity | ].
    split; [ vm_compute; reflexivity | ].
    eexists. split; [ vm_compute; reflexivity | ].
    split; [ vm_compute; reflexivity | ].
    intros [[A B]|[A B]]; vm_compute in A, B; discriminate.
Qed.

(** Both executors on the filling world, long hedge, breakeven 62,000. *)
Lemma returned_position_levels_witness :
  (let run := ExecutionScenario.exchange_run (ExecutionScenario.filling LONG)
                (ExecutionScenario.tomorrow LONG 62000) in
   let p := Engine.objects (self (snd run)) 0 in
   Position.status p = OPEN /\
   exists entry stop take,
     Position.hedge_entry_price p = Some entry /\
     Position.stop_loss_price p = Some stop /\
     Position.take_profit_price p = Some take /\
     (0 < entry -> 0 < DEFAULT_STOP_LOSS_PERCENT default_config ->
      adverse (Position.hedge_side p) entry stop) /\
     take == (entry + 62000) / 2 /\
     (~ entry == 62000 -> strictly_between entry 62000 take)) /\
  (let run := ExecutionScenario.hyperliquid_run
                (ExecutionScenario.filling LONG)
                (ExecutionScenario.tomorrow LONG 62000) in
   let p := Engine.objects (self (snd run)) 0 in
   Position.status p = OPEN /\
   exists entry stop take,
     Position.hedge_entry_price p = Some entry /\
     Position.stop_loss_price p = Some stop /\
     Position.take_profit_price p = Some take /\
     (0 < entry -> 0 < DEFAULT_STOP_LOSS_PERCENT default_config ->
      adverse (Position.hedge_side p) entry stop) /\
     take == 62000 * 0.95 /\
     (0 < 62000 -> take < 62000)).
Proof.
  split.
  - intros run.
    apply (proj1 (returned_position_levels default_config)
             Executor.AGGRESSIVE (ExecutionScenario.tomorrow LONG 62000)
             (Scenario.start (ExecutionScenario.filling LONG) Scenario.engine)
             0%nat (snd run)).
    vm_compute. reflexivity.
  - intros run.
    apply (proj2 (returned_position_levels default_config)
             HyperliquidExecutor.ADAPTIVE
             (ExecutionScenario.tomorrow LONG 62000)
             (Scenario.start (ExecutionScenario.filling LONG) Scenario.engine)
             0%nat (snd run)).
    + vm_compute. reflexivity.
    + vm_compute. reflexivity.
Defined.

(** ** The daily counter *)

Section DailyCounter.
  Context {W : Type} `{PolymarketClient W} `{ExchangeClient W}
          `{HyperliquidClient W} `{Runtime W}.
  Variable config : TradingConfig.

  Local Abbreviation state := (st W Engine.t).

Lemma may_open_counter id e0 e e' :
    may_open id (Engine.set_next_id (S id) e) e' ->
    e = e0 ->
    Engine.last_trade_reset e' = Engine.last_trade_reset e0 /\
    (Engine.daily_trade_count e' = Engine.daily_trade_count e0 \/
     Engine.daily_trade_count e' = (Engine.daily_trade_count e0 + 1)%Z).
  Proof.
    intros (_ & _ & Reset & _ & [[_ Count]|[_ Count]]) <-;
      simpl in Reset, Count; auto.
  Qed.

  (** C8.  A risk-limit check of either executor reads the clock; when its
      date is past the last reset date, the check sets the counter to zero
      and the last reset date to the date of the clock (read a second time);
      when it is not, the check leaves the engine as it found it, so that
      until the date advances again no further check resets the counter.
      An execution whose risk-limit check reads a date that is not past the
      last reset date leaves the last reset date alone, and the counter as
      it was or one higher. *)
Theorem daily_counter_reset_once :
    (forall s : state,
       let now := fst (rt_utcnow (world s)) in
       let now' := fst (rt_utcnow (snd (rt_utcnow (world s)))) in
       exists b s',
         Executor._check_risk_limits config s = (Ok b, s') /\
         HyperliquidExecutor._check_risk_limits config s = (Ok b, s') /\
         ((Engine.last_trade_reset (self s) < date_of now)%Z ->
          Engine.daily_trade_count (self s') = 0%Z /\
          Engine.last_trade_reset (self s') = date_of now') /\
         ((date_of now <= Engine.last_trade_reset (self s))%Z ->
          self s' = self s)) /\
    (forall strategy o (s : state) r s',
       let now := fst (rt_utcnow (world s)) in
       Executor.execute_opportunity config strategy o s = (r, s') ->
       (date_of now <= Engine.last_trade_reset (self s))%Z ->
       Engine.last_trade_reset (self s') = Engine.last_trade_reset (self s) /\
       (Engine.daily_trade_count (self s') = Engine.daily_trade_count (self s) \/
        Engine.daily_trade_count (self s')
        = (Engine.daily_trade_count (self s) + 1)%Z)) /\
    (forall strategy o (s : state) r s',
       let now := fst (rt_utcnow (snd (rt_utcnow (world s)))) in
       HyperliquidExecutor.execute_opportunity config strategy o s = (r, s') ->
       (date_of now <= Engine.last_trade_reset (self s))%Z ->
       Engine.last_trade_reset (self s') = Engine.last_trade_reset (self s) /\
       (Engine.daily_trade_count (self s') = Engine.daily_trade_count (self s) \/
        Engine.daily_trade_count (self s')
        = (Engine.daily_trade_count (self s) + 1)%Z)).
  Proof.
    split; [ | split ].
    - intros s now now'.
      destruct (Z.lt_ge_cases (Engine.last_trade_reset (self s))
                  (date_of now)) as [Due|Same].
      + destruct (exchange_check_resets config s Due) as (b & s' & E & K).
        exists b, s'. split; [ exact E | ]. split; [ exact E | ].
        split; [ | lia ]. intros _. now rewrite K.
      + destruct (exchange_check_keeps config s Same) as (b & s' & E & K).
        exists b, s'. split; [ exact E | ]. split; [ exact E | ].
        split; [ lia | ]. intros _. exact K.
    - intros strategy o s r s' now E Same.
      destruct (exchange_check_keeps config s Same) as (b0 & s0 & C0 & K).
      apply exchange_execute_cases in E
          as (b & s1 & C & [(_ & _ & ->)|(_ & Open & _)]);
        rewrite C0 in C; injection C as <- <-.
      + rewrite K. auto.
      + eapply may_open_counter; eassumption.
    - intros strategy o s r s' now E Same.
      apply hyperliquid_execute_cases in E
          as (start & s0 & b & s1 & E0 & C & Cases).
      apply utcnow_inv in E0 as (_ & W0 & _ & K0).
      assert (Same0 : (date_of (fst (rt_utcnow (world s0)))
                       <= Engine.last_trade_reset (self s0))%Z)
        by (rewrite W0, K0; exact Same).
      destruct (hyperliquid_check_keeps config s0 Same0) as (b' & s1' & C' & K).
      rewrite C' in C. injection C as <- <-.
      rewrite K0 in K.
      destruct Cases as [(_ & ->)|(_ & Open & _)].
      + rewrite K. auto.
      + eapply may_open_counter; eassumption.
  Qed.

End DailyCounter.

(** After one trade on the day of the epoch the counter is 1; a second
    execution on the same day does not reset it, and a check on the next day
    resets it. *)
Lemma daily_counter_reset_once_witness :
  let after_trade :=
    self (snd (ExecutionScenario.exchange_run (ExecutionScenario.filling LONG)
                 (ExecutionScenario.tomorrow LONG 62000))) in
  let same_day := Scenario.start (ExecutionScenario.filling LONG) after_trade in
  let next_day := Scenario.start (Scenario.silent (24 * Scenario.hour)%Z)
                    after_trade in
  let again :=
    self (snd (Executor.execute_opportunity default_config Executor.AGGRESSIVE
                 (ExecutionScenario.tomorrow LONG 62000) same_day)) in
  let checked :=
    self (snd (Executor._check_risk_limits default_config next_day)) in
  Engine.daily_trade_count after_trade = 1%Z /\
  (Engine.last_trade_reset again = 0%Z /\
   (Engine.daily_trade_count again = 1%Z \/
    Engine.daily_trade_count again = (1 + 1)%Z)) /\
  Engine.daily_trade_count checked = 0%Z /\
  Engine.last_trade_reset checked = 1%Z.
Proof.
  intros after_trade same_day next_day again checked.
  split; [ vm_compute; reflexivity | ]. split.
  - pose proof (proj1 (proj2 (daily_counter_reset_once default_config))
                  Executor.AGGRESSIVE (ExecutionScenario.tomorrow LONG 62000)
                  same_day _ _ (surjective_pairing _)) as Kept.
    cbv zeta in Kept. apply Kept. vm_compute. discriminate.
  - destruct (proj1 (daily_counter_reset_once default_config) next_day)
      as (b & s' & E & _ & Reset & _).
    subst checked. rewrite E. cbn [snd].
    destruct Reset as [Zero Date]; [ vm_compute; reflexivity | ].
    split; [ exact Zero | ]. rewrite Date. vm_compute. reflexivity.
Defined.

(** ** A close that fails *)

#[global] Instance keeps_preorder (id : nat) : PreOrder (keeps id).
Proof.
  split.
  - intros e St. exact St.
  - intros a b c Hab Hbc St. apply Hbc, Hab, St.
Qed.

Lemma touches_keeps j id e e' : j <> id -> touches j e e' -> keeps id e e'.
Proof.
  intros Hj [(A & B & _) O] (Lt & Act & St).
  unfold stuck. rewrite A, B, O by congruence. auto.
Qed.

Lemma respects_weaken {W A} (R R' : Engine.t -> Engine.t -> Prop)
    (m : M W Engine.t A) :
  (forall e e', R e e' -> R' e e') -> respects R m -> respects R' m.
Proof. intros Sub Hm s r s' E. eapply Sub, Hm, E. Qed.

Lemma elem_of_dict_set k id keys :
  id ∈ keys -> id ∈ Engine.dict_set k keys.
Proof.
  unfold Engine.dict_set. destruct (decide (k ∈ keys)); [ auto | ].
  intros In. apply elem_of_app. now left.
Qed.

Lemma keeps_del_active {W} j id :
  j <> id -> respects (keeps id) (Engine.del_active j : M W Engine.t unit).
Proof.
  intros Hj s r s'. unfold Engine.del_active, Engine.dict_del. run_monad.
  cbn [self fst snd].
  destruct (decide (j ∈ Engine.active_positions (self s))); cbv beta iota.
  - intros [= <- <-] (Lt & Act & St). unfold stuck. simpl.
    repeat split; auto.
    apply list_elem_of_filter. split; [ congruence | exact Act ].
  - intros [= <- <-]. reflexivity.
Qed.

Lemma keeps_history {W} id j :
  respects (keeps id)
    (modify_self (fun e =>
       Engine.set_position_history (Engine.position_history e ++ [j]) e)
     : M W Engine.t unit).
Proof. apply respects_modify_self. intros e St. exact St. Qed.

Lemma keeps_assign {W} j id f :
  j <> id -> respects (keeps id) (Engine.assign j f : M W Engine.t unit).
Proof.
  intros Hj. eapply respects_weaken; [ | apply touches_assign ].
  intros e e'. now apply touches_keeps.
Qed.

Lemma may_open_keeps j id e e' :
  (id < j)%nat ->
  may_open j (Engine.set_next_id (S j) e) e' -> keeps id e e'.
Proof.
  intros Lt (Next & _ & _ & O & Reg) (Lt' & Act & St).
  simpl in *. unfold stuck. rewrite Next, O by lia.
  split; [ lia | ]. split; [ | exact St ].
  destruct Reg as [[-> _]|[-> _]]; [ exact Act | ].
  now apply elem_of_dict_set.
Qed.

Section Stuck.
  Context {W : Type} `{PolymarketClient W} `{ExchangeClient W}
          `{HyperliquidClient W} `{Runtime W}.
  Variable config : TradingConfig.
  Variable id : nat.

  Local Abbreviation state := (st W Engine.t).

  Section Relation.
    Variable R : Engine.t -> Engine.t -> Prop.
    Context {R_preorder : PreOrder R}.

Lemma respects_exchange_close_hedge j :
      respects R (Executor.close_hedge j).
    Proof. unfold Executor.close_hedge. respects_auto. Qed.

Lemma respects_hyperliquid_close_hedge j :
      respects R (HyperliquidExecutor.close_hedge j).
    Proof. unfold HyperliquidExecutor.close_hedge. respects_auto. Qed.
  End Relation.

  Hint Resolve keeps_assign keeps_del_active keeps_history
    respects_exchange_close_hedge respects_hyperliquid_close_hedge : respects.

Lemma keeps_exchange_close_position j :
    j <> id -> respects (keeps id) (Executor.close_position j).
  Proof.
    intros Hj. unfold Executor.close_position, Executor.close_try.
    respects_auto.
  Qed.

Lemma keeps_hyperliquid_close_position j :
    j <> id -> respects (keeps id) (HyperliquidExecutor.close_position j).
  Proof.
    intros Hj.
    unfold HyperliquidExecutor.close_position, HyperliquidExecutor.close_try.
    respects_auto.
  Qed.

  Hint Resolve keeps_exchange_close_position
    keeps_hyperliquid_close_position : respects.

Lemma keeps_exchange_monitor_position j :
    respects (keeps id) (Executor.monitor_position j).
  Proof.
    destruct (Nat.eq_dec j id) as [->|Hj].
    - intros s r s' E St. pose proof St as (_ & _ & Status).
      unfold Executor.monitor_position, Engine.read, bind in E.
      rewrite Status in E. simpl in E. injection E as <- <-. exact St.
    - unfold Executor.monitor_position. respects_auto.
  Qed.

Lemma keeps_hyperliquid_monitor_position j :
    respects (keeps id) (HyperliquidExecutor.monitor_position config j).
  Proof.
    destruct (Nat.eq_dec j id) as [->|Hj].
    - intros s r s' E St. pose proof St as (_ & _ & Status).
      unfold HyperliquidExecutor.monitor_position, Engine.read, bind in E.
      rewrite Status in E. simpl in E. injection E as <- <-. exact St.
    - unfold HyperliquidExecutor.monitor_position. respects_auto.
  Qed.

  Hint Resolve keeps_exchange_monitor_position
    keeps_hyperliquid_monitor_position : respects.

Lemma keeps_exchange_monitor_each snapshot :
    respects (keeps id) (Executor.monitor_each snapshot).
  Proof. induction snapshot; simpl; respects_auto. Qed.

Lemma keeps_hyperliquid_monitor_each snapshot :
    respects (keeps id) (HyperliquidExecutor.monitor_each config snapshot).
  Proof. induction snapshot; simpl; respects_auto. Qed.

  Hint Resolve keeps_exchange_monitor_each
    keeps_hyperliquid_monitor_each : respects.

Lemma keeps_exchange_monitor_turn :
    respects (keeps id) Executor.monitor_turn.
  Proof. unfold Executor.monitor_turn. respects_auto. Qed.

Lemma keeps_hyperliquid_monitor_turn :
    respects (keeps id) (HyperliquidExecutor.monitor_turn config).
  Proof. unfold HyperliquidExecutor.monitor_turn. respects_auto. Qed.

Lemma keeps_check :
    respects (keeps id) (Executor._check_risk_limits config).
  Proof.
    intros s r s' E.
    destruct (exchange_check_returns config s) as (b & s1 & C & K).
    rewrite C in E. injection E as <- <-.
    destruct K as [->|[_ ->]]; [ reflexivity | ].
    intros St. exact St.
  Qed.

Lemma keeps_exchange_execute strategy o :
    respects (keeps id) (Executor.execute_opportunity config strategy o).
  Proof.
    intros s r s' E.
    apply exchange_execute_cases in E
        as (b & s1 & C & [(_ & _ & ->)|(_ & Open & _)]).
    - eapply keeps_check; eassumption.
    - intros St. pose proof (keeps_check _ _ _ C St) as St1.
      eapply may_open_keeps; [ | exact Open | exact St1 ].
      now destruct St1.
  Qed.

Lemma keeps_hyperliquid_execute strategy o :
    respects (keeps id)
      (HyperliquidExecutor.execute_opportunity config strategy o).
  Proof.
    intros s r s' E.
    apply hyperliquid_execute_cases in E
        as (start & s0 & b & s1 & E0 & C & Cases).
    apply utcnow_inv in E0 as (_ & _ & _ & K0).
    intros St. rewrite <- K0 in St.
    pose proof (keeps_check _ _ _ C St) as St1.
    destruct Cases as [(_ & ->)|(_ & Open & _)]; [ exact St1 | ].
    eapply may_open_keeps; [ | exact Open | exact St1 ].
    now destruct St1.
  Qed.

End Stuck.

Lemma others_length id (l : list nat) :
  id ∈ l -> (length (filter (fun i => i <> id) l) < length l)%nat.
Proof.
  induction l as [|a l IH]; intros In.
  - inversion In.
  - rewrite filter_cons. destruct (decide (a <> id)) as [Ne|Eq]; simpl.
    + apply elem_of_cons in In as [->|In]; [ congruence | ].
      specialize (IH In). lia.
    + pose proof (length_filter (fun i => i <> id) l). lia.
Qed.

Lemma check_allows_below_cap {W} `{Runtime W} config (s : st W Engine.t) s' :
  Executor._check_risk_limits config s = (Ok true, s') ->
  (Z.of_nat (length (Engine.active_positions (self s)))
   < MAX_CONCURRENT_POSITIONS config)%Z.
Proof.
  unfold Executor._check_risk_limits, Executor.max_concurrent.
  intros E. split_runs E.
  all: simpl in *; lia.
Qed.

Section FailedClose.
  Context {W : Type} `{PolymarketClient W} `{ExchangeClient W}
          `{HyperliquidClient W} `{Runtime W}.
  Variable config : TradingConfig.

  Local Abbreviation state := (st W Engine.t).

Lemma handler_leaves_in_error j (s s1 : state) :
    self s1 = self s ->
    exists s',
      Engine.assign j (Position.set_status ERROR) s1 = (Ok tt, s') /\
      left_in_error j (self s) (self s').
  Proof.
    intros K. eexists. split; [ reflexivity | ].
    unfold left_in_error. simpl. unfold Engine.store.
    rewrite Nat.eqb_refl, K. simpl.
    repeat split; try reflexivity.
    intros i Hi. simpl. destruct (Nat.eqb_spec i j); congruence.
  Qed.

  (** C10, as the code has it.  When the hedge cannot be closed, that is,
      when the first statement of the [try] block of [close_position] raises
      an [Exception] (the hedge quantity is missing, or the venue client
      raises), [close_position] returns with the position's status set to
      ERROR, its [closed_at], the history and the active positions as they
      were, and nothing else changed.  A position that is active with status
      ERROR stays so through every later execution, risk-limit check and
      monitoring turn of its executor, and a risk-limit check only passes
      when the other active positions number less than
      [MAX_CONCURRENT_POSITIONS - 1]. *)
Theorem failed_close_stays_active :
    (forall j (s : state) e s1,
       Executor.close_hedge j s = (Raise e, s1) ->
       is_Exception e = true ->
       exists s',
         Executor.close_position j s = (Ok tt, s') /\
         left_in_error j (self s) (self s')) /\
    (forall j (s : state) e s1,
       HyperliquidExecutor.close_hedge j s = (Raise e, s1) ->
       is_Exception e = true ->
       exists s',
         HyperliquidExecutor.close_position j s = (Ok tt, s') /\
         left_in_error j (self s) (self s')) /\
    (forall id strategy strategy' o,
       respects (keeps id) (Executor._check_risk_limits config) /\
       respects (keeps id) (Executor.execute_opportunity config strategy o) /\
       respects (keeps id) Executor.monitor_turn /\
       respects (keeps id) (HyperliquidExecutor._check_risk_limits config) /\
       respects (keeps id)
         (HyperliquidExecutor.execute_opportunity config strategy' o) /\
       respects (keeps id) (HyperliquidExecutor.monitor_turn config)) /\
    (forall id (s s' : state),
       stuck id (self s) ->
       Executor._check_risk_limits config s = (Ok true, s') \/
       HyperliquidExecutor._check_risk_limits config s = (Ok true, s') ->
       (Z.of_nat (length (filter (fun i => i <> id)
                            (Engine.active_positions (self s))))
        < MAX_CONCURRENT_POSITIONS config - 1)%Z).
  Proof.
    split; [ | split; [ | split ] ].
    - intros j s e s1 Hedge Ex.
      pose proof (respects_exchange_close_hedge eq j _ _ _ Hedge) as K.
      destruct (handler_leaves_in_error j s s1 (eq_sym K)) as (s' & A & L).
      exists s'. split; [ | exact L ].
      unfold Executor.close_position.
      erewrite try_except_caught; [ exact A | | exact Ex ].
      unfold Executor.close_try. now rewrite (bind_Raise _ _ _ _ _ Hedge).
    - intros j s e s1 Hedge Ex.
      pose proof (respects_hyperliquid_close_hedge eq j _ _ _ Hedge) as K.
      destruct (handler_leaves_in_error j s s1 (eq_sym K)) as (s' & A & L).
      exists s'. split; [ | exact L ].
      unfold HyperliquidExecutor.close_position.
      erewrite try_except_caught; [ exact A | | exact Ex ].
      unfold HyperliquidExecutor.close_try.
      now rewrite (bind_Raise _ _ _ _ _ Hedge).
    - intros id strategy strategy' o.
      split; [ apply keeps_check | ].
      split; [ apply keeps_exchange_execute | ].
      split; [ apply keeps_exchange_monitor_turn | ].
      split; [ apply keeps_check | ].
      split; [ apply keeps_hyperliquid_execute
             | apply keeps_hyperliquid_monitor_turn ].
    - intros id s s' (_ & Act & _) Check.
      assert (C : Executor._check_risk_limits config s = (Ok true, s'))
        by (destruct Check as [C|C]; exact C).
      apply check_allows_below_cap in C.
      apply others_length in Act. lia.
  Qed.

End FailedClose.

(** The Hyperliquid position of [ExecutionScenario] is open and active.  In
    one monitoring turn the stop loss closes it and the funding test closes
    it again: the second [close_position] raises at the removal from the
    active positions, and the position ends with status ERROR, a closing
    time, two entries in the history and no entry in the active
    positions. *)
Lemma closed_twice_in_error :
  let before := ExecutionScenario.opened in
  let run := ExecutionScenario.monitored in
  let after := self (snd run) in
  let once :=
    snd (HyperliquidExecutor.close_position 0
           (Scenario.start ExecutionScenario.falling before)) in
  (Position.status (Engine.objects before 0) = OPEN /\
   Position.closed_at (Engine.objects before 0) = None /\
   Engine.active_positions before = [0%nat] /\
   Engine.position_history before = []) /\
  (exists s', HyperliquidExecutor.close_try 0 once = (Raise KeyError, s')) /\
  fst run = Ok tt /\
  Position.status (Engine.objects after 0) = ERROR /\
  Position.closed_at (Engine.objects after 0) = Some 0%Z /\
  Engine.position_history after = [0%nat; 0%nat] /\
  Engine.active_positions after = [] /\
  ~ stuck 0 after.
Proof.
  cbv zeta.
  split; [ vm_compute; repeat split | ].
  split; [ eexists; vm_compute; reflexivity | ].
  split; [ vm_compute; reflexivity | ].
  split; [ vm_compute; reflexivity | ].
  split; [ vm_compute; reflexivity | ].
  split; [ vm_compute; reflexivity | ].
  split; [ vm_compute; reflexivity | ].
  intros (_ & Act & _).
  assert (E : Engine.active_positions (self (snd ExecutionScenario.monitored))
              = []) by (vm_compute; reflexivity).
  rewrite E in Act. inversion Act.
Qed.

(** The venue client raises when asked to close the hedge of the open
    position: the position is left in ERROR, still active. *)
Lemma failed_close_stays_active_witness :
  let s := Scenario.start (Scenario.silent 0%Z) ExecutionScenario.opened in
  exists s',
    HyperliquidExecutor.close_position 0 s = (Ok tt, s') /\
    Position.status (Engine.objects (self s') 0) = ERROR /\
    Position.closed_at (Engine.objects (self s') 0) = None /\
    Engine.position_history (self s') = [] /\
    Engine.active_positions (self s') = [0%nat] /\
    stuck 0 (self s').
Proof.
  intros s.
  destruct (proj1 (proj2 (failed_close_stays_active default_config))
              0%nat s VenueError (snd (HyperliquidExecutor.close_hedge 0 s)))
    as (s' & Close & Status & Closed & History & Active & Frame).
  - vm_compute. reflexivity.
  - reflexivity.
  - exists s'. split; [ exact Close | ]. split; [ exact Status | ].
    split; [ rewrite Closed; vm_compute; reflexivity | ].
    split; [ rewrite History; vm_compute; reflexivity | ].
    split; [ rewrite Active; vm_compute; reflexivity | ].
    unfold stuck. rewrite Status, Active.
    destruct Frame as [(Next & _) _]. rewrite Next.
    split; [ vm_compute; lia | ]. split; [ | reflexivity ].
    vm_compute. apply list_elem_of_here.
Defined.

(** * Further properties of the detectors *)

(** ** The filters of detector.py *)

Lemma Qmin_le_left (a b : Q) : Qmin a b <= a.
Proof. apply Q.le_min_l. Qed.

Lemma Qeqb_neq (x y : Q) : Qeqb x y = false -> ~ x == y.
Proof.
  unfold Qeqb. intros E Z. apply Qeq_alt in Z. rewrite Z in E. discriminate.
Qed.

Lemma Detector_evaluate_filters {W} `{ExchangeClient W}
    (config : TradingConfig) (N : Numerics) (hours : Q)
    (pm : PolymarketMarket) (spot : SpotMarket) (ev : Detector.evaluation) :
  Detector.evaluate config N hours pm spot = Ok (Some ev) ->
  0 < hours /\
  Detector.ev_pm_price ev <= 0.85 /\
  MIN_PROFIT_THRESHOLD_USD config <= Detector.ev_expected_profit ev /\
  ((mid_price spot < target_price pm /\
    Detector.ev_pm_side ev = DOWN /\ Detector.ev_hedge_side ev = LONG /\
    Detector.ev_pm_price ev = down_price pm) \/
   (target_price pm <= mid_price spot /\
    Detector.ev_pm_side ev = UP /\ Detector.ev_hedge_side ev = SHORT /\
    Detector.ev_pm_price ev = up_price pm)) /\
  Detector.ev_max_risk ev
  = Qmin (MAX_POSITION_SIZE_USD config * 0.5)
      (if MarketSide_eqb (Detector.ev_pm_side ev) UP
       then up_liquidity pm else down_liquidity pm) /\
  ~ Detector.ev_pm_price ev == 0 /\
  Detector.ev_pm_quantity ev
  = Detector.ev_max_risk ev / Detector.ev_pm_price ev.
Proof.
  unfold Detector.evaluate, Detector.min_profit_threshold,
    Detector.max_position_size. intros E.
  destruct (Qleb hours 0) eqn:Hours; [ discriminate | ].
  destruct (dec_div _ _) as [distance|]; [ | discriminate ]. simpl in E.
  destruct (Qltb (mid_price spot) (target_price pm)) eqn:Side.
  all: destruct (Qgtb _ 0.85) eqn:Price; [ discriminate | ].
  all: unfold dec_div at 1 in E.
  all: match type of E with
       | context [Qeqb ?p 0] => destruct (Qeqb p 0) eqn:Nz; [ discriminate | ]
       end.
  all: simpl in E.
  all: invert_ok E.
  all: injection E as <-; simpl.
  all: split; [ unfold Qleb in Hours;
                destruct (hours ?= 0) eqn:C; try discriminate;
                now apply Qgt_alt in C | ].
  all: split; [ now apply Qgtb_le in Price | ].
  all: split; [ match goal with
                | L : Qltb (_ - _) _ = false |- _ =>
                    now apply Qltb_ge in L
                end | ].
  all: split;
    [ first [ left; split; [ now apply Qltb_lt in Side | auto ]
            | right; split; [ now apply Qltb_ge in Side | auto ] ] | ].
  all: split; [ reflexivity | ].
  all: split; [ now apply Qeqb_neq | reflexivity ].
Qed.

Lemma Detector_build_opportunity_sizes {W} `{ExchangeClient W}
    (N : Numerics) pm spot hours ev uuid now o :
  Detector.build_opportunity N pm spot hours ev uuid now = Ok o ->
  polymarket_price o = Detector.ev_pm_price ev /\
  polymarket_quantity o = Detector.ev_pm_quantity ev /\
  max_risk_usd o = Detector.ev_max_risk ev /\
  expires_at o = expiry_time pm /\
  detected_at o = now /\
  opportunity_id o = uuid /\
  -100 <= expected_profit_percentage o /\
  exists sharpe, sharpe_ratio o = Some sharpe.
Proof.
  unfold Detector.build_opportunity, validate_profit_percentage. intros E.
  destruct (Qltb (Detector.ev_profit_percentage ev) (-100)) eqn:Pct;
    [ discriminate | ].
  simpl in E. invert_ok E.
  injection E as <-. simpl. repeat split; try reflexivity.
  - now apply Qltb_ge in Pct.
  - eauto.
Qed.

(** ** The filters of hyperliquid_detector.py *)

(** The estimate needs at least 48 hours: under that, [min(1, hours / 48)]
    is a float and the product with the [Decimal] distance raises. *)
Lemma HL_estimate_two_days current target hours side p :
  HyperliquidDetector._estimate_win_probability current target hours side
  = Ok p ->
  48 <= hours /\ p <= 0.85.
Proof.
  unfold HyperliquidDetector._estimate_win_probability, dec_div, py_min,
    py_mul, py_add, arith, rbind, value.
  destruct (Qeqb current 0); [ discriminate | ].
  destruct (Qltb (hours / 48) (inject_Z 1)) eqn:Short; [ discriminate | ].
  apply Qltb_ge in Short.
  assert (Long : 48 <= hours).
  { change (inject_Z 1) with 1 in Short.
    assert (E : hours == hours / 48 * 48) by (field; discriminate).
    rewrite E. set (x := hours / 48) in *. lra. }
  destruct (Qltb _ 0.85) eqn:Min; intros [= <-]; split; try exact Long.
  - apply Qltb_lt in Min. apply Qlt_le_weak. exact Min.
  - discriminate.
Qed.

Lemma HL_determine_strategy_sides current target pm funding pm_side hedge_side :
  HyperliquidDetector._determine_strategy current target pm funding
  = Ok (Some (pm_side, hedge_side)) ->
  (current < target /\ pm_side = DOWN /\ hedge_side = LONG /\
   (0 < funding -> down_price pm < 0.6)) \/
  (target <= current /\ pm_side = UP /\ hedge_side = SHORT /\
   (funding <= 0 -> up_price pm < 0.6)).
Proof.
  unfold HyperliquidDetector._determine_strategy, dec_div. intros E.
  destruct (Qeqb target 0); [ discriminate | ]. simpl in E.
  match type of E with
  | (if ?b then _ else _) = _ => destruct b; [ discriminate | ]
  end.
  destruct (Qltb current target) eqn:Below;
    destruct (Qgtb funding 0) eqn:Bias.
  - destruct (Qltb (down_price pm) 0.6) eqn:Cheap; [ | discriminate ].
    injection E as <- <-. left. apply Qltb_lt in Below, Cheap. auto.
  - injection E as <- <-. left. apply Qltb_lt in Below.
    apply Qgtb_le in Bias. repeat split; auto. intros P. exfalso. lra.
  - injection E as <- <-. right. apply Qltb_ge in Below.
    apply Qgtb_gt in Bias. repeat split; auto. intros P. exfalso. lra.
  - destruct (Qltb (up_price pm) 0.6) eqn:Cheap; [ | discriminate ].
    injection E as <- <-. right. apply Qltb_ge in Below.
    apply Qltb_lt in Cheap. auto.
Qed.

Lemma HL_expected_profit_breakeven
    (pm_quantity pm_price hedge_quantity current_price target_price : Q)
    (hedge_side : MarketSide) (funding_cost_pct hours : Q)
    (calc : HyperliquidDetector.profit_calc) :
  HyperliquidDetector._calculate_expected_profit pm_quantity pm_price
    hedge_quantity current_price target_price hedge_side funding_cost_pct hours
  = Ok (Some calc) ->
  ~ hedge_quantity == 0 /\
  HyperliquidDetector.pc_pm_loss calc = pm_quantity * pm_price /\
  HyperliquidDetector.pc_breakeven_price calc
  = (if MarketSide_eqb hedge_side LONG
     then current_price + pm_quantity * pm_price / hedge_quantity
     else current_price - pm_quantity * pm_price / hedge_quantity).
Proof.
  unfold HyperliquidDetector._calculate_expected_profit, rtry, dec_div.
  intros E.
  destruct (Qeqb hedge_quantity 0) eqn:Hq; simpl in E;
    [ destruct (Qeqb _ 0) in E; discriminate | ].
  apply Qeqb_neq in Hq.
  destruct (HyperliquidDetector._estimate_win_probability _ _ _ _) as [p|e];
    simpl in E; [ | destruct (is_Exception e); discriminate ].
  injection E as <-. simpl. auto.
Qed.

Lemma HL_evaluate_filters
    (config : TradingConfig) (N : Numerics) (hours : Q)
    (pm : PolymarketMarket) (hl : SpotMarket) (funding_rate : Q)
    (ev : HyperliquidDetector.evaluation) :
  HyperliquidDetector.evaluate config N hours pm hl funding_rate
  = Ok (Some ev) ->
  let calc := HyperliquidDetector.ev_profit_calc ev in
  let pm_side := HyperliquidDetector.ev_pm_side ev in
  let hedge_side := HyperliquidDetector.ev_hedge_side ev in
  let pm_price := HyperliquidDetector.ev_pm_price ev in
  let pm_quantity := HyperliquidDetector.ev_pm_quantity ev in
  let hedge_quantity := HyperliquidDetector.ev_hedge_quantity ev in
  48 <= hours /\
  pm_price <= 0.9 /\
  MIN_PROFIT_THRESHOLD_USD config <= HyperliquidDetector.ev_expected_profit ev /\
  ((mid_price hl < target_price pm /\ pm_side = DOWN /\ hedge_side = LONG /\
    pm_price = down_price pm /\ (0 < funding_rate -> down_price pm < 0.6)) \/
   (target_price pm <= mid_price hl /\ pm_side = UP /\ hedge_side = SHORT /\
    pm_price = up_price pm /\ (funding_rate <= 0 -> up_price pm < 0.6))) /\
  HyperliquidDetector.ev_prob_profit ev = 0.4 /\
  HyperliquidDetector.pc_prob calc <= 0.85 /\
  ~ hedge_quantity == 0 /\
  HyperliquidDetector.pc_breakeven_price calc
  = (if MarketSide_eqb hedge_side LONG
     then mid_price hl + pm_quantity * pm_price / hedge_quantity
     else mid_price hl - pm_quantity * pm_price / hedge_quantity).
Proof.
  unfold HyperliquidDetector.evaluate, HyperliquidDetector.min_profit_threshold.
  intros E.
  destruct (Qleb hours 0); [ discriminate | ].
  destruct (Qltb _ _); [ discriminate | ].
  destruct (HyperliquidDetector._determine_strategy _ _ _ _)
    as [[[pm_side hedge_side]|]|] eqn:Strategy; try discriminate.
  apply HL_determine_strategy_sides in Strategy.
  assert (Sides :
    (mid_price hl < target_price pm /\ pm_side = DOWN /\ hedge_side = LONG /\
     (if MarketSide_eqb pm_side UP then up_price pm else down_price pm)
     = down_price pm /\ (0 < funding_rate -> down_price pm < 0.6)) \/
    (target_price pm <= mid_price hl /\ pm_side = UP /\ hedge_side = SHORT /\
     (if MarketSide_eqb pm_side UP then up_price pm else down_price pm)
     = up_price pm /\ (funding_rate <= 0 -> up_price pm < 0.6))).
  { destruct Strategy as [(A & -> & -> & B)|(A & -> & -> & B)];
      [ left | right ]; repeat split; auto. }
  clear Strategy. simpl in E.
  set (pm_price := if MarketSide_eqb pm_side UP then up_price pm
                   else down_price pm) in *.
  destruct (Qgtb pm_price 0.90) eqn:Price; [ discriminate | ].
  apply Qgtb_le in Price.
  destruct (HyperliquidDetector._calculate_position_sizes _ _ _ _ _)
    as [[[pm_quantity hedge_quantity]|]|] eqn:Sizes; try discriminate.
  simpl in E.
  destruct (HyperliquidDetector._calculate_expected_profit _ _ _ _ _ _ _ _)
    as [[calc|]|] eqn:Calc; try discriminate.
  pose proof (HL_expected_profit_spec _ _ _ _ _ _ _ _ _ Calc) as [_ Estimate].
  apply HL_estimate_two_days in Estimate. destruct Estimate as [Long Cap].
  apply HL_expected_profit_breakeven in Calc.
  destruct Calc as (Hq & _ & Breakeven).
  simpl in E.
  destruct (Qltb _ _) eqn:Profit; [ discriminate | ].
  apply Qltb_ge in Profit.
  rewrite ?probability_with_funding_fallback in E. simpl in E.
  unfold dec_div in E.
  repeat match type of E with
         | context [Qeqb ?x 0] => destruct (Qeqb x 0); simpl in E
         end; try discriminate.
  injection E as E; subst ev; cbv zeta; simpl.
  split; [ exact Long | ].
  split; [ lra | ].
  split; [ exact Profit | ].
  split; [ exact Sides | ].
  split; [ reflexivity | ].
  split; [ exact Cap | ].
  split; [ exact Hq | exact Breakeven ].
Qed.

Lemma HL_build_opportunity_sizes
    (N : Numerics) pm hl hours funding ev uuid now o :
  HyperliquidDetector.build_opportunity N pm hl hours funding ev uuid now
  = Ok o ->
  polymarket_price o = HyperliquidDetector.ev_pm_price ev /\
  polymarket_quantity o = HyperliquidDetector.ev_pm_quantity ev /\
  hedge_quantity o = HyperliquidDetector.ev_hedge_quantity ev /\
  breakeven_price o
  = HyperliquidDetector.pc_breakeven_price
      (HyperliquidDetector.ev_profit_calc ev) /\
  expires_at o = expiry_time pm /\
  detected_at o = now /\
  opportunity_id o = uuid.
Proof.
  unfold HyperliquidDetector.build_opportunity, validate_profit_percentage.
  intros E.
  destruct (Qltb (HyperliquidDetector.ev_profit_percentage ev) (-100));
    [ discriminate | ].
  simpl in E. invert_ok E.
  injection E as <-. simpl. repeat split; reflexivity.
Qed.

Lemma sorted_by_equal_key {A} (key key' : A -> Q) (l : list A) :
  Forall (fun x => key x = key' x) l ->
  StronglySorted (descending key) l ->
  StronglySorted (descending key') l.
Proof.
  intros Same Sorted. induction Sorted as [|a l Sorted IH Head].
  - constructor.
  - apply List.Forall_cons_iff in Same as [Ka Kl].
    constructor; [ now apply IH | ].
    rewrite List.Forall_forall in Head, Kl |- *.
    intros b Hb. specialize (Head b Hb). specialize (Kl b Hb).
    unfold descending in *. now rewrite <- Ka, <- Kl.
Qed.

Section ScanProperties.
  Context {W : Type} `{PolymarketClient W} `{ExchangeClient W}
          `{HyperliquidClient W} `{Runtime W}.
  Variable config : TradingConfig.
  Variable N : Numerics.

  Local Abbreviation state := (st W (list ArbitrageOpportunity)).

  (** X1.  Every opportunity returned by a scan of detector.py passed the
      filters of the analysis: its Polymarket price is at most 0.85 and its
      expected profit at least the minimum profit threshold.  It bets DOWN
      at the DOWN price and hedges LONG when the hedge price is below the
      target, and bets UP at the UP price and hedges SHORT otherwise; its
      breakeven is the target, its hedge price the mid price of the quote it
      carries, and it expires with its contract. *)
Theorem exchange_scan_filters assets (s s' : state) l o :
    Detector.scan_for_opportunities config N assets s = (Ok l, s') ->
    In o l ->
    polymarket_price o <= 0.85 /\
    MIN_PROFIT_THRESHOLD_USD config <= expected_profit_usd o /\
    ((hedge_price o < target_price (polymarket o) /\
      polymarket_side o = DOWN /\ hedge_side o = LONG /\
      polymarket_price o = down_price (polymarket o)) \/
     (target_price (polymarket o) <= hedge_price o /\
      polymarket_side o = UP /\ hedge_side o = SHORT /\
      polymarket_price o = up_price (polymarket o))) /\
    breakeven_price o = target_price (polymarket o) /\
    hedge_price o = mid_price (spot_market o) /\
    expires_at o = expiry_time (polymarket o).
  Proof.
    intros Scan Ho.
    destruct (scan_emitted _ _ _ _ _ _ _ Scan Ho) as (pm & spot & s0 & s1 & A).
    apply Detector_analyze_inv in A. destruct A as (ev & uuid & now & Ev & B).
    cbv zeta in Ev, B.
    pose proof (Detector_build_opportunity_fields _ _ _ _ _ _ _ _ B)
      as (Profit & _ & Hpm & Hspot & Hprice & Hhedge & Hside & Hbreak).
    pose proof (Detector_build_opportunity_sizes _ _ _ _ _ _ _ _ B)
      as (Hp & _ & _ & Hexp & _).
    pose proof (Detector_evaluate_spec _ _ _ _ _ _ Ev)
      as (_ & _ & _ & _ & Breakeven & _).
    apply Detector_evaluate_filters in Ev.
    destruct Ev as (_ & Price & Threshold & Sides & _).
    rewrite Hpm, Hspot, Hprice, Hhedge, Hside, Hbreak, Hp, Hexp, Profit.
    repeat split; auto.
  Qed.

  (** X2.  An opportunity returned by a scan of detector.py risks the
      smaller of [MAX_POSITION_SIZE_USD * 0.5] and the liquidity of the side
      it bets on, so at most each of them; its Polymarket price is not zero
      and its Polymarket quantity is [max_risk_usd] divided by that price.
      The product and the quotient are the ones the code computes. *)
Theorem exchange_scan_sizes assets (s s' : state) l o :
    Detector.scan_for_opportunities config N assets s = (Ok l, s') ->
    In o l ->
    let liquidity :=
      if MarketSide_eqb (polymarket_side o) UP
      then up_liquidity (polymarket o) else down_liquidity (polymarket o) in
    max_risk_usd o = Qmin (MAX_POSITION_SIZE_USD config * 0.5) liquidity /\
    max_risk_usd o <= MAX_POSITION_SIZE_USD config * 0.5 /\
    max_risk_usd o <= liquidity /\
    ~ polymarket_price o == 0 /\
    polymarket_quantity o = max_risk_usd o / polymarket_price o.
  Proof.
    intros Scan Ho.
    destruct (scan_emitted _ _ _ _ _ _ _ Scan Ho) as (pm & spot & s0 & s1 & A).
    apply Detector_analyze_inv in A. destruct A as (ev & uuid & now & Ev & B).
    cbv zeta in Ev, B.
    pose proof (Detector_build_opportunity_fields _ _ _ _ _ _ _ _ B)
      as (_ & _ & Hpm & _ & _ & _ & Hside & _).
    pose proof (Detector_build_opportunity_sizes _ _ _ _ _ _ _ _ B)
      as (Hp & Hq & Hrisk & _).
    apply Detector_evaluate_filters in Ev.
    destruct Ev as (_ & _ & _ & _ & Risk & Nz & Quantity).
    cbv zeta. rewrite Hp, Hq, Hrisk, Hpm, Hside, Quantity, Risk.
    split; [ reflexivity | ].
    split; [ apply Qmin_le_left | ].
    split; [ apply Q.le_min_r | ].
    split; [ exact Nz | reflexivity ].
  Qed.

  (** X3.  The Hyperliquid detector emits nothing for a contract less than
      48 hours from expiry: the analysis returns [None], and asks no
      venue. *)
Theorem hyperliquid_needs_two_days pm hl funding (s : state) :
    time_to_expiry_hours pm (fst (rt_utcnow (world s))) < 48 ->
    exists s',
      HyperliquidDetector._analyze_market_pair config N pm hl funding s
      = (Ok None, s') /\
      calls s' = calls s.
  Proof.
    intros Short.
    destruct (HL_analyze_returns config N pm hl funding s)
      as ([o|] & s' & A & Calls); [ | eauto ].
    exfalso. apply HL_analyze_inv in A.
    destruct A as (ev & uuid & now & Ev & _). cbv zeta in Ev.
    apply HL_evaluate_filters in Ev. destruct Ev as (Long & _).
    eapply Qlt_not_le; eassumption.
  Qed.

  (** X4.  An opportunity the analysis of hyperliquid_detector.py returns
      passed its filters: the contract is at least 48 hours from expiry, the
      Polymarket price is at most 0.9 and the expected profit at least the
      minimum profit threshold.  It bets DOWN and hedges LONG when the hedge
      price is below the target (with a positive funding rate only if the
      DOWN price is under 0.6), and bets UP and hedges SHORT otherwise (with
      a funding rate that is not positive only if the UP price is under
      0.6).  Its breakeven lies the Polymarket stake per hedged unit away
      from the hedge price: above it for a long hedge, below it for a short
      one. *)
Theorem hyperliquid_analysis_filters pm hl funding (s s' : state) o :
    HyperliquidDetector._analyze_market_pair config N pm hl funding s
    = (Ok (Some o), s') ->
    48 <= time_to_expiry_hours pm (fst (rt_utcnow (world s))) /\
    polymarket_price o <= 0.9 /\
    MIN_PROFIT_THRESHOLD_USD config <= expected_profit_usd o /\
    ((mid_price hl < target_price pm /\
      polymarket_side o = DOWN /\ hedge_side o = LONG /\
      polymarket_price o = down_price pm /\
      (0 < funding -> down_price pm < 0.6)) \/
     (target_price pm <= mid_price hl /\
      polymarket_side o = UP /\ hedge_side o = SHORT /\
      polymarket_price o = up_price pm /\
      (funding <= 0 -> up_price pm < 0.6))) /\
    hedge_price o = mid_price hl /\
    ~ hedge_quantity o == 0 /\
    breakeven_price o
    = (if MarketSide_eqb (hedge_side o) LONG
       then hedge_price o
            + polymarket_quantity o * polymarket_price o / hedge_quantity o
       else hedge_price o
            - polymarket_quantity o * polymarket_price o / hedge_quantity o).
  Proof.
    intros A.
    apply HL_analyze_inv in A. destruct A as (ev & uuid & now & Ev & B).
    cbv zeta in Ev, B.
    pose proof (HL_build_opportunity_fields _ _ _ _ _ _ _ _ _ B)
      as (Profit & _ & Hpm & _ & Hprice & Hhedge & Hside).
    pose proof (HL_build_opportunity_sizes _ _ _ _ _ _ _ _ _ B)
      as (Hp & Hq & Hhq & Hbreak & _).
    apply HL_evaluate_filters in Ev. cbv zeta in Ev.
    destruct Ev as (Long & Price & Threshold & Sides & _ & _ & Nz & Breakeven).
    rewrite Hprice, Hhedge, Hside, Hp, Hq, Hhq, Hbreak, Profit.
    split; [ exact Long | ].
    split; [ exact Price | ]. split; [ exact Threshold | ].
    split; [ exact Sides | ]. split; [ reflexivity | ].
    split; [ exact Nz | exact Breakeven ].
  Qed.

  (** X5.  Every opportunity returned by a scan of hyperliquid_detector.py
      stores the probability of profit 0.4, the fallback of
      [_calculate_probability_with_funding], whose guarded block always
      raises.  The key the returned list is ranked by is therefore the
      product of the expected profit with 0.4, as the code multiplies
      them. *)
Theorem hyperliquid_scan_fallback_probability assets (s s' : state) l :
    HyperliquidDetector.scan_for_opportunities config N assets s
    = (Ok l, s') ->
    Forall (fun o => probability_of_profit o = 0.4) l /\
    StronglySorted (descending (fun o => expected_profit_usd o * 0.4)) l.
  Proof.
    intros Scan.
    assert (Fallback : Forall (fun o => probability_of_profit o = 0.4) l).
    { apply List.Forall_forall. intros o Ho.
      destruct (hyperliquid_scan_emitted _ _ _ _ _ _ _ Scan Ho)
        as (pm & hl & funding & s0 & s1 & A).
      apply HL_analyze_inv in A. destruct A as (ev & uuid & now & Ev & B).
      cbv zeta in Ev, B.
      apply HL_build_opportunity_fields in B. destruct B as (_ & -> & _).
      apply HL_evaluate_filters in Ev. cbv zeta in Ev.
      now destruct Ev as (_ & _ & _ & _ & Prob & _). }
    split; [ exact Fallback | ].
    apply (sorted_by_equal_key HyperliquidDetector.ranking_key).
    - eapply List.Forall_impl; [ | exact Fallback ].
      intros o Prob. unfold HyperliquidDetector.ranking_key. now rewrite Prob.
    - revert Scan. unfold HyperliquidDetector.scan_for_opportunities.
      unfold bind at 1.
      destruct (HyperliquidDetector.scan_assets config N assets [] s)
        as [[found|e] s1]; [ | discriminate ].
      intros [= <- <-]. apply sort_desc_sorted.
  Qed.

End ScanProperties.

Lemma exchange_scan_filters_witness :
  length (DetectionScenario.found DetectionScenario.exchange_scan) = 2%nat /\
  Forall
    (fun o =>
       polymarket_price o <= 0.85 /\
       MIN_PROFIT_THRESHOLD_USD default_config <= expected_profit_usd o /\
       ((hedge_price o < target_price (polymarket o) /\
         polymarket_side o = DOWN /\ hedge_side o = LONG /\
         polymarket_price o = down_price (polymarket o)) \/
        (target_price (polymarket o) <= hedge_price o /\
         polymarket_side o = UP /\ hedge_side o = SHORT /\
         polymarket_price o = up_price (polymarket o))) /\
       breakeven_price o = target_price (polymarket o) /\
       hedge_price o = mid_price (spot_market o) /\
       expires_at o = expiry_time (polymarket o))
    (DetectionScenario.found DetectionScenario.exchange_scan).
Proof.
  split; [ vm_compute; reflexivity | ].
  apply List.Forall_forall. intros o Ho.
  eapply (exchange_scan_filters default_config Script.numerics);
    [ | exact Ho ].
  apply (found_returned DetectionScenario.exchange_scan).
  vm_compute. exact I.
Defined.

Lemma exchange_scan_sizes_witness :
  length (DetectionScenario.found DetectionScenario.exchange_scan) = 2%nat /\
  Forall
    (fun o =>
       let liquidity :=
         if MarketSide_eqb (polymarket_side o) UP
         then up_liquidity (polymarket o) else down_liquidity (polymarket o) in
       max_risk_usd o
       = Qmin (MAX_POSITION_SIZE_USD default_config * 0.5) liquidity /\
       max_risk_usd o <= MAX_POSITION_SIZE_USD default_config * 0.5 /\
       max_risk_usd o <= liquidity /\
       ~ polymarket_price o == 0 /\
       polymarket_quantity o = max_risk_usd o / polymarket_price o)
    (DetectionScenario.found DetectionScenario.exchange_scan).
Proof.
  split; [ vm_compute; reflexivity | ].
  apply List.Forall_forall. intros o Ho.
  eapply (exchange_scan_sizes default_config Script.numerics);
    [ | exact Ho ].
  apply (found_returned DetectionScenario.exchange_scan).
  vm_compute. exact I.
Defined.

(** A contract 24 hours from expiry, with the perpetual 1% above its
    target. *)
Lemma hyperliquid_needs_two_days_witness :
  let s := Scenario.start DetectionScenario.hyperliquid_world [] in
  exists s',
    HyperliquidDetector._analyze_market_pair default_config Script.numerics
      (Scenario.contract 24 0.4) (Scenario.quote_at 60600) 0.0001 s
    = (Ok None, s') /\
    calls s' = calls s.
Proof.
  intros s.
  apply (hyperliquid_needs_two_days default_config Script.numerics).
  vm_compute. reflexivity.
Defined.

(** The contract of [DetectionScenario], 48 hours from expiry, with the
    perpetual 1% above its target. *)
Lemma hyperliquid_analysis_filters_witness :
  let pm := Scenario.contract 48 0.4 in
  let hl := Scenario.quote_at 60600 in
  let s := Scenario.start DetectionScenario.hyperliquid_world [] in
  let r :=
    HyperliquidDetector._analyze_market_pair default_config Script.numerics
      pm hl 0.0001 s in
  exists o,
    fst r = Ok (Some o) /\
    48 <= time_to_expiry_hours pm (fst (rt_utcnow (world s))) /\
    polymarket_price o <= 0.9 /\
    MIN_PROFIT_THRESHOLD_USD default_config <= expected_profit_usd o /\
    ((mid_price hl < target_price pm /\
      polymarket_side o = DOWN /\ hedge_side o = LONG /\
      polymarket_price o = down_price pm /\
      (0 < 0.0001 -> down_price pm < 0.6)) \/
     (target_price pm <= mid_price hl /\
      polymarket_side o = UP /\ hedge_side o = SHORT /\
      polymarket_price o = up_price pm /\
      (0.0001 <= 0 -> up_price pm < 0.6))) /\
    hedge_price o = mid_price hl /\
    ~ hedge_quantity o == 0 /\
    breakeven_price o
    = (if MarketSide_eqb (hedge_side o) LONG
       then hedge_price o
            + polymarket_quantity o * polymarket_price o / hedge_quantity o
       else hedge_price o
            - polymarket_quantity o * polymarket_price o / hedge_quantity o).
Proof.
  intros pm hl s r.
  destruct r as [[[o|]|e] s'] eqn:E; try (vm_compute in E; discriminate E).
  exists o. split; [ reflexivity | ].
  exact (hyperliquid_analysis_filters default_config Script.numerics
           pm hl 0.0001 s s' o E).
Defined.

Lemma hyperliquid_scan_fallback_probability_witness :
  let l := DetectionScenario.found DetectionScenario.hyperliquid_scan in
  length l = 1%nat /\
  Forall (fun o => probability_of_profit o = 0.4) l /\
  StronglySorted (descending (fun o => expected_profit_usd o * 0.4)) l.
Proof.
  intros l. split; [ vm_compute; reflexivity | ].
  eapply (hyperliquid_scan_fallback_probability default_config
            Script.numerics).
  apply (found_returned DetectionScenario.hyperliquid_scan).
  vm_compute. exact I.
Defined.

(** * Further properties of the executors *)

(** ** Monitoring only closes *)

Lemma filter_all {A} (P : A -> Prop) `{forall x, Decision (P x)}
    (l : list A) :
  (forall x, x ∈ l -> P x) -> filter P l = l.
Proof.
  induction l as [|a l IH]; intros All; [ reflexivity | ].
  rewrite filter_cons_True by (apply All; left).
  f_equal. apply IH. intros x Hx. apply All. now right.
Qed.

#[global] Instance only_closes_preorder : PreOrder only_closes.
Proof.
  split.
  - intros e. repeat split. exists []. split.
    + now rewrite app_nil_r.
    + symmetry. apply filter_all. intros i _. apply not_elem_of_nil.
  - intros a b c (N1 & D1 & L1 & c1 & H1 & A1) (N2 & D2 & L2 & c2 & H2 & A2).
    unfold only_closes. rewrite N2, D2, L2. repeat split; auto.
    exists (c1 ++ c2). split.
    + rewrite H2, H1. now rewrite app_assoc.
    + rewrite A2, A1, list_filter_filter. apply list_filter_iff.
      intros i. rewrite elem_of_app. tauto.
Qed.

Lemma touches_only_closes j e e' : touches j e e' -> only_closes e e'.
Proof.
  intros [(N & A & Hi & D & L) _]. unfold only_closes.
  repeat split; auto. exists []. split.
  - now rewrite app_nil_r.
  - rewrite A. symmetry. apply filter_all.
    intros i _. apply not_elem_of_nil.
Qed.

Lemma only_closes_assign {W} j f :
  respects only_closes (Engine.assign j f : M W Engine.t unit).
Proof.
  eapply respects_weaken; [ | apply (touches_assign j) ].
  intros e e'. apply touches_only_closes.
Qed.

(** The two statements of [close_position] that record the close. *)
Lemma only_closes_record {W} j :
  respects only_closes
    (modify_self (fun e =>
       Engine.set_position_history (Engine.position_history e ++ [j]) e) >>
     Engine.del_active j : M W Engine.t unit).
Proof.
  intros s r s'. unfold Engine.del_active, Engine.dict_del. run_monad.
  cbn [self fst snd]. cbv beta iota.
  assert (F : forall l : list nat,
             filter (fun i => i <> j) l = filter (fun i => i ∉ [j]) l).
  { intros l. apply list_filter_iff. intros i.
    rewrite list_elem_of_singleton. tauto. }
  destruct (decide _) as [In|Out];
    simpl; cbv beta iota; intros [= <- <-]; unfold only_closes; simpl;
    repeat split; exists [j]; (split; [ reflexivity | ]).
  - apply F.
  - rewrite <- F. symmetry. apply filter_all.
    intros i Hi ->. contradiction.
Qed.

Section OnlyCloses.
  Context {W : Type} `{PolymarketClient W} `{ExchangeClient W}
          `{HyperliquidClient W} `{Runtime W}.
  Variable config : TradingConfig.

  Local Abbreviation state := (st W Engine.t).

  Hint Resolve only_closes_assign only_closes_record
    respects_exchange_close_hedge respects_hyperliquid_close_hedge : respects.

Lemma only_closes_exchange_close_position j :
    respects only_closes (Executor.close_position j).
  Proof.
    unfold Executor.close_position, Executor.close_try. respects_auto.
  Qed.

Lemma only_closes_hyperliquid_close_position j :
    respects only_closes (HyperliquidExecutor.close_position j).
  Proof.
    unfold HyperliquidExecutor.close_position, HyperliquidExecutor.close_try.
    respects_auto.
  Qed.

  Hint Resolve only_closes_exchange_close_position
    only_closes_hyperliquid_close_position : respects.

Lemma only_closes_exchange_monitor_position j :
    respects only_closes (Executor.monitor_position j).
  Proof. unfold Executor.monitor_position. respects_auto. Qed.

Lemma only_closes_hyperliquid_monitor_position j :
    respects only_closes (HyperliquidExecutor.monitor_position config j).
  Proof. unfold HyperliquidExecutor.monitor_position. respects_auto. Qed.

  Hint Resolve only_closes_exchange_monitor_position
    only_closes_hyperliquid_monitor_position : respects.

Lemma only_closes_exchange_monitor_each snapshot :
    respects only_closes (Executor.monitor_each snapshot).
  Proof. induction snapshot; simpl; respects_auto. Qed.

Lemma only_closes_hyperliquid_monitor_each snapshot :
    respects only_closes (HyperliquidExecutor.monitor_each config snapshot).
  Proof. induction snapshot; simpl; respects_auto. Qed.

  Hint Resolve only_closes_exchange_monitor_each
    only_closes_hyperliquid_monitor_each : respects.

Lemma only_closes_exchange_monitor_turn :
    respects only_closes Executor.monitor_turn.
  Proof. unfold Executor.monitor_turn. respects_auto. Qed.

Lemma only_closes_hyperliquid_monitor_turn :
    respects only_closes (HyperliquidExecutor.monitor_turn config).
  Proof. unfold HyperliquidExecutor.monitor_turn. respects_auto. Qed.

  (** X7.  A monitoring turn of either executor, and a call of either
      [close_position], only closes: it creates and registers no position
      and leaves the daily counter alone; the active positions it leaves
      are those it found, in their order, without the ones it appended to
      the history. *)
Theorem monitoring_only_closes :
    (forall (s : state) r s',
       Executor.monitor_turn s = (r, s') ->
       only_closes (self s) (self s')) /\
    (forall (s : state) r s',
       HyperliquidExecutor.monitor_turn config s = (r, s') ->
       only_closes (self s) (self s')) /\
    (forall j (s : state) r s',
       Executor.close_position j s = (r, s') ->
       only_closes (self s) (self s')) /\
    (forall j (s : state) r s',
       HyperliquidExecutor.close_position j s = (r, s') ->
       only_closes (self s) (self s')).
  Proof.
    split; [ exact only_closes_exchange_monitor_turn | ].
    split; [ exact only_closes_hyperliquid_monitor_turn | ].
    split; [ exact only_closes_exchange_close_position | ].
    exact only_closes_hyperliquid_close_position.
  Qed.

End OnlyCloses.

(** The monitoring turn of [ExecutionScenario], in which the open position
    is closed twice. *)
Lemma monitoring_only_closes_witness :
  let s := Scenario.start ExecutionScenario.falling ExecutionScenario.opened in
  let s' := snd (HyperliquidExecutor.monitor_turn default_config s) in
  only_closes (self s) (self s') /\
  Engine.active_positions (self s) = [0%nat] /\
  Engine.active_positions (self s') = [].
Proof.
  intros s s'. split.
  - exact (proj1 (proj2 (monitoring_only_closes default_config))
             s (fst (HyperliquidExecutor.monitor_turn default_config s)) s'
             (surjective_pairing _)).
  - split; vm_compute; reflexivity.
Defined.

(** ** The risk limits as an invariant *)

(** What a risk-limit check tells and leaves. *)
Lemma check_verdict {W} `{Runtime W} config (s : st W Engine.t) b s' :
  Executor._check_risk_limits config s = (Ok b, s') ->
  (b = true <->
   (Z.of_nat (length (Engine.active_positions (self s')))
    < MAX_CONCURRENT_POSITIONS config)%Z /\
   (Engine.daily_trade_count (self s') < MAX_DAILY_TRADES config)%Z) /\
  calls s' = calls s /\
  Engine.next_id (self s') = Engine.next_id (self s) /\
  Engine.objects (self s') = Engine.objects (self s) /\
  Engine.active_positions (self s') = Engine.active_positions (self s) /\
  Engine.position_history (self s') = Engine.position_history (self s) /\
  (Engine.daily_trade_count (self s') = Engine.daily_trade_count (self s) \/
   Engine.daily_trade_count (self s') = 0%Z).
Proof.
  unfold Executor._check_risk_limits, Executor.max_concurrent,
    Executor.max_daily_trades.
  intros E. split_runs E.
  all: injection E as <- <-; simpl in *.
  all: repeat split; auto; try discriminate; try lia.
  all: intros [? ?]; lia.
Qed.

Lemma length_dict_set k keys :
  (length (Engine.dict_set k keys) <= S (length keys))%nat.
Proof.
  unfold Engine.dict_set. destruct (decide _); [ lia | ].
  rewrite length_app. simpl. lia.
Qed.

Lemma only_closes_within config e e' :
  only_closes e e' -> within_limits config e -> within_limits config e'.
Proof.
  intros (_ & D & _ & closed & _ & A) [L C]. unfold within_limits.
  rewrite D, A. split; [ | exact C ].
  pose proof (length_filter (fun i => i ∉ closed) (Engine.active_positions e)).
  lia.
Qed.

Section Limits.
  Context {W : Type} `{PolymarketClient W} `{ExchangeClient W}
          `{HyperliquidClient W} `{Runtime W}.
  Variable config : TradingConfig.

  Local Abbreviation state := (st W Engine.t).

Lemma check_within (s : state) b s' :
    (0 <= MAX_DAILY_TRADES config)%Z ->
    Executor._check_risk_limits config s = (Ok b, s') ->
    within_limits config (self s) -> within_limits config (self s').
  Proof.
    intros Pos C [L D]. apply check_verdict in C.
    destruct C as (_ & _ & _ & _ & A & _ & Count).
    unfold within_limits. rewrite A. split; [ exact L | ].
    destruct Count as [->| ->]; assumption.
  Qed.

Lemma may_open_within id (e1 e' : Engine.t) :
    (Z.of_nat (length (Engine.active_positions e1))
     < MAX_CONCURRENT_POSITIONS config)%Z ->
    (Engine.daily_trade_count e1 < MAX_DAILY_TRADES config)%Z ->
    may_open id (Engine.set_next_id (S id) e1) e' ->
    within_limits config e'.
  Proof.
    intros L D (_ & _ & _ & _ & [[A C]|[A C]]); simpl in A, C;
      unfold within_limits; rewrite A, C.
    - lia.
    - pose proof (length_dict_set id (Engine.active_positions e1)). lia.
  Qed.

  (** X8.  With a daily cap that is not negative, the risk limits are an
      invariant of both executors: an engine that holds at most
      [MAX_CONCURRENT_POSITIONS] active positions and has counted at most
      [MAX_DAILY_TRADES] trades still does after [execute_opportunity],
      whatever it returns or raises, and after a monitoring turn. *)
Theorem engine_within_limits :
    (0 <= MAX_DAILY_TRADES config)%Z ->
    (forall strategy o (s : state) r s',
       Executor.execute_opportunity config strategy o s = (r, s') ->
       within_limits config (self s) -> within_limits config (self s')) /\
    (forall strategy o (s : state) r s',
       HyperliquidExecutor.execute_opportunity config strategy o s = (r, s') ->
       within_limits config (self s) -> within_limits config (self s')) /\
    (forall (s : state) r s',
       Executor.monitor_turn s = (r, s') ->
       within_limits config (self s) -> within_limits config (self s')) /\
    (forall (s : state) r s',
       HyperliquidExecutor.monitor_turn config s = (r, s') ->
       within_limits config (self s) -> within_limits config (self s')).
  Proof.
    intros Pos. split; [ | split; [ | split ] ].
    - intros strategy o s r s' E Within.
      apply exchange_execute_cases in E
          as (b & s1 & C & [(_ & _ & ->)|(-> & Open & _)]).
      + eapply check_within; eassumption.
      + pose proof (proj1 (check_verdict _ _ _ _ C)) as [Below _].
        destruct (Below eq_refl) as [L D].
        eapply may_open_within; eassumption.
    - intros strategy o s r s' E Within.
      apply hyperliquid_execute_cases in E
          as (start & s0 & b & s1 & E0 & C & Cases).
      apply utcnow_inv in E0 as (_ & _ & _ & K0). rewrite <- K0 in Within.
      destruct Cases as [(_ & ->)|(-> & Open & _)].
      + eapply check_within; eassumption.
      + pose proof (proj1 (check_verdict _ _ _ _ C)) as [Below _].
        destruct (Below eq_refl) as [L D].
        eapply may_open_within; eassumption.
    - intros s r s' E. apply only_closes_within.
      eapply only_closes_exchange_monitor_turn; eassumption.
    - intros s r s' E. apply only_closes_within.
      eapply only_closes_hyperliquid_monitor_turn; eassumption.
  Qed.

  (** X9.  An executor that already holds [MAX_CONCURRENT_POSITIONS] active
      positions or more does nothing with an opportunity:
      [execute_opportunity] returns [None] without a venue call and without
      creating a position; the active positions, the position objects and
      the history stay as they were. *)
Theorem full_engine_refuses strategy strategy' o (s : state) :
    (MAX_CONCURRENT_POSITIONS config
     <= Z.of_nat (length (Engine.active_positions (self s))))%Z ->
    (exists s',
       Executor.execute_opportunity config strategy o s = (Ok None, s') /\
       calls s' = calls s /\
       Engine.next_id (self s') = Engine.next_id (self s) /\
       Engine.objects (self s') = Engine.objects (self s) /\
       Engine.active_positions (self s') = Engine.active_positions (self s) /\
       Engine.position_history (self s')
       = Engine.position_history (self s)) /\
    (exists s',
       HyperliquidExecutor.execute_opportunity config strategy' o s
       = (Ok None, s') /\
       calls s' = calls s /\
       Engine.next_id (self s') = Engine.next_id (self s) /\
       Engine.objects (self s') = Engine.objects (self s) /\
       Engine.active_positions (self s') = Engine.active_positions (self s) /\
       Engine.position_history (self s')
       = Engine.position_history (self s)).
  Proof.
    intros Full.
    assert (Refuses : forall s0 : state,
               self s0 = self s ->
               exists s1,
                 Executor._check_risk_limits config s0 = (Ok false, s1) /\
                 calls s1 = calls s0 /\
                 Engine.next_id (self s1) = Engine.next_id (self s) /\
                 Engine.objects (self s1) = Engine.objects (self s) /\
                 Engine.active_positions (self s1)
                 = Engine.active_positions (self s) /\
                 Engine.position_history (self s1)
                 = Engine.position_history (self s)).
    { intros s0 K0.
      destruct (exchange_check_returns config s0) as (b & s1 & C & _).
      pose proof (check_verdict _ _ _ _ C) as (V & Calls & N & O & A & Hi & _).
      rewrite K0 in *.
      destruct b.
      - destruct (proj1 V eq_refl) as [L _]. rewrite A in L. lia.
      - exists s1. auto 10. }
    split.
    - destruct (Refuses s eq_refl) as (s1 & C & Rest).
      exists s1. split; [ | exact Rest ].
      unfold Executor.execute_opportunity. now step C.
    - destruct (utcnow s) as [r0 s0] eqn:E0.
      pose proof (utcnow_inv _ _ _ E0) as (-> & _ & Calls0 & K0).
      destruct (Refuses s0 K0) as (s1 & C & Calls1 & Rest).
      exists s1. split; [ | split; [ congruence | exact Rest ] ].
      assert (P : HyperliquidExecutor._pre_execution_checks config o s0
                  = (Ok false, s1)).
      { unfold HyperliquidExecutor._pre_execution_checks.
        change (HyperliquidExecutor._check_risk_limits config)
          with (Executor._check_risk_limits config : M W Engine.t bool).
        now step C. }
      unfold HyperliquidExecutor.execute_opportunity. step E0. now step P.
  Qed.

  (** X10.  The CEX executor with the ADAPTIVE strategy never trades:
      [execute_opportunity] returns [None] without a venue call, whatever the
      opportunity and the state.  When the risk check passes, the position it
      created is left CANCELLED and unregistered: [_should_use_market_orders]
      raises on [time_value.total_seconds()] before any order. *)
Theorem adaptive_never_trades o (s : state) :
    exists s',
      Executor.execute_opportunity config Executor.ADAPTIVE o s
      = (Ok None, s') /\
      calls s' = calls s /\
      Engine.active_positions (self s') = Engine.active_positions (self s) /\
      Engine.position_history (self s') = Engine.position_history (self s) /\
      (forall i, i <> Engine.next_id (self s) ->
         Engine.objects (self s') i = Engine.objects (self s) i) /\
      (Engine.next_id (self s') = Engine.next_id (self s) \/
       Engine.next_id (self s') = S (Engine.next_id (self s)) /\
       Position.status (Engine.objects (self s') (Engine.next_id (self s)))
       = CANCELLED).
  Proof.
    destruct (exchange_check_returns config s) as (b & s1 & C & _).
    pose proof (check_verdict _ _ _ _ C) as (_ & Calls & N & O & A & Hi & _).
    unfold Executor.execute_opportunity. step C. destruct b.
    - cbn [negb]. cbv iota.
      destruct (utcnow s1) as [r2 s2] eqn:E2.
      pose proof (utcnow_inv _ _ _ E2) as (-> & _ & Calls2 & K2).
      step E2. unfold Engine.new_position at 1. unfold bind at 1.
      cbv beta iota zeta.
      unfold Executor.execute_try.
      match goal with
      | |- context [try_except ?m ?h ?s3] =>
          assert (Raised : exists s4,
                     m s3 = (Raise AttributeError, s4) /\
                     calls s4 = calls s3 /\ self s4 = self s3)
      end.
      { eexists. split.
        - erewrite bind_Raise;
            [ reflexivity
            | apply should_use_market_orders_adaptive_raises ].
        - split; reflexivity. }
      destruct Raised as (s4 & Raised & Calls4 & K4).
      erewrite try_except_caught; [ | exact Raised | reflexivity ].
      clear Raised E2 C.
      destruct s4 as [w4 c4 e4]. simpl in Calls4, K4. subst c4 e4.
      unfold Executor._rollback_position, Engine.read, Engine.assign.
      run_monad. simpl. repeat (rewrite !store_same; simpl).
      eexists. split; [ reflexivity | ]. simpl.
      rewrite ?store_same, K2, N, A, Hi, O.
      split; [ congruence | ]. split; [ reflexivity | ].
      split; [ reflexivity | ]. split.
      + intros i Hi'. unfold Engine.store.
        destruct (Nat.eqb_spec i (Engine.next_id (self s))); congruence.
      + right. split; [ reflexivity | ]. now rewrite store_same.
    - cbn [negb]. cbv iota. exists s1.
      split; [ reflexivity | ]. rewrite N, O. auto 10.
  Qed.

End Limits.

(** The full engine: the opened position of [ExecutionScenario] under a
    configuration that allows one position. *)
Lemma engine_within_limits_witness :
  let s := Scenario.start ExecutionScenario.falling ExecutionScenario.opened in
  let s' := snd (HyperliquidExecutor.monitor_turn default_config s) in
  within_limits default_config (self s').
Proof.
  intros s s'.
  refine (proj2 (proj2 (proj2 (engine_within_limits default_config _)))
            s (fst (HyperliquidExecutor.monitor_turn default_config s)) s'
            (surjective_pairing _) _).
  - vm_compute. discriminate.
  - split; vm_compute; discriminate.
Defined.

(** ** What the methods leave of a position *)

#[global] Instance preserves_preorder {A} (proj : Position.t -> A) :
  PreOrder (preserves proj).
Proof.
  split.
  - intros e j. reflexivity.
  - intros a b c Hab Hbc j. now rewrite Hbc, Hab.
Qed.

Lemma preserves_assign {W A} (proj : Position.t -> A) i f :
  (forall p, proj (f p) = proj p) ->
  respects (preserves proj) (Engine.assign i f : M W Engine.t unit).
Proof.
  intros Keeps. apply respects_modify_self. intros e j. simpl.
  unfold Engine.store. destruct (Nat.eqb_spec j i) as [->|Ne]; auto.
Qed.

Lemma preserves_ledger {W A} (proj : Position.t -> A) (f : Engine.t -> Engine.t) :
  (forall e, Engine.objects (f e) = Engine.objects e) ->
  respects (preserves proj) (modify_self f : M W Engine.t unit).
Proof.
  intros Keeps. apply respects_modify_self. intros e j. now rewrite Keeps.
Qed.

Lemma preserves_del_active {W A} (proj : Position.t -> A) j :
  respects (preserves proj) (Engine.del_active j : M W Engine.t unit).
Proof.
  unfold Engine.del_active. respects_auto. now apply preserves_ledger.
Qed.

Create HintDb preserved.

#[global] Hint Extern 1 (respects (preserves _) (Engine.assign _ _)) =>
  apply preserves_assign; intros; reflexivity : preserved.
#[global] Hint Extern 1 (respects (preserves _) (modify_self _)) =>
  apply preserves_ledger; intros; reflexivity : preserved.
#[global] Hint Resolve preserves_del_active : preserved.

Section Kept.
  Context {W : Type} `{PolymarketClient W} `{ExchangeClient W}
          `{HyperliquidClient W} `{Runtime W}.
  Variable config : TradingConfig.

Ltac preserved := repeat first [ solve [ auto with preserved ] | respects_step ].

Lemma kept_wait_loop fuel start oid is_pm asset timeout :
    respects (preserves kept)
      (Executor.wait_loop fuel start oid is_pm asset timeout).
  Proof. induction fuel as [|fuel IH]; simpl; preserved. Qed.

Lemma kept_wait_for_fill oid is_pm asset timeout :
    respects (preserves kept)
      (Executor._wait_for_fill oid is_pm asset timeout).
  Proof.
    unfold Executor._wait_for_fill. preserved. apply kept_wait_loop.
  Qed.

  Hint Resolve kept_wait_for_fill : preserved.

Lemma kept_run_legs j o m :
    respects (preserves kept) (Executor.run_legs o j m).
  Proof.
    unfold Executor.run_legs, Executor._execute_polymarket_leg,
      Executor._execute_hedge_leg.
    preserved.
  Qed.

Lemma kept_should_use_market_orders strategy o :
    respects (preserves kept)
      (Executor._should_use_market_orders strategy o : M W Engine.t _).
  Proof. unfold Executor._should_use_market_orders. preserved. Qed.


  (** A run of [Executor.execute_opportunity], step by step. *)
Lemma exchange_execute_inv strategy o (s : st W Engine.t) r s' :
    Executor.execute_opportunity config strategy o s = (r, s') ->
    exists b s1,
      Executor._check_risk_limits config s = (Ok b, s1) /\
      ((b = false /\ r = Ok None /\ s' = s1) \/
       (b = true /\
        exists now s2,
          utcnow s1 = (Ok now, s2) /\
          let id := Engine.next_id (self s2) in
          let s3 :=
            mkSt (world s2) (calls s2)
              (Engine.set_next_id (S id)
                 (Engine.set_objects
                    (Engine.store id (Executor.fresh_position o now id)
                       (Engine.objects (self s2))) (self s2))) in
          try_except (Executor.execute_try config strategy o id)
            (fun _ => Executor._rollback_position id >> ret None) s3
          = (r, s'))).
  Proof.
    unfold Executor.execute_opportunity. intros E.
    destruct (exchange_check_returns config s) as (b & s1 & C & _).
    exists b, s1. split; [ exact C | ].
    rewrite (bind_Ok _ _ _ _ _ C) in E. cbv beta in E.
    destruct b; cbn [negb] in E; cbv iota in E.
    - right. split; [ reflexivity | ].
      destruct (utcnow s1) as [r2 s2] eqn:E2.
      pose proof (utcnow_inv _ _ _ E2) as (-> & _).
      rewrite (bind_Ok _ _ _ _ _ E2) in E. cbv beta in E.
      eexists _, s2. split; [ reflexivity | ]. exact E.
    - left. injection E as <- <-. auto.
  Qed.

  (** What [open_position] did when it returned a position. *)
Lemma exchange_open_position_exact o id (s : st W Engine.t) x s' :
    Executor.open_position config o id s = (Ok (Some x), s') ->
    x = id /\
    calls s' = calls s /\
    Engine.next_id (self s') = Engine.next_id (self s) /\
    Engine.position_history (self s') = Engine.position_history (self s) /\
    Engine.active_positions (self s')
    = Engine.dict_set id (Engine.active_positions (self s)) /\
    Engine.daily_trade_count (self s')
    = (Engine.daily_trade_count (self s) + 1)%Z /\
    (forall i, i <> id ->
       Engine.objects (self s') i = Engine.objects (self s) i) /\
    exists pq pe hq he,
      let p := Engine.objects (self s) id in
      Position.polymarket_quantity p = Some pq /\
      Position.polymarket_entry_price p = Some pe /\
      Position.hedge_quantity p = Some hq /\
      Position.hedge_entry_price p = Some he /\
      Engine.objects (self s') id
      = Position.set_status OPEN
          (Position.set_take_profit_price
             (Some (Executor._calculate_take_profit he
                      (Position.hedge_side p) (breakeven_price o)))
             (Position.set_stop_loss_price
                (Some (Executor._calculate_stop_loss config he
                         (Position.hedge_side p))) p)).
  Proof.
    unfold Executor.open_position, Engine.read, Engine.assign, Engine.number,
      Engine.format_decimal.
    intros E. split_runs E.
    injection E as <- <-. simpl in *. rewrite ?store_same in *. simpl in *.
    do 6 (split; [ reflexivity | ]).
    split; [ intros i Hi; now rewrite !store_other by exact Hi | ].
    do 4 eexists. cbv zeta.
    do 3 (split; [ eassumption | ]). split; reflexivity.
  Qed.

  (** X11.  A position that [Executor.execute_opportunity] returns is the
      object it created: it is registered in [active_positions] with status
      OPEN and no closing time, carries the opportunity's identifier, sides,
      expiry and maximum loss, and records both fills.  The engine held fewer
      than [MAX_CONCURRENT_POSITIONS] positions before, the daily counter was
      incremented (from zero on a new day) and does not exceed
      [MAX_DAILY_TRADES]; the history and the other positions are
      untouched. *)
Theorem exchange_returned_position strategy o (s : st W Engine.t) x s' :
    Executor.execute_opportunity config strategy o s = (Ok (Some x), s') ->
    let p := Engine.objects (self s') x in
    x = Engine.next_id (self s) /\
    Engine.next_id (self s') = S x /\
    Engine.active_positions (self s')
    = Engine.dict_set x (Engine.active_positions (self s)) /\
    (Z.of_nat (length (Engine.active_positions (self s)))
     < MAX_CONCURRENT_POSITIONS config)%Z /\
    (Engine.daily_trade_count (self s')
     = (Engine.daily_trade_count (self s) + 1)%Z \/
     Engine.daily_trade_count (self s') = 1%Z) /\
    (Engine.daily_trade_count (self s') <= MAX_DAILY_TRADES config)%Z /\
    Engine.position_history (self s') = Engine.position_history (self s) /\
    (forall i, i <> x ->
       Engine.objects (self s') i = Engine.objects (self s) i) /\
    Position.status p = OPEN /\
    Position.closed_at p = None /\
    (exists now, terms p = terms (Executor.fresh_position o now x)) /\
    (exists pq pe hq he,
       Position.polymarket_quantity p = Some pq /\
       Position.polymarket_entry_price p = Some pe /\
       Position.hedge_quantity p = Some hq /\
       Position.hedge_entry_price p = Some he).
  Proof.
    intros E. cbv zeta.
    apply exchange_execute_inv in E
        as (b & s1 & C & [(_ & [=] & _)|(-> & now & s2 & E2 & E)]).
    pose proof (check_verdict _ _ _ _ C)
      as (V & _ & N1 & O1 & A1 & Hi1 & Count1).
    destruct (proj1 V eq_refl) as [Below Daily]. clear V.
    apply utcnow_inv in E2 as (_ & _ & _ & K2). cbv zeta in E.
    rewrite K2 in E. set (id := Engine.next_id (self s1)) in *.
    apply try_except_inv in E
        as [(a & E & [= <-])|[(e & s4 & _ & _ & Hd)|(e & _ & _ & [=])]].
    2: { apply bind_inv in Hd as [(u & s5 & _ & [=])|(e' & _ & [=])]. }
    unfold Executor.execute_try in E.
    apply bind_inv in E as [(m & s4 & E4 & E)|(e & _ & [=])].
    pose proof (touches_should_use_market_orders id _ _ _ _ _ E4) as T4.
    pose proof (kept_should_use_market_orders _ _ _ _ _ E4) as P4.
    apply bind_inv in E as [([pm hedge] & s5 & E5 & E)|(e & _ & [=])].
    pose proof (touches_run_legs id _ _ _ _ _ E5) as T5.
    pose proof (kept_run_legs _ _ _ _ _ _ E5) as P5.
    destruct (negb pm || negb hedge).
    { apply bind_inv in E as [(u & s6 & _ & [=])|(e' & _ & [=])]. }
    apply exchange_open_position_exact in E
        as (-> & _ & N & Hi & A & D & O & pq & pe & hq & he
            & Pq & Pe & Hq & He & P).
    cbv zeta in *.
    assert (T : touches id (Engine.set_next_id (S id)
                  (Engine.set_objects
                     (Engine.store id (Executor.fresh_position o now id)
                        (Engine.objects (self s1))) (self s1)))
                  (self s5))
      by (etransitivity; eassumption).
    assert (P' : preserves kept (Engine.set_next_id (S id)
                  (Engine.set_objects
                     (Engine.store id (Executor.fresh_position o now id)
                        (Engine.objects (self s1))) (self s1)))
                  (self s5))
      by (etransitivity; eassumption).
    destruct T as [(TN & TA & THi & TD & _) TO]. simpl in TN, TA, THi, TD, TO.
    specialize (P' id). simpl in P'. rewrite store_same in P'.
    pose proof (f_equal fst P') as Terms. pose proof (f_equal snd P') as Closed.
    clear P'. cbn [kept fst snd] in Terms, Closed.
    rewrite N, Hi, A, D, TN, TA, THi, TD, A1, Hi1, P.
    fold id. rewrite <- N1. fold id.
    split; [ reflexivity | ]. split; [ reflexivity | ].
    split; [ reflexivity | ]. split; [ rewrite <- A1; exact Below | ].
    split; [ destruct Count1 as [->| ->]; auto | ].
    split; [ lia | ]. split; [ reflexivity | ].
    split.
    { intros i Hi'. rewrite O, TO by exact Hi'.
      rewrite store_other by exact Hi'. now rewrite O1. }
    split; [ reflexivity | ].
    split; [ exact Closed | ].
    split; [ exists now; exact Terms | ].
    exists pq, pe, hq, he. auto.
  Qed.

End Kept.

Section HyperliquidKept.
  Context {W : Type} `{PolymarketClient W} `{HyperliquidClient W} `{Runtime W}.
  Variable config : TradingConfig.
  Variable strategy : HyperliquidExecutor.ExecutionStrategy.

Ltac preserved := repeat first [ solve [ auto with preserved ] | respects_step ].

Lemma hyperliquid_kept_wait_loop {A} (proj : Position.t -> A)
      fuel start oid is_pm timeout :
    respects (preserves proj)
      (HyperliquidExecutor.wait_loop fuel start oid is_pm timeout).
  Proof. induction fuel as [|fuel IH]; simpl; preserved. Qed.

Lemma hyperliquid_kept_wait_for_fill {A} (proj : Position.t -> A)
      oid is_pm timeout :
    respects (preserves proj)
      (HyperliquidExecutor._wait_for_fill oid is_pm timeout).
  Proof.
    unfold HyperliquidExecutor._wait_for_fill. preserved.
    apply hyperliquid_kept_wait_loop.
  Qed.

  Hint Resolve hyperliquid_kept_wait_for_fill : preserved.

Lemma hyperliquid_kept_twap_chunks {A} (proj : Position.t -> A)
      n i max o plan a b c x y :
    respects (preserves proj)
      (HyperliquidExecutor.twap_chunks n i max o plan a b c x y).
  Proof.
    revert i x y. induction n as [|n IH]; intros i x y; simpl; preserved.
  Qed.

  Hint Resolve hyperliquid_kept_twap_chunks : preserved.

Lemma hyperliquid_kept_run_legs j o plan :
    respects (preserves kept)
      (HyperliquidExecutor.run_legs strategy o j plan).
  Proof.
    unfold HyperliquidExecutor.run_legs, HyperliquidExecutor._execute_twap,
      HyperliquidExecutor._execute_parallel,
      HyperliquidExecutor._execute_polymarket_leg,
      HyperliquidExecutor._execute_hyperliquid_leg.
    preserved.
  Qed.

  (** The TWAP execution never assigns the Polymarket entry price. *)
Lemma twap_keeps_entry_price j o plan :
    respects (preserves Position.polymarket_entry_price)
      (HyperliquidExecutor._execute_twap o j plan).
  Proof. unfold HyperliquidExecutor._execute_twap. preserved. Qed.

Lemma hyperliquid_kept_create_execution_plan {A} (proj : Position.t -> A) o :
    respects (preserves proj)
      (HyperliquidExecutor._create_execution_plan config strategy o
       : M W Engine.t _).
  Proof. unfold HyperliquidExecutor._create_execution_plan. preserved. Qed.

  (** What [open_position] did when it returned a position. *)
Lemma hyperliquid_open_position_exact o id start (s : st W Engine.t) x s' :
    HyperliquidExecutor.open_position config o id start s
    = (Ok (Some x), s') ->
    x = id /\
    calls s' = calls s /\
    Engine.next_id (self s') = Engine.next_id (self s) /\
    Engine.position_history (self s') = Engine.position_history (self s) /\
    Engine.active_positions (self s')
    = Engine.dict_set id (Engine.active_positions (self s)) /\
    Engine.daily_trade_count (self s')
    = (Engine.daily_trade_count (self s) + 1)%Z /\
    (forall i, i <> id ->
       Engine.objects (self s') i = Engine.objects (self s) i) /\
    let p := Engine.objects (self s) id in
    let p' := Engine.objects (self s') id in
    Position.status p' = OPEN /\
    kept p' = kept p /\
    exists pq pe hq he,
      Position.polymarket_quantity p = Some pq /\
      Position.polymarket_entry_price p = Some pe /\
      Position.hedge_quantity p = Some hq /\
      Position.hedge_entry_price p = Some he /\
      Position.polymarket_quantity p' = Some pq /\
      Position.polymarket_entry_price p' = Some pe /\
      Position.hedge_quantity p' = Some hq /\
      Position.hedge_entry_price p' = Some he.
  Proof.
    unfold HyperliquidExecutor.open_position,
      HyperliquidExecutor._set_risk_parameters,
      HyperliquidExecutor._calculate_slippage, dec_div,
      Engine.read, Engine.assign, Engine.number, Engine.format_decimal.
    intros E. split_runs E.
    all: injection E as <- <-.
    all: simpl in *; rewrite ?store_same in *; simpl in *.
    all: do 6 (split; [ reflexivity | ]).
    all: split; [ intros i Hi; now rewrite ?store_other by exact Hi | ].
    all: cbv zeta; rewrite ?store_same; simpl.
    all: split; [ reflexivity | ].
    all: split; [ reflexivity | ].
    all: try congruence.
    all: do 4 eexists.
    all: repeat split; eassumption.
  Qed.

Lemma elem_of_dict_set_same k keys : k ∈ Engine.dict_set k keys.
  Proof.
    unfold Engine.dict_set. destruct (decide _) as [In|Out]; [ exact In | ].
    apply elem_of_app. right. apply list_elem_of_here.
  Qed.

  (** Without a Polymarket entry price, [open_position] registers and counts
      the position and then raises, at the message of its success. *)
Lemma hyperliquid_open_position_without_entry o id start
      (s : st W Engine.t) r s' :
    Position.polymarket_entry_price (Engine.objects (self s) id) = None ->
    HyperliquidExecutor.open_position config o id start s = (r, s') ->
    r = Raise TypeError /\
    calls s' = calls s /\
    id ∈ Engine.active_positions (self s') /\
    Engine.daily_trade_count (self s')
    = (Engine.daily_trade_count (self s) + 1)%Z.
  Proof.
    unfold HyperliquidExecutor.open_position,
      HyperliquidExecutor._set_risk_parameters,
      HyperliquidExecutor._calculate_slippage, dec_div,
      Engine.read, Engine.assign, Engine.number, Engine.format_decimal.
    intros None E. split_runs E.
    all: injection E as <- <-.
    all: simpl in *; rewrite ?store_same in *; simpl in *.
    all: try congruence.
    all: split; [ reflexivity | ].
    all: split; [ reflexivity | ].
    all: split; [ apply elem_of_dict_set_same | reflexivity ].
  Qed.

  (** A run of [HyperliquidExecutor.execute_opportunity] that returned a
      position, step by step. *)
Lemma hyperliquid_execute_inv o (s : st W Engine.t) x s' :
    HyperliquidExecutor.execute_opportunity config strategy o s
    = (Ok (Some x), s') ->
    exists start s0 s1 now s2 plan s4 s5,
      utcnow s = (Ok start, s0) /\
      HyperliquidExecutor._pre_execution_checks config o s0 = (Ok true, s1) /\
      utcnow s1 = (Ok now, s2) /\
      let id := Engine.next_id (self s2) in
      let s3 :=
        mkSt (world s2) (calls s2)
          (Engine.set_next_id (S id)
             (Engine.set_objects
                (Engine.store id (HyperliquidExecutor.fresh_position o now id)
                   (Engine.objects (self s2))) (self s2))) in
      HyperliquidExecutor._create_execution_plan config strategy o s3
      = (Ok plan, s4) /\
      HyperliquidExecutor.run_legs strategy o id plan s4 = (Ok true, s5) /\
      HyperliquidExecutor.open_position config o id start s5
      = (Ok (Some x), s').
  Proof.
    unfold HyperliquidExecutor.execute_opportunity. intros E.
    apply bind_inv in E as [(start & s0 & E0 & E)|(e & _ & [=])].
    apply bind_inv in E as [(allowed & s1 & E1 & E)|(e & _ & [=])].
    destruct allowed; cbn [negb] in E; cbv iota in E; [ | discriminate E ].
    apply bind_inv in E as [(now & s2 & E2 & E)|(e & _ & [=])].
    unfold Engine.new_position at 1 in E. unfold bind at 1 in E.
    cbv beta iota zeta in E.
    apply try_except_inv in E
        as [(a & E & [= <-])|[(e & s6 & _ & _ & Hd)|(e & _ & _ & [=])]].
    2: { apply bind_inv in Hd as [(u & s7 & _ & [=])|(e' & _ & [=])]. }
    unfold HyperliquidExecutor.execute_try in E.
    apply bind_inv in E as [(plan & s4 & E4 & E)|(e & _ & [=])].
    apply bind_inv in E as [(success & s5 & E5 & E)|(e & _ & [=])].
    destruct success; cbn [negb] in E; cbv iota in E.
    2: { apply bind_inv in E as [(u & s7 & _ & [=])|(e' & _ & [=])]. }
    exists start, s0, s1, now, s2, plan, s4, s5. cbv zeta. auto 10.
  Qed.

End HyperliquidKept.

(** ** A failed leg *)

(** The request that raised is found among the answers of the run. *)
Ltac blame :=
  unfold refused, raised;
  match goal with
  | H : _ = (Raise _, _) |- _ => erewrite H; reflexivity
  end.

Ltac caught_last :=
  eexists _, _, _; split; [ reflexivity | ]; split; [ blame | assumption ].

Ltac passed_last :=
  eexists _, _; split; [ reflexivity | blame ].

Ltac unwound_cases :=
  first
    [ left; split; reflexivity
    | right; split; [ reflexivity | ];
      first [ exists []; caught_last | eexists [_]; caught_last ]
    | split; [ assumption | ]; split; [ reflexivity | ];
      first [ exists []; passed_last | eexists [_]; passed_last ] ].

(** The conditions a run went through, rewritten in the goal. *)
Ltac replay :=
  repeat match goal with
         | H : ?x = ?v |- context [?x] =>
             lazymatch v with
             | true => rewrite H
             | false => rewrite H
             | Some _ => rewrite H
             | None => rewrite H
             end
         end.

Ltac unwound_auto :=
  eexists; eexists; split;
  [ rewrite <- ?app_assoc;
    first [ reflexivity | symmetry; apply app_nil_r ]
  | split;
    [ replay; cbn [truthy_dec default from_option id];
      replay; first [ reflexivity | symmetry; apply app_nil_r ]
    | cbn [Engine.objects Engine.set_objects]; rewrite ?store_same;
      unwound_cases ] ].

Lemma exchange_rollback_unwound {W} `{PolymarketClient W} `{ExchangeClient W}
    `{HyperliquidClient W} (id : nat) (s : st W Engine.t) r s' :
  Executor._rollback_position id s = (r, s') ->
  unwound (exchange_unwinding (Engine.objects (self s) id)) id s r s'.
Proof.
  unfold Executor._rollback_position, Engine.read, Engine.assign.
  intros E. split_runs E.
  all: injection E as <- <-; unfold unwound, exchange_unwinding;
    cbn [calls self world].
  all: unwound_auto.
Qed.

Lemma hyperliquid_rollback_unwound {W} `{PolymarketClient W}
    `{ExchangeClient W} `{HyperliquidClient W}
    (id : nat) (s : st W Engine.t) r s' :
  HyperliquidExecutor._rollback_position id s = (r, s') ->
  unwound (hyperliquid_unwinding (Engine.objects (self s) id)) id s r s'.
Proof.
  unfold HyperliquidExecutor._rollback_position, Engine.read, Engine.assign.
  intros E. split_runs E.
  all: injection E as <- <-; unfold unwound, hyperliquid_unwinding;
    cbn [calls self world].
  all: unwound_auto.
Qed.

Lemma unwound_not_open {W} `{PolymarketClient W} `{ExchangeClient W}
    `{HyperliquidClient W} owed (id : nat) (s : st W Engine.t) r s' :
  Position.status (Engine.objects (self s) id) = PENDING ->
  unwound owed id s r s' ->
  Position.status (Engine.objects (self s') id) <> OPEN.
Proof.
  intros Pending (sent & rest & _ & _ & Outcome).
  destruct r as [u|e].
  - destruct Outcome as [[_ ->] | [-> _]]; discriminate.
  - destruct Outcome as (_ & -> & _). rewrite Pending. discriminate.
Qed.

Lemma new_position_pending {W} (template : nat -> Position.t)
    (s : st W Engine.t) id s' :
  (forall i, Position.status (template i) = PENDING) ->
  Engine.new_position template s = (Ok id, s') ->
  Position.status (Engine.objects (self s') id) = PENDING.
Proof.
  intros Fresh [= <- <-]. cbn [self Engine.objects Engine.set_next_id
                                Engine.set_objects].
  rewrite store_same. apply Fresh.
Qed.

Section FailedLeg.
  Context {W : Type} `{PolymarketClient W} `{ExchangeClient W}
          `{HyperliquidClient W} `{Runtime W}.
  Variable config : TradingConfig.

  Local Abbreviation state := (st W Engine.t).

Ltac preserved := repeat first [ solve [ auto with preserved ] | respects_step ].

Lemma status_wait_loop fuel start oid is_pm asset timeout :
    respects (preserves Position.status)
      (Executor.wait_loop fuel start oid is_pm asset timeout).
  Proof. induction fuel as [|fuel IH]; simpl; preserved. Qed.

Lemma status_wait_for_fill oid is_pm asset timeout :
    respects (preserves Position.status)
      (Executor._wait_for_fill oid is_pm asset timeout).
  Proof.
    unfold Executor._wait_for_fill. preserved. apply status_wait_loop.
  Qed.

  Hint Resolve status_wait_for_fill : preserved.

Lemma status_run_legs j o m :
    respects (preserves Position.status) (Executor.run_legs o j m).
  Proof.
    unfold Executor.run_legs, Executor._execute_polymarket_leg,
      Executor._execute_hedge_leg.
    preserved.
  Qed.

Lemma status_should_use_market_orders strategy o :
    respects (preserves Position.status)
      (Executor._should_use_market_orders strategy o : M W Engine.t _).
  Proof. unfold Executor._should_use_market_orders. preserved. Qed.

Lemma hyperliquid_status_run_legs strategy j o plan :
    respects (preserves Position.status)
      (HyperliquidExecutor.run_legs strategy o j plan).
  Proof.
    pose proof (hyperliquid_kept_wait_for_fill (W := W) Position.status).
    pose proof (hyperliquid_kept_twap_chunks (W := W) Position.status).
    unfold HyperliquidExecutor.run_legs, HyperliquidExecutor._execute_twap,
      HyperliquidExecutor._execute_parallel,
      HyperliquidExecutor._execute_polymarket_leg,
      HyperliquidExecutor._execute_hyperliquid_leg.
    preserved.
  Qed.


End FailedLeg.


(** ** What a returned position is *)

Section Returned.
  Context {W : Type} `{PolymarketClient W} `{ExchangeClient W}
          `{HyperliquidClient W} `{Runtime W}.
  Variable config : TradingConfig.

  Local Abbreviation state := (st W Engine.t).

  (** X12.  A position that [HyperliquidExecutor.execute_opportunity]
      returns is the object it created: it is registered in
      [active_positions] with status OPEN and no closing time, carries the
      opportunity's identifier, sides, expiry and maximum loss, and records
      both fills.  The engine held fewer than [MAX_CONCURRENT_POSITIONS]
      positions before, the daily counter was incremented (from zero on a new
      day) and does not exceed [MAX_DAILY_TRADES]; the history and the other
      positions are untouched. *)
Theorem hyperliquid_returned_position strategy o (s : state) x s' :
    HyperliquidExecutor.execute_opportunity config strategy o s
    = (Ok (Some x), s') ->
    let p := Engine.objects (self s') x in
    x = Engine.next_id (self s) /\
    Engine.next_id (self s') = S x /\
    Engine.active_positions (self s')
    = Engine.dict_set x (Engine.active_positions (self s)) /\
    (Z.of_nat (length (Engine.active_positions (self s)))
     < MAX_CONCURRENT_POSITIONS config)%Z /\
    (Engine.daily_trade_count (self s')
     = (Engine.daily_trade_count (self s) + 1)%Z \/
     Engine.daily_trade_count (self s') = 1%Z) /\
    (Engine.daily_trade_count (self s') <= MAX_DAILY_TRADES config)%Z /\
    Engine.position_history (self s') = Engine.position_history (self s) /\
    (forall i, i <> x ->
       Engine.objects (self s') i = Engine.objects (self s) i) /\
    Position.status p = OPEN /\
    Position.closed_at p = None /\
    (exists now,
       terms p = terms (HyperliquidExecutor.fresh_position o now x)) /\
    (exists pq pe hq he,
       Position.polymarket_quantity p = Some pq /\
       Position.polymarket_entry_price p = Some pe /\
       Position.hedge_quantity p = Some hq /\
       Position.hedge_entry_price p = Some he).
  Proof.
    intros E. cbv zeta.
    apply hyperliquid_execute_inv in E
        as (start & s0 & s1 & now & s2 & plan & s4 & s5
            & E0 & E1 & E2 & E4 & E5 & E).
    apply utcnow_inv in E0 as (_ & _ & _ & K0).
    apply hyperliquid_pre_checks_spec in E1 as (b & s1' & C & K1 & B).
    rewrite (B eq_refl) in C. clear B b.
    change (HyperliquidExecutor._check_risk_limits config s0)
      with (Executor._check_risk_limits config s0) in C.
    pose proof (check_verdict _ _ _ _ C)
      as (V & _ & N1 & O1 & A1 & Hi1 & Count1).
    destruct (proj1 V eq_refl) as [Below Daily]. clear V.
    rewrite <- K1, K0 in *. clear K1 K0 C s1' s0.
    apply utcnow_inv in E2 as (_ & _ & _ & K2). cbv zeta in E4, E5, E.
    rewrite K2 in E4, E5, E. set (id := Engine.next_id (self s1)) in *.
    pose proof (hyperliquid_touches_create_execution_plan _ _ id _ _ _ _ E4)
      as T4.
    pose proof (hyperliquid_kept_create_execution_plan _ _ kept _ _ _ _ E4)
      as P4.
    pose proof (hyperliquid_touches_run_legs _ id _ _ _ _ _ E5) as T5.
    pose proof (hyperliquid_kept_run_legs _ _ _ _ _ _ _ E5) as P5.
    apply hyperliquid_open_position_exact in E
        as (-> & _ & N & Hi & A & D & O & St & Kp & pq & pe & hq & he
            & _ & _ & _ & _ & Pq & Pe & Hq & He).
    cbv zeta in *.
    assert (T : touches id (Engine.set_next_id (S id)
                  (Engine.set_objects
                     (Engine.store id
                        (HyperliquidExecutor.fresh_position o now id)
                        (Engine.objects (self s1))) (self s1)))
                  (self s5))
      by (etransitivity; eassumption).
    assert (P' : preserves kept (Engine.set_next_id (S id)
                  (Engine.set_objects
                     (Engine.store id
                        (HyperliquidExecutor.fresh_position o now id)
                        (Engine.objects (self s1))) (self s1)))
                  (self s5))
      by (etransitivity; eassumption).
    destruct T as [(TN & TA & THi & TD & _) TO]. simpl in TN, TA, THi, TD, TO.
    specialize (P' id). simpl in P'. rewrite store_same in P'.
    rewrite <- Kp in P'.
    pose proof (f_equal fst P') as Terms. pose proof (f_equal snd P') as Closed.
    clear P'. cbn [kept fst snd] in Terms, Closed.
    rewrite N, Hi, A, D, TN, TA, THi, TD, A1, Hi1.
    fold id. rewrite <- N1. fold id.
    split; [ reflexivity | ]. split; [ reflexivity | ].
    split; [ reflexivity | ]. split; [ rewrite <- A1; exact Below | ].
    split; [ destruct Count1 as [->| ->]; auto | ].
    split; [ lia | ]. split; [ reflexivity | ].
    split.
    { intros i Hi'. rewrite O, TO by exact Hi'.
      rewrite store_other by exact Hi'. now rewrite O1. }
    split; [ exact St | ].
    split; [ exact Closed | ].
    split; [ exists now; exact Terms | ].
    exists pq, pe, hq, he. auto.
  Qed.


End Returned.

(** The CEX executor on the filling world, long hedge, breakeven 62,000. *)
Lemma exchange_returned_position_witness :
  let o := ExecutionScenario.tomorrow LONG 62000 in
  let s := Scenario.start (ExecutionScenario.filling LONG) Scenario.engine in
  let run := ExecutionScenario.exchange_run (ExecutionScenario.filling LONG) o in
  let p := Engine.objects (self (snd run)) 0 in
  0%nat = Engine.next_id (self s) /\
  Engine.next_id (self (snd run)) = 1%nat /\
  Engine.active_positions (self (snd run))
  = Engine.dict_set 0 (Engine.active_positions (self s)) /\
  (Z.of_nat (length (Engine.active_positions (self s)))
   < MAX_CONCURRENT_POSITIONS default_config)%Z /\
  (Engine.daily_trade_count (self (snd run))
   = (Engine.daily_trade_count (self s) + 1)%Z \/
   Engine.daily_trade_count (self (snd run)) = 1%Z) /\
  (Engine.daily_trade_count (self (snd run))
   <= MAX_DAILY_TRADES default_config)%Z /\
  Engine.position_history (self (snd run)) = Engine.position_history (self s) /\
  (forall i, i <> 0%nat ->
     Engine.objects (self (snd run)) i = Engine.objects (self s) i) /\
  Position.status p = OPEN /\
  Position.closed_at p = None /\
  (exists now, terms p = terms (Executor.fresh_position o now 0)) /\
  (exists pq pe hq he,
     Position.polymarket_quantity p = Some pq /\
     Position.polymarket_entry_price p = Some pe /\
     Position.hedge_quantity p = Some hq /\
     Position.hedge_entry_price p = Some he).
Proof.
  intros o s run.
  apply (exchange_returned_position default_config Executor.AGGRESSIVE o s
           0%nat (snd run)).
  vm_compute. reflexivity.
Defined.

(** The Hyperliquid executor on the same world. *)
Lemma hyperliquid_returned_position_witness :
  let o := ExecutionScenario.tomorrow LONG 62000 in
  let s := Scenario.start (ExecutionScenario.filling LONG) Scenario.engine in
  let run :=
    ExecutionScenario.hyperliquid_run (ExecutionScenario.filling LONG) o in
  let p := Engine.objects (self (snd run)) 0 in
  0%nat = Engine.next_id (self s) /\
  Engine.next_id (self (snd run)) = 1%nat /\
  Engine.active_positions (self (snd run))
  = Engine.dict_set 0 (Engine.active_positions (self s)) /\
  (Z.of_nat (length (Engine.active_positions (self s)))
   < MAX_CONCURRENT_POSITIONS default_config)%Z /\
  (Engine.daily_trade_count (self (snd run))
   = (Engine.daily_trade_count (self s) + 1)%Z \/
   Engine.daily_trade_count (self (snd run)) = 1%Z) /\
  (Engine.daily_trade_count (self (snd run))
   <= MAX_DAILY_TRADES default_config)%Z /\
  Engine.position_history (self (snd run)) = Engine.position_history (self s) /\
  (forall i, i <> 0%nat ->
     Engine.objects (self (snd run)) i = Engine.objects (self s) i) /\
  Position.status p = OPEN /\
  Position.closed_at p = None /\
  (exists now, terms p = terms (HyperliquidExecutor.fresh_position o now 0)) /\
  (exists pq pe hq he,
     Position.polymarket_quantity p = Some pq /\
     Position.polymarket_entry_price p = Some pe /\
     Position.hedge_quantity p = Some hq /\
     Position.hedge_entry_price p = Some he).
Proof.
  intros o s run.
  apply (hyperliquid_returned_position default_config
           HyperliquidExecutor.ADAPTIVE o s 0%nat (snd run)).
  vm_compute. reflexivity.
Defined.


(** ** Monitoring and closing *)

Section Monitoring.
  Context {W : Type} `{PolymarketClient W} `{ExchangeClient W}
          `{HyperliquidClient W} `{Runtime W}.
  Variable config : TradingConfig.

  Local Abbreviation state := (st W Engine.t).

Ltac preserved := repeat first [ solve [ auto with preserved ] | respects_step ].

  Hint Resolve respects_exchange_close_hedge
    respects_hyperliquid_close_hedge : preserved.

Lemma settled_exchange_close_position j :
    respects (preserves settled) (Executor.close_position j).
  Proof.
    unfold Executor.close_position, Executor.close_try. preserved.
  Qed.

Lemma settled_hyperliquid_close_position j :
    respects (preserves settled) (HyperliquidExecutor.close_position j).
  Proof.
    unfold HyperliquidExecutor.close_position, HyperliquidExecutor.close_try.
    preserved.
  Qed.

  Hint Resolve settled_exchange_close_position
    settled_hyperliquid_close_position : preserved.

Lemma settled_exchange_monitor_each snapshot :
    respects (preserves settled) (Executor.monitor_each snapshot).
  Proof.
    induction snapshot; simpl; unfold Executor.monitor_position; preserved.
  Qed.

Lemma settled_hyperliquid_monitor_each snapshot :
    respects (preserves settled)
      (HyperliquidExecutor.monitor_each config snapshot).
  Proof.
    induction snapshot; simpl; unfold HyperliquidExecutor.monitor_position;
      preserved.
  Qed.

  Hint Resolve settled_exchange_monitor_each
    settled_hyperliquid_monitor_each : preserved.

  (** X14.  Monitoring and closing never rewrite what an open position
      records: a monitoring turn and a call of [close_position] of either
      executor leave, on every position object, the identifiers, sides,
      symbol, maximum loss, opening and expiry times, realized P&L, order
      identifiers, fills, fees, stop loss and take profit as they were; only
      the status, the closing time and the unrealized P&L are assigned. *)
Theorem monitoring_keeps_settled :
    (forall (s : state) r s',
       Executor.monitor_turn s = (r, s') ->
       preserves settled (self s) (self s')) /\
    (forall (s : state) r s',
       HyperliquidExecutor.monitor_turn config s = (r, s') ->
       preserves settled (self s) (self s')) /\
    (forall j (s : state) r s',
       Executor.close_position j s = (r, s') ->
       preserves settled (self s) (self s')) /\
    (forall j (s : state) r s',
       HyperliquidExecutor.close_position j s = (r, s') ->
       preserves settled (self s) (self s')).
  Proof.
    split; [ | split; [ | split ] ].
    - intros s r s'.
      assert (R : respects (preserves settled)
                    (Executor.monitor_turn : M W Engine.t unit))
        by (unfold Executor.monitor_turn; preserved).
      apply R.
    - intros s r s'.
      assert (R : respects (preserves settled)
                    (HyperliquidExecutor.monitor_turn config
                     : M W Engine.t unit))
        by (unfold HyperliquidExecutor.monitor_turn; preserved).
      apply R.
    - intros j. exact (settled_exchange_close_position j).
    - intros j. exact (settled_hyperliquid_close_position j).
  Qed.

Lemma exchange_monitor_each_idle snapshot (s : state) :
    (forall j, j ∈ snapshot ->
       Position.status (Engine.objects (self s) j) <> OPEN) ->
    Executor.monitor_each snapshot s = (Ok tt, s).
  Proof.
    induction snapshot as [|j rest IH]; intros Idle; [ reflexivity | ].
    simpl.
    assert (Skip : Executor.monitor_position j s = (Ok tt, s)).
    { unfold Executor.monitor_position, Engine.read, bind.
      destruct (PositionStatus_eqb (Position.status _) OPEN) eqn:St;
        [ | reflexivity ].
      exfalso. apply (Idle j); [ left | ].
      destruct (Position.status (Engine.objects (self s) j));
        try discriminate St; reflexivity. }
    step Skip. apply IH. intros i Hi. apply Idle. now right.
  Qed.

Lemma hyperliquid_monitor_each_idle snapshot (s : state) :
    (forall j, j ∈ snapshot ->
       Position.status (Engine.objects (self s) j) <> OPEN) ->
    HyperliquidExecutor.monitor_each config snapshot s = (Ok tt, s).
  Proof.
    induction snapshot as [|j rest IH]; intros Idle; [ reflexivity | ].
    simpl.
    assert (Skip : HyperliquidExecutor.monitor_position config j s
                   = (Ok tt, s)).
    { unfold HyperliquidExecutor.monitor_position, Engine.read, bind.
      destruct (PositionStatus_eqb (Position.status _) OPEN) eqn:St;
        [ | reflexivity ].
      exfalso. apply (Idle j); [ left | ].
      destruct (Position.status (Engine.objects (self s) j));
        try discriminate St; reflexivity. }
    step Skip. apply IH. intros i Hi. apply Idle. now right.
  Qed.

Lemma sleeps_only (m : M W Engine.t unit) (s s0 : state) r s' :
    m s = (Ok tt, s0) -> calls s0 = calls s -> self s0 = self s ->
    try_except (m >> sleep 5) (fun _ => sleep 10) s = (r, s') ->
    calls s' = calls s /\ self s' = self s.
  Proof.
    intros Run Calls Self E.
    assert (Sleep : forall q (s1 : state) r1 s2,
               sleep q s1 = (r1, s2) ->
               calls s2 = calls s1 /\ self s2 = self s1).
    { intros q s1 r1 s2. unfold sleep, runtime.
      destruct (rt_sleep q (world s1)). now intros [= <- <-]. }
    apply try_except_inv in E
        as [(a & E & _)|[(e & s1 & E & _ & Hd)|(e & E & _)]].
    - rewrite (bind_Ok _ _ _ _ _ Run) in E. apply Sleep in E as [-> ->]. auto.
    - rewrite (bind_Ok _ _ _ _ _ Run) in E. apply Sleep in E as [C1 S1].
      apply Sleep in Hd as [-> ->]. split; congruence.
    - rewrite (bind_Ok _ _ _ _ _ Run) in E. apply Sleep in E as [-> ->]. auto.
  Qed.

  (** X15.  Positions that are not OPEN are not monitored: in a turn that
      finds no active position with status OPEN, either executor asks no
      venue and changes nothing in its engine, so that a position left
      PENDING, PARTIAL, CANCELLED or ERROR in [active_positions] is never
      closed by the monitoring loop. *)
Theorem idle_monitoring_turn :
    (forall (s : state) r s',
       (forall j, j ∈ Engine.active_positions (self s) ->
          Position.status (Engine.objects (self s) j) <> OPEN) ->
       Executor.monitor_turn s = (r, s') ->
       calls s' = calls s /\ self s' = self s) /\
    (forall (s : state) r s',
       (forall j, j ∈ Engine.active_positions (self s) ->
          Position.status (Engine.objects (self s) j) <> OPEN) ->
       HyperliquidExecutor.monitor_turn config s = (r, s') ->
       calls s' = calls s /\ self s' = self s).
  Proof.
    split.
    - intros s r s' Idle E. unfold Executor.monitor_turn in E.
      eapply (sleeps_only
                (let* e := get_self in
                 Executor.monitor_each (Engine.active_positions e)) s s);
        [ | reflexivity | reflexivity | exact E ].
      unfold bind, get_self. now apply exchange_monitor_each_idle.
    - intros s r s' Idle E. unfold HyperliquidExecutor.monitor_turn in E.
      eapply (sleeps_only
                (let* e := get_self in
                 HyperliquidExecutor.monitor_each config
                   (Engine.active_positions e)) s s);
        [ | reflexivity | reflexivity | exact E ].
      unfold bind, get_self. now apply hyperliquid_monitor_each_idle.
  Qed.

End Monitoring.

Section Closing.
  Context {W : Type} `{PolymarketClient W} `{ExchangeClient W}
          `{HyperliquidClient W} `{Runtime W}.

  Local Abbreviation state := (st W Engine.t).

  (** X16.  Where the venue answers the closing request, [close_position]
      closes an active position that records a hedge quantity: it returns
      with the status CLOSED and the closing time set, the position appended
      to the history and removed from the active positions.  For a positive
      quantity the CEX executor sends one reduce-only market order on the
      opposite side for that quantity, and the Hyperliquid executor one
      request to close the whole position in the asset; otherwise no venue
      is asked. *)
Theorem close_position_closes :
    (forall j (s : state) q,
       let p := Engine.objects (self s) j in
       Position.hedge_quantity p = Some q ->
       j ∈ Engine.active_positions (self s) ->
       (forall order, exo_reduce_only order = true ->
          exists oid, fst (ex_place_order order (world s)) = Ok oid) ->
       exists s' now,
         Executor.close_position j s = (Ok tt, s') /\
         Position.status (Engine.objects (self s') j) = CLOSED /\
         Position.closed_at (Engine.objects (self s') j) = Some now /\
         Engine.position_history (self s')
         = (Engine.position_history (self s) ++ [j]) /\
         Engine.active_positions (self s')
         = filter (fun i => i <> j) (Engine.active_positions (self s)) /\
         (j ∉ Engine.active_positions (self s')) /\
         if Qgtb q 0 then
           exists order,
             calls s' = calls s ++ [EX_place_order order] /\
             exo_asset order = split_head slash (Position.hedge_symbol p) /\
             exo_side order
             = (if MarketSide_eqb (Position.hedge_side p) LONG
                then SHORT else LONG) /\
             exo_order_type order = MARKET /\
             exo_quantity order = Some q /\
             exo_reduce_only order = true
         else calls s' = calls s) /\
    (forall j (s : state) q,
       let p := Engine.objects (self s) j in
       Position.hedge_quantity p = Some q ->
       j ∈ Engine.active_positions (self s) ->
       (forall asset,
          exists done, fst (hl_close_position asset (world s)) = Ok done) ->
       exists s' now,
         HyperliquidExecutor.close_position j s = (Ok tt, s') /\
         Position.status (Engine.objects (self s') j) = CLOSED /\
         Position.closed_at (Engine.objects (self s') j) = Some now /\
         Engine.position_history (self s')
         = (Engine.position_history (self s) ++ [j]) /\
         Engine.active_positions (self s')
         = filter (fun i => i <> j) (Engine.active_positions (self s)) /\
         (j ∉ Engine.active_positions (self s')) /\
         calls s'
         = calls s
           ++ (if Qgtb q 0
               then [HL_close_position
                       (split_head hyphen (Position.hedge_symbol p))]
               else [])).
  Proof.
    assert (Gone : forall j (l : list nat), j ∉ filter (fun i => i <> j) l).
    { intros j l In. apply list_elem_of_filter in In as [Ne _]. now apply Ne. }
    split.
    - intros j s q p Quantity Active Venue.
      unfold Executor.close_position, Executor.close_try, Executor.close_hedge,
        Engine.read, Engine.number, Engine.assign, Engine.del_active,
        Engine.dict_del.
      run_monad. subst p. cbv beta iota zeta. rewrite Quantity.
      cbv beta iota zeta.
      destruct (Qgtb q 0) eqn:Positive.
      + match goal with
        | |- context [ex_place_order ?o (world s)] =>
            destruct (Venue o eq_refl) as (oid & Answer);
            destruct (ex_place_order o (world s)) as [r w'] eqn:Order
        end.
        simpl in Answer. subst r.
        cbn beta iota zeta delta [world calls self fst snd].
        destruct (rt_utcnow w') as [now w''].
        cbn beta iota zeta delta [world calls self fst snd].
        simpl. destruct (decide _) as [In|Out]; [ | contradiction ].
        cbn beta iota zeta delta [world calls self fst snd].
        eexists _, now. split; [ reflexivity | ]. simpl.
        rewrite !store_same. simpl.
        split; [ reflexivity | ]. split; [ reflexivity | ].
        split; [ reflexivity | ]. split; [ reflexivity | ].
        split; [ apply Gone | ].
        eexists. split; [ reflexivity | ]. simpl. auto.
      + cbn beta iota zeta delta [world calls self fst snd].
        destruct (rt_utcnow (world s)) as [now w''].
        cbn beta iota zeta delta [world calls self fst snd].
        simpl. destruct (decide _) as [In|Out]; [ | contradiction ].
        cbn beta iota zeta delta [world calls self fst snd].
        eexists _, now. split; [ reflexivity | ]. simpl.
        rewrite !store_same. simpl.
        split; [ reflexivity | ]. split; [ reflexivity | ].
        split; [ reflexivity | ]. split; [ reflexivity | ].
        split; [ apply Gone | reflexivity ].
    - intros j s q p Quantity Active Venue.
      unfold HyperliquidExecutor.close_position, HyperliquidExecutor.close_try,
        HyperliquidExecutor.close_hedge,
        Engine.read, Engine.number, Engine.assign, Engine.del_active,
        Engine.dict_del.
      run_monad. subst p. cbv beta iota zeta. rewrite Quantity.
      cbv beta iota zeta.
      destruct (Qgtb q 0) eqn:Positive.
      + match goal with
        | |- context [hl_close_position ?a (world s)] =>
            destruct (Venue a) as (done & Answer);
            destruct (hl_close_position a (world s)) as [r w'] eqn:Order
        end.
        simpl in Answer. subst r.
        cbn beta iota zeta delta [world calls self fst snd].
        destruct (rt_utcnow w') as [now w''].
        cbn beta iota zeta delta [world calls self fst snd].
        simpl. destruct (decide _) as [In|Out]; [ | contradiction ].
        cbn beta iota zeta delta [world calls self fst snd].
        eexists _, now. split; [ reflexivity | ]. simpl.
        rewrite !store_same. simpl.
        split; [ reflexivity | ]. split; [ reflexivity | ].
        split; [ reflexivity | ]. split; [ reflexivity | ].
        split; [ apply Gone | reflexivity ].
      + cbn beta iota zeta delta [world calls self fst snd].
        destruct (rt_utcnow (world s)) as [now w''].
        cbn beta iota zeta delta [world calls self fst snd].
        simpl. destruct (decide _) as [In|Out]; [ | contradiction ].
        cbn beta iota zeta delta [world calls self fst snd].
        eexists _, now. split; [ reflexivity | ]. simpl.
        rewrite !store_same. simpl.
        split; [ reflexivity | ]. split; [ reflexivity | ].
        split; [ reflexivity | ]. split; [ reflexivity | ].
        split; [ apply Gone | now rewrite app_nil_r ].
  Qed.

End Closing.

(** Both executors, full. *)
Lemma full_engine_refuses_witness :
  let o := ExecutionScenario.tomorrow LONG 62000 in
  let s := Scenario.start (ExecutionScenario.filling LONG)
             AftermathScenario.crowded in
  (exists s',
     Executor.execute_opportunity default_config Executor.AGGRESSIVE o s
     = (Ok None, s') /\
     calls s' = calls s /\
     Engine.next_id (self s') = Engine.next_id (self s) /\
     Engine.objects (self s') = Engine.objects (self s) /\
     Engine.active_positions (self s') = Engine.active_positions (self s) /\
     Engine.position_history (self s') = Engine.position_history (self s)) /\
  (exists s',
     HyperliquidExecutor.execute_opportunity default_config
       HyperliquidExecutor.AGGRESSIVE o s
     = (Ok None, s') /\
     calls s' = calls s /\
     Engine.next_id (self s') = Engine.next_id (self s) /\
     Engine.objects (self s') = Engine.objects (self s) /\
     Engine.active_positions (self s') = Engine.active_positions (self s) /\
     Engine.position_history (self s') = Engine.position_history (self s)).
Proof.
  intros o s.
  apply (full_engine_refuses default_config Executor.AGGRESSIVE
           HyperliquidExecutor.AGGRESSIVE o s).
  vm_compute. discriminate.
Defined.

(** The monitoring turn of [ExecutionScenario], which closes the position. *)
Lemma monitoring_keeps_settled_witness :
  let s := Scenario.start ExecutionScenario.falling ExecutionScenario.opened in
  let s' := snd (HyperliquidExecutor.monitor_turn default_config s) in
  preserves settled (self s) (self s') /\
  Position.status (Engine.objects (self s) 0) = OPEN /\
  Position.status (Engine.objects (self s') 0) = ERROR.
Proof.
  intros s s'. split.
  - exact (proj1 (proj2 (monitoring_keeps_settled default_config))
             s (fst (HyperliquidExecutor.monitor_turn default_config s)) s'
             (surjective_pairing _)).
  - split; vm_compute; reflexivity.
Defined.

(** After the TWAP run the position is active and CANCELLED: no turn of the
    monitoring loop touches it. *)
Lemma idle_monitoring_turn_witness :
  let s := Scenario.start ExecutionScenario.falling
             AftermathScenario.after_twap in
  let s' := snd (HyperliquidExecutor.monitor_turn default_config s) in
  Engine.active_positions (self s) = [0%nat] /\
  Position.status (Engine.objects (self s) 0) = CANCELLED /\
  calls s' = calls s /\ self s' = self s.
Proof.
  intros s s'.
  assert (A : Engine.active_positions (self s) = [0%nat])
    by (vm_compute; reflexivity).
  assert (C : Position.status (Engine.objects (self s) 0) = CANCELLED)
    by (vm_compute; reflexivity).
  split; [ exact A | ]. split; [ exact C | ].
  refine (proj2 (idle_monitoring_turn default_config)
            s (fst (HyperliquidExecutor.monitor_turn default_config s)) s'
            _ (surjective_pairing _)).
  intros j Hj. rewrite A in Hj. apply list_elem_of_singleton in Hj as ->.
  rewrite C. discriminate.
Defined.

(** The open position of [ExecutionScenario], closed on a venue that
    answers. *)
Lemma close_position_closes_witness :
  let s := Scenario.start (ExecutionScenario.filling LONG)
             ExecutionScenario.opened in
  let p := Engine.objects (self s) 0 in
  let q := default 0 (Position.hedge_quantity p) in
  0 < q /\
  exists s' now,
    HyperliquidExecutor.close_position 0 s = (Ok tt, s') /\
    Position.status (Engine.objects (self s') 0) = CLOSED /\
    Position.closed_at (Engine.objects (self s') 0) = Some now /\
    Engine.position_history (self s')
    = (Engine.position_history (self s) ++ [0%nat]) /\
    Engine.active_positions (self s')
    = filter (fun i => i <> 0%nat) (Engine.active_positions (self s)) /\
    (0%nat ∉ Engine.active_positions (self s')) /\
    calls s'
    = calls s
      ++ (if Qgtb q 0
          then [HL_close_position
                  (split_head hyphen (Position.hedge_symbol p))]
          else []).
Proof.
  intros s p q. split; [ vm_compute; reflexivity | ].
  apply (proj2 close_position_closes 0%nat s q).
  - vm_compute. reflexivity.
  - vm_compute. apply list_elem_of_here.
  - intros asset. eexists. vm_compute. reflexivity.
Defined.

(** ** Validation *)

Section Validation.
  Context {W : Type} `{PolymarketClient W} `{ExchangeClient W}
          `{HyperliquidClient W} `{Runtime W}.
  Variable config : TradingConfig.

  Local Abbreviation state := (st W (list ArbitrageOpportunity)).

  (** X17.  [validate_opportunity] of either detector lets no [Exception]
      out and leaves the detector as it was.  It approves an opportunity
      only if the opportunity has not expired and the only warning, if any,
      is that the hedge price moved (by more than 2% for the CEX detector, 1%
      for the Hyperliquid detector), so that no price move, however large,
      makes it reject; and a rejection always names at least one reason. *)
Theorem validation_verdicts o :
    (forall (s : state) r s',
       Detector.validate_opportunity o s = (r, s') ->
       self s' = self s /\
       match r with
       | Ok (valid, warnings) =>
           if valid then
             (fst (rt_utcnow (world s)) < expires_at o)%Z /\
             (warnings = [] \/
              exists pct, warnings = [Price_has_moved pct] /\ 2 < pct)
           else warnings <> []
       | Raise e => is_Exception e = false
       end) /\
    (forall (s : state) r s',
       HyperliquidDetector.validate_opportunity config o s = (r, s') ->
       self s' = self s /\
       match r with
       | Ok (valid, warnings) =>
           if valid then
             (fst (rt_utcnow (world s)) < expires_at o)%Z /\
             (warnings = [] \/
              exists pct, warnings = [Price_moved pct] /\ 1 < pct)
           else warnings <> []
       | Raise e => is_Exception e = false
       end).
  Proof.
    split.
    - intros s r s'. unfold Detector.validate_opportunity, dec_div.
      intros E. split_runs E.
      all: injection E as <- <-.
      all: split; [ reflexivity | ].
      all: try assumption; try discriminate.
      all: repeat match goal with
                  | L : _ ++ _ = _ |- _ => simpl in L
                  | L : _ :: _ = _ |- _ => injection L as <-
                  | L : ?l = [] |- _ => subst l
                  | L : ?l = _ :: _ |- _ => subst l
                  | L : [] = _ :: _ |- _ => discriminate L
                  end.
      all: cbn [contains_Price_has_moved app]; try discriminate.
      all: split; [ apply Z.leb_gt; assumption | ].
      all: first [ left; reflexivity
                 | right; eexists; split;
                   [ reflexivity | apply Qgtb_gt; assumption ] ].
    - intros s r s'. unfold HyperliquidDetector.validate_opportunity, dec_div.
      intros E. split_runs E.
      all: injection E as <- <-.
      all: split; [ reflexivity | ].
      all: try assumption; try discriminate.
      all: split; [ apply Z.leb_gt; assumption | ].
      all: first [ left; reflexivity
                 | right; eexists; split;
                   [ reflexivity | apply Qgtb_gt; assumption ] ].
  Qed.

End Validation.

(** The opportunity of [Scenario], validated by the Hyperliquid detector on
    venues with deep books and full accounts while the hedge trades 10%
    above the price it was detected at. *)
Lemma validation_verdicts_witness :
  let o := Scenario.opportunity LONG 62000 0 (24 * Scenario.hour)%Z in
  let s := Scenario.start AftermathScenario.moved
             ([] : list ArbitrageOpportunity) in
  let run := HyperliquidDetector.validate_opportunity default_config o s in
  (exists pct, fst run = Ok (true, [Price_moved pct]) /\ pct == 10) /\
  self (snd run) = self s /\
  match fst run with
  | Ok (valid, warnings) =>
      if valid then
        (fst (rt_utcnow (world s)) < expires_at o)%Z /\
        (warnings = [] \/
         exists pct, warnings = [Price_moved pct] /\ 1 < pct)
      else warnings <> []
  | Raise e => is_Exception e = false
  end.
Proof.
  intros o s run.
  split; [ eexists; split; vm_compute; reflexivity | ].
  exact (proj2 (validation_verdicts default_config o) s (fst run) (snd run)
           (surjective_pairing _)).
Defined.

(** ** What a computation leaves of its state *)

Section Throughout.
  Context {W S : Type}.
  Variable R : st W S -> st W S -> Prop.
  Context {R_preorder : PreOrder R}.
  Hypothesis R_blind : world_blind R.

Lemma throughout_ret {A} (a : A) : throughout R (ret a).
  Proof. intros s r s' [= <- <-]. reflexivity. Qed.

Lemma throughout_raise {A} (e : exn) : throughout R (raise e : M W S A).
  Proof. intros s r s' [= <- <-]. reflexivity. Qed.

Lemma throughout_lift {A} (x : res A) : throughout R (lift x).
  Proof. intros s r s' [= <- <-]. reflexivity. Qed.

Lemma throughout_get_self : throughout R get_self.
  Proof. intros s r s' [= <- <-]. reflexivity. Qed.

Lemma throughout_bind {A B} (m : M W S A) (k : A -> M W S B) :
    throughout R m -> (forall a, throughout R (k a)) ->
    throughout R (bind m k).
  Proof.
    intros Hm Hk s r s'. unfold bind.
    destruct (m s) as [[a|e] s1] eqn:E.
    - intros K. etransitivity; [ eapply Hm | eapply Hk ]; eassumption.
    - intros [= <- <-]. eapply Hm; eassumption.
  Qed.

Lemma throughout_try_except {A} (m : M W S A) (h : exn -> M W S A) :
    throughout R m -> (forall e, throughout R (h e)) ->
    throughout R (try_except m h).
  Proof.
    intros Hm Hh s r s'. unfold try_except.
    destruct (m s) as [[a|e] s1] eqn:E.
    - intros [= <- <-]. eapply Hm; eassumption.
    - destruct (is_Exception e).
      + intros K. etransitivity; [ eapply Hm | eapply Hh ]; eassumption.
      + intros [= <- <-]. eapply Hm; eassumption.
  Qed.

Lemma throughout_runtime {A} (f : W -> res A * W) :
    throughout R (runtime f).
  Proof.
    intros s r s'. unfold runtime. destruct (f (world s)).
    intros [= <- <-]. apply R_blind.
  Qed.

Lemma throughout_utcnow `{Runtime W} : throughout R utcnow.
  Proof. apply throughout_runtime. Qed.

Lemma throughout_uuid4 `{Runtime W} : throughout R uuid4.
  Proof. apply throughout_runtime. Qed.

Lemma throughout_sleep `{Runtime W} q : throughout R (sleep q).
  Proof. apply throughout_runtime. Qed.

End Throughout.

Create HintDb throughout.

(** One step of a proof that a relation holds throughout a computation. *)
Ltac throughout_step :=
  lazymatch goal with
  | |- PreOrder _ => typeclasses eauto
  | |- world_blind _ => solve [ auto with throughout ]
  | |- forall _, _ => intros
  | |- throughout _ (if ?b then _ else _) => destruct b
  | |- throughout _ (match ?x with _ => _ end) => destruct x
  | |- throughout _ (let '(_, _) := ?x in _) => destruct x
  | |- throughout _ _ =>
      first
        [ assumption
        | solve [ auto with throughout ]
        | apply throughout_ret
        | apply throughout_raise
        | apply throughout_lift
        | apply throughout_get_self
        | apply throughout_utcnow
        | apply throughout_uuid4
        | apply throughout_sleep
        | apply throughout_bind
        | apply throughout_try_except ]
  end.

Ltac throughout_auto := repeat throughout_step.

#[global] Instance same_self_preorder {W S} : PreOrder (@same_self W S).
Proof.
  split.
  - intros s. reflexivity.
  - intros a b c Hab Hbc. unfold same_self in *. congruence.
Qed.

Lemma same_self_blind {W S} : world_blind (@same_self W S).
Proof. intros s w. reflexivity. Qed.

Lemma same_self_venue {W S A} c (f : W -> res A * W) :
  throughout same_self (venue c f : M W S A).
Proof.
  intros s r s'. unfold venue. destruct (f (world s)).
  intros [= <- <-]. reflexivity.
Qed.

#[global] Hint Resolve same_self_blind same_self_venue : throughout.

(** The handlers of the scans return. *)
Lemma try_except_returns {W S A} (m : M W S A) (a : A) s r s' :
  try_except m (fun _ => ret a) s = (r, s') ->
  match r with Ok _ => True | Raise e => is_Exception e = false end.
Proof.
  intros E.
  apply try_except_inv in E
      as [(x & _ & ->)|[(e & s1 & _ & _ & [= <- _])|(e & _ & Ex & ->)]];
    auto.
Qed.

Section ScanOutcome.
  Context {W : Type} `{PolymarketClient W} `{ExchangeClient W}
          `{HyperliquidClient W} `{Runtime W}.
  Variable config : TradingConfig.
  Variable N : Numerics.

  Local Abbreviation state := (st W (list ArbitrageOpportunity)).

Lemma same_self_exchange_analyze_markets pms spot acc :
    throughout same_self
      (Detector.analyze_markets config N pms spot acc
       : M W (list ArbitrageOpportunity) _).
  Proof.
    revert acc. induction pms as [|pm rest IH]; intros acc; simpl;
      unfold Detector._analyze_market_pair; throughout_auto.
  Qed.

Lemma same_self_hyperliquid_analyze_markets pms hl funding acc :
    throughout same_self
      (HyperliquidDetector.analyze_markets config N pms hl funding acc
       : M W (list ArbitrageOpportunity) _).
  Proof.
    revert acc. induction pms as [|pm rest IH]; intros acc; simpl;
      unfold HyperliquidDetector._analyze_market_pair; throughout_auto.
  Qed.

  Hint Resolve same_self_exchange_analyze_markets
    same_self_hyperliquid_analyze_markets : throughout.

Lemma same_self_exchange_scan_asset a acc :
    throughout same_self
      (Detector.scan_asset config N a acc : M W (list ArbitrageOpportunity) _).
  Proof. unfold Detector.scan_asset. throughout_auto. Qed.

Lemma same_self_hyperliquid_scan_asset a acc :
    throughout same_self
      (HyperliquidDetector.scan_asset config N a acc
       : M W (list ArbitrageOpportunity) _).
  Proof. unfold HyperliquidDetector.scan_asset. throughout_auto. Qed.

Lemma exchange_scan_assets_outcome assets acc (s : state) r s' :
    Detector.scan_assets config N assets acc s = (r, s') ->
    self s' = self s /\
    match r with Ok _ => True | Raise e => is_Exception e = false end.
  Proof.
    revert acc s. induction assets as [|a rest IH]; intros acc s; simpl.
    - intros [= <- <-]. auto.
    - intros E.
      apply bind_inv in E as [(acc' & s1 & E1 & E)|(e & E1 & ->)].
      + apply same_self_exchange_scan_asset in E1.
        apply IH in E as [K ?]. split; [ | assumption ].
        unfold same_self in E1. congruence.
      + split; [ eapply same_self_exchange_scan_asset; eassumption | ].
        apply (try_except_returns _ _ _ _ _ E1).
  Qed.

Lemma hyperliquid_scan_assets_outcome assets acc (s : state) r s' :
    HyperliquidDetector.scan_assets config N assets acc s = (r, s') ->
    self s' = self s /\
    match r with Ok _ => True | Raise e => is_Exception e = false end.
  Proof.
    revert acc s. induction assets as [|a rest IH]; intros acc s; simpl.
    - intros [= <- <-]. auto.
    - intros E.
      apply bind_inv in E as [(acc' & s1 & E1 & E)|(e & E1 & ->)].
      + apply same_self_hyperliquid_scan_asset in E1.
        apply IH in E as [K ?]. split; [ | assumption ].
        unfold same_self in E1. congruence.
      + split; [ eapply same_self_hyperliquid_scan_asset; eassumption | ].
        apply (try_except_returns _ _ _ _ _ E1).
  Qed.

  (** X18.  A scan of either detector lets no [Exception] out: whatever a
      venue client or the analysis raises, the asset is skipped and the scan
      goes on.  The list it returns is the one it stores in
      [last_opportunities]; a scan that is interrupted (by an exception that
      is not an [Exception]) leaves [last_opportunities] as it was. *)
Theorem scans_swallow_exceptions assets :
    (forall (s : state) r s',
       Detector.scan_for_opportunities config N assets s = (r, s') ->
       match r with
       | Ok l => self s' = l
       | Raise e => is_Exception e = false /\ self s' = self s
       end) /\
    (forall (s : state) r s',
       HyperliquidDetector.scan_for_opportunities config N assets s
       = (r, s') ->
       match r with
       | Ok l => self s' = l
       | Raise e => is_Exception e = false /\ self s' = self s
       end).
  Proof.
    split.
    - intros s r s'. unfold Detector.scan_for_opportunities. intros E.
      apply bind_inv in E as [(found & s1 & E1 & E)|(e & E1 & ->)].
      + injection E as <- <-. reflexivity.
      + apply exchange_scan_assets_outcome in E1 as [K Ex]. auto.
    - intros s r s'. unfold HyperliquidDetector.scan_for_opportunities.
      intros E.
      apply bind_inv in E as [(found & s1 & E1 & E)|(e & E1 & ->)].
      + injection E as <- <-. reflexivity.
      + apply hyperliquid_scan_assets_outcome in E1 as [K Ex]. auto.
  Qed.

End ScanOutcome.

(** A scan for two assets on venues that raise for every request. *)
Lemma scans_swallow_exceptions_witness :
  let s := Scenario.start (Scenario.silent 0%Z)
             [Scenario.opportunity LONG 62000 0 0%Z] in
  let run :=
    HyperliquidDetector.scan_for_opportunities default_config Script.numerics
      ["BTC"; "ETH"]%string s in
  fst run = Ok [] /\
  length (calls (snd run)) = 2%nat /\
  match fst run with
  | Ok l => self (snd run) = l
  | Raise e => is_Exception e = false /\ self (snd run) = self s
  end.
Proof.
  intros s run. split; [ vm_compute; reflexivity | ].
  split; [ vm_compute; reflexivity | ].
  exact (proj2 (scans_swallow_exceptions default_config Script.numerics
                  ["BTC"; "ETH"]%string)
           s (fst run) (snd run) (surjective_pairing _)).
Defined.

(** * Properties of the metrics and of the bot *)

(** ** The performance metrics *)

Lemma ratio_in_unit (a b : Z) :
  (0 <= a <= b)%Z -> (0 < b)%Z -> 0 <= inject_Z a / inject_Z b <= 1.
Proof.
  intros [A B] Pos.
  assert (Pb : 0 < inject_Z b) by (change 0 with (inject_Z 0); now rewrite <- Zlt_Qlt).
  split.
  - apply Qle_shift_div_l; [ exact Pb | ].
    rewrite Qmult_0_l. change 0 with (inject_Z 0). now rewrite <- Zle_Qle.
  - apply Qle_shift_div_r; [ exact Pb | ].
    rewrite Qmult_1_l. now rewrite <- Zle_Qle.
Qed.

(** Reading the attributes of metrics that were assigned. *)
Ltac read_metrics :=
  cbn [PerformanceMetrics.total_trades PerformanceMetrics.winning_trades
       PerformanceMetrics.losing_trades PerformanceMetrics.total_pnl
       PerformanceMetrics.best_trade PerformanceMetrics.worst_trade
       PerformanceMetrics.average_trade PerformanceMetrics.win_rate
       PerformanceMetrics.total_fees_paid PerformanceMetrics.last_updated
       PerformanceMetrics.set_total_trades
       PerformanceMetrics.set_winning_trades
       PerformanceMetrics.set_losing_trades PerformanceMetrics.set_total_pnl
       PerformanceMetrics.set_best_trade PerformanceMetrics.set_worst_trade
       PerformanceMetrics.set_average_trade PerformanceMetrics.set_win_rate
       PerformanceMetrics.set_total_fees_paid
       PerformanceMetrics.set_last_updated PerformanceMetrics.update] in *.

Section Metrics.
  Context {W : Type} `{Runtime W}.

  Local Abbreviation state := (st W PerformanceMetrics.t).

  (** X19.  Fresh metrics are consistent, and [update_metrics] keeps them
      so: it never raises, counts one more trade, a win if the net P&L is
      positive and a loss otherwise, adds the net P&L and the fees to the
      totals, and recomputes the average and a win rate between 0 and 1.
      The best trade never falls under zero and the worst never rises above
      it. *)
Theorem metrics_stay_consistent :
    (forall start updated,
       consistent (PerformanceMetrics.init start updated)) /\
    (forall position (s : state) r s',
       PerformanceMetrics.update_metrics position s = (r, s') ->
       consistent (self s) ->
       let m := self s in
       let m' := self s' in
       r = Ok tt /\
       calls s' = calls s /\
       consistent m' /\
       PerformanceMetrics.total_trades m'
       = (PerformanceMetrics.total_trades m + 1)%Z /\
       PerformanceMetrics.winning_trades m'
       = (PerformanceMetrics.winning_trades m
          + (if Qgtb (Position.net_pnl position) 0 then 1 else 0))%Z /\
       PerformanceMetrics.total_pnl m'
       = PerformanceMetrics.total_pnl m + Position.net_pnl position /\
       PerformanceMetrics.total_fees_paid m'
       = PerformanceMetrics.total_fees_paid m + Position.total_fees position /\
       0 <= PerformanceMetrics.win_rate m' <= 1).
  Proof.
    split.
    - intros start updated. unfold consistent. simpl.
      repeat split; try lia; try lra.
    - intros position s r s' E (Wins & Losses & Total & Worst & Best & _).
      cbv zeta. revert E.
      unfold PerformanceMetrics.update_metrics, dec_div.
      intros E. split_runs E.
      all: destruct (self s)
             as [trades wins losses pnl best worst avg rate pf sr md tv fees
                 sd lu] eqn:Self.
      all: read_metrics.
      all: try (exfalso; apply Z.gtb_ltb in E1 || idtac;
                match goal with
                | Z : (_ >? 0)%Z = false |- _ =>
                    rewrite Z.gtb_ltb in Z; apply Z.ltb_ge in Z; lia
                | Q : Qeqb (inject_Z ?z) 0 = true |- _ =>
                    rewrite inject_Z_nonzero in Q by lia; discriminate Q
                end).
      all: injection E as <- <-.
      all: cbn [self calls].
      all: assert (Worst' : value (py_min (Dec worst)
                                     (Dec (Position.net_pnl position))) <= 0)
             by (unfold py_min; cbn [value];
                 destruct (Qltb _ worst) eqn:Lt;
                 [ apply Qltb_lt in Lt; cbn [value]; lra
                 | cbn [value]; exact Worst ]).
      all: assert (Best' : 0 <= value (py_max (Dec best)
                                          (Dec (Position.net_pnl position))))
             by (unfold py_max; cbn [value];
                 destruct (Qltb best _) eqn:Lt;
                 [ apply Qltb_lt in Lt; cbn [value]; lra
                 | cbn [value]; exact Best ]).
      all: unfold consistent.
      all: read_metrics.
      all: split; [ reflexivity | ]. all: split; [ reflexivity | ].
      all: split;
        [ split; [ lia | ]; split; [ lia | ]; split; [ lia | ];
          split; [ exact Worst' | ]; split; [ exact Best' | ];
          intros _; split; reflexivity | ].
      all: split; [ reflexivity | ]. all: split; [ lia | ].
      all: split; [ reflexivity | ]. all: split; [ reflexivity | ].
      all: apply ratio_in_unit; lia.
  Qed.

End Metrics.

(** ** The bot and its executor *)

#[global] Instance asks_only_preorder {W S} : PreOrder (@asks_only W S).
Proof.
  split.
  - intros s. exists []. split; [ now rewrite app_nil_r | constructor ].
  - intros a b c (l1 & C1 & F1) (l2 & C2 & F2). exists (l1 ++ l2). split.
    + rewrite C2, C1. now rewrite app_assoc.
    + apply Forall_app. auto.
Qed.

Lemma asks_only_blind {W S} : world_blind (@asks_only W S).
Proof.
  intros s w. exists []. split; [ simpl; now rewrite app_nil_r | constructor ].
Qed.

Lemma asks_only_venue {W S A} c (f : W -> res A * W) :
  places_order c = false -> throughout asks_only (venue c f : M W S A).
Proof.
  intros Query s r s'. unfold venue. destruct (f (world s)).
  intros [= <- <-]. exists [c]. split; [ reflexivity | ].
  constructor; [ exact Query | constructor ].
Qed.

Lemma asks_only_modify_self {W S} (f : S -> S) :
  throughout asks_only (modify_self f : M W S unit).
Proof.
  intros s r s' [= <- <-]. exists [].
  split; [ simpl; now rewrite app_nil_r | constructor ].
Qed.

#[global] Hint Resolve asks_only_blind asks_only_modify_self : throughout.
#[global] Hint Extern 1 (throughout asks_only (venue _ _)) =>
  apply asks_only_venue; reflexivity : throughout.

Section DetectorAsks.
  Context {W : Type} `{PolymarketClient W} `{HyperliquidClient W} `{Runtime W}.
  Variable config : TradingConfig.
  Variable N : Numerics.

Lemma asks_only_analyze_markets pms hl funding acc :
    throughout asks_only
      (HyperliquidDetector.analyze_markets config N pms hl funding acc
       : M W (list ArbitrageOpportunity) _).
  Proof.
    revert acc. induction pms as [|pm rest IH]; intros acc; simpl;
      unfold HyperliquidDetector._analyze_market_pair; throughout_auto.
  Qed.

  Hint Resolve asks_only_analyze_markets : throughout.

Lemma asks_only_scan_assets assets acc :
    throughout asks_only
      (HyperliquidDetector.scan_assets config N assets acc
       : M W (list ArbitrageOpportunity) _).
  Proof.
    revert acc. induction assets as [|a rest IH]; intros acc; simpl;
      unfold HyperliquidDetector.scan_asset; throughout_auto.
  Qed.

  Hint Resolve asks_only_scan_assets : throughout.

Lemma asks_only_scan assets :
    throughout asks_only
      (HyperliquidDetector.scan_for_opportunities config N assets
       : M W (list ArbitrageOpportunity) _).
  Proof.
    unfold HyperliquidDetector.scan_for_opportunities. throughout_auto.
  Qed.

Lemma asks_only_validate o :
    throughout asks_only
      (HyperliquidDetector.validate_opportunity config o
       : M W (list ArbitrageOpportunity) _).
  Proof.
    unfold HyperliquidDetector.validate_opportunity. throughout_auto.
  Qed.

End DetectorAsks.

#[global] Instance bystander_preorder {W} : PreOrder (@bystander W).
Proof.
  split.
  - intros s. repeat split. reflexivity.
  - intros a b c (E1 & X1 & A1) (E2 & X2 & A2). unfold bystander.
    rewrite E2, X2. repeat split; auto. etransitivity; eassumption.
Qed.

Lemma bystander_blind {W} : world_blind (@bystander W).
Proof. intros s w. repeat split. apply asks_only_blind. Qed.

Lemma bystander_venue {W A} c (f : W -> res A * W) :
  places_order c = false -> throughout bystander (venue c f : M W Main.t A).
Proof.
  intros Query s r s' E. pose proof (asks_only_venue c f Query s r s' E) as K.
  revert E. unfold venue. destruct (f (world s)). intros [= <- <-].
  repeat split. exact K.
Qed.

(** What is run on the detector does not reach the executor. *)
Lemma bystander_on_detector {W A} (m : M W (list ArbitrageOpportunity) A) :
  throughout asks_only m -> throughout bystander (Main.on_detector m).
Proof.
  intros Hm s r s'. unfold Main.on_detector, zoom.
  destruct (m _) as [r1 s1] eqn:E. intros [= <- <-].
  apply Hm in E as (added & C & F). repeat split. exists added. auto.
Qed.

Lemma bystander_found {W} (f : Z -> Z) :
  throughout bystander
    (modify_self (fun b =>
       Main.set_opportunities_found (f (Main.opportunities_found b)) b)
     : M W Main.t unit).
Proof.
  intros s r s' [= <- <-]. repeat split. exists [].
  split; [ simpl; now rewrite app_nil_r | constructor ].
Qed.

#[global] Hint Resolve bystander_blind : throughout.
#[global] Hint Extern 1 (throughout bystander (venue _ _)) =>
  apply bystander_venue; reflexivity : throughout.

Section Bot.
  Context {W : Type} `{PolymarketClient W} `{HyperliquidClient W}
          `{Runtime W} `{NotificationManager W}.
  Variable config : TradingConfig.
  Variable N : Numerics.
  Variable assets : list string.
  Variable execution_strategy : HyperliquidExecutor.ExecutionStrategy.
  Variable enable_live_trading : bool.
  Variable notifications : bool.

  Local Abbreviation state := (st W Main.t).

  (** The construction of the trade signal raises before anything is done
      with it. *)
Lemma bystander_process_opportunity o :
    throughout bystander
      (Main._process_opportunity config execution_strategy
         enable_live_trading notifications o).
  Proof.
    unfold Main._process_opportunity.
    apply throughout_try_except; [ typeclasses eauto | | throughout_auto ].
    apply throughout_bind; [ typeclasses eauto | | ].
    - apply bystander_on_detector, asks_only_validate.
    - intros [is_valid warnings].
      destruct (negb is_valid); [ throughout_auto | ].
      apply throughout_bind; [ typeclasses eauto | throughout_auto | ].
      intros now s r s'. unfold bind, lift, Decimal_total_seconds.
      intros [= <- <-]. reflexivity.
  Qed.

  Hint Resolve bystander_process_opportunity : throughout.

Lemma bystander_process_each l :
    throughout bystander
      (Main.process_each config execution_strategy enable_live_trading
         notifications l).
  Proof. induction l as [|o rest IH]; simpl; throughout_auto. Qed.

  Hint Resolve bystander_process_each : throughout.

  (** X20.  The bot never trades.  [_process_opportunity] validates the
      opportunity and, for a valid one, fails to build the [TradeSignal]:
      [opportunity.time_value] is a [Decimal] and has no [total_seconds],
      and the handler logs the error.  So neither it nor a whole turn of
      [_main_loop] ever reaches [execute_opportunity]: the executor's engine
      and the count of executed opportunities stay as they were, and the
      venues are only read, live trading enabled or not. *)
Theorem bot_never_trades :
    (forall o (s : state) r s',
       Main._process_opportunity config execution_strategy
         enable_live_trading notifications o s = (r, s') ->
       bystander s s') /\
    (forall (s : state) r s',
       Main.main_loop_turn config N assets execution_strategy
         enable_live_trading notifications s = (r, s') ->
       bystander s s').
  Proof.
    split.
    - intros o. apply bystander_process_opportunity.
    - assert (R : throughout bystander
                    (Main.main_loop_turn config N assets execution_strategy
                       enable_live_trading notifications)).
      { unfold Main.main_loop_turn, Main._check_balances. throughout_auto.
        all: first
               [ apply bystander_on_detector, asks_only_scan
               | apply (bystander_found
                          (fun found => (found + Z.of_nat (length _))%Z)) ]. }
      exact R.
  Qed.

End Bot.

(** ** The performance loop *)

Section Performance.
  Context {W : Type} `{PolymarketClient W} `{HyperliquidClient W}
          `{Runtime W} `{NotificationManager W}.

  Local Abbreviation state := (st W Main.t).

  (** [update_metrics] never raises and counts one trade. *)
Lemma update_metrics_counts position (s : st W PerformanceMetrics.t) r s' :
    PerformanceMetrics.update_metrics position s = (r, s') ->
    r = Ok tt /\
    calls s' = calls s /\
    PerformanceMetrics.total_trades (self s')
    = (PerformanceMetrics.total_trades (self s) + 1)%Z.
  Proof.
    unfold PerformanceMetrics.update_metrics, dec_div.
    intros E. split_runs E.
    all: read_metrics.
    all: try (exfalso;
              match goal with
              | Q : Qeqb (inject_Z ?z) 0 = true,
                P : (?z >? 0)%Z = true |- _ =>
                  rewrite inject_Z_nonzero in Q
                    by (apply Z.gtb_lt in P; lia);
                  discriminate Q
              end).
    all: injection E as <- <-; read_metrics; auto.
  Qed.

Lemma update_each_counts history (s : state) r s' :
    Main.update_each history s = (r, s') ->
    r = Ok tt /\
    calls s' = calls s /\
    Main.executor (self s') = Main.executor (self s) /\
    PerformanceMetrics.total_trades (Main.metrics (self s'))
    = (PerformanceMetrics.total_trades (Main.metrics (self s))
       + Z.of_nat
           (length
              (filter
                 (fun id =>
                    Main.counted (Engine.objects (Main.executor (self s)) id)
                    = true)
                 history)))%Z.
  Proof.
    revert s. induction history as [|id rest IH]; intros s; simpl.
    - intros [= <- <-]. repeat split. simpl. lia.
    - unfold bind at 1. unfold get_self at 1.
      rewrite filter_cons.
      destruct (Main.counted (Engine.objects (Main.executor (self s)) id))
        eqn:Counted.
      + destruct (decide (true = true)) as [_|Ne]; [ | congruence ].
        intros E.
        apply bind_inv in E as [(u & s1 & E1 & E)|(e & E1 & ->)].
        * unfold Main.on_metrics, zoom in E1.
          destruct (PerformanceMetrics.update_metrics _ _) as [r1 m1] eqn:U.
          injection E1 as -> <-.
          apply update_metrics_counts in U as (_ & C1 & T1).
          simpl in C1, T1.
          apply IH in E as (-> & C & X & T). simpl in C, X, T.
          split; [ reflexivity | ]. split; [ congruence | ].
          split; [ exact X | ].
          rewrite T, T1. simpl. lia.
        * unfold Main.on_metrics, zoom in E1.
          destruct (PerformanceMetrics.update_metrics _ _) as [r1 m1] eqn:U.
          injection E1 as -> <-.
          apply update_metrics_counts in U as ([=] & _).
      + destruct (decide (false = true)) as [Eq|_]; [ discriminate Eq | ].
        intros E. rewrite (bind_Ok _ _ s tt s eq_refl) in E.
        now apply IH in E.
  Qed.

  (** X21.  Every turn of [_monitor_performance] counts the whole history
      again: it adds to [total_trades] the number of entries of
      [position_history] that are CLOSED with a net P&L other than zero,
      whether or not an earlier turn counted them, and leaves the executor
      alone.  Two turns over the same history count it twice. *)
Theorem performance_counts_every_turn :
    (forall (s : state) r s',
       Main.monitor_performance_turn s = (r, s') ->
       Main.executor (self s') = Main.executor (self s) /\
       PerformanceMetrics.total_trades (Main.metrics (self s'))
       = (PerformanceMetrics.total_trades (Main.metrics (self s))
          + Z.of_nat (length (counted_in (Main.executor (self s)))))%Z) /\
    (forall (s : state) r s' r' s'',
       Main.monitor_performance_turn s = (r, s') ->
       Main.monitor_performance_turn s' = (r', s'') ->
       PerformanceMetrics.total_trades (Main.metrics (self s''))
       = (PerformanceMetrics.total_trades (Main.metrics (self s))
          + 2 * Z.of_nat (length (counted_in (Main.executor (self s)))))%Z).
  Proof.
    assert (Turn : forall (s : state) r s',
               Main.monitor_performance_turn s = (r, s') ->
               Main.executor (self s') = Main.executor (self s) /\
               PerformanceMetrics.total_trades (Main.metrics (self s'))
               = (PerformanceMetrics.total_trades (Main.metrics (self s))
                  + Z.of_nat (length (counted_in (Main.executor (self s)))))%Z).
    { intros s r s' E. unfold Main.monitor_performance_turn in E.
      assert (Sleep : forall q (s1 : state) r1 s2,
                 sleep q s1 = (r1, s2) -> self s2 = self s1).
      { intros q s1 r1 s2. unfold sleep, runtime.
        destruct (rt_sleep q (world s1)). now intros [= <- <-]. }
      destruct (Main.update_each
                  (Engine.position_history (Main.executor (self s))) s)
        as [r1 s1] eqn:U.
      pose proof (update_each_counts _ _ _ _ U) as (-> & _ & X & T).
      fold (counted_in (Main.executor (self s))) in T.
      assert (Body : forall r2 s2,
                 (let* b := get_self in
                  Main.update_each
                    (Engine.position_history (Main.executor b)) >>
                  sleep 300) s = (r2, s2) ->
                 self s2 = self s1).
      { intros r2 s2. unfold bind at 1. unfold get_self at 1.
        rewrite (bind_Ok _ _ _ _ _ U). apply Sleep. }
      apply try_except_inv in E
          as [(a & E & _)|[(e & s2 & E & _ & Hd)|(e & E & _)]].
      - apply Body in E. rewrite E. auto.
      - apply Body in E. apply Sleep in Hd. rewrite Hd, E. auto.
      - apply Body in E. rewrite E. auto. }
    split; [ exact Turn | ].
    intros s r s' r' s'' E1 E2.
    apply Turn in E1 as [X1 T1]. apply Turn in E2 as [X2 T2].
    rewrite T2, T1, X1. lia.
  Qed.

End Performance.

(** ** Shutting down *)

Section Shutdown.
  Context {W : Type} `{PolymarketClient W} `{HyperliquidClient W}
          `{Runtime W}.

  Local Abbreviation state := (st W Engine.t).

  (** A close that returns removed the position or marked it. *)
Lemma close_position_outcome k (s : state) s' :
    HyperliquidExecutor.close_position k s = (Ok tt, s') ->
    (k ∉ Engine.active_positions (self s') \/
     Position.status (Engine.objects (self s') k) = ERROR) /\
    (forall j, j <> k ->
       Engine.objects (self s') j = Engine.objects (self s) j) /\
    (forall j, j ∈ Engine.active_positions (self s') ->
       j ∈ Engine.active_positions (self s)).
  Proof.
    unfold HyperliquidExecutor.close_position, HyperliquidExecutor.close_try,
      HyperliquidExecutor.close_hedge,
      Engine.read, Engine.number, Engine.assign, Engine.del_active,
      Engine.dict_del.
    intros E. split_runs E.
    all: injection E as <-.
    all: cbn [self calls world].
    all: simpl.
    all: split;
      [ first
          [ right; now rewrite store_same
          | left; intros In; apply list_elem_of_filter in In as [Ne _];
            now apply Ne ]
      | ].
    all: split; [ intros j Hj; now rewrite ?store_other by exact Hj | ].
    all: intros j Hj; try exact Hj.
    all: now apply list_elem_of_filter in Hj as [_ Hj].
  Qed.

Lemma close_each_outcome snapshot (s : state) s' :
    Main.close_each snapshot s = (Ok tt, s') ->
    (forall j, j ∈ snapshot ->
       j ∉ Engine.active_positions (self s') \/
       Position.status (Engine.objects (self s') j) = ERROR) /\
    (forall j, j ∉ snapshot ->
       Engine.objects (self s') j = Engine.objects (self s) j) /\
    (forall j, j ∈ Engine.active_positions (self s') ->
       j ∈ Engine.active_positions (self s)).
  Proof.
    revert s. induction snapshot as [|k rest IH]; intros s; simpl.
    - intros [= <-]. split; [ | auto ]. intros j Hj. inversion Hj.
    - intros E.
      apply bind_inv in E as [([] & s1 & E1 & E)|(e & _ & [=])].
      apply close_position_outcome in E1 as (Done & Others & Sub).
      apply IH in E as (Rest & Frame & Sub').
      split; [ | split ].
      + intros j Hj. destruct (decide (j ∈ rest)) as [In|Out].
        * now apply Rest.
        * apply elem_of_cons in Hj as [->|In]; [ | contradiction ].
          rewrite (Frame k Out).
          destruct Done as [Gone|Marked]; [ left | now right ].
          intros In. apply Gone. now apply Sub'.
      + intros j Hj. apply not_elem_of_cons in Hj as [Ne Out].
        rewrite (Frame j Out). now apply Others.
      + intros j Hj. apply Sub, Sub', Hj.
  Qed.

  (** X22.  With live trading, the loop of [shutdown] closes every active
      position: when it completes, no position is left in
      [active_positions] unless its close failed, and such a position has
      status ERROR.  Without live trading it does nothing. *)
Theorem shutdown_closes_every_position :
    (forall (s : state) s',
       Main.close_all_positions true s = (Ok tt, s') ->
       forall j, j ∈ Engine.active_positions (self s') ->
         j ∈ Engine.active_positions (self s) /\
         Position.status (Engine.objects (self s') j) = ERROR) /\
    (forall s : state, Main.close_all_positions false s = (Ok tt, s)).
  Proof.
    split; [ | reflexivity ].
    intros s s' E j Hj. unfold Main.close_all_positions in E.
    unfold bind at 1 in E. unfold get_self at 1 in E.
    apply close_each_outcome in E as (Closed & _ & Sub).
    split; [ now apply Sub | ].
    destruct (Closed j (Sub j Hj)) as [Gone|Marked]; [ contradiction | ].
    exact Marked.
  Qed.

End Shutdown.

(** ** Symbols, liquidation prices and execution plans *)

Lemma split_head_free sep s : has_char sep s = false -> split_head sep s = s.
Proof.
  induction s as [|c s IH]; simpl; [ reflexivity | ].
  intros Free. apply orb_false_iff in Free as [Ne Free].
  rewrite Ne. now rewrite IH.
Qed.

Lemma split_head_app sep a rest :
  has_char sep a = false ->
  split_head sep (a ++ String sep rest) = a.
Proof.
  induction a as [|c a IH]; simpl.
  - now rewrite Ascii.eqb_refl.
  - intros Free. apply orb_false_iff in Free as [Ne Free].
    rewrite Ne. now rewrite IH.
Qed.

Lemma has_char_app sep a b :
  has_char sep (a ++ b) = has_char sep a || has_char sep b.
Proof.
  induction a as [|c a IH]; simpl; [ reflexivity | ].
  now rewrite IH, orb_assoc.
Qed.

Lemma append_longer (a b : string) : b <> EmptyString -> (a ++ b)%string <> a.
Proof.
  intros Ne. induction a as [|c a IH]; simpl.
  - exact Ne.
  - intros [= Eq]. now apply IH.
Qed.

(** X23.  The executors recover the asset from the stored hedge symbol by
    cutting it at the first separator.  For an asset without a hyphen the
    Hyperliquid executor gets the asset back from [ASSET-USD-PERP].  For an
    asset without a slash, cutting the symbol of [get_symbol] of
    cex_client.py at the first slash gives the asset back whenever the
    symbol is built with a slash: without futures, and on every exchange
    but dydx and okx.  On those two the futures symbol is the asset followed
    by the suffix; with a suffix that holds no slash the cut returns the
    whole symbol, which is not the asset unless the suffix is empty. *)
Theorem hedge_symbol_round_trip :
  (forall o now id,
     has_char hyphen (asset (polymarket o)) = false ->
     split_head hyphen
       (Position.hedge_symbol (HyperliquidExecutor.fresh_position o now id))
     = asset (polymarket o)) /\
  (forall (client : CexClient.t) asset use_futures,
     has_char slash asset = false ->
     let symbol := CexClient.get_symbol client asset use_futures in
     let recovered := split_head slash symbol in
     if use_futures && CexClient.has_futures client
        && (String.eqb (CexClient.exchange_name client) "dydx"
            || String.eqb (CexClient.exchange_name client) "okx")
     then
       symbol = (asset ++ CexClient.futures_suffix client)%string /\
       (has_char slash (CexClient.futures_suffix client) = false ->
        recovered = symbol /\
        (CexClient.futures_suffix client <> EmptyString ->
         recovered <> asset))
     else recovered = asset).
Proof.
  split.
  - intros o now id Free. simpl.
    now apply (split_head_app hyphen (asset (polymarket o)) "USD-PERP").
  - intros client asset use_futures Free. cbv zeta.
    unfold CexClient.get_symbol.
    destruct (use_futures && CexClient.has_futures client); cbn [andb];
      [ | now apply (split_head_app slash asset "USDT") ].
    destruct (String.eqb (CexClient.exchange_name client) "dydx");
      cbn [orb].
    + split; [ reflexivity | ]. intros Whole.
      rewrite split_head_free
        by (rewrite has_char_app, Free, Whole; reflexivity).
      split; [ reflexivity | ]. intros Suffix. now apply append_longer.
    + destruct (String.eqb (CexClient.exchange_name client) "okx").
      * split; [ reflexivity | ]. intros Whole.
        rewrite split_head_free
          by (rewrite has_char_app, Free, Whole; reflexivity).
        split; [ reflexivity | ]. intros Suffix. now apply append_longer.
      * now apply (split_head_app slash asset
                     (CexClient.futures_suffix client)).
Qed.

(** Bitcoin: the symbol of the Hyperliquid executor and the futures symbols
    of binance and of okx. *)
Lemma hedge_symbol_round_trip_witness :
  split_head hyphen
    (Position.hedge_symbol
       (HyperliquidExecutor.fresh_position
          (ExecutionScenario.tomorrow LONG 62000) 0%Z 0))
  = "BTC"%string /\
  split_head slash (CexClient.get_symbol ClientScenario.binance "BTC" true)
  = "BTC"%string /\
  split_head slash (CexClient.get_symbol ClientScenario.okx "BTC" true)
  = "BTC-USDT-SWAP"%string /\
  split_head slash (CexClient.get_symbol ClientScenario.okx "BTC" true)
  <> "BTC"%string.
Proof.
  split.
  { apply (proj1 hedge_symbol_round_trip
             (ExecutionScenario.tomorrow LONG 62000) 0%Z 0%nat).
    reflexivity. }
  split.
  { exact (proj2 hedge_symbol_round_trip ClientScenario.binance
             "BTC"%string true eq_refl). }
  destruct (proj2 hedge_symbol_round_trip ClientScenario.okx
              "BTC"%string true eq_refl) as [Symbol Cut].
  destruct (Cut eq_refl) as [Whole Longer].
  split; [ exact Whole | ]. apply Longer. discriminate.
Defined.

Section Liquidation.
  Context {W : Type} `{PolymarketClient W} `{ExchangeClient W}
          `{HyperliquidClient W} `{Runtime W}.
  Variable config : TradingConfig.

  Local Abbreviation state := (st W Engine.t).

  (** X24.  The stop loss of a returned position against the liquidation
      price the venue client computes.  The CEX executor sets leverage 2:
      with [DEFAULT_STOP_LOSS_PERCENT] strictly between 0 and 49.75 the stop
      loss lies strictly between the liquidation price and a positive entry
      price, so it is reached first.  The Hyperliquid executor places the
      hedge at the leverage of its execution plan, the plan it makes at some
      clock reading, while the stop loss is computed from
      [DEFAULT_LEVERAGE]: for a positive stop-loss percentage and whatever
      the clock reading, the stop loss lies strictly between the liquidation
      price at the plan's leverage and a positive entry price exactly when
      the percentage times the plan's leverage is under 99.4 times
      [DEFAULT_LEVERAGE].  Under ADAPTIVE, where the plan can raise the
      leverage, a percentage under 99.4 is therefore not enough. *)
Theorem stop_loss_before_liquidation :
    (forall strategy o (s : state) x s',
       Executor.execute_opportunity config strategy o s = (Ok (Some x), s') ->
       0 < DEFAULT_STOP_LOSS_PERCENT config ->
       DEFAULT_STOP_LOSS_PERCENT config < 49.75 ->
       let p := Engine.objects (self s') x in
       exists entry stop liquidation,
         Position.hedge_entry_price p = Some entry /\
         Position.stop_loss_price p = Some stop /\
         CexClient.calculate_liquidation_price entry (Position.hedge_side p) 2
         = Ok liquidation /\
         (0 < entry -> strictly_between liquidation entry stop)) /\
    (forall strategy o (s : state) x s',
       HyperliquidExecutor.execute_opportunity config strategy o s
       = (Ok (Some x), s') ->
       0 < DEFAULT_STOP_LOSS_PERCENT config ->
       (1 <= DEFAULT_LEVERAGE config)%Z ->
       let p := Engine.objects (self s') x in
       exists entry stop,
         Position.hedge_entry_price p = Some entry /\
         Position.stop_loss_price p = Some stop /\
         forall now,
           let leverage :=
             HyperliquidExecutor.leverage
               (HyperliquidExecutor.plan_for config strategy o now) in
           (1 <= leverage)%Z ->
           exists liquidation,
             HlClient.calculate_liquidation_price entry
               (Position.hedge_side p) leverage
             = Ok liquidation /\
             (0 < entry ->
              (strictly_between liquidation entry stop <->
               DEFAULT_STOP_LOSS_PERCENT config * inject_Z leverage
               < 99.4 * inject_Z (DEFAULT_LEVERAGE config)))).
  Proof.
    split.
    - intros strategy o s x s' E Low High. cbv zeta.
      apply exchange_execute_cases in E
          as (b & s1 & _ & [(_ & [=] & _)|(_ & _ & Returned)]).
      destruct (Returned x eq_refl) as (_ & s0 & Open).
      apply exchange_open_position_spec in Open as [_ Spec].
      destruct (Spec x eq_refl) as (_ & _ & entry & Entry & Stop & _).
      exists entry.
      unfold CexClient.calculate_liquidation_price, dec_div.
      unfold Executor._calculate_stop_loss, stop_loss_decimal in Stop.
      change (Qeqb (inject_Z 2) 0) with false. cbv iota. simpl rbind.
      destruct (MarketSide_eqb _ LONG);
        (eexists; eexists; split; [ exact Entry | ]; split; [ exact Stop | ]).
      + split; [ reflexivity | ]. intros Pos. unfold strictly_between.
        left. change (inject_Z 2) with 2.
        set (d := DEFAULT_STOP_LOSS_PERCENT config) in *.
        assert (D : d / 100 == d * (1 # 100)) by (field; discriminate).
        assert (M : (1 - 0.005) / 2 == 199 # 400) by reflexivity.
        assert (P1 : 0 < entry * d) by (apply Qmult_lt_0_compat; lra).
        assert (P2 : 0 < entry * (49.75 - d))
          by (apply Qmult_lt_0_compat; lra).
        rewrite D, M. split; lra.
      + split; [ reflexivity | ]. intros Pos. unfold strictly_between.
        right. change (inject_Z 2) with 2.
        set (d := DEFAULT_STOP_LOSS_PERCENT config) in *.
        assert (D : d / 100 == d * (1 # 100)) by (field; discriminate).
        assert (M : (1 - 0.005) / 2 == 199 # 400) by reflexivity.
        assert (P1 : 0 < entry * d) by (apply Qmult_lt_0_compat; lra).
        assert (P2 : 0 < entry * (49.75 - d))
          by (apply Qmult_lt_0_compat; lra).
        rewrite D, M. split; lra.
    - intros strategy o s x s' E Low Lev. cbv zeta.
      apply hyperliquid_execute_cases in E
          as (start & s0 & b & s1 & _ & _
              & [(No & _)|(_ & _ & Returned)]);
        [ now destruct (No x) | ].
      destruct (Returned x eq_refl) as (_ & s2 & Open).
      apply hyperliquid_open_position_spec in Open as [_ Spec].
      destruct (Spec x eq_refl) as (_ & _ & entry & Entry & Levels).
      destruct Levels as [Stop _]; [ lia | ]. cbv zeta in Stop.
      exists entry. eexists.
      split; [ exact Entry | ]. split; [ exact Stop | ].
      intros now. set (plan := HyperliquidExecutor.plan_for _ _ _ _).
      intros Plan.
      unfold HlClient.calculate_liquidation_price, dec_div,
        stop_loss_decimal.
      rewrite inject_Z_nonzero by lia. simpl rbind.
      set (d := DEFAULT_STOP_LOSS_PERCENT config) in *.
      set (L := inject_Z (DEFAULT_LEVERAGE config)) in *.
      set (L' := inject_Z (HyperliquidExecutor.leverage plan)).
      assert (PL : 1 <= L)
        by (unfold L; change 1 with (inject_Z 1); now rewrite <- Zle_Qle).
      assert (PL' : 1 <= L')
        by (unfold L'; change 1 with (inject_Z 1); now rewrite <- Zle_Qle).
      set (A := d / 100 / L). set (B := (1 - 0.006) / L').
      assert (Apos : 0 < A).
      { unfold A. unfold Qdiv. repeat apply Qmult_lt_0_compat;
          [ exact Low | reflexivity | apply Qinv_lt_0_compat; lra ]. }
      assert (Order : A < B <-> d * L' < 99.4 * L).
      { set (k := / (100 * L * L')).
        assert (K : 0 < k)
          by (apply Qinv_lt_0_compat; repeat apply Qmult_lt_0_compat; lra).
        assert (EA : A == d * L' * k)
          by (unfold A, k; field; repeat split; lra).
        assert (EB : B == 99.4 * L * k)
          by (unfold B, k; field; repeat split; lra).
        rewrite EA, EB. apply Qmult_lt_r. exact K. }
      destruct (MarketSide_eqb _ LONG);
        (eexists; split; [ reflexivity | ]; intros Pos;
         rewrite <- Order; unfold strictly_between;
         assert (P1 : 0 < entry * A) by (apply Qmult_lt_0_compat; lra);
         pose proof (Qmult_lt_l A B entry Pos) as Scale;
         split; [ intros [[Below Above]|[Below Above]] | intros Less ];
         try (apply Scale; lra); try (exfalso; lra)).
      + left. apply Scale in Less. split; lra.
      + right. apply Scale in Less. split; lra.
  Qed.

  (** X25.  Whatever the strategy and the opportunity, the plan of
      [_create_execution_plan] asks for between 1 and 3 Polymarket chunks and
      between 1 and 5 Hyperliquid chunks, more than one only for TWAP; it
      never asks for post-only market orders, and post-only only for PASSIVE;
      its time limit is 30, 60 or 120 seconds; its leverage is
      [DEFAULT_LEVERAGE], or the smaller of [MAX_LEVERAGE] and
      [DEFAULT_LEVERAGE + 2] for ADAPTIVE.  Less than two hours before
      expiry every strategy, PASSIVE and TWAP included, gets market orders
      with a 30 second limit. *)
Theorem execution_plan_invariants strategy o (s : state) plan s' :
    HyperliquidExecutor._create_execution_plan config strategy o s
    = (Ok plan, s') ->
    let hours :=
      total_seconds (expires_at o - fst (rt_utcnow (world s))) / 3600 in
    (1 <= HyperliquidExecutor.polymarket_chunks plan <= 3)%Z /\
    (1 <= HyperliquidExecutor.hyperliquid_chunks plan <= 5)%Z /\
    (strategy <> HyperliquidExecutor.TWAP ->
     HyperliquidExecutor.polymarket_chunks plan = 1%Z /\
     HyperliquidExecutor.hyperliquid_chunks plan = 1%Z) /\
    (HyperliquidExecutor.post_only plan = true ->
     HyperliquidExecutor.use_market_orders plan = false /\
     strategy = HyperliquidExecutor.PASSIVE) /\
    (HyperliquidExecutor.time_limit plan = 30%Z \/
     HyperliquidExecutor.time_limit plan = 60%Z \/
     HyperliquidExecutor.time_limit plan = 120%Z) /\
    (HyperliquidExecutor.leverage plan = DEFAULT_LEVERAGE config \/
     strategy = HyperliquidExecutor.ADAPTIVE /\
     HyperliquidExecutor.leverage plan
     = Z.min (MAX_LEVERAGE config) (DEFAULT_LEVERAGE config + 2)) /\
    (hours < 2 ->
     HyperliquidExecutor.use_market_orders plan = true /\
     HyperliquidExecutor.post_only plan = false /\
     HyperliquidExecutor.time_limit plan = 30%Z).
  Proof.
    unfold HyperliquidExecutor._create_execution_plan. intros E.
    apply bind_inv in E as [(now & s1 & E1 & E)|(e & _ & [=])].
    apply utcnow_inv in E1 as ([= <-] & _). injection E as <- _.
    cbv zeta. unfold HyperliquidExecutor.plan_for.
    set (hours := total_seconds _ / 3600).
    destruct strategy; simpl;
      repeat match goal with
             | |- context [Qltb ?a ?b] =>
                 let C := fresh "C" in destruct (Qltb a b) eqn:C; simpl
             | |- context [Qgtb ?a ?b] =>
                 let C := fresh "C" in destruct (Qgtb a b) eqn:C; simpl
             end.
    all: repeat split; try lia; try discriminate; auto.
    all: try (intros _; split; [ reflexivity | ]; reflexivity).
    all: try (intros Short; apply Qltb_lt in Short; congruence).
    all: try tauto.
    all: match goal with
         | Short : _ < 2 |- _ => apply Qltb_lt in Short; congruence
         end.
  Qed.

End Liquidation.

(** ** The properties on the scenarios *)

(** The position that [BotScenario.closed] closed at a loss is entered into
    fresh metrics. *)
Lemma metrics_stay_consistent_witness :
  let position := Engine.objects BotScenario.closed 0 in
  let s := Scenario.start (Scenario.silent 0%Z)
             (PerformanceMetrics.init 0%Z 0%Z) in
  let s' := snd (PerformanceMetrics.update_metrics position s) in
  consistent (self s') /\
  PerformanceMetrics.total_trades (self s') = 1%Z /\
  PerformanceMetrics.winning_trades (self s') = 0%Z /\
  PerformanceMetrics.losing_trades (self s') = 1%Z.
Proof.
  intros position s s'.
  pose proof (proj2 metrics_stay_consistent position s
                (fst (PerformanceMetrics.update_metrics position s)) s'
                (surjective_pairing _)
                (proj1 (@metrics_stay_consistent Script.t _) 0%Z 0%Z))
    as (_ & _ & Kept & Trades & Wins & _).
  split; [ exact Kept | ].
  split; [ rewrite Trades; reflexivity | ].
  split; [ rewrite Wins; vm_compute; reflexivity | ].
  destruct Kept as (_ & _ & Total & _). rewrite Trades, Wins in Total.
  vm_compute in Total. vm_compute. lia.
Defined.

(** A turn of the main loop with live trading on venues where every order
    would fill: the scan finds an opportunity, its validation passes, and
    nothing is executed. *)
Lemma bot_never_trades_witness :
  let s := Scenario.start BotScenario.trading
             (BotScenario.bot Scenario.engine) in
  let s' := snd (BotScenario.main_turn s) in
  bystander s s' /\
  Main.opportunities_found (self s') = 1%Z /\
  Main.opportunities_executed (self s') = 0%Z.
Proof.
  intros s s'. split.
  - exact (proj2 (bot_never_trades default_config Script.numerics
                    ["BTC"%string] HyperliquidExecutor.ADAPTIVE true true)
             s (fst (BotScenario.main_turn s)) s' (surjective_pairing _)).
  - split; vm_compute; reflexivity.
Defined.

(** Two turns of the performance monitor over a history of one closed
    position count two trades. *)
Lemma performance_counts_every_turn_witness :
  let s := Scenario.start (Scenario.silent 0%Z)
             (BotScenario.bot BotScenario.closed) in
  let s' := snd (Main.monitor_performance_turn s) in
  let s'' := snd (Main.monitor_performance_turn s') in
  length (counted_in (Main.executor (self s))) = 1%nat /\
  PerformanceMetrics.total_trades (Main.metrics (self s'')) = 2%Z.
Proof.
  intros s s' s''.
  assert (One : length (counted_in (Main.executor (self s))) = 1%nat)
    by (vm_compute; reflexivity).
  split; [ exact One | ].
  rewrite (proj2 performance_counts_every_turn s
             (fst (Main.monitor_performance_turn s)) s'
             (fst (Main.monitor_performance_turn s')) s''
             (surjective_pairing _) (surjective_pairing _)).
  rewrite One. reflexivity.
Defined.

(** The open position of [ExecutionScenario] at shutdown, on venues that do
    not answer: it stays registered, in error. *)
Lemma shutdown_closes_every_position_witness :
  let s := Scenario.start (Scenario.silent 0%Z) ExecutionScenario.opened in
  let s' := snd (Main.close_all_positions true s) in
  (0%nat ∈ Engine.active_positions (self s')) /\
  Position.status (Engine.objects (self s') 0) = ERROR.
Proof.
  intros s s'.
  assert (Left : 0%nat ∈ Engine.active_positions (self s'))
    by (vm_compute; apply list_elem_of_here).
  split; [ exact Left | ].
  refine (proj2 (proj1 shutdown_closes_every_position s s' _ 0%nat Left)).
  vm_compute. reflexivity.
Defined.

(** The positions both executors return on the filling world, under the
    default stop loss of 2%; the ADAPTIVE plan raises the leverage of the
    Hyperliquid hedge from 5 to 7. *)
Lemma stop_loss_before_liquidation_witness :
  let s := Scenario.start (ExecutionScenario.filling LONG) Scenario.engine in
  (let o := ExecutionScenario.tomorrow LONG 62000 in
   let run := ExecutionScenario.exchange_run (ExecutionScenario.filling LONG) o in
   let p := Engine.objects (self (snd run)) 0 in
   exists entry stop liquidation,
     Position.hedge_entry_price p = Some entry /\
     Position.stop_loss_price p = Some stop /\
     CexClient.calculate_liquidation_price entry (Position.hedge_side p) 2
     = Ok liquidation /\
     (0 < entry -> strictly_between liquidation entry stop)) /\
  (let o := Scenario.opportunity LONG 62000 6 (24 * Scenario.hour)%Z in
   let run := ExecutionScenario.hyperliquid_run
                (ExecutionScenario.filling LONG) o in
   let p := Engine.objects (self (snd run)) 0 in
   let plan := HyperliquidExecutor.plan_for default_config
                 HyperliquidExecutor.ADAPTIVE o 0%Z in
   HyperliquidExecutor.leverage plan = 7%Z /\
   exists entry stop liquidation,
     Position.hedge_entry_price p = Some entry /\
     Position.stop_loss_price p = Some stop /\
     HlClient.calculate_liquidation_price entry (Position.hedge_side p) 7
     = Ok liquidation /\
     (0 < entry -> strictly_between liquidation entry stop)).
Proof.
  intros s. split.
  - intros o run.
    apply (proj1 (stop_loss_before_liquidation default_config)
             Executor.AGGRESSIVE o s 0%nat (snd run)).
    + vm_compute. reflexivity.
    + vm_compute. reflexivity.
    + vm_compute. reflexivity.
  - intros o run p plan.
    assert (Raised : HyperliquidExecutor.leverage plan = 7%Z)
      by (vm_compute; reflexivity).
    split; [ exact Raised | ].
    assert (Run : HyperliquidExecutor.execute_opportunity default_config
                    HyperliquidExecutor.ADAPTIVE o s
                  = (Ok (Some 0%nat), snd run))
      by (vm_compute; reflexivity).
    assert (Low : 0 < DEFAULT_STOP_LOSS_PERCENT default_config)
      by (vm_compute; reflexivity).
    assert (Lev : (1 <= DEFAULT_LEVERAGE default_config)%Z)
      by (vm_compute; discriminate).
    destruct (proj2 (stop_loss_before_liquidation default_config)
                HyperliquidExecutor.ADAPTIVE o s 0%nat (snd run) Run Low Lev)
      as (entry & stop & Entry & Stop & Plans).
    destruct (Plans 0%Z) as (liquidation & Liquidation & Between).
    { fold plan. rewrite Raised. lia. }
    fold plan in Liquidation, Between. rewrite Raised in Liquidation, Between.
    exists entry, stop, liquidation.
    split; [ exact Entry | ]. split; [ exact Stop | ].
    split; [ exact Liquidation | ].
    intros Pos. apply (Between Pos). vm_compute. reflexivity.
Defined.

(** A PASSIVE executor one hour before expiry plans market orders. *)
Lemma execution_plan_invariants_witness :
  let o := Scenario.opportunity LONG 62000 0 Scenario.hour in
  let s := Scenario.start (Scenario.silent 0%Z) Scenario.engine in
  let plan := HyperliquidExecutor.plan_for default_config
                HyperliquidExecutor.PASSIVE o 0%Z in
  HyperliquidExecutor.use_market_orders plan = true /\
  HyperliquidExecutor.post_only plan = false /\
  HyperliquidExecutor.time_limit plan = 30%Z.
Proof.
  intros o s plan.
  refine (proj2 (proj2 (proj2 (proj2 (proj2 (proj2
            (execution_plan_invariants default_config
               HyperliquidExecutor.PASSIVE o s plan
               (snd (HyperliquidExecutor._create_execution_plan
                       default_config HyperliquidExecutor.PASSIVE o s))
               _)))))) _).
  - vm_compute. reflexivity.
  - vm_compute. reflexivity.
Defined.


(** ** A registered position without a hedge fill *)

Lemma existing_exposure_unfilled asset objects keys total j :
  j ∈ keys ->
  String.prefix asset (Position.hedge_symbol (objects j)) = true ->
  Position.hedge_quantity (objects j) = None \/
  Position.hedge_entry_price (objects j) = None ->
  HyperliquidExecutor.existing_exposure asset objects keys total
  = Raise TypeError.
Proof.
  intros In Starts Missing. revert total.
  induction keys as [|k rest IH]; intros total.
  - now apply not_elem_of_nil in In.
  - simpl. apply elem_of_cons in In as [<-|In].
    + rewrite Starts. destruct Missing as [-> | ->]; [ reflexivity | ].
      now destruct (Position.hedge_quantity (objects j)).
    + destruct (String.prefix asset (Position.hedge_symbol (objects k)));
        [ | now apply IH ].
      destruct (Position.hedge_quantity (objects k));
        [ | reflexivity ].
      destruct (Position.hedge_entry_price (objects k));
        [ now apply IH | reflexivity ].
Qed.

Section Blocked.
  Context {W : Type} `{PolymarketClient W} `{ExchangeClient W}
          `{HyperliquidClient W} `{Runtime W}.
  Variable config : TradingConfig.
  Variable strategy : HyperliquidExecutor.ExecutionStrategy.

  Local Abbreviation state := (st W Engine.t).

  (** X26.  A position that is registered in [active_positions] without a
      hedge quantity or a hedge entry price blocks its asset.  For every
      opportunity on an asset its hedge symbol starts with,
      [execute_opportunity] of the Hyperliquid executor creates no position
      and places no order: either the risk limits refuse and it returns
      [None] without a venue call, or it asks for the funding rate and then
      raises what the venue raised, returns [None] on an extreme rate, and
      otherwise raises the [TypeError] of the exposure sum, which it does
      not catch.  The registered positions, their objects and the history
      stay as they were. *)
Theorem unfilled_position_blocks_asset o (s : state) r s' j :
    HyperliquidExecutor.execute_opportunity config strategy o s = (r, s') ->
    j ∈ Engine.active_positions (self s) ->
    String.prefix (asset (polymarket o))
      (Position.hedge_symbol (Engine.objects (self s) j)) = true ->
    Position.hedge_quantity (Engine.objects (self s) j) = None \/
    Position.hedge_entry_price (Engine.objects (self s) j) = None ->
    (r = Ok None /\ calls s' = calls s \/
     exists w,
       calls s' = calls s ++ [HL_get_funding_rate (asset (polymarket o))] /\
       world s' = snd (hl_get_funding_rate (asset (polymarket o)) w) /\
       r = match fst (hl_get_funding_rate (asset (polymarket o)) w) with
           | Raise e => Raise e
           | Ok funding =>
               if Qgtb (Qabs funding) (FUNDING_RATE_THRESHOLD config * 2)
               then Ok None
               else Raise TypeError
           end) /\
    Engine.next_id (self s') = Engine.next_id (self s) /\
    Engine.objects (self s') = Engine.objects (self s) /\
    Engine.active_positions (self s') = Engine.active_positions (self s) /\
    Engine.position_history (self s') = Engine.position_history (self s).
  Proof.
    intros E In Starts Missing.
    unfold HyperliquidExecutor.execute_opportunity in E.
    apply bind_inv in E as [(start & s0 & E0 & E)|(e & E0 & _)];
      [ | apply utcnow_inv in E0 as ([=] & _) ].
    apply utcnow_inv in E0 as (_ & _ & Calls0 & K0).
    destruct (exchange_check_returns config s0) as (b & s1 & C & _).
    pose proof (check_verdict _ _ _ _ C) as (_ & Calls1 & N & O & A & Hi & _).
    rewrite K0 in N, O, A, Hi. rewrite Calls0 in Calls1.
    unfold HyperliquidExecutor._pre_execution_checks in E.
    change (HyperliquidExecutor._check_risk_limits config)
      with (Executor._check_risk_limits config : M W Engine.t bool) in E.
    unfold bind at 1 2 in E. rewrite C in E.
    destruct b; cbn [negb] in E; cbv iota in E.
    - unfold HyperliquidExecutor._check_market_hours in E.
      cbn [negb] in E. cbv iota zeta in E.
      unfold bind at 1, venue at 1 in E.
      set (a := asset (polymarket o)) in *.
      destruct (hl_get_funding_rate a (world s1)) as [[funding|e] w'] eqn:F.
      + destruct (Qgtb (Qabs funding) (FUNDING_RATE_THRESHOLD config * 2))
          eqn:Extreme.
        * unfold ret in E. cbn [negb] in E. injection E as <- <-.
          cbn [self calls world].
          split; [ | auto ]. right. exists (world s1).
          rewrite F. cbn [fst snd]. rewrite Extreme, Calls1. auto.
        * unfold bind at 1, get_self at 1 in E. cbn [self] in E.
          unfold bind at 1, lift at 1 in E. cbn [self] in E.
          rewrite O, A in E.
          rewrite (existing_exposure_unfilled _ _ _ _ j In Starts Missing)
            in E.
          injection E as <- <-. cbn [self calls world].
          split; [ | auto ]. right. exists (world s1).
          rewrite F. cbn [fst snd]. rewrite Extreme, Calls1. auto.
      + injection E as <- <-. cbn [self calls world].
        split; [ | auto ]. right. exists (world s1).
        rewrite F. cbn [fst snd]. rewrite Calls1. auto.
    - unfold ret in E. injection E as <- <-. auto 10.
  Qed.

End Blocked.

(** The engine the TWAP run of [AftermathScenario] left, offered the same
    opportunity again on venues where every order would fill. *)
Lemma unfilled_position_blocks_asset_witness :
  let o := ExecutionScenario.tomorrow LONG 62000 in
  let s := Scenario.start (ExecutionScenario.filling LONG)
             AftermathScenario.after_twap in
  let run := HyperliquidExecutor.execute_opportunity default_config
               HyperliquidExecutor.ADAPTIVE o s in
  fst run = Raise TypeError /\
  Engine.next_id (self (snd run)) = Engine.next_id (self s) /\
  Engine.active_positions (self (snd run)) = [0%nat].
Proof.
  intros o s run.
  assert (In : 0%nat ∈ Engine.active_positions (self s))
    by (vm_compute; apply list_elem_of_here).
  assert (Starts : String.prefix (asset (polymarket o))
                     (Position.hedge_symbol (Engine.objects (self s) 0))
                   = true) by (vm_compute; reflexivity).
  assert (Missing : Position.hedge_quantity (Engine.objects (self s) 0) = None \/
                    Position.hedge_entry_price (Engine.objects (self s) 0)
                    = None) by (right; vm_compute; reflexivity).
  pose proof (unfilled_position_blocks_asset default_config
                HyperliquidExecutor.ADAPTIVE o s (fst run) (snd run) 0%nat
                (surjective_pairing _) In Starts Missing)
    as (_ & Next & _ & Active & _).
  split; [ vm_compute; reflexivity | ].
  split; [ exact Next | ].
  rewrite Active. vm_compute. reflexivity.
Defined.


(** ** Slippage *)

Lemma Qabs_zero_iff (x y : Q) : Qabs (x - y) == 0 <-> x == y.
Proof.
  split.
  - apply Qabs_case; intros; lra.
  - intros E. apply Qabs_case; intros; lra.
Qed.

Section Slippage.
  Context {W : Type} `{PolymarketClient W} `{ExchangeClient W}
          `{HyperliquidClient W} `{Runtime W}.
  Variable config : TradingConfig.

  Local Abbreviation state := (st W Engine.t).

  (** X27.  [_calculate_slippage] never raises, asks no venue and leaves
      the engine alone.  It returns zero when an entry price is missing or
      an assumed price is zero; otherwise the mean of the two deviations
      from the assumed prices, each relative to its assumed price.  For
      positive assumed prices the result is not negative, and zero only
      when both legs filled exactly at the assumed prices. *)
Theorem slippage_measure id o (s : state) :
    exists q,
      HyperliquidExecutor._calculate_slippage id o s = (Ok q, s) /\
      let p := Engine.objects (self s) id in
      match Position.polymarket_entry_price p, Position.hedge_entry_price p
      with
      | Some pm, Some hl =>
          if Qeqb (polymarket_price o) 0 || Qeqb (hedge_price o) 0
          then q = 0
          else
            q = (Qabs (pm - polymarket_price o) / polymarket_price o
                 + Qabs (hl - hedge_price o) / hedge_price o) / 2 /\
            (0 < polymarket_price o -> 0 < hedge_price o ->
             0 <= q /\
             (q == 0 <-> pm == polymarket_price o /\ hl == hedge_price o))
      | _, _ => q = 0
      end.
  Proof.
    destruct s as [w c e].
    unfold HyperliquidExecutor._calculate_slippage, Engine.read,
      Engine.number, dec_div.
    run_monad. cbn [self world calls]. cbv zeta.
    destruct (Position.polymarket_entry_price (Engine.objects e id))
      as [pm|]; simpl; [ | eexists; split; reflexivity ].
    destruct (Qeqb (polymarket_price o) 0) eqn:Zp; simpl.
    { destruct (Position.hedge_entry_price (Engine.objects e id));
        eexists; split; reflexivity. }
    destruct (Position.hedge_entry_price (Engine.objects e id))
      as [hl|]; simpl; [ | eexists; split; reflexivity ].
    destruct (Qeqb (hedge_price o) 0) eqn:Zh; simpl;
      [ eexists; split; reflexivity | ].
    eexists. split; [ reflexivity | ]. split; [ reflexivity | ].
    intros Pp Ph.
    pose (a := Qabs (pm - polymarket_price o)).
    pose (b := Qabs (hl - hedge_price o)).
    change (0 <= (a / polymarket_price o + b / hedge_price o) / 2 /\
            ((a / polymarket_price o + b / hedge_price o) / 2 == 0 <->
             pm == polymarket_price o /\ hl == hedge_price o)).
    assert (A : 0 <= a) by apply Qabs_nonneg.
    assert (B : 0 <= b) by apply Qabs_nonneg.
    assert (Ip : 0 < / polymarket_price o) by now apply Qinv_lt_0_compat.
    assert (Ih : 0 < / hedge_price o) by now apply Qinv_lt_0_compat.
    assert (Da : 0 <= a / polymarket_price o)
      by (apply Qmult_le_0_compat; lra).
    assert (Db : 0 <= b / hedge_price o)
      by (apply Qmult_le_0_compat; lra).
    assert (Half : forall x, x / 2 == x * (1 # 2))
      by (intros x; field).
    rewrite Half.
    assert (Ua : a / polymarket_price o == 0 <-> pm == polymarket_price o).
    { rewrite <- (Qabs_zero_iff pm (polymarket_price o)). fold a.
      unfold Qdiv. split.
      - intros Z. apply Qmult_integral in Z as [Z|Z]; [ exact Z | lra ].
      - intros ->. ring. }
    assert (Ub : b / hedge_price o == 0 <-> hl == hedge_price o).
    { rewrite <- (Qabs_zero_iff hl (hedge_price o)). fold b.
      unfold Qdiv. split.
      - intros Z. apply Qmult_integral in Z as [Z|Z]; [ exact Z | lra ].
      - intros ->. ring. }
    rewrite <- Ua, <- Ub.
    set (u := a / polymarket_price o) in *.
    set (v := b / hedge_price o) in *.
    split; [ lra | ]. split; [ intros Z; split; lra | intros [Zu Zv]; lra ].
  Qed.

End Slippage.

(** The position of [ExecutionScenario], opened at the assumed prices. *)
Lemma slippage_measure_witness :
  let o := ExecutionScenario.tomorrow LONG 62000 in
  let s := Scenario.start (ExecutionScenario.filling LONG)
             ExecutionScenario.opened in
  exists q,
    HyperliquidExecutor._calculate_slippage 0 o s = (Ok q, s) /\ q == 0.
Proof.
  intros o s.
  destruct (slippage_measure 0%nat o s) as (q & Run & Value).
  exists q. split; [ exact Run | ].
  vm_compute in Value. destruct Value as [-> _]. reflexivity.
Defined.
